(* ===== verification/_CoqProject ===== *)
-Q . S2P
Prelude.v
Binary64.v
PyStr.v
Saaty.v
Engine.v
Builder.v
Render.v
Ranking.v
Aggregate.v
Store.v
Excel.v
Reports.v
Pdf.v
Workflow.v
