(* ===== verification/Prelude.v ===== *)
(** * A verification development of the AHP land-planning tool (Quyhoachdat2_1)

    The program is a Flask application that ranks land-use alternatives with
    the Analytic Hierarchy Process.  Its computational core lives in
    [src/Quyhoachdat2_1/controller/ahp.py]; the route handlers of
    [src/Quyhoachdat2_1/app.py] build comparison matrices from form or
    spreadsheet cells, call the core once per matrix and aggregate the
    results; [src/Quyhoachdat2_1/model/model.py] persists everything in SQL
    Server.

    ** How the program is modelled

    Numbers.  Python floats are modelled by exact rationals [Q] wherever the
    code does arithmetic, and by [pyfloat] (a rational, [+inf], [-inf] or
    [nan]) wherever the code can see a non-finite value (the result of
    [float()], the [np.inf] sentinel of the matrix builders, the consistency
    ratio).  The conversion of a decimal string to a double, Python's
    [float(s)] and [round(x, 10)], and the single divisions [1.0 / d] of the
    parser and the builders are modelled bit-exactly: [Binary64.fl] rounds a
    rational to the nearest binary64 value (ties to even, overflow to
    infinity, gradual underflow).  The arithmetic of [calculate_ahp] and of
    the aggregation is modelled exactly: the theorems about it state what
    the algorithm computes in exact arithmetic, which is what the spec's
    properties state up to its tolerances; rounding errors of numpy are not
    analysed.  Python's tolerance literals ([1e-9], [0.1], the random-index
    table) are their binary64 values.

    Strings are [String.string] (ASCII); Python's [str.strip] is modelled
    for the ASCII whitespace characters.  Errors raised as [ValueError] are
    values of [result]; the dictionaries with an ["error"] key returned by
    [calculate_ahp] are the [AhpErr] constructor.

    ** Files (in dependency order)

    - [Prelude] (this file): the [ahp_scope] notations, finite sums over
      index ranges [qsumn] with their algebra and [Proper] instances, the
      vectors and matrices as lists read by index ([vec_of], [vat], [mget])
      and updated by index ([set_nth], numpy's item assignment), the
      [result] error type with its bind notation, loops that stop at their
      first error ([loop_step], [first_error], [map_result]), Python's
      [enumerate], the tactics [qcase] and
      [nat_cases], and the [ahp] and [ahp_rw] hint databases.
    - [Binary64]: [fl], the rounding of a rational to binary64, [lit] for
      the source's literals and [py_round] for [round(x, k)]; the error
      bound of [fl], its finiteness below [2^1000] and its positivity.
    - [PyStr]: [str.strip], [str.replace], [str.split], [in], [int(s)] and
      [float(s)] on ASCII strings, and the printer [str(int)] with the round
      trip [int(str(k)) = k]; how [float] reads a fixed-point numeral
      [-?d+.d+] ([py_float_fixed]).
    - [Saaty]: [parse_saaty_value] (ahp.py:24-86) and the set of values it
      accepts.
    - [Engine]: [calculate_ahp] (ahp.py:89-236): its checks
      ([shape], [finite_matrix], [first_bad_diagonal],
      [degenerate_columns]) and the pipeline [ahp_pipeline] stage by stage
      ([col_sums], [norm_matrix], [raw_weights], [normalize_weights],
      [mat_vec], [consistency_vector], [lambda_max], [ci_value],
      [ri_value], [cr_value], [consistent_flag]).
    - [Builder]: the upper-triangle loop that builds a comparison matrix
      from form or spreadsheet cells (app.py:193-207, 250-264, 561-571,
      715-727) as [build_matrix], with its reference matrix [ref_matrix].
    - [Ranking]: Python's stable [sorted(..., reverse=True)] as [sort_desc],
      [get_sorted_criteria_with_weights] (ahp.py:239-254) and the ranking of
      alternatives (app.py:780).
    - [Render]: [convert_numpy_matrix_to_form_data] and
      [convert_all_alt_matrices_to_form_data] (app.py:266-304), which print
      an imported matrix back into form texts, over models of Python's
      [round(x)], [int(x)], [f"{x:.4f}"], [str.rstrip] and [str(x)] of a
      float ([py_repr], the shortest digits that read back, in [repr]'s
      layout); [format_fixed_py_round]: the text of [f"{x:.kf}"] reads back
      as the float [round(x, k)].
    - [Aggregate]: the computation of [calculate_final_route]
      (app.py:655-808) over the per-criterion results, for a submitted
      form ([calculate_final]) and for imported matrices
      ([calculate_final_import]), with its outcomes.
    - [Store]: every function of [model.py] on a record [db] of tables
      (lists of rows in insertion order with their identity counters),
      under a parameter [coll_eq] for the collation of the unique name
      columns, and the server clock that stamps [created_at] (the
      database default: saves do not move it, [ClockMoves] does); the
      operations as a step relation [db_reachable] and the invariant
      [wf] (identities below their counters, unique names and Flask ids).
      [get_ahp_analysis_by_id] returns the criteria CR under its column
      name [criteria_cr] and the decoded dictionary [read_back] without
      the key [cr_criteria] the reports read.
    - [Excel]: the spreadsheet readers of [import_excel_route] on a
      workbook given by its cell values: [allowed_file],
      [parse_matrix_from_sheet] and [parse_single_matrix_block] with their
      header and label checks ([sorted] with its [TypeError] on mixed
      types, the index maps, the text and parsing loops), the name lists
      of the first sheet and the [while] loop over the blocks of the
      alternatives sheet as [scan_blocks], with fuel.
    - [Reports]: what the pages of a saved analysis compute from it: the
      cell values of the four sheets of [create_excel_report], with the
      exceptions it raises at the write that raises them ([IndexError],
      [TypeError], and openpyxl's [IllegalCharacterError] on a string with
      a control character, [cell_str]), and the data of the two charts of
      [generate_charts_to_files]; [report_ready], the analyses whose lists
      cover the names they are read with; [plain], the texts with no
      control character and no [<].
    - [Pdf]: the PDF report of [download_pdf_report] (app.py:1109-1295):
      the chart files [generate_charts_to_files] produces (811-881) and the
      reportlab story ([pdf_story]) flowable by flowable, with the text of
      every paragraph and table cell and the exceptions raised while it is
      built.  Each [Paragraph] parses its text as markup: [para_run] is a
      tag-level model of the [html.parser] reportlab's [ParaParser] runs
      (known tags only, an end tag closes the innermost open tag, nothing
      left open), and [paragraph]/[pcell] raise when it fails; a [plain]
      text always parses.  What matplotlib, the file system and reportlab do is the
      parameter [pdf_env] (date, [uuid4] prefix, drawing and image
      outcomes, success of [doc.build]).
    - [Workflow]: the Flask session as a record of optional fields, the
      routes [home], [add_criteria_route], [add_alternative_route],
      [start_ahp_route], [import_excel_route], [calculate_criteria_route],
      [calculate_final_route], [history_list_route], [view_result_route],
      [download_excel_report] and [download_pdf_report] (through [Reports]
      and [Pdf]) as functions of the request, the session and the
      database, one request at a time
      ([handle]), and the states they reach ([reachable]).

    How they interact: a builder turns the cells of a form into a matrix
    through [parse_saaty_value]; [calculate_ahp] turns a matrix into a
    result; the criteria result and one alternative result per criterion
    are combined by [calculate_final], which ranks with [sort_desc].  The
    routes of [Workflow] call the builders, the engine and the aggregation,
    keep their results in the session, read workbooks with [Excel],
    print imported matrices with [Render], read and write the database
    through [Store], and build the reports of a saved analysis with
    [Reports] and [Pdf].

    ** What the theorems show

    The claims are the theorems whose comment carries a label [Cn]; the
    other theorems are the lemmas they are built from, and a few evaluated
    examples that document a finding.
    - Parser ([Saaty]): every accepted value is an integer 1..9 or within
      [1e-10] of a reciprocal [1/d] ([parse_saaty_value_sound]), hence in
      [[1/10, 9]]; the fractions ["1/d"] for every integer [d]; the spec's
      examples; and two divergences from the spec's wording (the acceptance
      window and the value returned for a decimal reciprocal, evaluated
      examples).
    - Engine: on a perfectly consistent matrix [v_i / v_j] the engine
      returns [v] normalised with [lambdaMax = n], [CI = 0], [CR = 0] (a
      refinement of the exact eigenvector method); the diagonal and
      degenerate-column errors with their reported positions; weights sum
      to one and are positive on positive matrices (lemmas, in exact
      arithmetic).
    - Builder: the in-place loop equals the reference matrix or reports the
      first failing cell (an equivalence proved by an invariant over the
      writes); every built matrix is reciprocal with a unit diagonal, and
      the engine accepts it with positive weights.
    - Ranking: [sort_desc] is a permutation, sorted descending and stable,
      and it is the only such list, so it is what Python's sort returns
      (lemmas used by the aggregation and the reports).
    - Aggregate: refusal without a consistent criteria result; the crash on
      an errored alternative matrix and the early return on an inconsistent
      one (both differ from the spec); final scores that sum to one with a
      stable descending ranking.
    - Render: printing a built matrix and building it again round-trips
      to the canonical value of every judgement ([convert_roundtrip]), and
      to the same matrix when the judgements were typed as [k] or [1/d]
      ([convert_roundtrip_exact]).
    - Store: a saved analysis reads back for its own session only, stamped
      with the server time, with the criteria CR under [criteria_cr] and
      missing from the decoded dictionary
      ([save_ahp_analysis_roundtrip]); [get_or_create_session_db_id] is
      idempotent; the criteria look-up is sorted by id and complete only
      on distinct existing ids; [save_criteria_weights] is atomic; every
      reachable database is well formed ([reachable_wf], by rule
      induction).
    - Workflow: after a ranking the analysis is saved and the session
      cleared; the checks of [start_ahp_route]; an input error in the
      criteria step is refused by the final step.  Every matrix the
      session keeps is one the engine accepts (a type invariant of the
      reachable states); a criterion of an imported workbook missing from
      the database makes every final step of the session fail (a code
      bug, with a witness that imports such a workbook).
    - Reports and saved analyses: a session only ever sees or downloads
      its own analyses; the history lists exactly the session's analyses,
      newest first, ties in any order ([history_lists_own_analyses]); the
      ranking sheet of the report reads back the ranking; the pie chart
      keeps each name with its own score.  Every analysis the final route
      saves can be exported when its names are [plain]: the Excel report
      is sent and the PDF is sent whenever reportlab builds it
      ([saved_analysis_reports_build], a composition of the aggregation,
      the store and both report builders, through the invariant of the
      import loop and [report_ready]).  The PDF and the Excel report show
      the same ranking: [float] reads the PDF's texts back as the floats
      of the Excel sheet ([pdf_excel_ranking_agree]).  For an analysis
      with missing weights the Excel route flashes the [IndexError] but
      the PDF route lets it escape ([pdf_report_uncaught_index_error]),
      and a best alternative whose name is not valid markup makes the PDF
      route fail ([pdf_report_markup_name]); both are code bugs.
    - Excel: the block loop terminates with the fuel the route gives it;
      a blank header cell shifts the columns read (a code bug, shown on a
      concrete sheet).

    ** Bounds and fuel

    No function of the development needs fuel except the digit printer
    [PyStr.dec_digits], whose fuel in [py_str_Z k] is [log2 |k|]: every
    step divides by ten, so [log2 |k| + 1] steps reach a single digit, as
    [dec_digits_spec] requires ([|k| < 10 ^ (fuel + 1)]).  [Render.py_repr]
    tries the precisions 1 to 17 in turn and otherwise takes the 17-digit
    rounding; 17 significant digits read back as the same binary64 value,
    so that fallback is the last precision again (this is not proved here:
    the theorems use [py_repr] only through evaluated examples).  The
    block loop of [Excel.scan_blocks] runs with the fuel
    [S (max_row sheet)] from row 1: every iteration moves past its row,
    and [scan_blocks_enough] shows that this fuel always reaches an exit.  The finiteness lemma of [fl] holds below [2^1000], far above
    the largest value the program divides by ([1/(1/10) = 10]).  The
    worked examples are closed terms evaluated by [vm_compute].

    ** Not modelled

    The rendering of templates and flashes, the pixels of the charts
    (matplotlib), the page layout reportlab computes from the story, the
    registration of fonts (app.py:84-117), the sizes and colours of the
    paragraph styles, the fonts, widths and merged cells of the Excel
    report, the files written and the removal of the chart files are
    I/O: the model keeps the data they are made from (the paragraph
    styles only by name: the two styles built without a [name] in the
    detail block, app.py:1210-1211, raise [TypeError], which the model
    keeps), and the success or
    failure of the drawing, of the image files and of [doc.build] is the
    parameter [Pdf.pdf_env].  Reading an uploaded file
    ([load_workbook]) is I/O: the model takes the workbook it returns,
    or its failure; cells holding booleans, dates or formulas are not
    modelled.  The SQL schema is not in
    the repository: the model assumes the identity columns, the unique
    names and the JSON columns that [model.py] relies on, and a
    collation given as the parameter [coll_eq].  Inside [calculate_ahp]
    the check that the weighted sum vector is finite (ahp.py:161-166) is
    vacuous on finite input in exact arithmetic and is not modelled, nor
    is the generic [except Exception] handler, which no modelled input
    reaches. *)

From Stdlib Require Import QArith Qabs Qminmax Lqa List Lia ZArith.
From Stdlib Require Import Setoid Morphisms.
Import ListNotations.

Declare Scope ahp_scope.
Delimit Scope ahp_scope with ahp.
Open Scope Q_scope.

Create HintDb ahp.
Create Rewrite HintDb ahp_rw.

(** ** Python floats *)

(** A Python float as the code can observe it: a finite value, one of the
    two infinities, or a NaN. *)
Inductive pyfloat : Type :=
| Fin (q : Q)
| PInf
| NInf
| NaN.

(** [math.isnan(x) or math.isinf(x)] is false, i.e. [math.isfinite(x)]. *)
Definition is_finite (x : pyfloat) : bool :=
  match x with Fin _ => true | _ => false end.

(** [x <= y] on Python floats (false as soon as a NaN is involved). *)
Definition pf_leb (x y : pyfloat) : bool :=
  match x, y with
  | Fin a, Fin b => Qle_bool a b
  | NInf, NaN | NaN, _ | _, NaN => false
  | NInf, _ => true
  | _, PInf => true
  | _, _ => false
  end.

(** ** Booleans on rationals *)

Definition Qltb (x y : Q) : bool := negb (Qle_bool y x).

Lemma Qltb_iff (x y : Q) : Qltb x y = true <-> x < y.
Proof.
  unfold Qltb. rewrite Bool.negb_true_iff.
  split; intro H.
  - apply Qnot_le_lt. intro Hle. apply Qle_bool_iff in Hle. congruence.
  - destruct (Qle_bool y x) eqn:E; [|reflexivity].
    apply Qle_bool_iff in E. exfalso. apply (Qlt_not_le x y); assumption.
Qed.

Lemma Qltb_false (x y : Q) : Qltb x y = false <-> y <= x.
Proof.
  unfold Qltb. rewrite Bool.negb_false_iff. apply Qle_bool_iff.
Qed.

Lemma Qle_bool_false (x y : Q) : Qle_bool x y = false <-> y < x.
Proof.
  split; intro H.
  - apply Qnot_le_lt. intro Hle. apply Qle_bool_iff in Hle. congruence.
  - destruct (Qle_bool x y) eqn:E; [|reflexivity].
    apply Qle_bool_iff in E. exfalso. apply (Qlt_not_le y x); assumption.
Qed.

#[export] Instance Qltb_Proper : Proper (Qeq ==> Qeq ==> eq) Qltb.
Proof. intros a b Hab c d Hcd. unfold Qltb. rewrite Hab, Hcd. reflexivity. Qed.

Lemma inject_Z_pos (z : Z) : (0 < z)%Z -> 0 < inject_Z z.
Proof. intros H. unfold Qlt. simpl. lia. Qed.

Lemma inject_Z_nonneg (z : Z) : (0 <= z)%Z -> 0 <= inject_Z z.
Proof. intros H. unfold Qle. simpl. lia. Qed.

#[export] Hint Resolve inject_Z_pos inject_Z_nonneg : ahp.

(** [Q_of_nat n] is [float(n)] for the sizes the code handles. *)
Definition Q_of_nat (n : nat) : Q := inject_Z (Z.of_nat n).

Lemma Q_of_nat_S (n : nat) : Q_of_nat (S n) == Q_of_nat n + 1.
Proof.
  unfold Q_of_nat. rewrite Nat2Z.inj_succ, <- Z.add_1_r, inject_Z_plus.
  reflexivity.
Qed.

Lemma Q_of_nat_nonneg (n : nat) : 0 <= Q_of_nat n.
Proof.
  unfold Q_of_nat. change 0 with (inject_Z 0).
  rewrite <- Zle_Qle. lia.
Qed.

Lemma Q_of_nat_pos (n : nat) : (0 < n)%nat -> 0 < Q_of_nat n.
Proof.
  intros H. unfold Q_of_nat. change 0 with (inject_Z 0).
  rewrite <- Zlt_Qlt. lia.
Qed.

#[export] Hint Resolve Q_of_nat_nonneg Q_of_nat_pos : ahp.

Lemma Qdiv_pos_pos (x y : Q) : 0 < x -> 0 < y -> 0 < x / y.
Proof. intros Hx Hy. apply Qlt_shift_div_l; [exact Hy|]. rewrite Qmult_0_l. exact Hx. Qed.

Lemma Qpos_nonzero (x : Q) : 0 < x -> ~ x == 0.
Proof. intros Hx E. rewrite E in Hx. discriminate. Qed.

Lemma Qeq_bool_pos (x : Q) : 0 < x -> Qeq_bool x 0 = false.
Proof.
  intros Hx. destruct (Qeq_bool x 0) eqn:E; [|reflexivity].
  apply Qeq_bool_eq in E. exfalso. exact (Qpos_nonzero x Hx E).
Qed.

#[export] Hint Resolve Qdiv_pos_pos Qpos_nonzero : ahp.

(** ** Finite sums over an index range *)

(** [qsumn n f] is [f 0 + ... + f (n-1)], the [sum] of numpy over an axis
    of length [n]. *)
Fixpoint qsumn (n : nat) (f : nat -> Q) : Q :=
  match n with
  | O => 0
  | S k => qsumn k f + f k
  end.

Section Sums.
Implicit Types (f g : nat -> Q) (n : nat).

Lemma qsumn_ext n f g :
  (forall i, (i < n)%nat -> f i == g i) -> qsumn n f == qsumn n g.
Proof.
  induction n as [|n IH]; intros H; simpl; [reflexivity|].
  rewrite IH by (intros; apply H; lia). rewrite (H n) by lia. reflexivity.
Qed.

Lemma qsumn_plus n f g :
  qsumn n (fun i => f i + g i) == qsumn n f + qsumn n g.
Proof. induction n as [|n IH]; simpl; [reflexivity|]. rewrite IH. ring. Qed.

Lemma qsumn_scale n c f :
  qsumn n (fun i => c * f i) == c * qsumn n f.
Proof. induction n as [|n IH]; simpl; [ring|]. rewrite IH. ring. Qed.

Lemma qsumn_div n c f :
  ~ c == 0 -> qsumn n (fun i => f i / c) == qsumn n f / c.
Proof.
  intros Hc. induction n as [|n IH]; simpl.
  - field. exact Hc.
  - rewrite IH. field. exact Hc.
Qed.

Lemma qsumn_const n c : qsumn n (fun _ => c) == Q_of_nat n * c.
Proof.
  induction n as [|n IH]; simpl; [unfold Q_of_nat; simpl; ring|].
  rewrite IH, Q_of_nat_S. ring.
Qed.

Lemma qsumn_swap n m (f : nat -> nat -> Q) :
  qsumn n (fun i => qsumn m (fun j => f i j))
  == qsumn m (fun j => qsumn n (fun i => f i j)).
Proof.
  induction n as [|n IH]; simpl.
  - induction m as [|m IHm]; simpl; [reflexivity|]. rewrite <- IHm. ring.
  - rewrite IH, <- qsumn_plus. reflexivity.
Qed.

Lemma qsumn_nonneg n f :
  (forall i, (i < n)%nat -> 0 <= f i) -> 0 <= qsumn n f.
Proof.
  induction n as [|n IH]; intros H; simpl; [apply Qle_refl|].
  pose proof (H n ltac:(lia)). pose proof (IH ltac:(intros; apply H; lia)).
  lra.
Qed.

Lemma qsumn_le_term n f k :
  (forall i, (i < n)%nat -> 0 <= f i) -> (k < n)%nat -> f k <= qsumn n f.
Proof.
  induction n as [|n IH]; intros H Hk; [lia|]. simpl.
  destruct (Nat.eq_dec k n) as [->|Hne].
  - pose proof (qsumn_nonneg n f ltac:(intros; apply H; lia)). lra.
  - pose proof (IH ltac:(intros; apply H; lia) ltac:(lia)).
    pose proof (H n ltac:(lia)). lra.
Qed.

Lemma qsumn_pos n f :
  (forall i, (i < n)%nat -> 0 < f i) -> (0 < n)%nat -> 0 < qsumn n f.
Proof.
  intros H Hn.
  pose proof (qsumn_le_term n f 0 ltac:(intros; apply Qlt_le_weak, H; auto) Hn).
  pose proof (H 0%nat Hn). lra.
Qed.
End Sums.

#[export] Instance qsumn_Proper n :
  Proper (pointwise_relation nat Qeq ==> Qeq) (qsumn n).
Proof. intros f g Hfg. apply qsumn_ext. intros i _. apply Hfg. Qed.

(** ** Vectors and matrices read by index *)

(** [vec_of n f] is the list [[f 0; ...; f (n-1)]]: a numpy vector built
    elementwise and returned by [.tolist()]. *)
Definition vec_of {A} (n : nat) (f : nat -> A) : list A := map f (seq 0 n).

(** [v[i]] on a vector of floats (out of range reads as [0], never used). *)
Definition vat (v : list Q) (i : nat) : Q := nth i v 0.

(** [m[i, j]] on a matrix stored row by row. *)
Definition mget (m : list (list Q)) (i j : nat) : Q := nth j (nth i m []) 0.

(** [sum(v)] over a whole list. *)
Definition qsum (l : list Q) : Q := fold_right Qplus 0 l.

Lemma length_vec_of {A} n (f : nat -> A) : length (vec_of n f) = n.
Proof. unfold vec_of. rewrite length_map. apply length_seq. Qed.

Lemma nth_vec_of {A} n (f : nat -> A) d i :
  (i < n)%nat -> nth i (vec_of n f) d = f i.
Proof.
  intros H. unfold vec_of.
  rewrite nth_indep with (d' := f 0%nat) by (rewrite length_map, length_seq; lia).
  rewrite map_nth, seq_nth by lia. reflexivity.
Qed.

Lemma vat_vec_of n f i : (i < n)%nat -> vat (vec_of n f) i = f i.
Proof. apply nth_vec_of. Qed.

Lemma mget_vec_of n (f : nat -> nat -> Q) i j :
  (i < n)%nat -> (j < n)%nat -> mget (vec_of n (fun i => vec_of n (f i))) i j = f i j.
Proof. intros Hi Hj. unfold mget. rewrite !nth_vec_of by assumption. reflexivity. Qed.

Lemma qsum_app (l1 l2 : list Q) : qsum (l1 ++ l2) == qsum l1 + qsum l2.
Proof.
  induction l1 as [|x l1 IH]; simpl; [ring|]. rewrite IH. ring.
Qed.

Lemma qsum_vec_of n f : qsum (vec_of n f) == qsumn n f.
Proof.
  unfold vec_of. induction n as [|n IH]; [reflexivity|].
  rewrite seq_S, map_app, qsum_app, IH. simpl. ring.
Qed.

(** Sums of a memoised vector are sums of the function that built it. *)
Lemma qsumn_vat_vec_of n f (g : Q -> Q) :
  qsumn n (fun i => g (vat (vec_of n f) i)) == qsumn n (fun i => g (f i)).
Proof. apply qsumn_ext. intros i Hi. rewrite vat_vec_of by exact Hi. reflexivity. Qed.

Lemma qsum_map_div (l : list Q) (c : Q) :
  ~ c == 0 -> qsum (map (fun w => w / c) l) == qsum l / c.
Proof.
  intros Hc. induction l as [|x l IH]; simpl; [field; exact Hc|].
  rewrite IH. field. exact Hc.
Qed.

(** A list read by index is the sum of its entries. *)
Lemma qsum_as_qsumn (l : list Q) : qsum l == qsumn (length l) (vat l).
Proof.
  rewrite <- qsum_vec_of. unfold vec_of, vat.
  replace (map (fun i => nth i l 0) (seq 0 (length l))) with l; [reflexivity|].
  induction l as [|x l IH]; [reflexivity|].
  simpl. f_equal. rewrite <- seq_shift, map_map. exact IH.
Qed.

Lemma vat_map (g : Q -> Q) (l : list Q) (i : nat) :
  (i < length l)%nat -> vat (map g l) i = g (vat l i).
Proof.
  intros Hi. unfold vat. rewrite nth_indep with (d' := g 0) by (rewrite length_map; lia).
  apply map_nth.
Qed.

Lemma Forall_vec_of {A} (P : A -> Prop) n (f : nat -> A) :
  (forall i, (i < n)%nat -> P (f i)) -> Forall P (vec_of n f).
Proof.
  intros H. unfold vec_of. apply Forall_map, Forall_forall.
  intros i Hi. apply in_seq in Hi. apply H. lia.
Qed.

Lemma vec_of_ext {A} n (f g : nat -> A) :
  (forall i, (i < n)%nat -> f i = g i) -> vec_of n f = vec_of n g.
Proof.
  intros H. unfold vec_of. apply map_ext_in. intros i Hi. apply in_seq in Hi. apply H. lia.
Qed.

Lemma map_vec_of {A B} (g : A -> B) n (f : nat -> A) :
  map g (vec_of n f) = vec_of n (fun i => g (f i)).
Proof. unfold vec_of. apply map_map. Qed.

Lemma vec_of_const {A} n (c : A) : vec_of n (fun _ => c) = repeat c n.
Proof. unfold vec_of. rewrite map_const, length_seq. reflexivity. Qed.

Lemma map_injective {A B} (f : A -> B) :
  (forall x y, f x = f y -> x = y) -> forall l l', map f l = map f l' -> l = l'.
Proof.
  intros Hf l. induction l as [|x l IH]; intros [|y l'] H; try discriminate; [reflexivity|].
  simpl in H. injection H as Hxy Hl. f_equal; [apply Hf, Hxy|apply IH, Hl].
Qed.

Lemma qsum_map_const {A} (f : A -> Q) (l : list A) (c : Q) :
  (forall x, In x l -> f x == c) -> qsum (map f l) == Q_of_nat (length l) * c.
Proof.
  induction l as [|x l IH]; intros H; simpl; [unfold Q_of_nat; simpl; ring|].
  rewrite (H x (or_introl eq_refl)), IH by (intros y Hy; apply H; right; exact Hy).
  rewrite Q_of_nat_S. ring.
Qed.

Lemma filter_none {A} (f : A -> bool) (l : list A) :
  (forall x, In x l -> f x = false) -> filter f l = [].
Proof.
  induction l as [|x l IH]; intros H; [reflexivity|]. simpl.
  rewrite (H x (or_introl eq_refl)). apply IH. intros y Hy. apply H. right. exact Hy.
Qed.

Lemma find_none_intro {A} (f : A -> bool) (l : list A) :
  (forall x, In x l -> f x = false) -> find f l = None.
Proof.
  induction l as [|x l IH]; intros H; [reflexivity|]. simpl.
  rewrite (H x (or_introl eq_refl)). apply IH. intros y Hy. apply H. right. exact Hy.
Qed.

Lemma find_app {A} (f : A -> bool) (l1 l2 : list A) :
  find f (l1 ++ l2) = match find f l1 with Some x => Some x | None => find f l2 end.
Proof. induction l1 as [|x l1 IH]; [reflexivity|]. simpl. destruct (f x); [reflexivity|exact IH]. Qed.

(** [find] over an index range returns the least index that satisfies
    the test. *)
Lemma find_seq_Some (f : nat -> bool) (s len i : nat) :
  find f (seq s len) = Some i <->
  (s <= i < s + len)%nat /\ f i = true /\ (forall k, (s <= k < i)%nat -> f k = false).
Proof.
  revert s. induction len as [|len IH]; intros s; simpl.
  - split; [discriminate|lia].
  - destruct (f s) eqn:Ef.
    + split.
      * intros H. injection H as <-. split; [lia|]. split; [exact Ef|]. intros k Hk. lia.
      * intros (Hr & Hi & Hk). f_equal. destruct (Nat.eq_dec s i) as [|Hne]; [assumption|].
        rewrite Hk in Ef; [discriminate|lia].
    + rewrite IH. split.
      * intros (Hr & Hi & Hk). split; [lia|]. split; [exact Hi|].
        intros k Hk'. destruct (Nat.eq_dec k s) as [->|]; [exact Ef|]. apply Hk. lia.
      * intros (Hr & Hi & Hk). destruct (Nat.eq_dec s i) as [->|]; [congruence|].
        split; [lia|]. split; [exact Hi|]. intros k Hk'. apply Hk. lia.
Qed.

#[export] Hint Rewrite @length_vec_of : ahp_rw.
#[export] Hint Rewrite vat_vec_of mget_vec_of using lia : ahp_rw.

(** ** Results: the [ValueError]s of the code as values *)

Inductive result (E A : Type) : Type :=
| Ok (a : A)
| Err (e : E).
Arguments Ok {E A} a.
Arguments Err {E A} e.

Definition rbind {E A B} (r : result E A) (k : A -> result E B) : result E B :=
  match r with Ok a => k a | Err e => Err e end.

Notation "x <- c ;; k" := (rbind c (fun x => k))
  (at level 61, c at next level, right associativity) : ahp_scope.

Definition is_ok {E A} (r : result E A) : bool :=
  match r with Ok _ => true | Err _ => false end.

Lemma rbind_Ok {E A B} (r : result E A) (k : A -> result E B) b :
  rbind r k = Ok b -> exists a, r = Ok a /\ k a = Ok b.
Proof. destruct r; simpl; [eauto|discriminate]. Qed.

(** The common case analysis of proofs about the code's [if]s on floats. *)
Ltac qcase :=
  match goal with
  | |- context [Qltb ?a ?b] =>
      let E := fresh "E" in
      destruct (Qltb a b) eqn:E;
      [apply Qltb_iff in E | apply Qltb_false in E]
  | |- context [Qle_bool ?a ?b] =>
      let E := fresh "E" in
      destruct (Qle_bool a b) eqn:E;
      [apply Qle_bool_iff in E | apply Qle_bool_false in E]
  end.

(** ** Errors raised inside a loop *)

(** The first error of [f] over [l], in the order of [l]. *)
Fixpoint first_error {X E V} (f : X -> result E V) (l : list X) : option E :=
  match l with
  | [] => None
  | x :: l => match f x with Err e => Some e | Ok _ => first_error f l end
  end.

Definition ok_or {E V} (d : V) (r : result E V) : V :=
  match r with Ok v => v | Err _ => d end.

Section ResultFold.
Context {X E V S : Type} (f : X -> result E V) (g : X -> V -> S -> S) (d : V).

(** A loop whose body computes [f x], which may raise, and then updates
    the state with [g]. *)
Definition loop_step (acc : result E S) (x : X) : result E S :=
  rbind acc (fun s => rbind (f x) (fun v => Ok (g x v s))).

Lemma fold_loop_step_Err (l : list X) (e : E) : fold_left loop_step l (Err e) = Err e.
Proof. induction l as [|x l IH]; [reflexivity|]. exact IH. Qed.

(** The loop raises its first error, or runs every update. *)
Lemma fold_loop_step (l : list X) (s : S) :
  fold_left loop_step l (Ok s) =
  match first_error f l with
  | Some e => Err e
  | None => Ok (fold_left (fun s x => g x (ok_or d (f x)) s) l s)
  end.
Proof.
  revert s. induction l as [|x l IH]; intros s; [reflexivity|]. cbn.
  destruct (f x) as [v|e]; [apply IH|apply fold_loop_step_Err].
Qed.
End ResultFold.

(** [[f(x) for x in l]] when [f] may raise: the first error, or every
    value. *)
Fixpoint map_result {E A B} (f : A -> result E B) (l : list A) : result E (list B) :=
  match l with
  | [] => Ok []
  | x :: l' => rbind (f x) (fun y => rbind (map_result f l') (fun ys => Ok (y :: ys)))
  end.

Lemma map_result_first_error {E A B} (f : A -> result E B) (l : list A) e :
  first_error f l = Some e -> map_result f l = Err e.
Proof.
  induction l as [|x l IH]; [discriminate|]. cbn. intros H.
  destruct (f x); cbn; [rewrite (IH H); reflexivity|congruence].
Qed.

Lemma first_error_In {X E V} (f : X -> result E V) (l : list X) e :
  first_error f l = Some e -> exists x, In x l /\ f x = Err e.
Proof.
  induction l as [|x l IH]; [discriminate|]. cbn. destruct (f x) eqn:Ef.
  - intros H. destruct (IH H) as (y & Hy & Hf). exists y. split; [right; exact Hy|exact Hf].
  - intros H. injection H as <-. exists x. split; [left; reflexivity|exact Ef].
Qed.

Lemma map_result_ok {E A B} (f : A -> result E B) (l : list A) :
  first_error f l = None -> exists ys, map_result f l = Ok ys /\ length ys = length l.
Proof.
  induction l as [|x l IH]; [exists []; split; reflexivity|]. cbn.
  destruct (f x) as [y|e]; [|discriminate]. intros H. destruct (IH H) as (ys & -> & Hl).
  exists (y :: ys). split; [reflexivity|cbn; congruence].
Qed.

Lemma map_result_Ok_nth {E A B} (f : A -> result E B) (l : list A) ys i x :
  map_result f l = Ok ys -> nth_error l i = Some x -> exists y, f x = Ok y /\ nth_error ys i = Some y.
Proof.
  revert ys i. induction l as [|x' l IH]; intros ys i H Hi; [destruct i; discriminate|].
  cbn in H. destruct (f x') as [y|e] eqn:Ef; [|discriminate]. cbn in H.
  destruct (map_result f l) as [ys'|e] eqn:Er; [|discriminate]. injection H as <-.
  destruct i as [|i]; cbn in Hi |- *.
  - injection Hi as <-. exists y. split; [exact Ef|reflexivity].
  - exact (IH ys' i eq_refl Hi).
Qed.

(** ** Lists updated by index *)

(** [l[i] = x]; out of range the list is unchanged (the code never writes
    out of range). *)
Fixpoint set_nth {A} (l : list A) (i : nat) (x : A) : list A :=
  match l, i with
  | [], _ => []
  | _ :: t, O => x :: t
  | h :: t, S k => h :: set_nth t k x
  end.

Lemma length_set_nth {A} (l : list A) i x : length (set_nth l i x) = length l.
Proof. revert i; induction l as [|h t IH]; intros [|i]; simpl; auto. Qed.

Lemma nth_set_nth {A} (l : list A) i x k d :
  (i < length l)%nat -> nth k (set_nth l i x) d = if (k =? i)%nat then x else nth k l d.
Proof.
  revert i k; induction l as [|h t IH]; intros [|i] [|k] Hi; simpl in *; try lia; auto.
  rewrite IH by lia. reflexivity.
Qed.

#[export] Hint Rewrite @length_set_nth : ahp_rw.

Lemma fold_left_ext {A B} (f g : A -> B -> A) (l : list B) (a : A) :
  (forall a x, f a x = g a x) -> fold_left f l a = fold_left g l a.
Proof. intros H. revert a. induction l as [|x l IH]; intros a; [reflexivity|]. simpl. rewrite H. apply IH. Qed.

Lemma Forall_set_nth {A} (P : A -> Prop) (l : list A) i x :
  Forall P l -> P x -> Forall P (set_nth l i x).
Proof.
  revert i. induction l as [|h t IH]; intros [|i] Hl Hx; inversion Hl; subst; simpl;
    constructor; auto.
Qed.

Lemma set_nth_overflow {A} (l : list A) i x : (length l <= i)%nat -> set_nth l i x = l.
Proof.
  revert i. induction l as [|h t IH]; intros [|i] Hi; simpl in *; try lia; auto.
  rewrite IH by lia. reflexivity.
Qed.

(** Case analysis on every comparison of naturals in the goal. *)
Ltac nat_cases :=
  repeat (match goal with
          | |- context [Nat.leb ?a ?b] => destruct (Nat.leb_spec a b)
          | |- context [Nat.ltb ?a ?b] => destruct (Nat.ltb_spec a b)
          | |- context [Nat.eqb ?a ?b] => destruct (Nat.eqb_spec a b)
          end; cbn [fst snd andb] in *; subst); try lia; try reflexivity.

Lemma first_error_None {X E V} (f : X -> result E V) (l : list X) :
  first_error f l = None <-> forall x, In x l -> exists v, f x = Ok v.
Proof.
  induction l as [|x l IH]; simpl; [split; [intros _ y []|reflexivity]|].
  destruct (f x) as [v|e] eqn:Ef.
  - rewrite IH. split.
    + intros H y [<-|Hy]; [exists v; exact Ef|apply H, Hy].
    + intros H y Hy. apply H. right. exact Hy.
  - split; [discriminate|]. intros H. destruct (H x (or_introl eq_refl)) as [v Hv]. congruence.
Qed.

(** ** [enumerate] *)

(** [enumerate(l)]: each element with its position. *)
Definition enumerate {A} (l : list A) : list (nat * A) := combine (seq 0 (length l)) l.

Lemma nth_error_enumerate_from {A} (l : list A) s i x :
  nth_error l i = Some x -> nth_error (combine (seq s (length l)) l) i = Some (s + i, x)%nat.
Proof.
  revert s i. induction l as [|y l IH]; intros s i H; [destruct i; discriminate|].
  destruct i as [|i]; cbn in H |- *.
  - injection H as <-. rewrite Nat.add_0_r. reflexivity.
  - rewrite (IH (S s) i H). f_equal. f_equal. lia.
Qed.

Lemma nth_error_enumerate {A} (l : list A) i x :
  nth_error l i = Some x -> nth_error (enumerate l) i = Some (i, x).
Proof. apply nth_error_enumerate_from. Qed.

Lemma In_enumerate {A} (l : list A) i x : In (i, x) (enumerate l) -> (i < length l)%nat.
Proof. unfold enumerate. intros H. apply in_combine_l, in_seq in H. lia. Qed.

Lemma In_enumerate_snd {A} (l : list A) i x : In (i, x) (enumerate l) -> In x l.
Proof. unfold enumerate. apply in_combine_r. Qed.

(** A loop over [enumerate l] whose body does not raise on the elements
    of [l] at their positions. *)
Lemma map_result_enumerate {E A B} (f : nat * A -> result E B) (l : list A) :
  (forall i x, (i < length l)%nat -> In x l -> exists y, f (i, x) = Ok y) ->
  exists ys, map_result f (enumerate l) = Ok ys.
Proof.
  intros H. destruct (map_result_ok f (enumerate l)) as (ys & Hys & _); [|exists ys; exact Hys].
  apply first_error_None. intros [i x] Hx.
  apply (H i x); [eapply In_enumerate, Hx|eapply In_enumerate_snd, Hx].
Qed.
