(* ===== verification/Binary64.v ===== *)
(** * Binary64: rounding a rational to a Python float

    Python's [float(s)] converts a decimal string to the nearest binary64
    value, ties to even; a division [1.0 / d] rounds its exact quotient the
    same way; [round(x, 10)] rounds the exact binary value of [x] to ten
    decimals, ties to even, and converts the decimal back to a float.  This
    file models those three operations: [round_half_even] (nearest
    integer, ties to even), [fl] (nearest binary64, with gradual underflow
    and overflow to an infinity) and [py_round]. *)

From Stdlib Require Import QArith Qabs Qpower ZArith Lia Lqa.
From S2P Require Import Prelude.

Open Scope Z_scope.

(** ** Nearest integer, ties to even *)

(** The nearest integer to [p / r] ([r > 0]), ties to the even one. *)
Definition round_half_even_Z (p r : Z) : Z :=
  let q := p / r in
  let rm := p mod r in
  match Z.compare (2 * rm) r with
  | Lt => q
  | Gt => q + 1
  | Eq => if Z.even q then q else q + 1
  end.

(** The rounded integer is within half a unit: [|k r - p| <= r / 2]. *)
Lemma round_half_even_Z_err (p r : Z) :
  0 < r -> 2 * Z.abs (round_half_even_Z p r * r - p) <= r.
Proof.
  intros Hr. unfold round_half_even_Z.
  pose proof (Z.div_mod p r ltac:(lia)) as Hdm.
  pose proof (Z.mod_pos_bound p r Hr) as Hb.
  set (q := p / r) in *. set (rm := p mod r) in *.
  destruct (Z.compare_spec (2 * rm) r) as [H|H|H].
  - destruct (Z.even q); lia.
  - lia.
  - lia.
Qed.

(** Exact quotients are not moved. *)
Lemma round_half_even_Z_exact (k r : Z) : 0 < r -> round_half_even_Z (k * r) r = k.
Proof.
  intros Hr. unfold round_half_even_Z.
  rewrite Z.div_mul, Z.mod_mul by lia.
  destruct (Z.compare_spec (2 * 0) r); lia.
Qed.

(** Rounding is symmetric: ties to even do not depend on the sign. *)
Lemma round_half_even_Z_opp (p r : Z) : 0 < r -> round_half_even_Z (- p) r = - round_half_even_Z p r.
Proof.
  intros Hr. unfold round_half_even_Z.
  pose proof (Z.mod_pos_bound p r Hr) as Hb.
  destruct (Z.eq_dec (p mod r) 0) as [E|E].
  - rewrite Z.mod_opp_l_z, Z.div_opp_l_z, E by lia.
    destruct (Z.compare_spec (2 * 0) r); lia.
  - rewrite Z.mod_opp_l_nz, Z.div_opp_l_nz by lia.
    set (q := p / r) in *. set (rm := p mod r) in *.
    destruct (Z.compare_spec (2 * (r - rm)) r); destruct (Z.compare_spec (2 * rm) r); try lia.
    rewrite Z.even_sub, Z.even_opp. destruct (Z.even q); cbn; lia.
Qed.

Lemma round_half_even_Z_nonneg (p r : Z) : 0 <= p -> 0 < r -> 0 <= round_half_even_Z p r.
Proof.
  intros Hp Hr. unfold round_half_even_Z.
  pose proof (Z.div_pos p r Hp Hr).
  destruct (Z.compare (2 * (p mod r)) r); [destruct (Z.even (p / r))|..]; lia.
Qed.

(** ** Rounding to binary64 *)

(** [floor (log2 (p / r))] for [p, r > 0]. *)
Definition qlog2_floor (p r : Z) : Z :=
  let e0 := Z.log2 p - Z.log2 r in
  if 0 <=? e0
  then (if p <? r * 2 ^ e0 then e0 - 1 else e0)
  else (if p * 2 ^ (- e0) <? r then e0 - 1 else e0).

(** The exponent of the unit in the last place of a binary64 number whose
    binary exponent is [e]: 52 fraction bits, and no unit below [2^-1074]
    (subnormals). *)
Definition ulp_exp (e : Z) : Z := Z.max (e - 52) (-1074).

(** [p / (r * 2^ex)] as an integer numerator and denominator. *)
Definition scaled_num (p ex : Z) : Z := if 0 <=? ex then p else p * 2 ^ (- ex).
Definition scaled_den (r ex : Z) : Z := if 0 <=? ex then r * 2 ^ ex else r.

(** [m * 2^ex] as a rational. *)
Definition dyadic (m ex : Z) : Q :=
  if 0 <=? ex then inject_Z (m * 2 ^ ex) else Qmake m (Z.to_pos (2 ^ (- ex))).

(** Rounding a positive rational [p / r]: [None] when the rounded value
    reaches [2^1024], which Python turns into [inf]. *)
Definition fl_pos (p r : Z) : option Q :=
  let ex := ulp_exp (qlog2_floor p r) in
  let m := round_half_even_Z (scaled_num p ex) (scaled_den r ex) in
  if 2 ^ (1024 - ex) <=? m then None else Some (dyadic m ex).

(** The binary64 value nearest to a rational. *)
Definition fl (x : Q) : pyfloat :=
  match Qnum x with
  | Z0 => Fin 0
  | Zpos p => match fl_pos (Zpos p) (Zpos (Qden x)) with
              | Some y => Fin y
              | None => PInf
              end
  | Zneg p => match fl_pos (Zpos p) (Zpos (Qden x)) with
              | Some y => Fin (- y)
              | None => NInf
              end
  end.

(** A literal of the source, such as [1e-9] or [1.59]: the binary64 value
    of the decimal constant (never infinite for the literals used). *)
Definition lit (x : Q) : Q := match fl x with Fin y => y | _ => 0%Q end.

(** ** Python's [round(x, ndigits)] on a float *)

(** [round(x, k)]: the exact value of [x] rounded to [k] decimals, ties to
    even, converted back to the nearest float; infinities and NaN are
    returned unchanged. *)
Definition py_round (k : nat) (x : pyfloat) : pyfloat :=
  match x with
  | Fin q =>
      let s := 10 ^ Z.of_nat k in
      fl (Qmake (round_half_even_Z (Qnum q * s) (Zpos (Qden q))) (Z.to_pos s))
  | other => other
  end.

Close Scope Z_scope.

(** ** Error bound of the rounding *)

Section ErrorBound.
Local Open Scope Q_scope.

Lemma pow2_pos (z : Z) : 0 < 2 ^ z.
Proof. apply Qpower_0_lt. reflexivity. Qed.

Lemma pow2_add (a b : Z) : 2 ^ (a + b) == 2 ^ a * 2 ^ b.
Proof. apply Qpower_plus. discriminate. Qed.

Lemma pow2_Z (k : Z) : (0 <= k)%Z -> inject_Z (2 ^ k) == 2 ^ k.
Proof. intros H. apply Zpower_Qpower. exact H. Qed.

Lemma pow2_opp (k : Z) : 2 ^ (- k) * 2 ^ k == 1.
Proof. rewrite <- pow2_add. replace (- k + k)%Z with 0%Z by lia. reflexivity. Qed.

Lemma Qmake_pos_div (m p : Z) :
  (0 < p)%Z -> Qmake m (Z.to_pos p) == inject_Z m / inject_Z p.
Proof.
  intros Hp. rewrite Qmake_Qdiv. rewrite Z2Pos.id by exact Hp. reflexivity.
Qed.

Lemma pow2_inv (k : Z) : 2 ^ k == / 2 ^ (- k).
Proof. rewrite <- Qpower_opp, Z.opp_involutive. reflexivity. Qed.

(** [dyadic m ex] is [m * 2^ex]. *)
Lemma dyadic_eq (m ex : Z) : dyadic m ex == inject_Z m * 2 ^ ex.
Proof.
  unfold dyadic. destruct (Z.leb_spec 0 ex) as [H|H].
  - rewrite inject_Z_mult, pow2_Z by exact H. reflexivity.
  - rewrite Qmake_pos_div by (apply Z.pow_pos_nonneg; lia).
    rewrite pow2_Z, (pow2_inv ex) by lia. reflexivity.
Qed.

(** The scaled quotient is [X / 2^ex]. *)
Lemma scaled_eq (p r ex : Z) :
  (0 < r)%Z ->
  inject_Z (scaled_num p ex) / inject_Z (scaled_den r ex)
  == (inject_Z p / inject_Z r) / 2 ^ ex.
Proof.
  intros Hr. pose proof (pow2_pos ex) as H2. pose proof (pow2_pos (- ex)) as H3.
  assert (Hr' : 0 < inject_Z r) by (apply inject_Z_pos; exact Hr).
  unfold scaled_num, scaled_den. destruct (Z.leb_spec 0 ex) as [H|H].
  - rewrite inject_Z_mult, pow2_Z by exact H. field. split; lra.
  - rewrite inject_Z_mult, pow2_Z by lia. rewrite (pow2_inv ex).
    field. split; lra.
Qed.

(** The rounded quotient is within half a unit, in [Q]. *)
Lemma round_half_even_Q_err (a b : Z) :
  (0 < b)%Z ->
  Qabs (inject_Z (round_half_even_Z a b) - inject_Z a / inject_Z b) <= 1 # 2.
Proof.
  intros Hb. pose proof (round_half_even_Z_err a b Hb) as He.
  set (k := round_half_even_Z a b) in *.
  assert (Hb' : 0 < inject_Z b) by (apply inject_Z_pos; exact Hb).
  assert (L : inject_Z (- b) <= inject_Z (2 * (k * b - a))) by (rewrite <- Zle_Qle; lia).
  assert (U : inject_Z (2 * (k * b - a)) <= inject_Z b) by (rewrite <- Zle_Qle; lia).
  unfold Z.sub in L, U.
  rewrite ?inject_Z_mult, ?inject_Z_plus, ?inject_Z_opp, ?inject_Z_mult in L.
  rewrite ?inject_Z_mult, ?inject_Z_plus, ?inject_Z_opp, ?inject_Z_mult in U.
  change (inject_Z 2) with 2 in L, U.
  apply Qabs_Qle_condition.
  assert (Hk : inject_Z k - inject_Z a / inject_Z b
               == (inject_Z k * inject_Z b - inject_Z a) / inject_Z b)
    by (field; lra).
  rewrite Hk. split.
  - apply Qle_shift_div_l; [exact Hb'|]. lra.
  - apply Qle_shift_div_r; [exact Hb'|]. lra.
Qed.

(** [2 ^ floor (log2 X) <= X]. *)
Lemma qlog2_floor_lower (p r : Z) :
  (0 < p)%Z -> (0 < r)%Z ->
  2 ^ qlog2_floor p r * inject_Z r <= inject_Z p.
Proof.
  intros Hp Hr.
  pose proof (Z.log2_spec p Hp) as [Lp _].
  pose proof (Z.log2_spec r Hr) as [_ Ur].
  pose proof (Z.log2_nonneg p) as Np. pose proof (Z.log2_nonneg r) as Nr.
  set (lp := Z.log2 p) in *. set (lr := Z.log2 r) in *.
  (* the general bound [2^(e0-1) * r <= p] *)
  assert (G : 2 ^ (lp - lr - 1) * inject_Z r <= inject_Z p).
  { apply Qle_trans with (2 ^ (lp - lr - 1) * 2 ^ (Z.succ lr)).
    - apply Qmult_le_l; [apply pow2_pos|].
      rewrite <- pow2_Z by lia. rewrite <- Zle_Qle. lia.
    - rewrite <- pow2_add. replace (lp - lr - 1 + Z.succ lr)%Z with lp by lia.
      rewrite <- pow2_Z by lia. rewrite <- Zle_Qle. lia. }
  unfold qlog2_floor. fold lp lr.
  destruct (Z.leb_spec 0 (lp - lr)) as [H0|H0].
  - destruct (Z.ltb_spec p (r * 2 ^ (lp - lr))) as [H1|H1]; [exact G|].
    rewrite <- pow2_Z by exact H0. rewrite <- inject_Z_mult, <- Zle_Qle. lia.
  - destruct (Z.ltb_spec (p * 2 ^ (- (lp - lr))) r) as [H1|H1]; [exact G|].
    rewrite Zle_Qle, inject_Z_mult, pow2_Z in H1 by lia.
    pose proof (pow2_opp (lp - lr)) as Ho. pose proof (pow2_pos (lp - lr)).
    apply Qle_trans with (inject_Z p * 2 ^ (- (lp - lr)) * 2 ^ (lp - lr)).
    + rewrite (Qmult_comm (2 ^ (lp - lr))). apply Qmult_le_compat_r; lra.
    + rewrite <- Qmult_assoc, Ho. lra.
Qed.

(** [|m 2^ex - X| <= 2^ex / 2] where [m] is the rounded scaled value. *)
Lemma dyadic_round_err (p r ex : Z) :
  (0 < r)%Z ->
  Qabs (dyadic (round_half_even_Z (scaled_num p ex) (scaled_den r ex)) ex
        - inject_Z p / inject_Z r) <= 2 ^ ex * (1 # 2).
Proof.
  intros Hr. pose proof (pow2_pos ex) as H2.
  assert (Hd : (0 < scaled_den r ex)%Z).
  { unfold scaled_den. destruct (Z.leb_spec 0 ex); [|exact Hr].
    apply Z.mul_pos_pos; [exact Hr|]. apply Z.pow_pos_nonneg; lia. }
  pose proof (round_half_even_Q_err (scaled_num p ex) (scaled_den r ex) Hd) as Hq.
  rewrite scaled_eq in Hq by exact Hr. rewrite dyadic_eq.
  set (m := inject_Z (round_half_even_Z _ _)) in *.
  set (X := inject_Z p / inject_Z r) in *.
  assert (E : m * 2 ^ ex - X == (m - X / 2 ^ ex) * 2 ^ ex) by (field; lra).
  rewrite E, Qabs_Qmult, (Qabs_pos (2 ^ ex)) by lra.
  rewrite Qmult_comm. apply Qmult_le_l; [exact H2|exact Hq].
Qed.

(** Relative error [2^-53], absolute error [2^-1075] below the normal
    range: the rounding of a positive rational. *)
Lemma fl_pos_err (p r : Z) (y : Q) :
  (0 < p)%Z -> (0 < r)%Z -> fl_pos p r = Some y ->
  Qabs (y - inject_Z p / inject_Z r)
  <= inject_Z p / inject_Z r * 2 ^ (-53) + 2 ^ (-1075).
Proof.
  intros Hp Hr. unfold fl_pos.
  set (e := qlog2_floor p r). set (ex := ulp_exp e).
  destruct (_ <=? _)%Z; [discriminate|]. intros [= <-].
  eapply Qle_trans; [apply dyadic_round_err; exact Hr|].
  pose proof (qlog2_floor_lower p r Hp Hr) as Hlow. fold e in Hlow.
  assert (Hr' : 0 < inject_Z r) by (apply inject_Z_pos; exact Hr).
  assert (Hx : 2 ^ e <= inject_Z p / inject_Z r) by (apply Qle_shift_div_l; assumption).
  pose proof (pow2_pos (-1075)). pose proof (pow2_pos (-53)).
  pose proof (pow2_pos e).
  assert (Hh : 2 ^ (-1) == 1 # 2) by reflexivity.
  unfold ex, ulp_exp. destruct (Z.max_spec (e - 52) (-1074)) as [[_ ->]|[_ ->]].
  - rewrite <- Hh, <- pow2_add. change (-1074 + -1)%Z with (-1075)%Z.
    assert (0 <= inject_Z p / inject_Z r * 2 ^ (-53)).
    { apply Qmult_le_0_compat; lra. }
    lra.
  - rewrite <- Hh, <- pow2_add. replace (e - 52 + -1)%Z with (e + -53)%Z by lia.
    rewrite pow2_add.
    assert (2 ^ e * 2 ^ (-53) <= inject_Z p / inject_Z r * 2 ^ (-53)).
    { apply Qmult_le_compat_r; lra. }
    lra.
Qed.

(** The error bound of [fl] on every rational. *)
Lemma fl_err (x y : Q) :
  fl x = Fin y -> Qabs (y - x) <= Qabs x * 2 ^ (-53) + 2 ^ (-1075).
Proof.
  pose proof (pow2_pos (-1075)). pose proof (pow2_pos (-53)).
  unfold fl. destruct x as [[|p|p] d]; cbn [Qnum Qden].
  - intros Hy. injection Hy as <-.
    assert (Z0 : 0 - (0 # d) == 0) by reflexivity.
    assert (Z1 : Qabs (0 # d) == 0) by reflexivity.
    rewrite Z0, Z1. change (Qabs 0) with 0. lra.
  - destruct (fl_pos (Z.pos p) (Z.pos d)) as [y0|] eqn:E; intros Hy;
      [injection Hy as <- | discriminate Hy].
    apply fl_pos_err in E; [|lia|lia].
    assert (Hx : Z.pos p # d == inject_Z (Z.pos p) / inject_Z (Z.pos d))
      by (rewrite Qmake_Qdiv; reflexivity).
    assert (Hnn : 0 <= inject_Z (Z.pos p) / inject_Z (Z.pos d)).
    { apply Qle_shift_div_l; [apply inject_Z_pos; lia|].
      rewrite Qmult_0_l. apply inject_Z_nonneg; lia. }
    rewrite Hx, (Qabs_pos (inject_Z (Z.pos p) / inject_Z (Z.pos d))) by exact Hnn.
    exact E.
  - destruct (fl_pos (Z.pos p) (Z.pos d)) as [y0|] eqn:E; intros Hy;
      [injection Hy as <- | discriminate Hy].
    apply fl_pos_err in E; [|lia|lia].
    assert (Hx : Z.neg p # d == - (inject_Z (Z.pos p) / inject_Z (Z.pos d)))
      by (rewrite <- Qmake_Qdiv; reflexivity).
    assert (Hnn : 0 <= inject_Z (Z.pos p) / inject_Z (Z.pos d)).
    { apply Qle_shift_div_l; [apply inject_Z_pos; lia|].
      rewrite Qmult_0_l. apply inject_Z_nonneg; lia. }
    assert (Hm : - y0 - - (inject_Z (Z.pos p) / inject_Z (Z.pos d))
                 == - (y0 - inject_Z (Z.pos p) / inject_Z (Z.pos d))) by ring.
    rewrite Hx, Hm, !Qabs_opp.
    rewrite (Qabs_pos (inject_Z (Z.pos p) / inject_Z (Z.pos d))) by exact Hnn.
    exact E.
Qed.

(** [round(q, k)] returns a float within half a unit of the [k]-th
    decimal of [q], up to the binary rounding of the decimal. *)
Lemma py_round_close (k : nat) (q r : Q) :
  py_round k (Fin q) = Fin r -> Qabs r <= 1 ->
  Qabs (r - q) <= (1 # 2) / inject_Z (10 ^ Z.of_nat k) + 2 ^ (-51).
Proof.
  destruct q as [qn qd]. unfold py_round. cbn [Qnum Qden].
  set (s := (10 ^ Z.of_nat k)%Z).
  assert (Hs : (0 < s)%Z) by (apply Z.pow_pos_nonneg; lia).
  set (R := round_half_even_Z (qn * s) (Z.pos qd)).
  intros Hfl Hr. apply fl_err in Hfl.
  pose proof (round_half_even_Q_err (qn * s) (Z.pos qd) ltac:(lia)) as HR.
  fold R in HR.
  assert (Hs' : 0 < inject_Z s) by (apply inject_Z_pos; exact Hs).
  assert (Hden : 0 < inject_Z (Z.pos qd)) by (apply inject_Z_pos; lia).
  set (q := qn # qd) in *.
  rewrite (Qmake_pos_div R s Hs) in Hfl.
  set (D := inject_Z R / inject_Z s) in *.
  assert (Hq : inject_Z (qn * s) / inject_Z (Z.pos qd) == q * inject_Z s).
  { unfold q. rewrite inject_Z_mult, Qmake_Qdiv. field. lra. }
  rewrite Hq in HR.
  (* the decimal is within [1/(2 s)] of [q] *)
  assert (HDq : Qabs (D - q) <= (1 # 2) / inject_Z s).
  { apply Qabs_Qle_condition in HR. apply Qabs_Qle_condition.
    assert (E : D - q == (inject_Z R - q * inject_Z s) / inject_Z s)
      by (unfold D; field; lra).
    rewrite E. split.
    - apply Qle_shift_div_l; [exact Hs'|].
      assert (E2 : - ((1 # 2) / inject_Z s) * inject_Z s == - (1 # 2))
        by (field; lra).
      rewrite E2. lra.
    - apply Qle_shift_div_r; [exact Hs'|].
      assert (E2 : (1 # 2) / inject_Z s * inject_Z s == 1 # 2) by (field; lra).
      rewrite E2. lra. }
  (* the decimal is at most [5/3] in absolute value *)
  set (a := 2 ^ (-53)) in *. set (b := 2 ^ (-1075)) in *.
  assert (Ha : 0 <= a <= 1 # 4) by (split; vm_compute; discriminate).
  assert (Hb : 0 <= b <= a) by (split; vm_compute; discriminate).
  assert (H51 : 2 ^ (-51) == 4 * a) by (vm_compute; reflexivity).
  pose proof (Qabs_nonneg D) as HA.
  assert (HAa : Qabs D * a <= Qabs D * (1 # 4)) by (apply Qmult_le_compat_nonneg; lra).
  pose proof (Qabs_triangle_reverse D r) as T.
  rewrite Qabs_Qminus in T.
  assert (HA3 : Qabs D <= 5 # 3) by lra.
  assert (HAa' : Qabs D * a <= (5 # 3) * a) by (apply Qmult_le_compat_r; lra).
  pose proof (Qabs_triangle (r - D) (D - q)) as T2.
  assert (E3 : r - D + (D - q) == r - q) by ring. rewrite E3 in T2.
  rewrite H51. lra.
Qed.
Lemma pow2_mono (a b : Z) : (a <= b)%Z -> 2 ^ a <= 2 ^ b.
Proof.
  intros H. replace b with (a + (b - a))%Z by lia. rewrite pow2_add.
  rewrite <- (pow2_Z (b - a)) by lia. pose proof (pow2_pos a).
  assert (1 <= inject_Z (2 ^ (b - a))).
  { change 1 with (inject_Z 1). rewrite <- Zle_Qle.
    assert (0 < 2 ^ (b - a))%Z by (apply Z.pow_pos_nonneg; lia). lia. }
  rewrite <- (Qmult_1_r (2 ^ a)) at 1. apply Qmult_le_l; assumption.
Qed.

Lemma pow2_le_inv (a b : Z) : 2 ^ a <= 2 ^ b -> (a <= b)%Z.
Proof.
  intros H. destruct (Z.le_gt_cases a b) as [|Hgt]; [assumption|].
  exfalso. pose proof (pow2_mono (b + 1) a ltac:(lia)) as H1.
  rewrite pow2_add in H1. pose proof (pow2_pos b).
  change (2 ^ 1) with 2 in H1. lra.
Qed.

(** No overflow below [2^1000]: the rounding of a positive rational of
    at most that size is a finite float. *)
Lemma fl_pos_some (p r : Z) :
  (0 < p)%Z -> (0 < r)%Z -> inject_Z p / inject_Z r <= 2 ^ 1000 ->
  exists y, fl_pos p r = Some y.
Proof.
  intros Hp Hr HX. unfold fl_pos.
  set (e := qlog2_floor p r). set (ex := ulp_exp e).
  pose proof (qlog2_floor_lower p r Hp Hr) as Hlow. fold e in Hlow.
  assert (Hr' : 0 < inject_Z r) by (apply inject_Z_pos; exact Hr).
  assert (He : (e <= 1000)%Z).
  { apply pow2_le_inv. apply Qle_trans with (inject_Z p / inject_Z r); [|exact HX].
    apply Qle_shift_div_l; assumption. }
  assert (Hex : (-1074 <= ex <= 948)%Z) by (unfold ex, ulp_exp; lia).
  assert (Hd : (0 < scaled_den r ex)%Z).
  { unfold scaled_den. destruct (Z.leb_spec 0 ex); [|exact Hr].
    apply Z.mul_pos_pos; [exact Hr|]. apply Z.pow_pos_nonneg; lia. }
  pose proof (round_half_even_Q_err (scaled_num p ex) (scaled_den r ex) Hd) as Hq.
  rewrite scaled_eq in Hq by exact Hr.
  set (m := round_half_even_Z _ _) in *.
  destruct (Z.leb_spec (2 ^ (1024 - ex)) m) as [Hov|]; [|eexists; reflexivity].
  exfalso. rewrite Zle_Qle in Hov. rewrite pow2_Z in Hov by lia.
  apply Qabs_Qle_condition in Hq as [_ Hq].
  assert (HXe : inject_Z p / inject_Z r / 2 ^ ex <= 2 ^ (1000 - ex)).
  { pose proof (pow2_pos ex). apply Qle_shift_div_r; [assumption|].
    rewrite <- pow2_add. replace (1000 - ex + ex)%Z with 1000%Z by lia. exact HX. }
  pose proof (pow2_mono 0 (1000 - ex) ltac:(lia)) as H1. change (2 ^ 0) with 1 in H1.
  assert (E : 2 ^ (1024 - ex) == 2 ^ 24 * 2 ^ (1000 - ex))
    by (rewrite <- pow2_add; f_equiv; lia).
  assert (H24 : 2 ^ 24 == 16777216) by reflexivity.
  rewrite E, H24 in Hov. lra.
Qed.

Lemma fl_finite (x : Q) : 0 < x -> x <= 2 ^ 1000 -> exists y, fl x = Fin y.
Proof.
  intros Hx Hb. unfold fl. destruct x as [[|p|p] d]; cbn [Qnum Qden].
  - eexists. reflexivity.
  - destruct (fl_pos_some (Z.pos p) (Z.pos d)) as [y ->]; [lia|lia| |eexists; reflexivity].
    rewrite <- Qmake_Qdiv. exact Hb.
  - exfalso. unfold Qlt in Hx. simpl in Hx. lia.
Qed.

(** Nor above [-2^1000]. *)
Lemma fl_bounded (x : Q) : Qabs x <= 2 ^ 1000 -> exists y, fl x = Fin y.
Proof.
  intros Hb. unfold fl. destruct x as [[|p|p] d]; cbn [Qnum Qden].
  - eexists. reflexivity.
  - destruct (fl_pos_some (Z.pos p) (Z.pos d)) as [y ->]; [lia|lia| |eexists; reflexivity].
    rewrite <- Qmake_Qdiv. exact Hb.
  - destruct (fl_pos_some (Z.pos p) (Z.pos d)) as [y ->]; [lia|lia| |eexists; reflexivity].
    rewrite <- Qmake_Qdiv. exact Hb.
Qed.

(** A rational of at least [2^-1000] rounds to a positive float. *)
Lemma fl_pos_value (x y : Q) : 2 ^ (-1000) <= x -> fl x = Fin y -> 0 < y.
Proof.
  intros Hx Hy. apply fl_err in Hy. apply Qabs_Qle_condition in Hy as [Hy _].
  pose proof (pow2_pos (-1000)).
  rewrite Qabs_pos in Hy by lra.
  assert (Ha : 2 ^ (-53) <= 1 # 2) by (vm_compute; discriminate).
  assert (Hb : 2 ^ (-1075) < 2 ^ (-1000) * (1 # 2)) by (vm_compute; reflexivity).
  assert (x * 2 ^ (-53) <= x * (1 # 2)) by (apply Qmult_le_l; lra).
  lra.
Qed.
End ErrorBound.
