(* ===== verification/PyStr.v ===== *)
(** * PyStr: the Python string built-ins the parser relies on

    [parse_saaty_value] (ahp.py:24-86) is written with [str.strip],
    [str.replace], the [in] operator, [str.split], and the constructors
    [int(s)] and [float(s)].  This file models them on ASCII strings:
    whitespace is the ASCII subset of [str.isspace], digits are ASCII
    digits, and the grammar of [int] and [float] is the one of the Python
    reference manual (optional sign, digit groups separated by single
    underscores, optional fraction and exponent, [inf], [infinity] and
    [nan] in any case).  [float(s)] returns the binary64 value of the
    decimal, [Binary64.fl]. *)

From Stdlib Require Import QArith ZArith List Lia String Ascii.
From S2P Require Import Prelude Binary64.
Import ListNotations.

Open Scope Z_scope.

Definition chars (s : string) : list ascii := list_ascii_of_string s.

(** ** [str.strip], [str.replace], [in], [str.split] *)

(** [c.isspace()] for an ASCII character: tab, line feed, vertical tab,
    form feed, carriage return, the four separators 0x1c-0x1f, space. *)
Definition py_isspace (c : ascii) : bool :=
  let n := nat_of_ascii c in
  ((9 <=? n) && (n <=? 13))%nat || ((28 <=? n) && (n <=? 32))%nat.

Fixpoint lstrip (s : string) : string :=
  match s with
  | EmptyString => EmptyString
  | String c r => if py_isspace c then lstrip r else s
  end.

Fixpoint rstrip (s : string) : string :=
  match s with
  | EmptyString => EmptyString
  | String c r =>
      match rstrip r with
      | EmptyString => if py_isspace c then EmptyString else String c EmptyString
      | r' => String c r'
      end
  end.

(** [s.strip()]. *)
Definition strip (s : string) : string := lstrip (rstrip s).

(** [s.replace(a, b)] for one-character [a] and [b]. *)
Fixpoint replace_char (a b : ascii) (s : string) : string :=
  match s with
  | EmptyString => EmptyString
  | String c r => String (if Ascii.eqb c a then b else c) (replace_char a b r)
  end.

(** [c in s] for a one-character [c]. *)
Fixpoint contains_char (a : ascii) (s : string) : bool :=
  match s with
  | EmptyString => false
  | String c r => Ascii.eqb c a || contains_char a r
  end.

(** [s.split(sep)] for a one-character separator: the pieces between the
    separators, always at least one. *)
Fixpoint split_char (sep : ascii) (s : string) : list string :=
  match s with
  | EmptyString => [EmptyString]
  | String c r =>
      let pieces := split_char sep r in
      if Ascii.eqb c sep then EmptyString :: pieces
      else match pieces with
           | p :: ps => String c p :: ps
           | [] => [String c EmptyString]
           end
  end.

(** ** Digits, signs and the grammar of numerals *)

Definition digit_val (c : ascii) : option Z :=
  let n := nat_of_ascii c in
  if ((48 <=? n) && (n <=? 57))%nat then Some (Z.of_nat (n - 48)) else None.

(** The rest of a [digitpart] after its first digit:
    [(["_"] digit)*]; returns the value, the number of digits and the
    characters that follow. *)
Fixpoint digits_aux (acc : Z) (k : nat) (l : list ascii) : Z * nat * list ascii :=
  match l with
  | c :: r =>
      match digit_val c with
      | Some d => digits_aux (acc * 10 + d) (S k) r
      | None =>
          if Ascii.eqb c "_"%char then
            match r with
            | c' :: r' =>
                match digit_val c' with
                | Some d => digits_aux (acc * 10 + d) (S k) r'
                | None => (acc, k, l)
                end
            | [] => (acc, k, l)
            end
          else (acc, k, l)
      end
  | [] => (acc, k, [])
  end.

(** [digitpart ::= digit (["_"] digit)*]. *)
Definition digitpart (l : list ascii) : option (Z * nat * list ascii) :=
  match l with
  | c :: r => match digit_val c with
              | Some d => Some (digits_aux d 1 r)
              | None => None
              end
  | [] => None
  end.

(** An optional sign: [true] for a minus sign. *)
Definition sign (l : list ascii) : bool * list ascii :=
  match l with
  | c :: r => if Ascii.eqb c "-"%char then (true, r)
              else if Ascii.eqb c "+"%char then (false, r)
              else (false, l)
  | [] => (false, [])
  end.

(** ** [int(s)] *)

(** [int(s)] in base 10: [None] is the [ValueError]. *)
Definition py_int (s : string) : option Z :=
  let '(neg, l) := sign (chars (strip s)) in
  match digitpart l with
  | Some (v, _, []) => Some (if neg then - v else v)
  | _ => None
  end.

(** ** [float(s)] *)

Definition lower (c : ascii) : ascii :=
  let n := nat_of_ascii c in
  if ((65 <=? n) && (n <=? 90))%nat then ascii_of_nat (n + 32) else c.

Definition lower_string (l : list ascii) : list ascii := map lower l.

(** [mant * 10^e] as a rational. *)
Definition decimal_value (mant e : Z) : Q :=
  if 0 <=? e then inject_Z (mant * 10 ^ e) else Qmake mant (Z.to_pos (10 ^ (- e))).

(** [exponent ::= ("e" | "E") [sign] digitpart], or nothing. *)
Definition exponent (l : list ascii) : option (Z * list ascii) :=
  match l with
  | c :: r =>
      if Ascii.eqb (lower c) "e"%char then
        let '(neg, r') := sign r in
        match digitpart r' with
        | Some (v, _, rest) => Some (if neg then - v else v, rest)
        | None => None
        end
      else Some (0, l)
  | [] => Some (0, [])
  end.

(** [number ::= [digitpart] "." digitpart | digitpart ["."]]: the
    mantissa as an integer and the number of fraction digits. *)
Definition number (l : list ascii) : option (Z * nat * list ascii) :=
  let frac (a : Z) (r : list ascii) :=
    match digitpart r with
    | Some (b, kb, rest) => Some (a * 10 ^ Z.of_nat kb + b, kb, rest)
    | None => None
    end in
  match digitpart l with
  | Some (a, _, c :: r) =>
      if Ascii.eqb c "."%char then
        match frac a r with
        | Some res => Some res
        | None => Some (a, O, r)          (* "12." *)
        end
      else Some (a, O, c :: r)
  | Some (a, _, []) => Some (a, O, [])
  | None =>
      match l with
      | c :: r => if Ascii.eqb c "."%char then frac 0 r else None
      | [] => None
      end
  end.

(** The value of an unsigned [absfloatvalue], before rounding. *)
Inductive float_lit := LitNum (q : Q) | LitInf | LitNaN.

Definition abs_float_value (l : list ascii) : option float_lit :=
  let w := lower_string l in
  if list_eq_dec ascii_dec w (chars "inf") then Some LitInf
  else if list_eq_dec ascii_dec w (chars "infinity") then Some LitInf
  else if list_eq_dec ascii_dec w (chars "nan") then Some LitNaN
  else match number l with
       | Some (mant, kf, rest) =>
           match exponent rest with
           | Some (e, []) => Some (LitNum (decimal_value mant (e - Z.of_nat kf)))
           | _ => None
           end
       | None => None
       end.

(** [float(s)]: [None] is the [ValueError]; a finite literal is rounded to
    the nearest double, which may overflow to an infinity. *)
Definition py_float (s : string) : option pyfloat :=
  let '(neg, l) := sign (chars (strip s)) in
  match abs_float_value l with
  | Some (LitNum q) => Some (fl (if neg then Qopp q else q))
  | Some LitInf => Some (if neg then NInf else PInf)
  | Some LitNaN => Some NaN
  | None => None
  end.

(** ** [str(k)] for an integer, and the round trip [int(str(k)) = k] *)

Definition digit_char (d : Z) : ascii := ascii_of_nat (48 + Z.to_nat d).

(** The decimal digits of [n >= 0], most significant first, in front of
    [acc]; [fuel] bounds the number of divisions. *)
Fixpoint dec_digits (fuel : nat) (n : Z) (acc : list Z) : list Z :=
  match fuel with
  | O => n :: acc
  | S f => if n <? 10 then n :: acc else dec_digits f (n / 10) (n mod 10 :: acc)
  end.

(** [str(k)]. *)
Definition py_str_Z (k : Z) : string :=
  let ds := map digit_char (dec_digits (Z.to_nat (Z.log2 (Z.abs k))) (Z.abs k) []) in
  string_of_list_ascii (if k <? 0 then "-"%char :: ds else ds).

(** [a * 10^|ds| + ds] read in base ten. *)
Definition horner (acc : Z) (ds : list Z) : Z := fold_left (fun a d => a * 10 + d) ds acc.

Lemma horner_cons (acc d : Z) (ds : list Z) : horner acc (d :: ds) = horner (acc * 10 + d) ds.
Proof. reflexivity. Qed.

Lemma horner_acc (acc : Z) (ds : list Z) :
  horner acc ds = acc * 10 ^ Z.of_nat (List.length ds) + horner 0 ds.
Proof.
  unfold horner. revert acc. induction ds as [|d ds IH]; intros acc;
    cbn [fold_left List.length].
  - simpl. ring.
  - rewrite IH, (IH (0 * 10 + d)). rewrite Nat2Z.inj_succ, Z.pow_succ_r by lia. ring.
Qed.

Lemma dec_digits_spec (fuel : nat) (n : Z) (acc : list Z) :
  0 <= n -> n < 10 ^ Z.of_nat (S fuel) ->
  horner 0 (dec_digits fuel n acc) = n * 10 ^ Z.of_nat (List.length acc) + horner 0 acc
  /\ (Forall (fun d => 0 <= d <= 9) acc -> Forall (fun d => 0 <= d <= 9) (dec_digits fuel n acc))
  /\ exists d ds, dec_digits fuel n acc = d :: ds.
Proof.
  revert n acc. induction fuel as [|f IH]; intros n acc Hn Hlt.
  - cbn [dec_digits]. rewrite horner_cons, horner_acc.
    change (10 ^ Z.of_nat 1) with 10 in Hlt.
    split; [ring|]. split; [intros; constructor; [lia|assumption]|eauto].
  - cbn [dec_digits]. destruct (Z.ltb_spec n 10) as [H10|H10].
    + rewrite horner_cons, horner_acc.
      split; [ring|]. split; [intros; constructor; [lia|assumption]|eauto].
    + pose proof (Z.div_mod n 10 ltac:(lia)) as Hdm.
      pose proof (Z.mod_pos_bound n 10 ltac:(lia)) as Hm.
      assert (Hq : n / 10 < 10 ^ Z.of_nat (S f)).
      { apply Z.div_lt_upper_bound; [lia|].
        rewrite <- Z.pow_succ_r by lia. rewrite <- Nat2Z.inj_succ. exact Hlt. }
      destruct (IH (n / 10) (n mod 10 :: acc) ltac:(apply Z.div_pos; lia) Hq)
        as (Hh & Hf & Hne).
      split; [|split; [intros; apply Hf; constructor; [lia|assumption]|exact Hne]].
      rewrite Hh. cbn [List.length]. rewrite horner_cons, (horner_acc (0 * 10 + n mod 10)).
      rewrite Nat2Z.inj_succ, Z.pow_succ_r by lia.
      transitivity ((10 * (n / 10) + n mod 10) * 10 ^ Z.of_nat (List.length acc)
                    + horner 0 acc); [ring|].
      rewrite <- Hdm. reflexivity.
Qed.

Lemma digit_val_char (d : Z) : 0 <= d <= 9 -> digit_val (digit_char d) = Some d.
Proof.
  intros Hd. unfold digit_val, digit_char.
  rewrite nat_ascii_embedding by lia.
  replace (48 <=? 48 + Z.to_nat d)%nat with true by (symmetry; apply Nat.leb_le; lia).
  replace (48 + Z.to_nat d <=? 57)%nat with true by (symmetry; apply Nat.leb_le; lia).
  simpl. f_equal. lia.
Qed.

Lemma digits_aux_digits (acc : Z) (k : nat) (ds : list Z) :
  Forall (fun d => 0 <= d <= 9) ds ->
  digits_aux acc k (map digit_char ds) = (horner acc ds, (k + List.length ds)%nat, []).
Proof.
  revert acc k. induction ds as [|d ds IH]; intros acc k Hds; cbn [map digits_aux].
  - rewrite Nat.add_0_r. reflexivity.
  - inversion Hds as [|? ? Hd Hds']; subst.
    rewrite digit_val_char by exact Hd. rewrite IH by exact Hds'.
    rewrite horner_cons. cbn [List.length]. rewrite Nat.add_succ_r. reflexivity.
Qed.

Lemma strip_id (l : list ascii) :
  Forall (fun c => py_isspace c = false) l ->
  strip (string_of_list_ascii l) = string_of_list_ascii l.
Proof.
  intros Hl. unfold strip.
  assert (R : rstrip (string_of_list_ascii l) = string_of_list_ascii l).
  { induction Hl as [|c l Hc Hl IH]; [reflexivity|].
    simpl. rewrite IH. destruct l; simpl; [rewrite Hc|]; reflexivity. }
  rewrite R. destruct Hl as [|c l Hc _]; simpl; [reflexivity|]. rewrite Hc. reflexivity.
Qed.

Lemma digit_char_not_space (d : Z) : 0 <= d <= 9 -> py_isspace (digit_char d) = false.
Proof.
  intros Hd. unfold py_isspace, digit_char. rewrite nat_ascii_embedding by lia.
  apply Bool.orb_false_iff. split; apply Bool.andb_false_iff; right; apply Nat.leb_gt; lia.
Qed.

Lemma digit_char_not_sign (d : Z) (c : ascii) :
  0 <= d <= 9 -> (nat_of_ascii c < 48)%nat -> Ascii.eqb (digit_char d) c = false.
Proof.
  intros Hd Hc. apply Ascii.eqb_neq. intros E. unfold digit_char in E.
  apply (f_equal nat_of_ascii) in E. rewrite nat_ascii_embedding in E by lia. lia.
Qed.

(** The fuel of [py_str_Z] is enough: [|k| < 10 ^ (log2 |k| + 1)]. *)
Lemma py_str_Z_fuel (k : Z) : Z.abs k < 10 ^ Z.of_nat (S (Z.to_nat (Z.log2 (Z.abs k)))).
Proof.
  rewrite Nat2Z.inj_succ, Z2Nat.id by apply Z.log2_nonneg.
  destruct (Z.eq_dec (Z.abs k) 0) as [E|E]; [rewrite E; cbn; lia|].
  pose proof (Z.log2_spec (Z.abs k) ltac:(lia)) as [_ H].
  pose proof (Z.pow_le_mono_l 2 10 (Z.succ (Z.log2 (Z.abs k))) ltac:(lia)). lia.
Qed.

(** [int(str(k)) == k]. *)
Lemma py_int_str (k : Z) : py_int (py_str_Z k) = Some k.
Proof.
  unfold py_int, py_str_Z.
  pose proof (py_str_Z_fuel k) as Hlt.
  destruct (dec_digits_spec (Z.to_nat (Z.log2 (Z.abs k))) (Z.abs k) [] ltac:(lia) Hlt)
    as (Hh & Hf & d & ds & Hds).
  pose proof (Hf (Forall_nil _)) as Hdig. rewrite Hds in Hh, Hdig. rewrite Hds.
  apply Forall_cons_iff in Hdig as [Hd Hds'].
  assert (Hv : horner d ds = Z.abs k).
  { rewrite horner_cons in Hh. replace (0 * 10 + d) with d in Hh by ring.
    rewrite Hh. change (10 ^ Z.of_nat (List.length (@nil Z))) with 1.
    change (horner 0 []) with 0. ring. }
  assert (Hsp : Forall (fun c => py_isspace c = false) (map digit_char (d :: ds))).
  { apply Forall_map. apply Forall_cons; [apply digit_char_not_space; exact Hd|].
    eapply Forall_impl; [|exact Hds']. apply digit_char_not_space. }
  assert (Hdp : digitpart (map digit_char (d :: ds))
                = Some (Z.abs k, S (List.length ds), [])).
  { cbn [map digitpart]. rewrite digit_val_char by exact Hd.
    rewrite digits_aux_digits by exact Hds'. rewrite Hv. reflexivity. }
  destruct (Z.ltb_spec k 0) as [Hk|Hk].
  - rewrite strip_id by (constructor; [reflexivity|exact Hsp]).
    unfold chars. rewrite list_ascii_of_string_of_list_ascii.
    change (sign ("-"%char :: map digit_char (d :: ds)))
      with (true, map digit_char (d :: ds)).
    cbv iota beta. rewrite Hdp. f_equal. lia.
  - rewrite strip_id by exact Hsp.
    unfold chars. rewrite list_ascii_of_string_of_list_ascii.
    assert (Hs : sign (map digit_char (d :: ds)) = (false, map digit_char (d :: ds))).
    { cbn [map sign]. rewrite !digit_char_not_sign by (exact Hd || (cbv; lia)).
      reflexivity. }
    rewrite Hs. cbv iota beta. rewrite Hdp. f_equal. lia.
Qed.

(** ** Strings whose characters all avoid a separator *)

(** Every character of [s] satisfies [P]. *)
Definition all_chars (P : ascii -> Prop) (s : string) : Prop := Forall P (chars s).

Lemma all_chars_cons (P : ascii -> Prop) (c : ascii) (s : string) :
  all_chars P (String c s) <-> P c /\ all_chars P s.
Proof. unfold all_chars, chars. simpl. apply Forall_cons_iff. Qed.

Lemma strip_nospace (s : string) :
  all_chars (fun c => py_isspace c = false) s -> strip s = s.
Proof.
  intros H. rewrite <- (string_of_list_ascii_of_string s).
  apply strip_id. exact H.
Qed.

Lemma replace_char_absent (a b : ascii) (s : string) :
  all_chars (fun c => c <> a) s -> replace_char a b s = s.
Proof.
  induction s as [|c s IH]; intros H; [reflexivity|].
  apply all_chars_cons in H as [Hc Hs]. simpl. rewrite IH by exact Hs.
  destruct (Ascii.eqb_spec c a); [contradiction|reflexivity].
Qed.

Lemma contains_char_absent (a : ascii) (s : string) :
  all_chars (fun c => c <> a) s -> contains_char a s = false.
Proof.
  induction s as [|c s IH]; intros H; [reflexivity|].
  apply all_chars_cons in H as [Hc Hs]. simpl. rewrite IH by exact Hs.
  destruct (Ascii.eqb_spec c a); [contradiction|reflexivity].
Qed.

Lemma split_char_absent (sep : ascii) (s : string) :
  all_chars (fun c => c <> sep) s -> split_char sep s = [s].
Proof.
  induction s as [|c s IH]; intros H; [reflexivity|].
  apply all_chars_cons in H as [Hc Hs]. simpl. rewrite IH by exact Hs.
  destruct (Ascii.eqb_spec c sep); [contradiction|reflexivity].
Qed.

(** The characters of [str(k)]: a minus sign and decimal digits. *)
Definition numeral_char (c : ascii) : Prop :=
  c = "-"%char \/ exists d, 0 <= d <= 9 /\ c = digit_char d.

Lemma py_str_Z_chars (k : Z) : all_chars numeral_char (py_str_Z k).
Proof.
  unfold all_chars, chars, py_str_Z. rewrite list_ascii_of_string_of_list_ascii.
  pose proof (py_str_Z_fuel k) as Hlt.
  destruct (dec_digits_spec (Z.to_nat (Z.log2 (Z.abs k))) (Z.abs k) [] ltac:(lia) Hlt)
    as (_ & Hf & _).
  assert (Hm : Forall numeral_char
                 (map digit_char (dec_digits (Z.to_nat (Z.log2 (Z.abs k))) (Z.abs k) []))).
  { apply Forall_map. eapply Forall_impl; [|exact (Hf (Forall_nil _))].
    intros d Hd. right. exists d. split; [exact Hd|reflexivity]. }
  destruct (k <? 0); [constructor; [left; reflexivity|]|]; exact Hm.
Qed.

(** A numeral character is none of the characters the parser looks for. *)
Lemma numeral_char_avoids (c a : ascii) :
  numeral_char c -> (nat_of_ascii a < 45 \/ 45 < nat_of_ascii a < 48 \/ 57 < nat_of_ascii a)%nat ->
  c <> a.
Proof.
  intros [->|(d & Hd & ->)] Ha E; subst a.
  - change (nat_of_ascii "-") with 45%nat in Ha. lia.
  - unfold digit_char in Ha. rewrite nat_ascii_embedding in Ha by lia. lia.
Qed.

Lemma numeral_char_not_space (c : ascii) : numeral_char c -> py_isspace c = false.
Proof.
  intros [->|(d & Hd & ->)]; [reflexivity|]. apply digit_char_not_space. exact Hd.
Qed.

Lemma all_chars_impl (P Q : ascii -> Prop) (s : string) :
  (forall c, P c -> Q c) -> all_chars P s -> all_chars Q s.
Proof. intros H. apply Forall_impl. exact H. Qed.

(** ** Fixed-point numerals [-?d+.d+], as [f"{x:.kf}"] writes them *)

Lemma chars_app (a b : string) : chars (a ++ b) = chars a ++ chars b.
Proof.
  unfold chars. induction a as [|c a IH]; [reflexivity|]. cbn. f_equal. exact IH.
Qed.

Lemma dec_digits_length (fuel : nat) (n : Z) (acc : list Z) (j : nat) :
  0 <= n -> n < 10 ^ Z.of_nat j -> (1 <= j)%nat ->
  (List.length (dec_digits fuel n acc) <= j + List.length acc)%nat.
Proof.
  revert n acc j. induction fuel as [|f IH]; intros n acc j Hn Hlt Hj; cbn [dec_digits].
  - cbn [List.length]. lia.
  - destruct (Z.ltb_spec n 10) as [H10|H10]; [cbn [List.length]; lia|].
    destruct j as [|j]; [lia|].
    rewrite Nat2Z.inj_succ, Z.pow_succ_r in Hlt by lia.
    assert (Hj' : (1 <= j)%nat) by (destruct j; [cbn in Hlt; lia|lia]).
    assert (Hq : n / 10 < 10 ^ Z.of_nat j) by (apply Z.div_lt_upper_bound; lia).
    pose proof (IH (n / 10) (n mod 10 :: acc) j ltac:(apply Z.div_pos; lia) Hq Hj') as H.
    cbn [List.length] in H |- *. lia.
Qed.

(** [str(m)] of [m >= 0]: decimal digits that read back as [m], at most
    [j] of them when [m < 10^j]. *)
Lemma py_str_Z_nonneg (m : Z) : 0 <= m ->
  exists ds, chars (py_str_Z m) = map digit_char ds /\ ds <> []
    /\ Forall (fun d => 0 <= d <= 9) ds /\ horner 0 ds = m
    /\ forall j, (1 <= j)%nat -> m < 10 ^ Z.of_nat j -> (List.length ds <= j)%nat.
Proof.
  intros Hm. unfold py_str_Z, chars. cbv zeta. rewrite list_ascii_of_string_of_list_ascii.
  replace (m <? 0) with false by (symmetry; apply Z.ltb_ge; lia).
  pose proof (py_str_Z_fuel m) as Hlt. rewrite Z.abs_eq in * by exact Hm.
  destruct (dec_digits_spec _ m [] Hm Hlt) as (Hh & Hf & d & ds & Hds).
  eexists. split; [reflexivity|]. split; [rewrite Hds; discriminate|].
  split; [exact (Hf (Forall_nil _))|]. split; [rewrite Hh; cbn; ring|].
  intros j Hj Hmj. pose proof (dec_digits_length (Z.to_nat (Z.log2 m)) m [] j Hm Hmj Hj) as H.
  cbn [List.length] in H. lia.
Qed.

(** A [digitpart] stops at the first character that is neither a digit
    nor an underscore. *)
Lemma digits_aux_app (acc : Z) (k : nat) (ds : list Z) (c : ascii) (rest : list ascii) :
  Forall (fun d => 0 <= d <= 9) ds -> digit_val c = None -> Ascii.eqb c "_"%char = false ->
  digits_aux acc k (map digit_char ds ++ c :: rest) = (horner acc ds, (k + List.length ds)%nat, c :: rest).
Proof.
  revert acc k. induction ds as [|d ds IH]; intros acc k Hds Hc Hu; cbn [map app digits_aux].
  - rewrite Hc, Hu, Nat.add_0_r. reflexivity.
  - inversion Hds as [|? ? Hd Hds']; subst.
    rewrite digit_val_char by exact Hd. rewrite IH by assumption.
    rewrite horner_cons. cbn [List.length]. rewrite Nat.add_succ_r. reflexivity.
Qed.

Lemma digits_not_space (ds : list Z) :
  Forall (fun d => 0 <= d <= 9) ds -> Forall (fun c => py_isspace c = false) (map digit_char ds).
Proof. intros H. apply Forall_map. eapply Forall_impl; [|exact H]. apply digit_char_not_space. Qed.

Lemma lower_digit (d : Z) : 0 <= d <= 9 -> lower (digit_char d) = digit_char d.
Proof.
  intros Hd. unfold lower.
  replace ((65 <=? nat_of_ascii (digit_char d))%nat) with false; [reflexivity|].
  symmetry. apply Nat.leb_gt. unfold digit_char. rewrite nat_ascii_embedding by lia. lia.
Qed.

(** [float(s)] of a fixed-point numeral: the decimal [a.b], rounded. *)
Lemma py_float_fixed (s : string) (neg : bool) (ds1 ds2 : list Z) :
  ds1 <> [] -> ds2 <> [] -> Forall (fun d => 0 <= d <= 9) ds1 -> Forall (fun d => 0 <= d <= 9) ds2 ->
  chars s = (if neg then ["-"%char] else []) ++ map digit_char ds1 ++ "."%char :: map digit_char ds2 ->
  py_float s = Some (fl (let v := Qmake (horner (horner 0 ds1) ds2) (Z.to_pos (10 ^ Z.of_nat (List.length ds2)))
                         in if neg then Qopp v else v)).
Proof.
  intros N1 N2 F1 F2 Hs. unfold py_float.
  rewrite strip_nospace
    by (unfold all_chars; rewrite Hs; apply Forall_app; split;
        [destruct neg; repeat constructor|apply Forall_app; split;
          [apply digits_not_space, F1|constructor; [reflexivity|apply digits_not_space, F2]]]).
  rewrite Hs. destruct ds1 as [|d1 ds1]; [congruence|]. destruct ds2 as [|d2 ds2]; [congruence|].
  inversion F1 as [|? ? Hd1 F1']; inversion F2 as [|? ? Hd2 F2']; subst.
  assert (Hsg : sign (map digit_char (d1 :: ds1) ++ "."%char :: map digit_char (d2 :: ds2))
                = (false, map digit_char (d1 :: ds1) ++ "."%char :: map digit_char (d2 :: ds2))).
  { cbn [map app sign]. rewrite !digit_char_not_sign by (exact Hd1 || (cbv; lia)). reflexivity. }
  set (l := map digit_char (d1 :: ds1) ++ "."%char :: map digit_char (d2 :: ds2)) in *.
  assert (Hnum : number l = Some (horner (horner 0 (d1 :: ds1)) (d2 :: ds2), S (List.length ds2), [])).
  { unfold number, l. cbn [map app digitpart]. rewrite digit_val_char by exact Hd1.
    rewrite digits_aux_app by (exact F1' || reflexivity). cbv iota.
    cbn [Ascii.eqb Bool.eqb]. unfold digitpart at 1. cbn [map]. rewrite digit_val_char by exact Hd2.
    rewrite digits_aux_digits by exact F2'.
    rewrite (horner_acc (horner 0 (d1 :: ds1))). cbn [List.length]. reflexivity. }
  assert (Hav : abs_float_value l
                = Some (LitNum (Qmake (horner (horner 0 (d1 :: ds1)) (d2 :: ds2))
                                      (Z.to_pos (10 ^ Z.of_nat (List.length (d2 :: ds2))))))).
  { unfold abs_float_value. unfold l at 1 2 3. cbn [map app lower_string List.map].
    assert (Hl : forall w, lower (digit_char d1) :: w <> chars "inf"
                           /\ lower (digit_char d1) :: w <> chars "infinity"
                           /\ lower (digit_char d1) :: w <> chars "nan").
    { intros w. rewrite lower_digit by exact Hd1.
      repeat split; intros E; injection E as E _;
        apply (f_equal nat_of_ascii) in E; unfold digit_char in E;
        rewrite nat_ascii_embedding in E by lia; cbn in E; lia. }
    destruct (Hl (map lower (map digit_char ds1 ++ "."%char :: digit_char d2 :: map digit_char ds2)))
      as (A & B & C).
    destruct (list_eq_dec _ _ _) as [E|_]; [contradiction|].
    destruct (list_eq_dec _ _ _) as [E|_]; [contradiction|].
    destruct (list_eq_dec _ _ _) as [E|_]; [contradiction|].
    rewrite Hnum. cbn [exponent]. unfold decimal_value.
    replace (0 - Z.of_nat (S (List.length ds2))) with (- Z.of_nat (S (List.length ds2))) by ring.
    replace (0 <=? - Z.of_nat (S (List.length ds2))) with false by (symmetry; apply Z.leb_gt; lia).
    rewrite Z.opp_involutive. reflexivity. }
  destruct neg.
  - cbn [app]. change (sign ("-"%char :: l)) with (true, l). cbv iota beta. rewrite Hav. reflexivity.
  - cbn [app]. rewrite Hsg. fold l. cbv iota beta. rewrite Hav. reflexivity.
Qed.

Close Scope Z_scope.
