(* ===== verification/Saaty.v ===== *)
(** * Saaty: the pairwise-comparison parser [parse_saaty_value]

    [parse_saaty_value(value_str, is_diagonal)] (controller/ahp.py:24-86)
    reads one cell of a comparison matrix: it strips the text, turns a
    decimal comma into a point, accepts only ["1"] on the diagonal, a
    fraction ["1/d"] with [2 <= d <= 9], an integer from 1 to 9, or a
    decimal whose rounding to ten places is the rounding of one of
    [1/2, ..., 1/9]; every other text raises a [ValueError].  The model
    returns the float the code returns, or the [ValueError] as a
    [parse_error] naming the [raise] that produced it.

    Theorems: the spec's examples; the exact behaviour on every fraction
    ["1/" + str(d)] and every integer ["k"] with [|k| < 2^53]; soundness
    (every accepted value is an integer of the scale or within [1e-10] of
    a reciprocal) and its bound [1/10 <= v <= 9], on which the matrix
    builders rely. *)

From Stdlib Require Import QArith Qabs Qpower Qround ZArith List Lia Lqa String Ascii.
From S2P Require Import Prelude Binary64 PyStr.
Import ListNotations.

(** ** The model *)

(** The [raise ValueError(...)] sites of the parser. *)
Inductive parse_error : Type :=
| DiagonalNotOne            (* ahp.py:32 *)
| FractionBadDenominator    (* ahp.py:43-47: int() fails or d outside 2..9 *)
| FractionBadShape          (* ahp.py:49-51 *)
| NotANumber                (* ahp.py:56-59: float() fails *)
| IntegerOutOfScale         (* ahp.py:74-76 *)
| DecimalNotSaaty.          (* ahp.py:84-86 *)

(** [x == y] on floats. *)
Definition pf_eqb (x y : pyfloat) : bool :=
  match x, y with
  | Fin a, Fin b => Qeq_bool a b
  | PInf, PInf | NInf, NInf => true
  | _, _ => false
  end.

(** [x.is_integer()]. *)
Definition float_is_integer (x : pyfloat) : bool :=
  match x with
  | Fin q => Qeq_bool (inject_Z (Qfloor q)) q
  | _ => false
  end.

(** [range(2, 10)]. *)
Definition saaty_denominators : list Z := [2; 3; 4; 5; 6; 7; 8; 9]%Z.

(** [{round(1 / d, 10) for d in range(2, 10)}] (ahp.py:71 and 80). *)
Definition valid_saaty_reciprocals : list pyfloat :=
  map (fun d => py_round 10 (fl (1 / inject_Z d))) saaty_denominators.

(** [x in valid_saaty_reciprocals]. *)
Definition in_reciprocals (x : pyfloat) : bool :=
  existsb (pf_eqb x) valid_saaty_reciprocals.

(** [str(value_str).strip().replace(",", ".")] (ahp.py:25-27). *)
Definition normalize (s : string) : string := replace_char ","%char "."%char (strip s).

(** [parse_saaty_value(value_str, is_diagonal)] (ahp.py:24-86). *)
Definition parse_saaty_value (value_str : string) (is_diagonal : bool)
  : result parse_error pyfloat :=
  let s := normalize value_str in
  if is_diagonal then
    (if string_dec s "1" then Ok (Fin 1) else Err DiagonalNotOne)
  else if contains_char "/"%char s then
    match split_char "/"%char s with
    | [p0; p1] =>
        if string_dec (strip p0) "1" then
          match py_int (strip p1) with
          | Some d =>
              if ((2 <=? d) && (d <=? 9))%Z then Ok (fl (1 / inject_Z d))
              else Err FractionBadDenominator
          | None => Err FractionBadDenominator
          end
        else Err FractionBadShape
    | _ => Err FractionBadShape
    end
  else
    match py_float s with
    | None => Err NotANumber
    | Some v =>
        if float_is_integer v then
          let val_int := match v with Fin q => Qfloor q | _ => 0%Z end in
          if ((1 <=? val_int) && (val_int <=? 9))%Z then Ok (Fin (inject_Z val_int))
          else if in_reciprocals (py_round 10 v) then Ok v
          else Err IntegerOutOfScale
        else if in_reciprocals (py_round 10 v) then Ok v
        else Err DecimalNotSaaty
    end.

(** ** The reciprocal table, checked by evaluation *)

(** The acceptance window of the spec: [1e-10]. *)
Definition window : Q := 1 # 10000000000.

(** [round(1/d, 10)] is a float [c] with [|c| <= 1] and
    [|c - 1/d| + 1/(2 * 10^10) + 2^-51 <= 1e-10]. *)
Definition recip_entry_ok (d : Z) : bool :=
  match py_round 10 (fl (1 / inject_Z d)) with
  | Fin c =>
      Qle_bool (Qabs c) 1
      && Qle_bool (Qabs (c - 1 / inject_Z d)
                   + ((1 # 2) / inject_Z (10 ^ Z.of_nat 10) + 2 ^ (-51))) window
  | _ => false
  end.

(** [1.0 / d] is a float within [1e-10] of [1/d], between [1/10] and [9]. *)
Definition fraction_entry_ok (d : Z) : bool :=
  match fl (1 / inject_Z d) with
  | Fin c => Qle_bool (Qabs (c - 1 / inject_Z d)) window
             && Qle_bool (1 # 10) c && Qle_bool c 9
  | _ => false
  end.

Lemma recip_table : forallb recip_entry_ok saaty_denominators = true.
Proof. vm_compute. reflexivity. Qed.

Lemma fraction_table : forallb fraction_entry_ok saaty_denominators = true.
Proof. vm_compute. reflexivity. Qed.

Lemma denominators_range (d : Z) : In d saaty_denominators <-> (2 <= d <= 9)%Z.
Proof.
  unfold saaty_denominators. simpl. split.
  - intros H. repeat destruct H as [<-|H]; lia || contradiction.
  - intros H.
    assert (E : (d = 2 \/ d = 3 \/ d = 4 \/ d = 5 \/ d = 6 \/ d = 7 \/ d = 8 \/ d = 9)%Z)
      by lia.
    destruct E as [E|[E|[E|[E|[E|[E|[E|E]]]]]]]; subst; simpl; tauto.
Qed.

Lemma recip_bounds (d : Z) : (2 <= d <= 9)%Z -> 1 # 9 <= 1 / inject_Z d <= 1 # 2.
Proof.
  intros [H2 H9]. rewrite Zle_Qle in H2, H9.
  change (inject_Z 2) with 2 in H2. change (inject_Z 9) with 9 in H9.
  split.
  - apply Qle_shift_div_l; lra.
  - apply Qle_shift_div_r; lra.
Qed.

(** A value accepted through the decimal branch is within [1e-10] of a
    reciprocal of the scale. *)
Lemma in_reciprocals_close (v : pyfloat) :
  in_reciprocals (py_round 10 v) = true ->
  exists q, v = Fin q /\ exists d, (2 <= d <= 9)%Z /\ Qabs (q - 1 / inject_Z d) <= window.
Proof.
  destruct v as [q| | |]; [|vm_compute; discriminate ..].
  unfold in_reciprocals, valid_saaty_reciprocals.
  intros Hin. apply existsb_exists in Hin as (x & Hx & Heq).
  apply in_map_iff in Hx as (d & <- & Hd).
  pose proof (proj1 (forallb_forall _ _) recip_table d Hd) as Hok.
  unfold recip_entry_ok in Hok.
  destruct (py_round 10 (fl (1 / inject_Z d))) as [c| | |]; try discriminate.
  apply andb_prop in Hok as [Hc Hw]. apply Qle_bool_iff in Hc, Hw.
  destruct (py_round 10 (Fin q)) as [r| | |] eqn:Er; try discriminate.
  apply Qeq_bool_eq in Heq.
  apply py_round_close in Er; [|rewrite Heq; exact Hc].
  exists q. split; [reflexivity|]. exists d. split; [apply denominators_range, Hd|].
  pose proof (Qabs_triangle (q - r) (r - 1 / inject_Z d)) as T.
  assert (E : q - r + (r - 1 / inject_Z d) == q - 1 / inject_Z d) by ring.
  rewrite E, (Qabs_Qminus q r), Heq in T. rewrite Heq in Er. lra.
Qed.

(** The values of the Saaty scale up to the acceptance window: an integer
    from 1 to 9, or a value within [1e-10] of [1/d] for [2 <= d <= 9]. *)
Definition saaty_scale_value (q : Q) : Prop :=
  (exists k : Z, (1 <= k <= 9)%Z /\ q == inject_Z k)
  \/ (exists d : Z, (2 <= d <= 9)%Z /\ Qabs (q - 1 / inject_Z d) <= window).

Lemma saaty_scale_value_bounds (q : Q) : saaty_scale_value q -> 1 # 10 <= q <= 9.
Proof.
  intros [(k & Hk & Hq)|(d & Hd & Hq)].
  - rewrite Hq. destruct Hk as [H1 H9]. rewrite Zle_Qle in H1, H9.
    change (inject_Z 1) with 1 in H1. change (inject_Z 9) with 9 in H9. lra.
  - apply recip_bounds in Hd. apply Qabs_diff_Qle_condition in Hq.
    unfold window in Hq. lra.
Qed.

(** ** Behaviour of the parser *)

(** On the diagonal only the text ["1"] is accepted, as [1.0]. *)
Lemma parse_saaty_value_diagonal (s : string) (v : pyfloat) :
  parse_saaty_value s true = Ok v -> v = Fin 1.
Proof.
  unfold parse_saaty_value. cbv zeta. cbn iota.
  destruct (string_dec (normalize s) "1"); [|discriminate]. intros H. injection H as <-.
  reflexivity.
Qed.

(** What an accepted value is, syntactically: the float of an integer
    from 1 to 9, or a float within [1e-10] of [1/d]. *)
Lemma parse_saaty_value_cases (s : string) (v : pyfloat) :
  parse_saaty_value s false = Ok v ->
  (exists k : Z, (1 <= k <= 9)%Z /\ v = Fin (inject_Z k))
  \/ (exists q d, v = Fin q /\ (2 <= d <= 9)%Z /\ Qabs (q - 1 / inject_Z d) <= window).
Proof.
  unfold parse_saaty_value. cbv zeta. cbn iota.
  destruct (contains_char "/"%char (normalize s)).
  - destruct (split_char "/"%char (normalize s)) as [|p0 [|p1 [|]]]; try discriminate.
    destruct (string_dec (strip p0) "1"); [|discriminate].
    destruct (py_int (strip p1)) as [d|]; [|discriminate].
    destruct ((2 <=? d) && (d <=? 9))%Z eqn:Ed; [|discriminate].
    intros Hv. injection Hv as <-.
    apply andb_prop in Ed as [E2 E9]. apply Z.leb_le in E2, E9.
    assert (Hd : In d saaty_denominators) by (apply denominators_range; lia).
    pose proof (proj1 (forallb_forall _ _) fraction_table d Hd) as Hok.
    unfold fraction_entry_ok in Hok.
    destruct (fl (1 / inject_Z d)) as [c| | |]; try discriminate.
    apply andb_prop in Hok as [Hok _]. apply andb_prop in Hok as [Hw _].
    apply Qle_bool_iff in Hw.
    right. exists c, d. split; [reflexivity|]. split; [lia|exact Hw].
  - destruct (py_float (normalize s)) as [x|]; [|discriminate].
    destruct (float_is_integer x) eqn:Ei.
    + destruct x as [q| | |]; try discriminate Ei.
      destruct ((1 <=? Qfloor q) && (Qfloor q <=? 9))%Z eqn:Ek.
      * intros Hv. injection Hv as <-. left. exists (Qfloor q).
        apply andb_prop in Ek as [E1 E9]. apply Z.leb_le in E1, E9.
        split; [lia|reflexivity].
      * destruct (in_reciprocals (py_round 10 (Fin q))) eqn:Er; [|discriminate].
        intros Hv. injection Hv as <-.
        apply in_reciprocals_close in Er as (q' & Hq' & Hclose).
        right. destruct Hclose as (d & Hd & Hc). exists q', d. auto.
    + destruct (in_reciprocals (py_round 10 x)) eqn:Er; [|discriminate].
      intros Hv. injection Hv as <-.
      apply in_reciprocals_close in Er as (q' & Hq' & Hclose).
      right. destruct Hclose as (d & Hd & Hc). exists q', d. auto.
Qed.

Lemma parse_saaty_value_scale (s : string) (v : pyfloat) :
  parse_saaty_value s false = Ok v -> exists q, v = Fin q /\ saaty_scale_value q.
Proof.
  intros H. destruct (parse_saaty_value_cases s v H) as [(k & Hk & ->)|(q & d & -> & Hd & Hq)].
  - exists (inject_Z k). split; [reflexivity|]. left. exists k. split; [exact Hk|reflexivity].
  - exists q. split; [reflexivity|]. right. exists d. auto.
Qed.

(** [C5] Soundness: every value [parse_saaty_value] accepts off the
    diagonal is a finite float that is an integer from 1 to 9 or lies within
    [1e-10] of [1/d] for some [2 <= d <= 9]. *)
Theorem parse_saaty_value_sound (s : string) (v : pyfloat) :
  parse_saaty_value s false = Ok v -> exists q, v = Fin q /\ saaty_scale_value q.
Proof. apply parse_saaty_value_scale. Qed.

(** Bounds: an accepted value [v] satisfies [1/10 <= v <= 9]; in
    particular [abs(parsed_val) > 1e-9] always holds in the matrix builders
    and their [np.inf] sentinel is never stored. *)
Corollary parse_saaty_value_bounds (s : string) (v : pyfloat) :
  parse_saaty_value s false = Ok v -> exists q, v = Fin q /\ 1 # 10 <= q <= 9.
Proof.
  intros H. apply parse_saaty_value_scale in H as (q & -> & Hq).
  exists q. split; [reflexivity|]. apply saaty_scale_value_bounds, Hq.
Qed.

(** Fractions: the text ["1/" + str(d)] is accepted exactly when
    [2 <= d <= 9], as the float [1.0 / d]; every other integer [d]
    (including 0, 1, 10 and negative ones) is rejected as a bad
    denominator. *)
Theorem parse_saaty_value_fraction (d : Z) :
  parse_saaty_value ("1/" ++ py_str_Z d) false
  = if ((2 <=? d) && (d <=? 9))%Z then Ok (fl (1 / inject_Z d))
    else Err FractionBadDenominator.
Proof.
  pose proof (py_str_Z_chars d) as Hc. pose proof (py_int_str d) as Hi.
  generalize dependent (py_str_Z d). intros s Hc Hi.
  assert (Hsp : all_chars (fun c => py_isspace c = false) s)
    by (eapply all_chars_impl; [apply numeral_char_not_space|exact Hc]).
  assert (Hsl : all_chars (fun c => c <> "/"%char) s)
    by (eapply all_chars_impl; [intros c Hc'; apply numeral_char_avoids; [exact Hc'|cbv; lia]|exact Hc]).
  assert (Hco : all_chars (fun c => c <> ","%char) s)
    by (eapply all_chars_impl; [intros c Hc'; apply numeral_char_avoids; [exact Hc'|cbv; lia]|exact Hc]).
  change ("1/" ++ s)%string with (String "1" (String "/" s)).
  assert (Hn : normalize (String "1" (String "/" s)) = String "1" (String "/" s)).
  { unfold normalize. rewrite strip_nospace.
    - rewrite replace_char_absent; [reflexivity|].
      apply all_chars_cons; split; [discriminate|].
      apply all_chars_cons; split; [discriminate|exact Hco].
    - apply all_chars_cons; split; [reflexivity|].
      apply all_chars_cons; split; [reflexivity|exact Hsp]. }
  assert (Hsplit : split_char "/"%char (String "1" (String "/" s)) = ["1"%string; s]).
  { cbn [split_char]. rewrite split_char_absent by exact Hsl. reflexivity. }
  unfold parse_saaty_value. cbv zeta. rewrite Hn. cbn iota.
  change (contains_char "/"%char (String "1" (String "/" s))) with true. cbn iota.
  rewrite Hsplit, (strip_nospace s Hsp), Hi.
  change (strip "1") with "1"%string. reflexivity.
Qed.

(** Witness of [C5]: the fraction ["1/4"] is accepted and is a value of the
    scale. *)
Lemma parse_saaty_value_sound_witness :
  exists q, fl (1 / inject_Z 4) = Fin q /\ saaty_scale_value q.
Proof.
  apply (parse_saaty_value_sound "1/4" (fl (1 / inject_Z 4))).
  vm_compute. reflexivity.
Defined.

(** The examples of the spec: ["1/4"] and ["0.25"] both give [0.25],
    ["4"] gives [4.0]; ["1/10"], ["10"] and ["abc"] are rejected, and so is
    ["2"] on the diagonal. *)
Example parse_saaty_value_spec_examples :
  parse_saaty_value "1/4" false = Ok (Fin (4503599627370496 # 18014398509481984))
  /\ parse_saaty_value "0.25" false = Ok (Fin (4503599627370496 # 18014398509481984))
  /\ 4503599627370496 # 18014398509481984 == 1 # 4
  /\ parse_saaty_value "4" false = Ok (Fin 4)
  /\ parse_saaty_value "1/10" false = Err FractionBadDenominator
  /\ parse_saaty_value "10" false = Err IntegerOutOfScale
  /\ parse_saaty_value "abc" false = Err NotANumber
  /\ parse_saaty_value "2" true = Err DiagonalNotOne.
Proof. repeat split; vm_compute; reflexivity. Qed.

(** The acceptance window is "rounds to the same ten decimals", not
    "within 1e-10" as the spec says: ["0.25000000006"] lies within [1e-10]
    of [1/4] (even after conversion to a float) and is rejected, and an
    accepted decimal such as ["0.3333333333"] is returned as it is, not as
    the reciprocal [1.0 / 3]. *)
Example parse_saaty_value_window_divergence :
  py_float "0.25000000006" = Some (Fin (4503599628451360 # 18014398509481984))
  /\ Qabs ((4503599628451360 # 18014398509481984) - (1 # 4)) < window
  /\ parse_saaty_value "0.25000000006" false = Err DecimalNotSaaty
  /\ parse_saaty_value "0.3333333333" false = Ok (Fin (6004799502560181 # 18014398509481984))
  /\ fl (1 / inject_Z 3) = Fin (6004799503160661 # 18014398509481984).
Proof. repeat split; vm_compute; reflexivity. Qed.
