(* ===== verification/Engine.v ===== *)
(** * Engine: [calculate_ahp], the priority computation of one matrix

    [calculate_ahp(matrix_input, name)] (controller/ahp.py:89-236) checks
    that its input is a square matrix of finite floats with a unit diagonal
    and no degenerate column, then computes the priority weights by the
    column-normalisation method, the weighted sum vector, the consistency
    vector, [lambdaMax], [CI], [RI] and [CR].  Every [ValueError] becomes a
    result dictionary with an ["error"] key; here it is [AhpErr n e], with
    the [n] the dictionary reports.

    Each stage of the numpy pipeline is one definition: [col_sums]
    (line 128), [norm_matrix] (139-144), [raw_weights] (147),
    [normalize_weights] (148-152), [mat_vec] (155), [consistency_vector]
    (158-184), [lambda_max] (191-198), [ci_value] (201), [ri_value]
    (204-205), [cr_value] (208-212) and [consistent_flag] (215-217).
    Arithmetic is exact (see the header of [Prelude]); the check of
    lines 161-166 (a weighted sum vector with a NaN or an infinity) can only
    fire on a floating-point overflow and is not modelled. *)

From Stdlib Require Import QArith Qabs Qminmax ZArith List Lia Lqa.
From Stdlib Require Import Setoid Morphisms.
From S2P Require Import Prelude Binary64.
Import ListNotations.

(** ** Constants *)

(** [tolerance = 1e-9] (ahp.py:120). *)
Definition tolerance : Q := lit (1 # 1000000000).

(** The default [rel_tol=1e-09] of [math.isclose]. *)
Definition rel_tol : Q := lit (1 # 1000000000).

(** [RI_lookup] (ahp.py:5-21). *)
Definition RI_lookup (n : nat) : option Q :=
  match n with
  | 1%nat | 2%nat => Some 0
  | 3%nat => Some (lit (58 # 100))
  | 4%nat => Some (lit (90 # 100))
  | 5%nat => Some (lit (112 # 100))
  | 6%nat => Some (lit (124 # 100))
  | 7%nat => Some (lit (132 # 100))
  | 8%nat => Some (lit (141 # 100))
  | 9%nat => Some (lit (145 # 100))
  | 10%nat => Some (lit (149 # 100))
  | 11%nat => Some (lit (151 # 100))
  | 12%nat => Some (lit (154 # 100))
  | 13%nat => Some (lit (156 # 100))
  | 14%nat => Some (lit (157 # 100))
  | 15%nat => Some (lit (159 # 100))
  | _ => None
  end.

(** ** [math.isclose] *)

(** [math.isclose(a, b, abs_tol=abs_tol)] on finite floats, as CPython
    computes it: equal, or the difference is within [rel_tol] of either
    argument, or within [abs_tol]. *)
Definition isclose (abs_tol a b : Q) : bool :=
  let diff := Qabs (b - a) in
  Qeq_bool a b
  || Qle_bool diff (Qabs (rel_tol * b))
  || Qle_bool diff (Qabs (rel_tol * a))
  || Qle_bool diff abs_tol.

(** ** Errors and results *)

(** The [ValueError]s raised inside [calculate_ahp]. *)
Inductive ahp_error : Type :=
| ErrInhomogeneous                 (* np.array on rows of different lengths *)
| ErrNotSquare                     (* ahp.py:115-116 *)
| ErrNonFinite                     (* ahp.py:117-118 *)
| ErrDiagonal (i : nat)            (* ahp.py:121-125, row [i] (0-based) *)
| ErrDegenerateColumns (cols : list nat). (* ahp.py:131-137, 1-based *)

(** The result dictionary of a successful call (ahp.py:91-104). *)
Record ahp_ok : Type := mk_ahp_ok {
  res_n : nat;
  res_weights : list Q;
  res_wsv : list Q;
  res_cv : list Q;
  res_lambdaMax : Q;
  res_ci : Q;
  res_RI : Q;
  res_CR : pyfloat;
  res_is_consistent : bool;
  res_colSums : list Q;
  res_normMatrix : list (list Q)
}.

(** A result: the dictionary of a success, or the error dictionary of
    lines 221-236, whose only fields are ["n"], ["error"] and
    ["is_consistent"] = False. *)
Inductive ahp_result : Type :=
| AhpOk (r : ahp_ok)
| AhpErr (n : nat) (e : ahp_error).

(** ** Validation *)

(** [np.array(matrix_input, dtype=float).shape]: [None] when the rows have
    different lengths (numpy raises [ValueError]). *)
Definition shape (m : list (list pyfloat)) : option (nat * nat) :=
  match m with
  | [] => Some (0%nat, 0%nat)
  | r :: rs =>
      if forallb (fun r' => Nat.eqb (length r') (length r)) rs
      then Some (length m, length r) else None
  end.

Fixpoint finite_row (r : list pyfloat) : option (list Q) :=
  match r with
  | [] => Some []
  | Fin q :: r' => match finite_row r' with Some l => Some (q :: l) | None => None end
  | _ :: _ => None
  end.

(** [np.isnan(matrix).any() or np.isinf(matrix).any()] is false: the
    matrix as rationals. *)
Fixpoint finite_matrix (m : list (list pyfloat)) : option (list (list Q)) :=
  match m with
  | [] => Some []
  | r :: m' =>
      match finite_row r, finite_matrix m' with
      | Some l, Some a => Some (l :: a)
      | _, _ => None
      end
  end.

(** The first [i] with [not math.isclose(matrix[i, i], 1.0, abs_tol=1e-9)]
    (ahp.py:121-125). *)
Definition first_bad_diagonal (a : list (list Q)) (n : nat) : option nat :=
  find (fun i => negb (isclose tolerance (mget a i i) 1)) (seq 0 n).

(** ** The pipeline *)

(** [matrix.sum(axis=0)] (ahp.py:128). *)
Definition col_sums (a : list (list Q)) (n : nat) : list Q :=
  vec_of n (fun j => qsumn n (fun i => mget a i j)).

(** The 1-based columns whose sum is [<= tolerance] (ahp.py:131-134). *)
Definition degenerate_columns (cs : list Q) : list nat :=
  map S (filter (fun j => Qle_bool (vat cs j) tolerance) (seq 0 (length cs))).

(** [np.divide(matrix, col_sums, out=zeros, where=col_sums != 0)]
    (ahp.py:139-144). *)
Definition norm_matrix (a : list (list Q)) (n : nat) (cs : list Q) : list (list Q) :=
  vec_of n (fun i => vec_of n (fun j =>
    if Qeq_bool (vat cs j) 0 then 0 else mget a i j / vat cs j)).

(** [norm_matrix.mean(axis=1)] (ahp.py:147). *)
Definition raw_weights (nm : list (list Q)) (n : nat) : list Q :=
  vec_of n (fun i => qsumn n (fun j => mget nm i j) / Q_of_nat n).

(** [weights / weights.sum()] if the sum exceeds the tolerance, else the
    uniform vector [np.ones(n) / n] (ahp.py:148-152). *)
Definition normalize_weights (raw : list Q) (n : nat) : list Q :=
  let s := qsum raw in
  if Qltb tolerance s then map (fun w => w / s) raw
  else vec_of n (fun _ => 1 / Q_of_nat n).

(** [np.dot(matrix, weights)] (ahp.py:155). *)
Definition mat_vec (a : list (list Q)) (n : nat) (w : list Q) : list Q :=
  vec_of n (fun i => qsumn n (fun j => mget a i j * vat w j)).

(** [np.abs(weights) > tolerance] (ahp.py:159). *)
Definition nonzero (w : Q) : bool := Qltb tolerance (Qabs w).

(** The consistency vector (ahp.py:158-184): [wsv[i] / w[i]] where the
    weight is not negligible, [n] where the division is guarded by
    [tolerance * 1e-3], and [0] (the [zeros_like] initial value) where the
    weight is negligible. *)
Definition consistency_vector (w wsv : list Q) (n : nat) : list Q :=
  vec_of n (fun i =>
    if nonzero (vat w i) then
      if Qltb (lit (tolerance * lit (1 # 1000))) (Qabs (vat w i))
      then vat wsv i / vat w i else Q_of_nat n
    else 0).

(** The mean of the consistency vector over the non-negligible weights,
    or [n] when there is none (ahp.py:191-198). *)
Definition lambda_max (w cv : list Q) (n : nat) : Q :=
  match filter (fun i => nonzero (vat w i)) (seq 0 n) with
  | [] => Q_of_nat n
  | idx => qsum (map (vat cv) idx) / Q_of_nat (length idx)
  end.

(** [(lambda_max - n) / (n - 1) if n > 1 else 0.0] (ahp.py:201). *)
Definition ci_value (lam : Q) (n : nat) : Q :=
  if (1 <? n)%nat then (lam - Q_of_nat n) / (Q_of_nat n - 1) else 0.

(** [RI_lookup.get(n, 1.59)], forced to [0] for [n <= 2] (ahp.py:204-205). *)
Definition ri_value (n : nat) : Q :=
  if (n <=? 2)%nat then 0
  else match RI_lookup n with Some r => r | None => lit (159 # 100) end.

(** [CI / RI] if [RI > tolerance], else [0] when [CI] is close to [0] and
    [inf] otherwise (ahp.py:208-212). *)
Definition cr_value (ci ri : Q) : pyfloat :=
  if Qltb tolerance ri then Fin (ci / ri)
  else if isclose tolerance ci 0 then Fin 0 else PInf.

(** [cr_val <= 0.1 + tolerance] (ahp.py:215-217). *)
Definition consistent_flag (cr : pyfloat) : bool :=
  pf_leb cr (Fin (lit (lit (1 # 10) + tolerance))).

(** The computation of lines 128-217 on a validated matrix [a] of size
    [n]. *)
Definition ahp_pipeline (a : list (list Q)) (n : nat) : ahp_ok :=
  let cs := col_sums a n in
  let nm := norm_matrix a n cs in
  let w := normalize_weights (raw_weights nm n) n in
  let wsv := mat_vec a n w in
  let cv := consistency_vector w wsv n in
  let lam := lambda_max w cv n in
  let ci := ci_value lam n in
  let ri := ri_value n in
  let cr := cr_value ci ri in
  {| res_n := n; res_weights := w; res_wsv := wsv; res_cv := cv;
     res_lambdaMax := lam; res_ci := ci; res_RI := ri; res_CR := cr;
     res_is_consistent := consistent_flag cr;
     res_colSums := cs; res_normMatrix := nm |}.

(** [calculate_ahp(matrix_input)] (ahp.py:89-236): the checks of lines
    107-137 in their order, then the pipeline. *)
Definition calculate_ahp (input : list (list pyfloat)) : ahp_result :=
  match shape input with
  | None => AhpErr 0 ErrInhomogeneous
  | Some (rows, cols) =>
      let n := rows in
      if (n =? 0)%nat || negb (cols =? n)%nat then AhpErr n ErrNotSquare else
      match finite_matrix input with
      | None => AhpErr n ErrNonFinite
      | Some a =>
          match first_bad_diagonal a n with
          | Some i => AhpErr n (ErrDiagonal i)
          | None =>
              match degenerate_columns (col_sums a n) with
              | (_ :: _) as bad => AhpErr n (ErrDegenerateColumns bad)
              | [] => AhpOk (ahp_pipeline a n)
              end
          end
      end
  end.

(** ** Inversion of a successful call *)

Lemma calculate_ahp_AhpOk (input : list (list pyfloat)) (r : ahp_ok) :
  calculate_ahp input = AhpOk r <->
  exists a n, (0 < n)%nat /\ shape input = Some (n, n)
    /\ finite_matrix input = Some a /\ first_bad_diagonal a n = None
    /\ degenerate_columns (col_sums a n) = [] /\ r = ahp_pipeline a n.
Proof.
  unfold calculate_ahp. split.
  - destruct (shape input) as [[rows cols]|] eqn:Hs; [|discriminate].
    destruct (Nat.eqb_spec rows 0); [discriminate|].
    destruct (Nat.eqb_spec cols rows); [|discriminate]. subst cols. cbn.
    destruct (finite_matrix input) as [a|] eqn:Hf; [|discriminate].
    destruct (first_bad_diagonal a rows) eqn:Hd; [discriminate|].
    destruct (degenerate_columns (col_sums a rows)) eqn:Ed; [|discriminate].
    intros H. injection H as <-. exists a, rows. repeat split; auto; lia.
  - intros (a & n & Hn & Hs & Hf & Hd & Hc & ->). rewrite Hs.
    replace (n =? 0)%nat with false by (symmetry; apply Nat.eqb_neq; lia).
    rewrite Nat.eqb_refl. cbn. rewrite Hf, Hd, Hc. reflexivity.
Qed.

(** ** The constants *)

Lemma tolerance_pos : 0 < tolerance.
Proof. vm_compute. reflexivity. Qed.

Lemma tolerance_lt_1 : tolerance < 1.
Proof. vm_compute. reflexivity. Qed.

#[export] Hint Resolve tolerance_pos tolerance_lt_1 : ahp.

(** ** The stages, read by index *)

Lemma vat_col_sums (a : list (list Q)) (n j : nat) :
  (j < n)%nat -> vat (col_sums a n) j = qsumn n (fun i => mget a i j).
Proof. intros Hj. apply vat_vec_of, Hj. Qed.

Lemma length_col_sums (a : list (list Q)) (n : nat) : length (col_sums a n) = n.
Proof. apply length_vec_of. Qed.

Lemma mget_norm_matrix (a : list (list Q)) (n : nat) (cs : list Q) (i j : nat) :
  (i < n)%nat -> (j < n)%nat ->
  mget (norm_matrix a n cs) i j
  = if Qeq_bool (vat cs j) 0 then 0 else mget a i j / vat cs j.
Proof. intros Hi Hj. unfold norm_matrix. rewrite mget_vec_of by assumption. reflexivity. Qed.

Lemma vat_raw_weights (nm : list (list Q)) (n i : nat) :
  (i < n)%nat -> vat (raw_weights nm n) i = qsumn n (fun j => mget nm i j) / Q_of_nat n.
Proof. intros Hi. apply vat_vec_of, Hi. Qed.

Lemma vat_mat_vec (a : list (list Q)) (n : nat) (w : list Q) (i : nat) :
  (i < n)%nat -> vat (mat_vec a n w) i = qsumn n (fun j => mget a i j * vat w j).
Proof. intros Hi. apply vat_vec_of, Hi. Qed.

(** No degenerate column: every column sum exceeds the tolerance. *)
Lemma degenerate_columns_nil (cs : list Q) (j : nat) :
  degenerate_columns cs = [] -> (j < length cs)%nat -> tolerance < vat cs j.
Proof.
  unfold degenerate_columns. intros Hnil Hj.
  destruct (Qle_bool (vat cs j) tolerance) eqn:E.
  - assert (Hin : In j (filter (fun j => Qle_bool (vat cs j) tolerance) (seq 0 (length cs))))
      by (apply filter_In; split; [apply in_seq; lia|exact E]).
    apply (in_map S) in Hin. rewrite Hnil in Hin. contradiction.
  - apply Qle_bool_false in E. exact E.
Qed.

(** The renormalisation always produces a vector summing to one. *)
Lemma normalize_weights_sum (raw : list Q) (n : nat) :
  (0 < n)%nat -> qsum (normalize_weights raw n) == 1.
Proof.
  intros Hn. unfold normalize_weights. cbv zeta. qcase.
  - pose proof tolerance_pos.
    rewrite qsum_map_div by (intro Z; rewrite Z in E; lra). field. intro Z; rewrite Z in E; lra.
  - rewrite qsum_vec_of, qsumn_const. pose proof (Q_of_nat_pos n Hn). field. lra.
Qed.

(** The lengths of the vectors of a result. *)
Lemma length_normalize_weights (raw : list Q) (n : nat) :
  length raw = n -> length (normalize_weights raw n) = n.
Proof.
  intros H. unfold normalize_weights. cbv zeta.
  destruct (Qltb tolerance (qsum raw)); [rewrite length_map; exact H|apply length_vec_of].
Qed.

Lemma length_raw_weights (nm : list (list Q)) (n : nat) : length (raw_weights nm n) = n.
Proof. apply length_vec_of. Qed.

(** ** The weights sum to one *)

(** Every successful call returns a vector of weights that sums to
    exactly one (in exact arithmetic), whatever the matrix: the
    renormalisation of lines 148-152 guarantees it on both of its
    branches. *)
Theorem calculate_ahp_weights_sum_one (input : list (list pyfloat)) (r : ahp_ok) :
  calculate_ahp input = AhpOk r -> qsum (res_weights r) == 1.
Proof.
  intros H. apply calculate_ahp_AhpOk in H as (a & n & Hn & _ & _ & _ & _ & ->).
  apply normalize_weights_sum, Hn.
Qed.

Lemma shape_length (m : list (list pyfloat)) (n c : nat) :
  shape m = Some (n, c) -> length m = n.
Proof.
  unfold shape. destruct m as [|r rs]; [intros H; injection H as <- _; reflexivity|].
  destruct forallb; [|discriminate]. intros H. injection H as <- _. reflexivity.
Qed.

(** A successful call returns one weight per row of the input, and they
    sum to one. *)
Lemma calculate_ahp_weights (input : list (list pyfloat)) (r : ahp_ok) :
  calculate_ahp input = AhpOk r ->
  length (res_weights r) = length input /\ qsum (res_weights r) == 1.
Proof.
  intros H. apply calculate_ahp_AhpOk in H as (a & n & Hn & Hs & _ & _ & _ & ->).
  cbn [ahp_pipeline res_weights]. split.
  - rewrite (shape_length _ _ _ Hs). apply length_normalize_weights, length_raw_weights.
  - apply normalize_weights_sum, Hn.
Qed.

(** The renormalisation is the identity in exact arithmetic: when no
    column sums to zero, the row means of the column-normalised matrix
    already sum to one, so the [weights_sum > tolerance] branch divides by
    one and the uniform fallback is unreachable. *)
Theorem raw_weights_sum_one (a : list (list Q)) (n : nat) :
  (0 < n)%nat -> (forall j, (j < n)%nat -> ~ vat (col_sums a n) j == 0) ->
  qsum (raw_weights (norm_matrix a n (col_sums a n)) n) == 1.
Proof.
  intros Hn Hcs. unfold raw_weights. rewrite qsum_vec_of.
  set (cs := col_sums a n).
  pose proof (Q_of_nat_pos n Hn) as Hn'.
  assert (Hnz : ~ Q_of_nat n == 0) by (intro Z; rewrite Z in Hn'; discriminate).
  (* each entry of the normalised matrix is [a i j / cs j] *)
  transitivity (qsumn n (fun i => qsumn n (fun j => mget a i j / vat cs j)) / Q_of_nat n).
  { rewrite <- qsumn_div by exact Hnz. apply qsumn_ext. intros i Hi.
    apply Qdiv_comp; [|reflexivity]. apply qsumn_ext. intros j Hj.
    rewrite mget_norm_matrix by assumption.
    destruct (Qeq_bool (vat cs j) 0) eqn:E; [|reflexivity].
    apply Qeq_bool_eq in E. exfalso. exact (Hcs j Hj E). }
  rewrite qsumn_swap.
  transitivity (qsumn n (fun _ => 1) / Q_of_nat n).
  { apply Qdiv_comp; [|reflexivity]. apply qsumn_ext. intros j Hj.
    rewrite qsumn_div by exact (Hcs j Hj).
    unfold cs. rewrite vat_col_sums by exact Hj.
    field. rewrite <- vat_col_sums by exact Hj. exact (Hcs j Hj). }
  rewrite qsumn_const. field. exact Hnz.
Qed.

(** ** Matrices of finite floats *)

(** A matrix of rationals as the numpy array of floats the code receives. *)
Definition as_floats (a : list (list Q)) : list (list pyfloat) := map (map Fin) a.

(** [a] is an [n] by [n] matrix. *)
Definition square {A} (a : list (list A)) (n : nat) : Prop :=
  length a = n /\ Forall (fun row => length row = n) a.

Lemma finite_row_as_floats (r : list pyfloat) (l : list Q) :
  finite_row r = Some l <-> r = map Fin l.
Proof.
  revert l. induction r as [|x r IH]; intros l.
  - destruct l; simpl; split; congruence.
  - destruct x as [q| | |]; simpl; [|split; [discriminate|destruct l; discriminate] ..].
    destruct (finite_row r) as [l'|] eqn:E.
    + split.
      * intros H. injection H as <-. simpl. f_equal. apply IH. reflexivity.
      * destruct l as [|q' l]; [discriminate|]. simpl. intros H. injection H as -> H.
        apply IH in H. congruence.
    + split; [discriminate|]. destruct l as [|q' l]; [discriminate|].
      simpl. intros H. injection H as -> H. apply IH in H. congruence.
Qed.

Lemma finite_matrix_as_floats (m : list (list pyfloat)) (a : list (list Q)) :
  finite_matrix m = Some a <-> m = as_floats a.
Proof.
  unfold as_floats. revert a. induction m as [|r m IH]; intros a.
  - destruct a; simpl; split; congruence.
  - simpl. destruct (finite_row r) as [l|] eqn:Er; destruct (finite_matrix m) as [a'|] eqn:Em.
    + split.
      * intros H. injection H as <-. simpl. apply finite_row_as_floats in Er.
        f_equal; [exact Er|]. apply IH. reflexivity.
      * destruct a as [|l0 a]; [discriminate|]. simpl. intros H. injection H as Hr Hm.
        apply finite_row_as_floats in Hr. apply IH in Hm. congruence.
    + split; [discriminate|]. destruct a as [|l0 a]; [discriminate|].
      simpl. intros H. injection H as _ Hm. apply IH in Hm. congruence.
    + split; [discriminate|]. destruct a as [|l0 a]; [discriminate|].
      simpl. intros H. injection H as Hr _. apply finite_row_as_floats in Hr. congruence.
    + split; [discriminate|]. destruct a as [|l0 a]; [discriminate|].
      simpl. intros H. injection H as Hr _. apply finite_row_as_floats in Hr. congruence.
Qed.

Lemma shape_as_floats (a : list (list Q)) (n : nat) :
  (0 < n)%nat -> (shape (as_floats a) = Some (n, n) <-> square a n).
Proof.
  intros Hn. unfold shape, as_floats, square. destruct a as [|r a]; simpl.
  - split; [intros H; injection H as H1; lia|]. intros [H _]. simpl in H. lia.
  - rewrite length_map. split.
    + destruct (forallb _ _) eqn:Hf; [|discriminate]. intros H. injection H as Hl Hr.
      rewrite length_map in Hl. split; [exact Hl|]. constructor; [exact Hr|].
      apply Forall_forall. intros row Hrow. rewrite forallb_forall in Hf.
      specialize (Hf (map Fin row) (in_map _ _ _ Hrow)). apply Nat.eqb_eq in Hf.
      rewrite !length_map in Hf. congruence.
    + intros [Hl Hall]. inversion Hall as [|? ? Hr Hall']; subst.
      replace (forallb _ _) with true.
      * rewrite length_map. congruence.
      * symmetry. apply forallb_forall. intros row' Hrow'.
        apply in_map_iff in Hrow' as (row & <- & Hrow). apply Nat.eqb_eq.
        rewrite !length_map. rewrite (proj1 (Forall_forall _ _) Hall' row Hrow). congruence.
Qed.

(** Reading an entry of a square matrix whose entries all satisfy [P]. *)
Lemma mget_Forall (P : Q -> Prop) (a : list (list Q)) (n i j : nat) :
  square a n -> Forall (Forall P) a -> (i < n)%nat -> (j < n)%nat -> P (mget a i j).
Proof.
  intros [Hl Hrows] Hall Hi Hj. unfold mget.
  assert (Hin : In (nth i a []) a) by (apply nth_In; lia).
  pose proof (proj1 (Forall_forall _ _) Hall _ Hin) as Hrow.
  pose proof (proj1 (Forall_forall _ _) Hrows _ Hin) as Hlen. cbv beta in Hlen.
  apply (proj1 (Forall_forall _ _) Hrow). apply nth_In. lia.
Qed.

(** A successful call works on the matrix it was given. *)
Lemma calculate_ahp_as_floats (a : list (list Q)) (r : ahp_ok) :
  calculate_ahp (as_floats a) = AhpOk r ->
  exists n, (0 < n)%nat /\ square a n /\ first_bad_diagonal a n = None
    /\ degenerate_columns (col_sums a n) = [] /\ r = ahp_pipeline a n.
Proof.
  intros H. apply calculate_ahp_AhpOk in H as (a' & n & Hn & Hs & Hf & Hd & Hc & ->).
  apply finite_matrix_as_floats in Hf. unfold as_floats in Hf.
  assert (a' = a) as ->.
  { symmetry. revert Hf. apply map_injective. intros x y Hxy. revert Hxy.
    apply map_injective. intros p q Hpq. injection Hpq as E. exact E. }
  exists n. repeat split; try assumption; apply (shape_as_floats a n Hn) in Hs; apply Hs.
Qed.

(** ** Positive matrices have positive weights *)

(** On an [n] by [n] matrix of finite floats the shape and finiteness
    checks pass, and the outcome is decided by the diagonal check and then
    by the degenerate-column check (ahp.py:120-137). *)
Lemma calculate_ahp_square (a : list (list Q)) (n : nat) :
  (0 < n)%nat -> square a n ->
  calculate_ahp (as_floats a) =
    match first_bad_diagonal a n with
    | Some i => AhpErr n (ErrDiagonal i)
    | None =>
        match degenerate_columns (col_sums a n) with
        | [] => AhpOk (ahp_pipeline a n)
        | bad => AhpErr n (ErrDegenerateColumns bad)
        end
    end.
Proof.
  intros Hn Hsq. unfold calculate_ahp.
  rewrite (proj2 (shape_as_floats a n Hn) Hsq).
  replace (n =? 0)%nat with false by (symmetry; apply Nat.eqb_neq; lia).
  rewrite Nat.eqb_refl. cbn.
  rewrite (proj2 (finite_matrix_as_floats _ a) eq_refl).
  destruct (first_bad_diagonal a n); [reflexivity|].
  destruct (degenerate_columns (col_sums a n)); reflexivity.
Qed.

Section Positive.
Variables (a : list (list Q)) (n : nat).
Hypothesis Hsq : square a n.
Hypothesis Hpos : Forall (Forall (fun q => 0 < q)) a.
Hypothesis Hn : (0 < n)%nat.

Lemma entry_pos (i j : nat) : (i < n)%nat -> (j < n)%nat -> 0 < mget a i j.
Proof. intros Hi Hj. exact (mget_Forall _ a n i j Hsq Hpos Hi Hj). Qed.

Lemma col_sums_pos (j : nat) : (j < n)%nat -> 0 < vat (col_sums a n) j.
Proof.
  intros Hj. rewrite vat_col_sums by exact Hj.
  apply qsumn_pos; [intros i Hi; apply entry_pos; assumption|exact Hn].
Qed.

Lemma raw_weights_pos (i : nat) :
  (i < n)%nat -> 0 < vat (raw_weights (norm_matrix a n (col_sums a n)) n) i.
Proof.
  intros Hi. rewrite vat_raw_weights by exact Hi.
  apply Qdiv_pos_pos; [|apply Q_of_nat_pos, Hn].
  apply qsumn_pos; [|exact Hn]. intros j Hj.
  rewrite mget_norm_matrix by assumption.
  rewrite Qeq_bool_pos by (apply col_sums_pos, Hj).
  apply Qdiv_pos_pos; [apply entry_pos|apply col_sums_pos]; assumption.
Qed.

Lemma raw_weights_all_pos :
  Forall (fun w => 0 < w) (raw_weights (norm_matrix a n (col_sums a n)) n).
Proof.
  unfold raw_weights at 1. apply Forall_vec_of. intros i Hi.
  rewrite <- vat_raw_weights by exact Hi. apply raw_weights_pos, Hi.
Qed.

Lemma pipeline_weights_pos : Forall (fun w => 0 < w) (res_weights (ahp_pipeline a n)).
Proof.
  cbn [ahp_pipeline res_weights]. unfold normalize_weights. cbv zeta. qcase.
  - apply Forall_map. eapply Forall_impl; [|exact raw_weights_all_pos].
    intros w Hw. pose proof tolerance_pos. apply Qdiv_pos_pos; [exact Hw|lra].
  - apply Forall_vec_of. intros i _. apply Qdiv_pos_pos; [reflexivity|apply Q_of_nat_pos, Hn].
Qed.
Hypothesis Hdiag : forall i, (i < n)%nat -> mget a i i == 1.

Lemma positive_diagonal_ok : first_bad_diagonal a n = None.
Proof.
  apply find_none_intro. intros i Hi. apply in_seq in Hi.
  unfold isclose. replace (Qeq_bool (mget a i i) 1) with true; [reflexivity|].
  symmetry. apply Qeq_bool_iff, Hdiag. lia.
Qed.

Lemma positive_columns_ok : degenerate_columns (col_sums a n) = [].
Proof.
  unfold degenerate_columns. rewrite filter_none; [reflexivity|]. intros j Hj.
  apply in_seq in Hj. rewrite length_col_sums in Hj. apply Qle_bool_false.
  rewrite vat_col_sums by lia. pose proof tolerance_lt_1.
  assert (1 <= qsumn n (fun i => mget a i j)).
  { rewrite <- (Hdiag j) by lia. apply (qsumn_le_term n (fun i => mget a i j) j); [|lia].
    intros i Hi. apply Qlt_le_weak, entry_pos; lia. }
  lra.
Qed.

(** A positive matrix with a unit diagonal passes every check. *)
Lemma calculate_ahp_positive : calculate_ahp (as_floats a) = AhpOk (ahp_pipeline a n).
Proof.
  rewrite (calculate_ahp_square a n Hn Hsq), positive_diagonal_ok, positive_columns_ok.
  reflexivity.
Qed.
End Positive.

(** A matrix with positive entries, as every matrix built from Saaty
    judgements is, gets positive weights. *)
Theorem calculate_ahp_weights_pos (a : list (list Q)) (r : ahp_ok) :
  Forall (Forall (fun q => 0 < q)) a -> calculate_ahp (as_floats a) = AhpOk r ->
  Forall (fun w => 0 < w) (res_weights r).
Proof.
  intros Hpos H. apply calculate_ahp_as_floats in H as (n & Hn & Hsq & _ & _ & ->).
  apply pipeline_weights_pos; assumption.
Qed.

(** ** Consistent matrices: the method is exact on them *)

(** The perfectly consistent matrix of a priority vector [v]:
    [a[i][j] = v[i] / v[j]]. *)
Definition consistent_matrix (v : list Q) : list (list Q) :=
  vec_of (length v) (fun i => vec_of (length v) (fun j => vat v i / vat v j)).

Lemma guard_lt_tolerance : lit (tolerance * lit (1 # 1000)) < tolerance.
Proof. vm_compute. reflexivity. Qed.

Lemma threshold_pos : 0 < lit (lit (1 # 10) + tolerance).
Proof. vm_compute. reflexivity. Qed.

Section Consistent.
Variable v : list Q.
Hypothesis Hpos : Forall (fun x => 0 < x) v.
Hypothesis Hne : v <> [].

Local Abbreviation nv := (length v).
Local Abbreviation total := (qsum v).
Local Abbreviation a := (consistent_matrix v).
Local Abbreviation cs := (col_sums a nv).
Local Abbreviation nm := (norm_matrix a nv cs).
Local Abbreviation raw := (raw_weights nm nv).
Local Abbreviation w := (normalize_weights raw nv).
Local Abbreviation wsv := (mat_vec a nv w).
Local Abbreviation cv := (consistency_vector w wsv nv).

Lemma cm_v_pos (i : nat) : (i < nv)%nat -> 0 < vat v i.
Proof.
  intros Hi. apply (proj1 (Forall_forall _ _) Hpos). apply nth_In. exact Hi.
Qed.

Lemma cm_n_pos : (0 < nv)%nat.
Proof. destruct v; [contradiction|simpl; lia]. Qed.

Lemma cm_total_eq : total == qsumn nv (vat v).
Proof. apply qsum_as_qsumn. Qed.

Lemma cm_total_pos : 0 < total.
Proof. rewrite cm_total_eq. apply qsumn_pos; [apply cm_v_pos|apply cm_n_pos]. Qed.

Lemma cm_v_le_total (i : nat) : (i < nv)%nat -> vat v i <= total.
Proof.
  intros Hi. rewrite cm_total_eq. apply qsumn_le_term; [|exact Hi].
  intros k Hk. apply Qlt_le_weak, cm_v_pos, Hk.
Qed.

Lemma cm_square : square a nv.
Proof.
  split; [apply length_vec_of|]. apply Forall_vec_of. intros i _. apply length_vec_of.
Qed.

Lemma cm_entry (i j : nat) : (i < nv)%nat -> (j < nv)%nat -> mget a i j = vat v i / vat v j.
Proof. intros Hi Hj. unfold consistent_matrix. rewrite mget_vec_of by assumption. reflexivity. Qed.

Lemma cm_col_sum (j : nat) : (j < nv)%nat -> vat cs j == total / vat v j.
Proof.
  intros Hj. rewrite vat_col_sums by exact Hj.
  rewrite (qsumn_ext nv _ (fun i => vat v i / vat v j))
    by (intros i Hi; rewrite cm_entry by assumption; reflexivity).
  rewrite qsumn_div by (apply Qpos_nonzero, cm_v_pos, Hj). rewrite <- cm_total_eq.
  reflexivity.
Qed.

Lemma cm_col_sum_gt (j : nat) : (j < nv)%nat -> tolerance < vat cs j.
Proof.
  intros Hj. rewrite cm_col_sum by exact Hj. pose proof tolerance_lt_1.
  apply Qlt_le_trans with 1; [assumption|].
  apply Qle_shift_div_l; [apply cm_v_pos, Hj|]. rewrite Qmult_1_l.
  apply cm_v_le_total, Hj.
Qed.

Lemma cm_diagonal : first_bad_diagonal a nv = None.
Proof.
  apply find_none_intro. intros i Hi. apply in_seq in Hi.
  rewrite cm_entry by lia. unfold isclose.
  assert (E : Qeq_bool (vat v i / vat v i) 1 = true).
  { apply Qeq_bool_iff. field. apply Qpos_nonzero, cm_v_pos. lia. }
  rewrite E. reflexivity.
Qed.

Lemma cm_degenerate : degenerate_columns cs = [].
Proof.
  unfold degenerate_columns. rewrite filter_none; [reflexivity|].
  intros j Hj. apply in_seq in Hj. rewrite length_col_sums in Hj.
  apply Qle_bool_false, cm_col_sum_gt. lia.
Qed.

Lemma cm_norm (i j : nat) : (i < nv)%nat -> (j < nv)%nat -> mget nm i j == vat v i / total.
Proof.
  intros Hi Hj. rewrite mget_norm_matrix by assumption.
  pose proof (cm_col_sum_gt j Hj) as Hg. pose proof tolerance_pos.
  rewrite Qeq_bool_pos by lra. rewrite cm_entry, cm_col_sum by assumption.
  pose proof (cm_v_pos j Hj). pose proof cm_total_pos.
  field. split; apply Qpos_nonzero; assumption.
Qed.

Lemma cm_raw (i : nat) : (i < nv)%nat -> vat raw i == vat v i / total.
Proof.
  intros Hi. rewrite vat_raw_weights by exact Hi.
  rewrite (qsumn_ext nv _ (fun _ => vat v i / total)) by (intros j Hj; apply cm_norm; assumption).
  rewrite qsumn_const. pose proof (Q_of_nat_pos nv cm_n_pos).
  field. split; apply Qpos_nonzero; [exact cm_total_pos|assumption].
Qed.

Lemma cm_raw_sum : qsum raw == 1.
Proof.
  rewrite qsum_as_qsumn, length_raw_weights.
  rewrite (qsumn_ext nv _ (fun i => vat v i / total)) by (intros i Hi; apply cm_raw, Hi).
  rewrite qsumn_div by (apply Qpos_nonzero, cm_total_pos). rewrite <- cm_total_eq.
  field. apply Qpos_nonzero, cm_total_pos.
Qed.

Lemma cm_weights (i : nat) : (i < nv)%nat -> vat w i == vat v i / total.
Proof.
  intros Hi. unfold normalize_weights. cbv zeta.
  replace (Qltb tolerance (qsum raw)) with true
    by (symmetry; apply Qltb_iff; rewrite cm_raw_sum; exact tolerance_lt_1).
  rewrite vat_map by (rewrite length_raw_weights; exact Hi).
  rewrite cm_raw_sum, cm_raw by exact Hi. field. apply Qpos_nonzero, cm_total_pos.
Qed.

Lemma cm_weights_length : length w = nv.
Proof. apply length_normalize_weights, length_raw_weights. Qed.

Lemma cm_weights_pos (i : nat) : (i < nv)%nat -> 0 < vat w i.
Proof.
  intros Hi. rewrite cm_weights by exact Hi.
  apply Qdiv_pos_pos; [apply cm_v_pos, Hi|apply cm_total_pos].
Qed.

(** The weights are an eigenvector of the matrix for the eigenvalue [n]. *)
Lemma cm_wsv (i : nat) : (i < nv)%nat -> vat wsv i == Q_of_nat nv * vat w i.
Proof.
  intros Hi. rewrite vat_mat_vec by exact Hi.
  rewrite (qsumn_ext nv _ (fun _ => vat v i / total)).
  - rewrite qsumn_const, cm_weights by exact Hi. reflexivity.
  - intros j Hj. rewrite cm_entry, cm_weights by assumption.
    pose proof (cm_v_pos j Hj). pose proof cm_total_pos.
    field. split; apply Qpos_nonzero; assumption.
Qed.

Lemma cm_cv (i : nat) : (i < nv)%nat -> nonzero (vat w i) = true -> vat cv i == Q_of_nat nv.
Proof.
  intros Hi Hnz. unfold consistency_vector. rewrite vat_vec_of by exact Hi.
  rewrite Hnz. pose proof (cm_weights_pos i Hi) as Hw.
  unfold nonzero in Hnz. apply Qltb_iff in Hnz. pose proof guard_lt_tolerance.
  replace (Qltb _ (Qabs (vat w i))) with true by (symmetry; apply Qltb_iff; lra).
  rewrite cm_wsv by exact Hi. field. apply Qpos_nonzero, Hw.
Qed.

Lemma cm_lambda : lambda_max w cv nv == Q_of_nat nv.
Proof.
  unfold lambda_max.
  destruct (filter (fun i => nonzero (vat w i)) (seq 0 nv)) as [|i0 rest] eqn:Ef;
    [reflexivity|].
  rewrite <- Ef. rewrite (qsum_map_const _ _ (Q_of_nat nv)).
  - rewrite Ef. field. apply Qpos_nonzero, Q_of_nat_pos. simpl. lia.
  - intros x Hx. apply filter_In in Hx as [Hx Hnz]. apply in_seq in Hx.
    apply cm_cv; [lia|exact Hnz].
Qed.

Lemma cm_ci : ci_value (lambda_max w cv nv) nv == 0.
Proof.
  unfold ci_value. destruct (Nat.ltb_spec 1 nv); [|reflexivity].
  rewrite cm_lambda. assert (Hn1 : 1 < Q_of_nat nv).
  { change 1 with (inject_Z 1). unfold Q_of_nat. rewrite <- Zlt_Qlt. lia. }
  field. intro Z. rewrite <- Qplus_inj_r with (z := 1) in Z. ring_simplify in Z.
  rewrite Z in Hn1. discriminate.
Qed.

Lemma cm_cr :
  exists c, cr_value (ci_value (lambda_max w cv nv) nv) (ri_value nv) = Fin c /\ c == 0.
Proof.
  unfold cr_value. destruct (Qltb tolerance (ri_value nv)) eqn:Eri.
  - eexists. split; [reflexivity|]. rewrite cm_ci. apply Qltb_iff in Eri.
    pose proof tolerance_pos. field. apply Qpos_nonzero. lra.
  - replace (isclose tolerance _ 0) with true; [eexists; split; [reflexivity|reflexivity]|].
    symmetry. unfold isclose. replace (Qeq_bool _ 0) with true; [reflexivity|].
    symmetry. apply Qeq_bool_iff, cm_ci.
Qed.

Lemma cm_flag : consistent_flag (cr_value (ci_value (lambda_max w cv nv) nv) (ri_value nv)) = true.
Proof.
  destruct cm_cr as (c & -> & Hc). unfold consistent_flag, pf_leb.
  apply Qle_bool_iff. rewrite Hc. apply Qlt_le_weak, threshold_pos.
Qed.

Lemma cm_calculate : calculate_ahp (as_floats a) = AhpOk (ahp_pipeline a nv).
Proof.
  apply calculate_ahp_AhpOk. exists a, nv. repeat split.
  - exact cm_n_pos.
  - apply shape_as_floats; [exact cm_n_pos|exact cm_square].
  - apply finite_matrix_as_floats. reflexivity.
  - exact cm_diagonal.
  - exact cm_degenerate.
Qed.
End Consistent.

(** [C1] Refinement on consistent matrices.  For a positive priority
    vector [v], the perfectly consistent comparison matrix
    [a_ij = v_i / v_j] is accepted by [calculate_ahp]; the weights it
    returns are exactly [v] normalised to sum 1, the weighted sum vector
    is [n] times the weights, [lambda_max = n], [CI = 0], [CR] is the
    finite value 0, and the matrix is declared consistent. *)
Theorem calculate_ahp_consistent (v : list Q) :
  v <> [] -> Forall (fun x => 0 < x) v ->
  exists r, calculate_ahp (as_floats (consistent_matrix v)) = AhpOk r
    /\ length (res_weights r) = length v
    /\ (forall i, (i < length v)%nat -> vat (res_weights r) i == vat v i / qsum v)
    /\ (forall i, (i < length v)%nat ->
          vat (res_wsv r) i == Q_of_nat (length v) * vat (res_weights r) i)
    /\ res_lambdaMax r == Q_of_nat (length v) /\ res_ci r == 0
    /\ (exists c, res_CR r = Fin c /\ c == 0) /\ res_is_consistent r = true.
Proof.
  intros Hne Hpos. eexists. split; [apply cm_calculate; assumption|]. cbn.
  repeat split.
  - apply cm_weights_length.
  - intros i Hi. apply cm_weights; assumption.
  - intros i Hi. apply cm_wsv; assumption.
  - apply cm_lambda; assumption.
  - apply cm_ci; assumption.
  - apply cm_cr; assumption.
  - apply cm_flag; assumption.
Qed.

Lemma calculate_ahp_consistent_witness :
  [4; 2; 1] <> [] /\ Forall (fun x => 0 < x) [4; 2; 1]
  /\ exists r, calculate_ahp (as_floats (consistent_matrix [4; 2; 1])) = AhpOk r
    /\ res_lambdaMax r == 3 /\ res_is_consistent r = true.
Proof.
  assert (Hne : [4; 2; 1] <> []) by discriminate.
  assert (Hp : Forall (fun x => 0 < x) [4; 2; 1]) by (repeat constructor).
  split; [exact Hne|]. split; [exact Hp|].
  destruct (calculate_ahp_consistent [4; 2; 1] Hne Hp)
    as (r & Hr & _ & _ & _ & Hl & _ & _ & Hc).
  exists r. split; [exact Hr|]. split; [exact Hl|exact Hc].
Defined.

(** ** Error paths on square matrices of finite values *)


(** The columns reported by [degenerate_columns] are, 1-based, exactly the
    columns whose sum is at most the tolerance. *)
Lemma degenerate_columns_In (cs : list Q) (k : nat) :
  In (S k) (degenerate_columns cs) <-> (k < length cs)%nat /\ vat cs k <= tolerance.
Proof.
  unfold degenerate_columns. rewrite in_map_iff. split.
  - intros (j & Hj & Hin). injection Hj as ->. apply filter_In in Hin as [Hin Hle].
    apply in_seq in Hin. split; [lia|]. apply Qle_bool_iff, Hle.
  - intros [Hk Hle]. exists k. split; [reflexivity|]. apply filter_In. split.
    + apply in_seq. lia.
    + apply Qle_bool_iff, Hle.
Qed.

Lemma degenerate_columns_no_zero (cs : list Q) : ~ In O (degenerate_columns cs).
Proof.
  unfold degenerate_columns. rewrite in_map_iff. intros (j & Hj & _). discriminate.
Qed.

(** [C10] A matrix whose diagonal passes but one of whose columns sums to
    at most the tolerance is rejected with [DegenerateColumn]: no weights
    are produced, and the error lists (1-based) exactly the degenerate
    columns. *)
Theorem calculate_ahp_degenerate_column (a : list (list Q)) (n j : nat) :
  (0 < n)%nat -> square a n -> first_bad_diagonal a n = None ->
  (j < n)%nat -> vat (col_sums a n) j <= tolerance ->
  exists bad, calculate_ahp (as_floats a) = AhpErr n (ErrDegenerateColumns bad)
    /\ In (S j) bad
    /\ (forall k, In (S k) bad <-> (k < n)%nat /\ vat (col_sums a n) k <= tolerance).
Proof.
  intros Hn Hsq Hd Hj Hle. rewrite (calculate_ahp_square a n) by assumption. rewrite Hd.
  assert (Hin : In (S j) (degenerate_columns (col_sums a n)))
    by (apply degenerate_columns_In; rewrite length_col_sums; split; assumption).
  destruct (degenerate_columns (col_sums a n)) as [|c bad] eqn:E; [contradiction|].
  exists (c :: bad). split; [reflexivity|]. split; [exact Hin|].
  intros k. rewrite <- E, degenerate_columns_In, length_col_sums. reflexivity.
Qed.

Lemma calculate_ahp_degenerate_column_witness :
  exists bad, calculate_ahp (as_floats [[1; -1]; [-1; 1]]) = AhpErr 2 (ErrDegenerateColumns bad)
    /\ In 1%nat bad.
Proof.
  destruct (calculate_ahp_degenerate_column [[1; -1]; [-1; 1]] 2 0)
    as (bad & Hr & Hin & _).
  - lia.
  - split; [reflexivity|repeat constructor].
  - vm_compute. reflexivity.
  - lia.
  - apply Qle_bool_iff. vm_compute. reflexivity.
  - exists bad. split; assumption.
Defined.

Lemma first_bad_diagonal_Some (a : list (list Q)) (n i : nat) :
  first_bad_diagonal a n = Some i <->
  (i < n)%nat /\ isclose tolerance (mget a i i) 1 = false
  /\ (forall k, (k < i)%nat -> isclose tolerance (mget a k k) 1 = true).
Proof.
  unfold first_bad_diagonal. rewrite find_seq_Some. split.
  - intros (Hr & Hi & Hk). split; [lia|]. split; [apply negb_true_iff, Hi|].
    intros k Hk'. apply negb_false_iff, Hk. lia.
  - intros (Hr & Hi & Hk). split; [lia|]. rewrite Hi. split; [reflexivity|].
    intros k Hk'. rewrite Hk by lia. reflexivity.
Qed.

(** The diagonal check reports the first offending index: on a
    square matrix of finite values the result is [BadDiagonal i] exactly
    when [a_ii] is not close to 1 and every earlier diagonal entry is. *)
Theorem calculate_ahp_bad_diagonal (a : list (list Q)) (n i : nat) :
  (0 < n)%nat -> square a n ->
  (calculate_ahp (as_floats a) = AhpErr n (ErrDiagonal i) <->
   (i < n)%nat /\ isclose tolerance (mget a i i) 1 = false
   /\ (forall k, (k < i)%nat -> isclose tolerance (mget a k k) 1 = true)).
Proof.
  intros Hn Hsq. rewrite (calculate_ahp_square a n) by assumption.
  rewrite <- first_bad_diagonal_Some.
  destruct (first_bad_diagonal a n) as [j|].
  - split; intros H; injection H as ->; reflexivity.
  - split; [|discriminate]. destruct (degenerate_columns _); discriminate.
Qed.

Lemma calculate_ahp_bad_diagonal_witness :
  calculate_ahp (as_floats [[1; 2]; [1 # 2; 3]]) = AhpErr 2 (ErrDiagonal 1).
Proof.
  assert (Hsq : square [[1; 2]; [1 # 2; 3]] 2) by (split; [reflexivity|repeat constructor]).
  apply (proj2 (calculate_ahp_bad_diagonal [[1; 2]; [1 # 2; 3]] 2 1 ltac:(lia) Hsq)).
  split; [lia|]. split; [vm_compute; reflexivity|].
  intros k Hk. replace k with 0%nat by lia. vm_compute. reflexivity.
Defined.

(** ** The matrix of ones *)

(** The comparison matrix in which every judgement is "equal importance":
    the [n] by [n] matrix of [1.0]. *)
Definition ones_matrix (n : nat) : list (list pyfloat) := repeat (repeat (Fin 1) n) n.

Lemma ones_matrix_consistent (n : nat) :
  ones_matrix n = as_floats (consistent_matrix (vec_of n (fun _ => 1))).
Proof.
  unfold ones_matrix, as_floats, consistent_matrix. rewrite length_vec_of, map_vec_of.
  rewrite <- vec_of_const. apply vec_of_ext. intros i Hi.
  rewrite map_vec_of, <- vec_of_const. apply vec_of_ext. intros j Hj.
  rewrite !vat_vec_of by assumption. reflexivity.
Qed.

(** The matrix of ones of any size [n >= 1] gets the uniform
    weights [1/n], [lambda_max = n], [CI = 0], [CR = 0] and is
    consistent (spec, section 8, consistency boundary). *)
Corollary calculate_ahp_ones (n : nat) :
  (0 < n)%nat ->
  exists r, calculate_ahp (ones_matrix n) = AhpOk r
    /\ (forall i, (i < n)%nat -> vat (res_weights r) i == 1 / Q_of_nat n)
    /\ res_lambdaMax r == Q_of_nat n /\ res_ci r == 0
    /\ (exists c, res_CR r = Fin c /\ c == 0) /\ res_is_consistent r = true.
Proof.
  intros Hn. set (v := vec_of n (fun _ => 1)).
  assert (Hne : v <> []) by (destruct n; [lia|discriminate]).
  assert (Hpos : Forall (fun x => 0 < x) v)
    by (apply Forall_vec_of; intros; reflexivity).
  assert (Hlen : length v = n) by apply length_vec_of.
  assert (Htot : qsum v == Q_of_nat n).
  { unfold v, vec_of. rewrite (qsum_map_const _ _ 1), length_seq; [ring|reflexivity]. }
  rewrite ones_matrix_consistent. fold v.
  eexists. split; [apply cm_calculate; assumption|]. unfold ahp_pipeline. cbv zeta.
  cbn [res_weights res_lambdaMax res_ci res_CR res_is_consistent]. rewrite <- Hlen.
  repeat split.
  - intros i Hi. rewrite cm_weights by assumption. rewrite Htot, Hlen.
    unfold v. rewrite vat_vec_of by lia. reflexivity.
  - apply cm_lambda; assumption.
  - apply cm_ci; assumption.
  - apply cm_cr; assumption.
  - apply cm_flag; assumption.
Qed.

Lemma calculate_ahp_ones_witness :
  (0 < 4)%nat /\ exists r, calculate_ahp (ones_matrix 4) = AhpOk r /\ res_is_consistent r = true.
Proof.
  split; [lia|]. destruct (calculate_ahp_ones 4 ltac:(lia)) as (r & Hr & _ & _ & _ & _ & Hc).
  exists r. split; assumption.
Defined.

(** ** The worked example of the specification *)

(** [[1,3,5],[1/3,1,2],[1/5,1/2,1]] as the application builds it: the
    reciprocals are the binary64 values of [1.0/3], [1.0/5], [1.0/2]. *)
Definition spec_example : list (list Q) :=
  [[1; 3; 5]; [lit (1 # 3); 1; 2]; [lit (1 # 5); lit (1 # 2); 1]].

Lemma spec_example_accepted :
  calculate_ahp (as_floats spec_example) = AhpOk (ahp_pipeline spec_example 3).
Proof.
  rewrite (calculate_ahp_square spec_example 3) by (lia || (split; [reflexivity|repeat constructor])).
  replace (first_bad_diagonal spec_example 3) with (@None nat) by (vm_compute; reflexivity).
  replace (degenerate_columns (col_sums spec_example 3)) with (@nil nat)
    by (vm_compute; reflexivity).
  reflexivity.
Qed.

(** The worked example: the weights are within 0.001 of
    [0.648, 0.230, 0.122], the consistency ratio is a finite value below
    0.01, and the matrix is consistent. *)
Example calculate_ahp_spec_example :
  exists r, calculate_ahp (as_floats spec_example) = AhpOk r
    /\ Qabs (vat (res_weights r) 0 - (648 # 1000)) <= (1 # 1000)
    /\ Qabs (vat (res_weights r) 1 - (230 # 1000)) <= (1 # 1000)
    /\ Qabs (vat (res_weights r) 2 - (122 # 1000)) <= (1 # 1000)
    /\ (exists c, res_CR r = Fin c /\ 0 < c < (1 # 100))
    /\ res_is_consistent r = true.
Proof.
  exists (ahp_pipeline spec_example 3). split; [exact spec_example_accepted|].
  remember (ahp_pipeline spec_example 3) as r eqn:Er. vm_compute in Er. subst r.
  split; [apply Qle_bool_iff; vm_compute; reflexivity|].
  split; [apply Qle_bool_iff; vm_compute; reflexivity|].
  split; [apply Qle_bool_iff; vm_compute; reflexivity|].
  split; [|reflexivity]. eexists. split; [reflexivity|].
  split; apply Qltb_iff; vm_compute; reflexivity.
Qed.

Lemma raw_weights_sum_one_witness :
  qsum (raw_weights (norm_matrix spec_example 3 (col_sums spec_example 3)) 3) == 1.
Proof.
  apply raw_weights_sum_one; [lia|].
  intros j Hj. destruct j as [|[|[|j]]]; try lia; intro H; vm_compute in H; discriminate H.
Defined.
