(* ===== verification/Builder.v ===== *)
(** * Builder: the comparison matrix assembled from the judgement cells

    The four matrix builders of [app.py] share one loop: the criteria form
    of [calculate_criteria_route] (lines 561-571, and 534-545 after an
    import of the criteria sheet), the alternative form of
    [calculate_final_route] (lines 715-736), and the Excel readers
    [parse_matrix_from_sheet] (193-207) and [parse_single_matrix_block]
    (250-264).  Starting from [np.ones((n, n))] the loop visits the cells
    in row-major order; the diagonal cell is parsed as a diagonal value,
    the upper cell [(i, j)] is parsed and its reciprocal
    [1.0/pv if abs(pv) > 1e-9 else np.inf] is written at [(j, i)], and the
    lower cells are not read.  A missing upper cell, or a parse error,
    stops the loop.

    [build_matrix] is that loop, on a list of lists updated in place with
    [set_nth]; [ref_matrix] is the matrix it is meant to build, cell by
    cell.  The theorems show that the loop builds [ref_matrix] or reports
    the first failing cell, that the result is a reciprocal matrix with a
    unit diagonal and Saaty values above it, and that the engine accepts
    every matrix the loop builds. *)

From Stdlib Require Import String Ascii QArith Qabs ZArith List Lia Lqa.
From S2P Require Import Prelude Binary64 PyStr Saaty Engine.
Import ListNotations.
Open Scope Q_scope.
Open Scope ahp_scope.

(** ** Forms and keys *)

(** A submitted form, [request.form]: its [get] returns the first value
    under a key. *)
Definition form : Type := list (string * string).

Definition form_get (f : form) (k : string) : option string :=
  option_map snd (find (fun kv => String.eqb (fst kv) k) f).

(** [f"matrix[{i}][{j}]"] (app.py:564). *)
Definition matrix_key (i j : nat) : string :=
  ("matrix[" ++ py_str_Z (Z.of_nat i) ++ "][" ++ py_str_Z (Z.of_nat j) ++ "]")%string.

(** [f"alt_matrix[{crit_idx}][{i}][{j}]"] (app.py:719). *)
Definition alt_matrix_key (c i j : nat) : string :=
  ("alt_matrix[" ++ py_str_Z (Z.of_nat c) ++ "][" ++ py_str_Z (Z.of_nat i) ++ "]["
   ++ py_str_Z (Z.of_nat j) ++ "]")%string.

(** ** The loop *)

(** Why the loop stops: a missing upper cell ([ValueError] raised at
    app.py:566, or [input_err_flag_alt] at 721), or the [ValueError] of
    [parse_saaty_value]. *)
Inductive build_error : Type :=
| MissingCell (i j : nat)
| BadCell (e : parse_error).

Definition lift_parse (r : result parse_error pyfloat) : result build_error pyfloat :=
  match r with Ok v => Ok v | Err e => Err (BadCell e) end.

(** [abs(pv) > 1e-9] on a float. *)
Definition above_eps (pv : pyfloat) : bool :=
  match pv with
  | Fin q => Qltb (lit (1 # 1000000000)) (Qabs q)
  | PInf | NInf => true
  | NaN => false
  end.

(** [1.0 / pv] on a float with [abs(pv) > 1e-9]. *)
Definition pf_recip (pv : pyfloat) : pyfloat :=
  match pv with
  | Fin q => fl (1 / q)
  | PInf | NInf => Fin 0
  | NaN => NaN
  end.

(** The mirrored cell: [1.0/pv if abs(pv) > 1e-9 else np.inf]. *)
Definition mirror (pv : pyfloat) : pyfloat := if above_eps pv then pf_recip pv else PInf.

(** [M[i, j] = x] on the list of rows. *)
Definition mset (m : list (list pyfloat)) (i j : nat) (x : pyfloat) : list (list pyfloat) :=
  set_nth m i (set_nth (nth i m []) j x).

(** The text of cell [(i, j)]:
    [value_str = form.get(key, "1" if i == j else None)], the missing
    check of an upper cell, then [value_str or ("1" if i == j else "")]
    (app.py:564-567).  [get] is the form lookup of the cell's key. *)
Definition cell_text (get : nat -> nat -> option string) (i j : nat)
  : result build_error string :=
  let value_str := match get i j with
                   | Some s => Some s
                   | None => if (i =? j)%nat then Some "1"%string else None
                   end in
  match value_str with
  | None => if (i <? j)%nat then Err (MissingCell i j) else Ok EmptyString
  | Some s => Ok s
  end.

(** One iteration of the loop body (app.py:564-571, 720-725). *)
Definition build_cell (get : nat -> nat -> option string) (m : list (list pyfloat))
  (i j : nat) : result build_error (list (list pyfloat)) :=
  s <- cell_text get i j ;;
  if (i =? j)%nat then
    v <- lift_parse (parse_saaty_value (strip s) true) ;; Ok (mset m i j v)
  else if (i <? j)%nat then
    pv <- lift_parse (parse_saaty_value (strip s) false) ;;
    Ok (mset (mset m i j pv) j i (mirror pv))
  else Ok m.

(** [for i in range(n): for j in range(n):] *)
Definition index_pairs (n : nat) : list (nat * nat) :=
  flat_map (fun i => map (fun j => (i, j)) (seq 0 n)) (seq 0 n).

(** The loop from [np.ones((n, n))]; the first error stops it. *)
Definition build_matrix (get : nat -> nat -> option string) (n : nat)
  : result build_error (list (list pyfloat)) :=
  fold_left (fun acc ij => m <- acc ;; build_cell get m (fst ij) (snd ij))
    (index_pairs n) (Ok (ones_matrix n)).

(** The criteria form (app.py:561-571). *)
Definition build_criteria_matrix (f : form) (n : nat) :=
  build_matrix (fun i j => form_get f (matrix_key i j)) n.

(** The alternative form of criterion [c] (app.py:715-736). *)
Definition build_alt_matrix (f : form) (c n : nat) :=
  build_matrix (fun i j => form_get f (alt_matrix_key c i j)) n.

(** The Excel readers: every cell has a text, ["1"] for an empty cell
    (app.py:191, 248), then the same loop (193-207, 250-264). *)
Definition build_sheet_matrix (cell : nat -> nat -> option string) (n : nat) :=
  build_matrix (fun i j => Some (match cell i j with Some s => s | None => "1"%string end)) n.

(** ** The matrix the loop is meant to build *)

(** What the loop body computes at cell [(i, j)], before it writes. *)
Definition cell_result (get : nat -> nat -> option string) (i j : nat)
  : result build_error pyfloat :=
  s <- cell_text get i j ;;
  if (i =? j)%nat then lift_parse (parse_saaty_value (strip s) true)
  else if (i <? j)%nat then lift_parse (parse_saaty_value (strip s) false)
  else Ok (Fin 1).

(** What the loop body writes once [v] is computed. *)
Definition write_cell (i j : nat) (v : pyfloat) (m : list (list pyfloat)) :=
  if (i =? j)%nat then mset m i j v
  else if (i <? j)%nat then mset (mset m i j v) j i (mirror v)
  else m.

(** The cell whose iteration writes [(k, l)]: the upper one of the pair. *)
Definition writer (k l : nat) : nat * nat := if (k <=? l)%nat then (k, l) else (l, k).

Definition same_cell (p q : nat * nat) : bool := (fst p =? fst q)%nat && (snd p =? snd q)%nat.

(** The reciprocal matrix of the values [val] read on and above the
    diagonal. *)
Definition ref_entry (val : nat -> nat -> pyfloat) (k l : nat) : pyfloat :=
  if (k =? l)%nat then val k k else if (k <? l)%nat then val k l else mirror (val l k).

Definition ref_matrix (val : nat -> nat -> pyfloat) (n : nat) : list (list pyfloat) :=
  vec_of n (fun k => vec_of n (fun l => ref_entry val k l)).

(** [M[k, l]] read back. *)
Definition pat (m : list (list pyfloat)) (k l : nat) : pyfloat := nth l (nth k m []) NaN.

(** The values the cells parse to, when none fails. *)
Definition cell_value (get : nat -> nat -> option string) (i j : nat) : pyfloat :=
  ok_or (Fin 1) (cell_result get i j).

(** ** The loop computes the reference matrix *)

Lemma build_cell_eq get m i j :
  build_cell get m i j = v <- cell_result get i j ;; Ok (write_cell i j v m).
Proof.
  unfold build_cell, cell_result, write_cell.
  destruct (cell_text get i j) as [s|e]; [|reflexivity]. cbn [rbind].
  destruct (i =? j)%nat; [destruct lift_parse; reflexivity|].
  destruct (i <? j)%nat; [destruct lift_parse; reflexivity|reflexivity].
Qed.

Lemma build_matrix_loop get n :
  build_matrix get n =
  match first_error (fun ij => cell_result get (fst ij) (snd ij)) (index_pairs n) with
  | Some e => Err e
  | None => Ok (fold_left (fun m ij => write_cell (fst ij) (snd ij)
                              (cell_value get (fst ij) (snd ij)) m)
                 (index_pairs n) (ones_matrix n))
  end.
Proof.
  unfold build_matrix.
  rewrite (fold_left_ext _ (loop_step (fun ij => cell_result get (fst ij) (snd ij))
                                      (fun ij v m => write_cell (fst ij) (snd ij) v m))).
  - rewrite (fold_loop_step _ _ (Fin 1)). reflexivity.
  - intros acc [i j]. unfold loop_step. destruct acc; [apply build_cell_eq|reflexivity].
Qed.

Section Cells.
Variable n : nat.

Lemma square_mset m i j x : square m n -> square (mset m i j x) n.
Proof.
  intros [Hl Hr]. unfold mset. split; [rewrite length_set_nth; exact Hl|].
  destruct (Nat.lt_ge_cases i (length m)) as [Hi|Hi].
  - apply Forall_set_nth; [exact Hr|]. rewrite length_set_nth.
    apply (proj1 (Forall_forall _ _) Hr), nth_In, Hi.
  - rewrite set_nth_overflow by exact Hi. exact Hr.
Qed.

Lemma pat_mset m i j x k l :
  square m n -> (i < n)%nat -> (j < n)%nat ->
  pat (mset m i j x) k l = if (k =? i)%nat && (l =? j)%nat then x else pat m k l.
Proof.
  intros [Hl Hr] Hi Hj. unfold pat, mset. rewrite nth_set_nth by lia.
  destruct (Nat.eqb_spec k i) as [->|]; [|reflexivity]. cbn.
  rewrite nth_set_nth; [reflexivity|].
  rewrite (proj1 (Forall_forall _ _) Hr); [exact Hj|]. apply nth_In. lia.
Qed.

Lemma square_write_cell i j v m : square m n -> square (write_cell i j v m) n.
Proof.
  intros H. unfold write_cell.
  destruct (i =? j)%nat; [apply square_mset, H|].
  destruct (i <? j)%nat; [apply square_mset, square_mset, H|exact H].
Qed.

Lemma pat_write_cell (val : nat -> nat -> pyfloat) m i j k l :
  square m n -> (i < n)%nat -> (j < n)%nat -> (k < n)%nat -> (l < n)%nat ->
  pat (write_cell i j (val i j) m) k l =
  if same_cell (writer k l) (i, j) then ref_entry val k l else pat m k l.
Proof.
  intros Hsq Hi Hj Hk Hl. unfold write_cell, same_cell, writer, ref_entry.
  destruct (Nat.eqb_spec i j) as [<-|Hij]; [rewrite pat_mset by assumption; nat_cases|].
  destruct (Nat.ltb_spec i j); [|nat_cases].
  rewrite pat_mset by (try apply square_mset; assumption).
  rewrite pat_mset by assumption. nat_cases.
Qed.

Lemma fold_write_cells (val : nat -> nat -> pyfloat) (D : list (nat * nat)) m :
  square m n -> (forall p, In p D -> (fst p < n)%nat /\ (snd p < n)%nat) ->
  let m' := fold_left (fun m ij => write_cell (fst ij) (snd ij) (val (fst ij) (snd ij)) m) D m in
  square m' n /\
  forall k l, (k < n)%nat -> (l < n)%nat ->
    pat m' k l = if existsb (same_cell (writer k l)) D then ref_entry val k l else pat m k l.
Proof.
  revert m. induction D as [|[i j] D IH]; intros m Hsq HD; [split; [exact Hsq|reflexivity]|].
  destruct (HD (i, j) (or_introl eq_refl)) as [Hi Hj]. cbn [fst snd] in Hi, Hj.
  destruct (IH (write_cell i j (val i j) m)) as [Hsq' Hpat].
  - apply square_write_cell, Hsq.
  - intros p Hp. apply HD. right. exact Hp.
  - split; [exact Hsq'|]. intros k l Hk Hl. cbn [fold_left existsb fst snd].
    rewrite Hpat by assumption. rewrite pat_write_cell by assumption.
    destruct (same_cell (writer k l) (i, j)), (existsb _ D); reflexivity.
Qed.
End Cells.

Lemma index_pairs_In n i j : In (i, j) (index_pairs n) <-> (i < n)%nat /\ (j < n)%nat.
Proof.
  unfold index_pairs. rewrite in_flat_map. split.
  - intros (i' & Hi & Hin). apply in_map_iff in Hin as (j' & [= <- <-] & Hj).
    apply in_seq in Hi, Hj. lia.
  - intros [Hi Hj]. exists i. split; [apply in_seq; lia|].
    apply in_map_iff. exists j. split; [reflexivity|apply in_seq; lia].
Qed.

Lemma writer_in_pairs n k l :
  (k < n)%nat -> (l < n)%nat -> existsb (same_cell (writer k l)) (index_pairs n) = true.
Proof.
  intros Hk Hl. apply existsb_exists. exists (writer k l). split.
  - unfold writer. destruct (k <=? l)%nat; apply index_pairs_In; lia.
  - unfold same_cell. rewrite !Nat.eqb_refl. reflexivity.
Qed.

Lemma square_ones n : square (ones_matrix n) n.
Proof.
  unfold ones_matrix. split; [apply repeat_length|].
  apply Forall_forall. intros r Hr. apply repeat_spec in Hr. subst r. apply repeat_length.
Qed.

Lemma matrix_ext (m : list (list pyfloat)) n (f : nat -> nat -> pyfloat) :
  square m n -> (forall k l, (k < n)%nat -> (l < n)%nat -> pat m k l = f k l) ->
  m = vec_of n (fun k => vec_of n (fun l => f k l)).
Proof.
  intros [Hl Hr] Hf. apply nth_ext with (d := []) (d' := []).
  - rewrite length_vec_of. exact Hl.
  - intros k Hk. rewrite Hl in Hk. rewrite nth_vec_of by exact Hk.
    apply nth_ext with (d := NaN) (d' := NaN).
    + rewrite length_vec_of. apply (proj1 (Forall_forall _ _) Hr), nth_In. lia.
    + intros l Hl'. rewrite (proj1 (Forall_forall _ _) Hr) in Hl' by (apply nth_In; lia).
      rewrite nth_vec_of by exact Hl'. apply Hf; assumption.
Qed.

(** ** What the builders produce *)

Lemma build_matrix_ref get n :
  build_matrix get n =
  match first_error (fun ij => cell_result get (fst ij) (snd ij)) (index_pairs n) with
  | Some e => Err e
  | None => Ok (ref_matrix (cell_value get) n)
  end.
Proof.
  rewrite build_matrix_loop. destruct first_error; [reflexivity|]. f_equal.
  destruct (fold_write_cells n (cell_value get) (index_pairs n) (ones_matrix n) (square_ones n))
    as [Hsq Hpat].
  - intros [i j] Hij. apply index_pairs_In, Hij.
  - apply matrix_ext; [exact Hsq|]. intros k l Hk Hl.
    rewrite Hpat, writer_in_pairs by assumption. reflexivity.
Qed.

(** [C2] The in-place loop computes the reference matrix: [build_matrix]
    raises the first error met in row-major order, or returns the
    reciprocal matrix whose diagonal and upper cells are the parsed
    values and whose lower cells are their mirrors. *)
Theorem build_matrix_spec get n :
  build_matrix get n =
  match first_error (fun ij => cell_result get (fst ij) (snd ij)) (index_pairs n) with
  | Some e => Err e
  | None => Ok (ref_matrix (cell_value get) n)
  end.
Proof. apply build_matrix_ref. Qed.


Lemma pat_ref_matrix val n k l :
  (k < n)%nat -> (l < n)%nat -> pat (ref_matrix val n) k l = ref_entry val k l.
Proof. intros Hk Hl. unfold pat, ref_matrix. rewrite !nth_vec_of by assumption. reflexivity. Qed.

Lemma square_ref_matrix val n : square (ref_matrix val n) n.
Proof.
  split; [apply length_vec_of|]. apply Forall_vec_of. intros i _. apply length_vec_of.
Qed.

Lemma cell_result_diag get i v : cell_result get i i = Ok v -> v = Fin 1.
Proof.
  unfold cell_result. destruct (cell_text get i i) as [s|]; [|discriminate]. cbn [rbind].
  rewrite Nat.eqb_refl. unfold lift_parse.
  destruct (parse_saaty_value (strip s) true) eqn:E; [|discriminate].
  intros H. injection H as <-. apply (parse_saaty_value_diagonal _ _ E).
Qed.

(** An upper cell that reads is a value the parser accepts. *)
Lemma cell_result_parse get i j v :
  (i < j)%nat -> cell_result get i j = Ok v -> exists s, parse_saaty_value s false = Ok v.
Proof.
  intros Hij. unfold cell_result. destruct (cell_text get i j) as [s|]; [|discriminate].
  cbn [rbind]. replace (i =? j)%nat with false by (symmetry; apply Nat.eqb_neq; lia).
  replace (i <? j)%nat with true by (symmetry; apply Nat.ltb_lt; lia). unfold lift_parse.
  destruct (parse_saaty_value (strip s) false) eqn:E; [|discriminate].
  intros H. injection H as <-. exists (strip s). exact E.
Qed.

Lemma cell_result_upper get i j v :
  (i < j)%nat -> cell_result get i j = Ok v -> exists q, v = Fin q /\ saaty_scale_value q.
Proof.
  intros Hij H. destruct (cell_result_parse get i j v Hij H) as [s Hs].
  apply (parse_saaty_value_scale _ _ Hs).
Qed.

(** A lower cell is not read. *)
Lemma cell_result_lower get i j : (j < i)%nat -> cell_result get i j = Ok (Fin 1).
Proof.
  intros Hji. unfold cell_result, cell_text.
  replace (i =? j)%nat with false by (symmetry; apply Nat.eqb_neq; lia).
  replace (i <? j)%nat with false by (symmetry; apply Nat.ltb_ge; lia).
  destruct (get i j); reflexivity.
Qed.

(** The reference matrix only depends on the values on and above the
    diagonal. *)
Lemma ref_matrix_ext_upper val val' n :
  (forall k l, (k < n)%nat -> (l < n)%nat -> (k <= l)%nat -> val k l = val' k l) ->
  ref_matrix val n = ref_matrix val' n.
Proof.
  intros H. unfold ref_matrix. apply vec_of_ext. intros k Hk. apply vec_of_ext. intros l Hl.
  unfold ref_entry. nat_cases; [apply H; lia|apply H; lia|f_equal; apply H; lia].
Qed.

Lemma eps_lt_tenth : lit (1 # 1000000000) < 1 # 10.
Proof. vm_compute. reflexivity. Qed.

Lemma pow2_small : 2 ^ (-1000) <= 1 # 9.
Proof. vm_compute. discriminate. Qed.

(** The mirror of a Saaty value [q] is the float [1.0 / q], finite and
    positive. *)
Lemma mirror_saaty q :
  saaty_scale_value q -> exists y, mirror (Fin q) = Fin y /\ fl (1 / q) = Fin y /\ 0 < y.
Proof.
  intros Hq. apply saaty_scale_value_bounds in Hq as [H1 H9].
  assert (Hinv : 1 # 9 <= 1 / q <= 10).
  { split; [apply Qle_shift_div_l; lra|apply Qle_shift_div_r; lra]. }
  assert (H2 : 10 <= 2 ^ 1000) by (vm_compute; discriminate).
  destruct (fl_finite (1 / q)) as [y Hy]; [lra|lra|].
  exists y. unfold mirror, above_eps. pose proof eps_lt_tenth.
  replace (Qltb _ (Qabs q)) with true
    by (symmetry; apply Qltb_iff; rewrite Qabs_pos by lra; lra).
  split; [exact Hy|]. split; [exact Hy|].
  apply (fl_pos_value (1 / q)); [pose proof pow2_small; lra|exact Hy].
Qed.

Lemma build_matrix_Ok get n m :
  build_matrix get n = Ok m ->
  m = ref_matrix (cell_value get) n
  /\ forall i j, (i < n)%nat -> (j < n)%nat -> cell_result get i j = Ok (cell_value get i j).
Proof.
  rewrite build_matrix_ref.
  destruct (first_error _ _) eqn:E; [discriminate|]. intros H. injection H as <-.
  split; [reflexivity|]. intros i j Hi Hj.
  destruct (proj1 (first_error_None _ _) E (i, j)) as [v Hv]; [apply index_pairs_In; auto|].
  cbn [fst snd] in Hv. unfold cell_value. rewrite Hv. reflexivity.
Qed.

(** [C6] Every matrix a builder returns is a reciprocal comparison matrix:
    [n] by [n], [1.0] on the diagonal, a Saaty value [q] above it and the
    float [1.0 / q] at the mirrored cell. *)
Theorem build_matrix_reciprocal get n m :
  build_matrix get n = Ok m ->
  square m n
  /\ (forall i, (i < n)%nat -> pat m i i = Fin 1)
  /\ (forall i j, (i < j < n)%nat ->
        exists q y, pat m i j = Fin q /\ saaty_scale_value q
                    /\ pat m j i = Fin y /\ fl (1 / q) = Fin y).
Proof.
  intros H. apply build_matrix_Ok in H as [-> Hc].
  split; [apply square_ref_matrix|]. split.
  - intros i Hi. rewrite pat_ref_matrix by assumption. unfold ref_entry.
    rewrite Nat.eqb_refl. apply (cell_result_diag get i), Hc; assumption.
  - intros i j Hij. rewrite !pat_ref_matrix by lia. unfold ref_entry.
    destruct (cell_result_upper get i j (cell_value get i j)) as (q & Hq & Hs);
      [lia|apply Hc; lia|].
    destruct (mirror_saaty q Hs) as (y & Hm & Hy & _).
    exists q, y. nat_cases; rewrite Hq; auto.
Qed.

(** The value of a finite float. *)
Definition fin_val (x : pyfloat) : Q := match x with Fin q => q | _ => 0 end.

Section Built.
Variables (get : nat -> nat -> option string) (n : nat).
Hypothesis Hok : forall i j, (i < n)%nat -> (j < n)%nat ->
                 cell_result get i j = Ok (cell_value get i j).

Lemma built_diag k : (k < n)%nat -> ref_entry (cell_value get) k k = Fin 1.
Proof.
  intros Hk. unfold ref_entry. rewrite Nat.eqb_refl. apply (cell_result_diag get k), Hok; lia.
Qed.

Lemma built_entry_pos k l :
  (k < n)%nat -> (l < n)%nat -> exists q, ref_entry (cell_value get) k l = Fin q /\ 0 < q.
Proof.
  intros Hk Hl. destruct (Nat.lt_trichotomy k l) as [Hkl|[<-|Hkl]].
  - destruct (cell_result_upper get k l (cell_value get k l)) as (q & Hq & Hs);
      [exact Hkl|apply Hok; assumption|].
    exists q. unfold ref_entry. nat_cases. split; [exact Hq|].
    apply saaty_scale_value_bounds in Hs. lra.
  - exists 1. split; [apply built_diag, Hk|reflexivity].
  - destruct (cell_result_upper get l k (cell_value get l k)) as (q & Hq & Hs);
      [exact Hkl|apply Hok; assumption|].
    destruct (mirror_saaty q Hs) as (y & Hm & _ & Hy).
    exists y. unfold ref_entry. nat_cases. rewrite Hq. split; assumption.
Qed.

(** The built matrix as a matrix of rationals. *)
Local Abbreviation built_q :=
  (vec_of n (fun k => vec_of n (fun l => fin_val (ref_entry (cell_value get) k l)))).

Lemma built_as_floats : ref_matrix (cell_value get) n = as_floats built_q.
Proof.
  unfold ref_matrix, as_floats. rewrite map_vec_of. apply vec_of_ext. intros k Hk.
  rewrite map_vec_of. apply vec_of_ext. intros l Hl.
  destruct (built_entry_pos k l Hk Hl) as (q & -> & _). reflexivity.
Qed.

Lemma built_square : square built_q n.
Proof. split; [apply length_vec_of|]. apply Forall_vec_of. intros i _. apply length_vec_of. Qed.

Lemma built_pos : Forall (Forall (fun q => 0 < q)) built_q.
Proof.
  apply Forall_vec_of. intros k Hk. apply Forall_vec_of. intros l Hl.
  destruct (built_entry_pos k l Hk Hl) as (q & -> & Hq). exact Hq.
Qed.

Lemma built_unit_diag i : (i < n)%nat -> mget built_q i i == 1.
Proof. intros Hi. rewrite mget_vec_of, built_diag by exact Hi. reflexivity. Qed.
End Built.

(** A matrix the engine accepts: the float image of a rational matrix [a]
    of size [n] on which [calculate_ahp] runs its whole pipeline, with
    positive weights. *)
Definition engine_ready (n : nat) (m : list (list pyfloat)) : Prop :=
  exists a, m = as_floats a /\ calculate_ahp m = AhpOk (ahp_pipeline a n)
    /\ Forall (fun w => 0 < w) (res_weights (ahp_pipeline a n)).

Lemma build_matrix_ready get n m :
  (0 < n)%nat -> build_matrix get n = Ok m -> engine_ready n m.
Proof.
  intros Hn H. apply build_matrix_Ok in H as [-> Hok].
  exists (vec_of n (fun k => vec_of n (fun l => fin_val (ref_entry (cell_value get) k l)))).
  rewrite (built_as_floats get n Hok).
  pose proof (built_square get n) as Hsq. pose proof (built_pos get n Hok) as Hpos.
  split; [reflexivity|]. split.
  - apply calculate_ahp_positive; [exact Hsq|exact Hpos|exact Hn|apply built_unit_diag, Hok].
  - apply pipeline_weights_pos; assumption.
Qed.

(** [C3] The engine accepts every matrix a builder returns: the matrix is
    the float image of a positive rational matrix [a] with a unit diagonal,
    [calculate_ahp] returns its full result (none of the structural errors
    of ahp.py:107-137 can occur), and the weights are positive. *)
Theorem build_matrix_accepted get n m :
  (0 < n)%nat -> build_matrix get n = Ok m ->
  exists a, m = as_floats a /\ calculate_ahp m = AhpOk (ahp_pipeline a n)
    /\ Forall (fun w => 0 < w) (res_weights (ahp_pipeline a n)).
Proof. exact (build_matrix_ready get n m). Qed.

(** ** A submitted criteria form *)

(** The upper cells of the spec's worked example as a user types them;
    the diagonal is left to its default and a lower cell holds text that
    the loop never reads. *)
Definition example_form : form :=
  [("matrix[0][1]", "3"); ("matrix[0][2]", " 5 "); ("matrix[1][2]", "2");
   ("matrix[2][0]", "junk")]%string.

Definition example_built : list (list pyfloat) :=
  ok_or [] (build_criteria_matrix example_form 3).

Lemma example_form_builds : build_criteria_matrix example_form 3 = Ok example_built.
Proof. vm_compute. reflexivity. Qed.

Lemma build_matrix_reciprocal_witness :
  exists q y, pat example_built 0 2 = Fin q /\ saaty_scale_value q
              /\ pat example_built 2 0 = Fin y /\ fl (1 / q) = Fin y.
Proof.
  destruct (build_matrix_reciprocal (fun i j => form_get example_form (matrix_key i j)) 3
    example_built example_form_builds) as (_ & _ & H).
  apply H. lia.
Defined.

Lemma build_matrix_accepted_witness :
  exists a, example_built = as_floats a
    /\ calculate_ahp example_built = AhpOk (ahp_pipeline a 3)
    /\ Forall (fun w => 0 < w) (res_weights (ahp_pipeline a 3)).
Proof.
  apply (build_matrix_accepted (fun i j => form_get example_form (matrix_key i j)) 3 example_built);
    [lia|exact example_form_builds].
Defined.
