(* ===== verification/Render.v ===== *)
(** * Render: a comparison matrix printed back into form fields

    [convert_numpy_matrix_to_form_data] (app.py:266-288) turns a matrix
    read from an Excel sheet into the texts of the criteria or alternative
    form, so that the page shows the imported judgements and a later
    submission parses them again; [convert_all_alt_matrices_to_form_data]
    (289-304) does it for every alternative matrix.  The texts use four
    Python conversions, modelled here on the exact values: [round(x)]
    (nearest integer, ties to even), [int(x)] (truncation),
    [f"{x:.4f}".rstrip('0').rstrip('.')] and [str(x)] (the shortest text
    that reads back as the same float, in [repr]'s layout).

    The theorems show that rendering a matrix built by the form loop and
    parsing it again gives the matrix of the canonical Saaty values: every
    integer judgement is printed as itself, every reciprocal judgement
    within [1e-10] of [1/d] as ["1/d"]. *)

From Stdlib Require Import String Ascii QArith Qabs Qpower Qround ZArith List Lia Lqa.
From S2P Require Import Prelude Binary64 PyStr Saaty Engine Builder.
Import ListNotations.
Open Scope Q_scope.
Open Scope ahp_scope.

(** ** Python's number conversions *)

(** [round(x)] on a finite float: the nearest integer, ties to even. *)
Definition py_round_int (x : Q) : Z := round_half_even_Z (Qnum x) (Zpos (Qden x)).

(** [int(x)] on a finite float: truncation toward zero. *)
Definition py_trunc (x : Q) : Z := if Qle_bool 0 x then Qfloor x else (- Qfloor (- x))%Z.

(** [k] zeros. *)
Fixpoint zeros (k : nat) : string :=
  match k with O => EmptyString | S k => String "0" (zeros k) end.

(** [s] left-padded with zeros to [k] characters. *)
Definition pad_zeros (k : nat) (s : string) : string := (zeros (k - String.length s) ++ s)%string.

(** [f"{x:.{k}f}"] for [k >= 1]: the exact value rounded to [k]
    decimals, ties to even, a minus sign when [x < 0]. *)
Definition format_fixed (k : nat) (x : Q) : string :=
  let p := (10 ^ Z.of_nat k)%Z in
  let n := round_half_even_Z (Z.abs (Qnum x) * p) (Zpos (Qden x)) in
  ((if (Qnum x <? 0)%Z then "-" else "") ++ py_str_Z (n / p) ++ "."
   ++ pad_zeros k (py_str_Z (n mod p)))%string.

Fixpoint drop_while (f : ascii -> bool) (l : list ascii) : list ascii :=
  match l with [] => [] | c :: l' => if f c then drop_while f l' else l end.

(** [s.rstrip(c)] for one character [c]. *)
Definition rstrip_char (c : ascii) (s : string) : string :=
  string_of_list_ascii (rev (drop_while (Ascii.eqb c) (rev (list_ascii_of_string s)))).

(** [f"{x:.4f}".rstrip('0').rstrip('.')] *)
Definition format_4f_stripped (x : Q) : string :=
  rstrip_char "." (rstrip_char "0" (format_fixed 4 x)).

(** ** [str(x)] of a float: the shortest decimal that reads back *)

(** [floor(log10 k)] for [k > 0]: one less than its number of digits. *)
Definition zlog10 (k : Z) : Z := (Z.of_nat (String.length (py_str_Z k)) - 1)%Z.

(** [floor(log10 x)] for [x > 0]: [log10 p - log10 r] is the floor or one
    above it. *)
Definition qlog10_floor (x : Q) : Z :=
  let e0 := (zlog10 (Qnum x) - zlog10 (Zpos (Qden x)))%Z in
  if Qle_bool (10 ^ e0) x then e0 else (e0 - 1)%Z.

(** The decimal [n * 10^s] reads back as the float [Fin q]. *)
Definition reads_back (q : Q) (n s : Z) : bool :=
  match fl (inject_Z n * 10 ^ s) with Fin y => Qeq_bool y q | _ => false end.

(** The [p]-digit decimals of [q > 0]: the nearest one [n * 10^s] if it
    reads back, else its other neighbour if that one does. *)
Definition digits_at (q : Q) (p : nat) : option (Z * Z) :=
  let s := (qlog10_floor q - Z.of_nat p + 1)%Z in
  let x := q * 10 ^ (- s) in
  let n := py_round_int x in
  if reads_back q n s then Some (n, s)
  else let n' := if Qltb (inject_Z n) x then (n + 1)%Z else (n - 1)%Z in
       if reads_back q n' s then Some (n', s) else None.

Fixpoint first_some {A B} (f : A -> option B) (l : list A) : option B :=
  match l with [] => None | a :: l => match f a with Some b => Some b | None => first_some f l end end.

(** Trailing zeros of the digit string moved into the exponent. *)
Fixpoint drop_zeros (fuel : nat) (n s : Z) : Z * Z :=
  match fuel with
  | O => (n, s)
  | S f => if ((n mod 10 =? 0) && negb (n =? 0))%Z then drop_zeros f (n / 10) (s + 1) else (n, s)
  end.

(** The shortest decimal that reads back as [q > 0], at most 17 digits
    (17 always suffice for a binary64 value). *)
Definition shortest_digits (q : Q) : Z * Z :=
  let '(n, s) := match first_some (digits_at q) (seq 1 17) with
                 | Some r => r
                 | None => (py_round_int (q * 10 ^ (- (qlog10_floor q - 16))),
                            (qlog10_floor q - 16)%Z)
                 end in
  drop_zeros 17 n s.

(** [repr]'s layout of the digits [ds] with the point at [decpt]
    ([0.ds * 10^decpt]): exponent form when [decpt <= -4] or
    [decpt > 16], otherwise positional with at least one decimal. *)
Definition repr_layout (ds : string) (decpt : Z) : string :=
  let p := Z.of_nat (String.length ds) in
  if ((decpt <=? -4) || (16 <? decpt))%Z then
    let e := (decpt - 1)%Z in
    (substring 0 1 ds
     ++ (if (1 <? p)%Z then "." ++ substring 1 (String.length ds - 1) ds else "")
     ++ "e" ++ (if (e <? 0)%Z then "-" else "+") ++ pad_zeros 2 (py_str_Z (Z.abs e)))%string
  else if (decpt <=? 0)%Z then ("0." ++ zeros (Z.to_nat (- decpt)) ++ ds)%string
  else if (p <=? decpt)%Z then (ds ++ zeros (Z.to_nat (decpt - p)) ++ ".0")%string
  else (substring 0 (Z.to_nat decpt) ds ++ "."
        ++ substring (Z.to_nat decpt) (Z.to_nat (p - decpt)) ds)%string.

(** [str(x)] of a float. *)
Definition py_repr (x : pyfloat) : string :=
  match x with
  | PInf => "inf"
  | NInf => "-inf"
  | NaN => "nan"
  | Fin q =>
      if Qeq_bool q 0 then "0.0"
      else let '(n, s) := shortest_digits (Qabs q) in
           let ds := py_str_Z n in
           ((if Qltb q 0 then "-" else "") ++ repr_layout ds (s + Z.of_nat (String.length ds)))%string
  end.

(** ** The converter *)

(** [abs(x) < b] on a float. *)
Definition pf_abs_lt (x : pyfloat) (b : Q) : bool :=
  match x with Fin q => Qltb (Qabs q) b | _ => false end.

(** The text of an upper cell [(r, c)], [r < c] (app.py:277-287); [None]
    is the [OverflowError] of [round(inf)].  [x - round(x)] subtracts an
    integer the float [x] represents exactly. *)
Definition render_upper (v : pyfloat) : option string :=
  match v with
  | Fin q =>
      if Qltb 0 q && Qltb q 1 then
        match fl (1 / q) with
        | Fin inv =>
            let k := py_round_int inv in
            if pf_abs_lt (fl (inv - inject_Z k)) (lit (1 # 1000000))
            then Some ("1/" ++ py_str_Z k)%string
            else Some (format_4f_stripped q)
        | _ => None
        end
      else if Qle_bool 1 q then
        if pf_abs_lt (fl (q - inject_Z (py_round_int q))) (lit (1 # 1000000))
        then Some (py_str_Z (py_trunc q))
        else Some (format_4f_stripped q)
      else Some (py_repr v)
  | PInf => None
  | NInf | NaN => Some (py_repr v)
  end.

(** [f"[{r}][{c}]"] and the key of the cell (app.py:271-272). *)
Definition key_base (r c : nat) : string :=
  ("[" ++ py_str_Z (Z.of_nat r) ++ "][" ++ py_str_Z (Z.of_nat c) ++ "]")%string.

Definition render_key (prefix : string) (crit_idx : option Z) (r c : nat) : string :=
  match crit_idx with
  | None => (prefix ++ key_base r c)%string
  | Some k => (prefix ++ "[" ++ py_str_Z k ++ "]" ++ key_base r c)%string
  end.

(** [d[k] = v] on a dict with string keys, kept in insertion order. *)
Fixpoint dict_set {A} (d : list (string * A)) (k : string) (v : A) : list (string * A) :=
  match d with
  | [] => [(k, v)]
  | (k', v') :: d' => if String.eqb k' k then (k, v) :: d' else (k', v') :: dict_set d' k v
  end.

(** What the body does at [(r, c)]: write ["1"] on the diagonal, the text
    of an upper cell, nothing below; [round(inf)] raises. *)
Inductive render_error : Type := RoundOverflow (r c : nat).

Definition render_cell (m : list (list pyfloat)) (r c : nat)
  : result render_error (option string) :=
  if (r =? c)%nat then Ok (Some "1"%string)
  else if (r <? c)%nat then
    match render_upper (pat m r c) with
    | Some t => Ok (Some t)
    | None => Err (RoundOverflow r c)
    end
  else Ok None.

Definition dict_put (d : form) (k : string) (o : option string) : form :=
  match o with Some v => dict_set d k v | None => d end.

(** [for r in range(n_rows): for c in range(n_cols):] *)
Definition cell_pairs (n_rows n_cols : nat) : list (nat * nat) :=
  flat_map (fun r => map (fun c => (r, c)) (seq 0 n_cols)) (seq 0 n_rows).

(** [convert_numpy_matrix_to_form_data(matrix_np, form_prefix, crit_idx)]
    (app.py:266-288); the shape is that of the first row. *)
Definition convert_numpy_matrix_to_form_data (m : list (list pyfloat)) (form_prefix : string)
  (crit_idx : option Z) : result render_error form :=
  fold_left
    (loop_step (fun rc => render_cell m (fst rc) (snd rc))
               (fun rc o d => dict_put d (render_key form_prefix crit_idx (fst rc) (snd rc)) o))
    (cell_pairs (length m) (length (nth 0 m []))) (Ok []).

(** [d.update(e)]. *)
Definition dict_update (d e : form) : form := fold_left (fun d kv => dict_set d (fst kv) (snd kv)) e d.

(** Why [convert_all_alt_matrices_to_form_data] raises: [int(crit_idx_str)]
    fails, or a conversion does. *)
Inductive convert_all_error : Type := BadCritIndex (s : string) | RenderFailed (e : render_error).

(** [convert_all_alt_matrices_to_form_data(imported, criteria, alternatives)]
    (app.py:289-304): the dict [imported] in insertion order; the tuples
    only give lengths the body does not use. *)
Definition convert_all_alt_matrices_to_form_data
  (imported : list (string * list (list pyfloat))) : result convert_all_error form :=
  fold_left
    (fun acc kv =>
       d <- acc ;;
       match py_int (fst kv) with
       | None => Err (BadCritIndex (fst kv))
       | Some k =>
           match convert_numpy_matrix_to_form_data (snd kv) "alt_matrix" (Some k) with
           | Ok e => Ok (dict_update d e)
           | Err e => Err (RenderFailed e)
           end
       end)
    imported (Ok []).

(** The canonical Saaty value of a judgement: the integer part of a value
    of at least 1, the float [1.0 / d] for the nearest integer [d] to the
    inverse of a value below 1. *)
Definition saaty_canon (v : pyfloat) : pyfloat :=
  match v with
  | Fin q =>
      if Qle_bool 1 q then Fin (inject_Z (Qfloor q))
      else fl (1 / inject_Z (py_round_int (1 / q)))
  | other => other
  end.

(** ** Dicts: the last write wins *)

Lemma form_get_dict_set (d : form) k v k' :
  form_get (dict_set d k v) k' = if String.eqb k k' then Some v else form_get d k'.
Proof.
  unfold form_get. induction d as [|[k0 v0] d IH]; cbn [dict_set find fst].
  - destruct (String.eqb k k'); reflexivity.
  - destruct (String.eqb_spec k0 k) as [->|Hne]; cbn [find fst].
    + destruct (String.eqb k k'); reflexivity.
    + destruct (String.eqb_spec k0 k') as [->|]; [|exact IH].
      destruct (String.eqb_spec k k'); [congruence|reflexivity].
Qed.

Lemma form_get_dict_put (d : form) k o k' :
  form_get (dict_put d k o) k' =
  if String.eqb k k' then match o with Some v => Some v | None => form_get d k' end
  else form_get d k'.
Proof. destruct o; [apply form_get_dict_set|destruct (String.eqb k k'); reflexivity]. Qed.

Section Writes.
Context {X : Type} (key : X -> string) (val : X -> option string).

(** The writes of a loop body, in order. *)
Definition put_all (l : list X) (d : form) : form :=
  fold_left (fun d x => dict_put d (key x) (val x)) l d.

(** A key that every write of [l] writing to it writes the same way
    reads that write, if there is one. *)
Lemma form_get_put_all (l : list X) (d : form) (x0 : X) :
  (forall x, In x l -> key x = key x0 -> val x = val x0) ->
  form_get (put_all l d) (key x0) =
  if existsb (fun x => String.eqb (key x) (key x0)) l
  then match val x0 with Some v => Some v | None => form_get d (key x0) end
  else form_get d (key x0).
Proof.
  unfold put_all. revert d. induction l as [|x l IH]; intros d Hl; [reflexivity|].
  cbn [fold_left existsb]. rewrite IH by (intros y Hy; apply Hl; right; exact Hy).
  rewrite !form_get_dict_put.
  destruct (String.eqb_spec (key x) (key x0)) as [E|]; cbn [orb]; [|reflexivity].
  rewrite (Hl x (or_introl eq_refl) E).
  destruct (existsb _ l), (val x0); reflexivity.
Qed.
End Writes.

(** ** The keys are one to one *)

Lemma string_app_cancel_l (p a b : string) : (p ++ a = p ++ b)%string -> a = b.
Proof. induction p as [|c p IH]; cbn; [auto|intros H; injection H; exact IH]. Qed.

(** Two strings without [']'] followed by [']']: the split is the same. *)
Lemma split_at_bracket (a a' t t' : string) :
  all_chars (fun c => c <> "]"%char) a -> all_chars (fun c => c <> "]"%char) a' ->
  (a ++ String "]" t = a' ++ String "]" t')%string -> a = a' /\ t = t'.
Proof.
  revert a'. induction a as [|c a IH]; intros [|c' a'] Ha Ha' H; cbn in H.
  - injection H. auto.
  - injection H as <- _. apply all_chars_cons in Ha' as [[] _]. reflexivity.
  - injection H as -> _. apply all_chars_cons in Ha as [[] _]. reflexivity.
  - injection H as <- H. apply all_chars_cons in Ha as [_ Ha].
    apply all_chars_cons in Ha' as [_ Ha']. destruct (IH a' Ha Ha' H) as [-> ->]. auto.
Qed.

Lemma py_str_Z_no_bracket (k : Z) : all_chars (fun c => c <> "]"%char) (py_str_Z k).
Proof.
  eapply all_chars_impl; [|apply py_str_Z_chars].
  intros c Hc. apply numeral_char_avoids; [exact Hc|cbv; lia].
Qed.

Lemma py_str_Z_inj (k k' : Z) : py_str_Z k = py_str_Z k' -> k = k'.
Proof. intros H. pose proof (py_int_str k) as E. rewrite H, py_int_str in E. congruence. Qed.

Lemma key_base_inj r c r' c' : key_base r c = key_base r' c' -> r = r' /\ c = c'.
Proof.
  unfold key_base. intros H. injection H as H.
  apply (split_at_bracket _ _ ("[" ++ py_str_Z (Z.of_nat c) ++ "]")
           ("[" ++ py_str_Z (Z.of_nat c') ++ "]")) in H as [Hr H];
    [|apply py_str_Z_no_bracket ..].
  injection H as H. apply (split_at_bracket _ _ "" "") in H as [Hc _];
    [|apply py_str_Z_no_bracket ..].
  apply py_str_Z_inj in Hr, Hc. split; lia.
Qed.

Lemma render_key_inj prefix crit_idx r c r' c' :
  render_key prefix crit_idx r c = render_key prefix crit_idx r' c' -> r = r' /\ c = c'.
Proof.
  unfold render_key. intros H.
  destruct crit_idx as [k|]; apply string_app_cancel_l in H; [|apply key_base_inj, H].
  injection H as H. apply (split_at_bracket _ _ (key_base r c) (key_base r' c')) in H as [_ H];
    [apply key_base_inj, H|apply py_str_Z_no_bracket ..].
Qed.

(** The keys the builders read. *)
Lemma render_key_matrix i j : render_key "matrix" None i j = matrix_key i j.
Proof. reflexivity. Qed.

Lemma render_key_alt c i j : render_key "alt_matrix" (Some (Z.of_nat c)) i j = alt_matrix_key c i j.
Proof. reflexivity. Qed.

(** ** The text of a Saaty value *)

(** [round(x)] is [d] when [x] is within half a unit of [d]. *)
Lemma py_round_int_near (x : Q) (d : Z) : Qabs (x - inject_Z d) < 1 # 2 -> py_round_int x = d.
Proof.
  intros H. unfold py_round_int.
  pose proof (round_half_even_Q_err (Qnum x) (Zpos (Qden x)) eq_refl) as E.
  assert (Hx : inject_Z (Qnum x) / inject_Z (Zpos (Qden x)) == x)
    by (destruct x as [p r]; cbn [Qnum Qden]; rewrite <- Qmake_Qdiv; reflexivity).
  rewrite Hx in E. set (k := round_half_even_Z _ _) in *.
  apply Qabs_Qle_condition in E. apply Qabs_Qlt_condition in H.
  assert (inject_Z k < inject_Z (d + 1)) by (rewrite inject_Z_plus; change (inject_Z 1) with 1; lra).
  assert (inject_Z d < inject_Z (k + 1)) by (rewrite inject_Z_plus; change (inject_Z 1) with 1; lra).
  rewrite <- Zlt_Qlt in *. lia.
Qed.

(** The inverse of a value within [1e-10] of [1/d] is within [9e-9] of [d]. *)
Lemma recip_inverse_close (q : Q) (d : Z) :
  (2 <= d <= 9)%Z -> Qabs (q - 1 / inject_Z d) <= window ->
  1 # 10 <= q < 1 /\ 0 < 1 / q <= 10 /\ Qabs (1 / q - inject_Z d) <= 90 * window.
Proof.
  intros Hd Hq. pose proof (recip_bounds d Hd) as Hu.
  assert (HD : 2 <= inject_Z d <= 9)
    by (split; [change 2 with (inject_Z 2)|change 9 with (inject_Z 9)]; rewrite <- Zle_Qle; lia).
  apply Qabs_Qle_condition in Hq. unfold window in *.
  assert (Hq1 : 1 # 10 <= q < 1) by lra.
  assert (Hx : 0 < 1 / q <= 10)
    by (split; [apply Qdiv_pos_pos; lra|apply Qle_shift_div_r; lra]).
  split; [exact Hq1|]. split; [exact Hx|].
  set (x := 1 / q) in *. set (u := 1 / inject_Z d) in *.
  assert (E : x - inject_Z d == x * inject_Z d * (u - q))
    by (unfold x, u; field; split; apply Qpos_nonzero; lra).
  assert (P : 0 <= x * inject_Z d <= 90) by (split; nra).
  rewrite E. apply Qabs_Qle_condition. split; nra.
Qed.

Lemma recip_float_close (q : Q) (d : Z) :
  (2 <= d <= 9)%Z -> Qabs (q - 1 / inject_Z d) <= window ->
  exists y, fl (1 / q) = Fin y /\ Qabs (y - inject_Z d) <= 90 * window + 10 * 2 ^ (-53) + 2 ^ (-1075).
Proof.
  intros Hd Hq. destruct (recip_inverse_close q d Hd Hq) as (_ & Hx & Hxd).
  destruct (fl_finite (1 / q)) as [y Hy]; [lra|apply Qle_trans with 10; [lra|vm_compute; discriminate]|].
  exists y. split; [exact Hy|]. apply fl_err in Hy. rewrite (Qabs_pos (1 / q)) in Hy by lra.
  assert (1 / q * 2 ^ (-53) <= 10 * 2 ^ (-53)) by (apply Qmult_le_compat_r; [lra|apply Qlt_le_weak, pow2_pos]).
  pose proof (Qabs_triangle (y - 1 / q) (1 / q - inject_Z d)) as T.
  setoid_replace (y - 1 / q + (1 / q - inject_Z d)) with (y - inject_Z d) in T by ring. lra.
Qed.

(** A reciprocal judgement is printed as ["1/d"]; its canonical value is
    [1.0 / d]. *)
Lemma render_recip (q : Q) (d : Z) :
  (2 <= d <= 9)%Z -> Qabs (q - 1 / inject_Z d) <= window ->
  render_upper (Fin q) = Some ("1/" ++ py_str_Z d)%string
  /\ saaty_canon (Fin q) = fl (1 / inject_Z d).
Proof.
  intros Hd Hq. destruct (recip_inverse_close q d Hd Hq) as (Hq1 & _ & Hxd).
  destruct (recip_float_close q d Hd Hq) as (y & Hy & Hyd).
  assert (B : 90 * window + 10 * 2 ^ (-53) + 2 ^ (-1075) < 1 # 100000000)
    by (vm_compute; reflexivity).
  assert (Hr : py_round_int y = d) by (apply py_round_int_near; lra).
  destruct (fl_bounded (y - inject_Z d)) as [z Hz];
    [apply Qle_trans with 1; [lra|vm_compute; discriminate]|].
  pose proof (fl_err _ _ Hz) as Ez.
  assert (Hzb : Qabs z < lit (1 # 1000000)).
  { pose proof (Qabs_triangle (z - (y - inject_Z d)) (y - inject_Z d)) as T.
    setoid_replace (z - (y - inject_Z d) + (y - inject_Z d)) with z in T by ring.
    assert (Qabs (y - inject_Z d) * 2 ^ (-53) <= (1 # 100000000) * 2 ^ (-53))
      by (apply Qmult_le_compat_r; [lra|apply Qlt_le_weak, pow2_pos]).
    assert (C : (1 # 100000000) + (1 # 100000000) * 2 ^ (-53) + 2 ^ (-1075) < lit (1 # 1000000))
      by (vm_compute; reflexivity).
    lra. }
  unfold render_upper, saaty_canon.
  qcase; [|lra]. qcase; [|lra]. cbn [andb]. rewrite Hy, Hr, Hz. cbn [pf_abs_lt].
  qcase; [|lra]. split; [reflexivity|].
  qcase; [lra|]. rewrite (py_round_int_near (1 / q) d) by (unfold window in Hxd; lra).
  reflexivity.
Qed.

Lemma Z_1_9 (k : Z) : (1 <= k <= 9)%Z ->
  k = 1%Z \/ k = 2%Z \/ k = 3%Z \/ k = 4%Z \/ k = 5%Z \/ k = 6%Z \/ k = 7%Z \/ k = 8%Z \/ k = 9%Z.
Proof. lia. Qed.

(** An integer judgement is printed as itself and is canonical. *)
Lemma render_int (k : Z) :
  (1 <= k <= 9)%Z ->
  render_upper (Fin (inject_Z k)) = Some (py_str_Z k)
  /\ saaty_canon (Fin (inject_Z k)) = Fin (inject_Z k)
  /\ parse_saaty_value (strip (py_str_Z k)) false = Ok (Fin (inject_Z k)).
Proof.
  intros Hk. destruct (Z_1_9 k Hk) as [->|[->|[->|[->|[->|[->|[->|[->| ->]]]]]]]];
    vm_compute; auto.
Qed.

(** The text ["1/d"] parses back to [1.0 / d]. *)
Lemma parse_rendered_recip (d : Z) :
  (2 <= d <= 9)%Z ->
  parse_saaty_value (strip ("1/" ++ py_str_Z d)) false = Ok (fl (1 / inject_Z d)).
Proof.
  intros Hd. destruct (Z_1_9 d ltac:(lia)) as [->|[->|[->|[->|[->|[->|[->|[->| ->]]]]]]]];
    [lia|vm_compute; reflexivity ..].
Qed.

(** Every value the parser accepts off the diagonal is printed as a text
    that parses back to its canonical value. *)
Lemma render_upper_saaty (s : string) (v : pyfloat) :
  parse_saaty_value s false = Ok v ->
  exists t, render_upper v = Some t /\ parse_saaty_value (strip t) false = Ok (saaty_canon v).
Proof.
  intros H. destruct (parse_saaty_value_cases s v H) as [(k & Hk & ->)|(q & d & -> & Hd & Hq)].
  - destruct (render_int k Hk) as (Hr & Hc & Hp). exists (py_str_Z k).
    rewrite Hc. auto.
  - destruct (render_recip q d Hd Hq) as [Hr Hc]. eexists. rewrite Hc.
    split; [exact Hr|apply parse_rendered_recip, Hd].
Qed.

(** ** Rendering a built matrix and reading it back *)

Lemma cell_pairs_ref val n :
  cell_pairs (length (ref_matrix val n)) (length (nth 0 (ref_matrix val n) [])) = index_pairs n.
Proof.
  unfold ref_matrix. rewrite length_vec_of. destruct n as [|n]; [reflexivity|].
  rewrite nth_vec_of by lia. rewrite length_vec_of. reflexivity.
Qed.

Section Roundtrip.
Variables (get : nat -> nat -> option string) (n : nat).
Hypothesis Hc : forall i j, (i < n)%nat -> (j < n)%nat -> cell_result get i j = Ok (cell_value get i j).

Let m := ref_matrix (cell_value get) n.

(** The form field of each cell on and above the diagonal: its text reads
    back as the canonical value. *)
Lemma render_cell_built i j :
  (i < n)%nat -> (j < n)%nat -> (i <= j)%nat ->
  exists t, render_cell m i j = Ok (Some t)
  /\ forall g, g i j = Some t -> cell_result g i j = Ok (saaty_canon (cell_value get i j)).
Proof.
  intros Hi Hj Hij. unfold render_cell. destruct (Nat.eqb_spec i j) as [<-|Hne].
  - exists "1"%string. split; [reflexivity|]. intros g Hg.
    rewrite (cell_result_diag get i (cell_value get i i) (Hc i i Hi Hi)).
    unfold cell_result, cell_text. rewrite Hg, Nat.eqb_refl. reflexivity.
  - replace (i <? j)%nat with true by (symmetry; apply Nat.ltb_lt; lia).
    unfold m. rewrite pat_ref_matrix by assumption. unfold ref_entry.
    replace (i =? j)%nat with false by (symmetry; apply Nat.eqb_neq; lia).
    replace (i <? j)%nat with true by (symmetry; apply Nat.ltb_lt; lia).
    destruct (cell_result_parse get i j _ ltac:(lia) (Hc i j Hi Hj)) as [s Hs].
    destruct (render_upper_saaty s _ Hs) as (t & -> & Ht).
    exists t. split; [reflexivity|]. intros g Hg.
    unfold cell_result, cell_text. rewrite Hg. cbn [rbind].
    replace (i =? j)%nat with false by (symmetry; apply Nat.eqb_neq; lia).
    replace (i <? j)%nat with true by (symmetry; apply Nat.ltb_lt; lia).
    rewrite Ht. reflexivity.
Qed.

Lemma render_cell_ok i j :
  (i < n)%nat -> (j < n)%nat -> exists o, render_cell m i j = Ok o.
Proof.
  intros Hi Hj. destruct (Nat.le_gt_cases i j) as [Hij|Hji].
  - destruct (render_cell_built i j Hi Hj Hij) as (t & Ht & _). eauto.
  - exists None. unfold render_cell. nat_cases.
Qed.

Let val (rc : nat * nat) : option string := ok_or None (render_cell m (fst rc) (snd rc)).
Let key (rc : nat * nat) : string := render_key "matrix" None (fst rc) (snd rc).

Lemma convert_built :
  convert_numpy_matrix_to_form_data m "matrix" None = Ok (put_all key val (index_pairs n) []).
Proof.
  unfold convert_numpy_matrix_to_form_data, m. rewrite cell_pairs_ref.
  rewrite (fold_loop_step _ _ None). fold m.
  replace (first_error _ _) with (@None render_error); [reflexivity|].
  symmetry. apply first_error_None. intros [i j] Hij. apply index_pairs_In in Hij as [Hi Hj].
  apply render_cell_ok; assumption.
Qed.

Lemma form_get_rendered i j :
  (i < n)%nat -> (j < n)%nat ->
  form_get (put_all key val (index_pairs n) []) (matrix_key i j) = val (i, j).
Proof.
  intros Hi Hj. rewrite <- render_key_matrix. change (render_key "matrix" None i j) with (key (i, j)).
  rewrite form_get_put_all.
  - replace (existsb _ _) with true.
    + destruct (val (i, j)); reflexivity.
    + symmetry. apply existsb_exists. exists (i, j).
      split; [apply index_pairs_In; auto|apply String.eqb_refl].
  - intros [r c] _ E. unfold key in E. cbn [fst snd] in E.
    apply render_key_inj in E as [-> ->]. reflexivity.
Qed.
End Roundtrip.

Lemma convert_roundtrip_ref get n m :
  build_matrix get n = Ok m ->
  exists f, convert_numpy_matrix_to_form_data m "matrix" None = Ok f
  /\ build_criteria_matrix f n = Ok (ref_matrix (fun i j => saaty_canon (cell_value get i j)) n).
Proof.
  intros H. apply build_matrix_Ok in H as [-> Hc].
  eexists. split; [apply convert_built, Hc|].
  unfold build_criteria_matrix. rewrite build_matrix_ref.
  set (f := put_all _ _ _ _).
  assert (Hg : forall i j, (i < n)%nat -> (j < n)%nat -> (i <= j)%nat ->
            cell_result (fun i j => form_get f (matrix_key i j)) i j
            = Ok (saaty_canon (cell_value get i j))).
  { intros i j Hi Hj Hij.
    destruct (render_cell_built get n Hc i j Hi Hj Hij) as (t & Ht & Hr).
    apply Hr. unfold f. rewrite form_get_rendered by assumption. cbn [fst snd].
    rewrite Ht. reflexivity. }
  replace (first_error _ _) with (@None build_error).
  - f_equal. apply ref_matrix_ext_upper. intros k l Hk Hl Hkl.
    unfold cell_value at 1. rewrite Hg by assumption. reflexivity.
  - symmetry. apply first_error_None. intros [i j] Hij.
    apply index_pairs_In in Hij as [Hi Hj]. cbn [fst snd].
    destruct (Nat.le_gt_cases i j).
    + eexists. apply Hg; assumption.
    + eexists. apply cell_result_lower. lia.
Qed.

(** The canonical texts: ["k"] for [1 <= k <= 9], ["1/d"] for [2 <= d <= 9]. *)
Definition canonical_text (s : string) : Prop :=
  (exists k, (1 <= k <= 9)%Z /\ s = py_str_Z k)
  \/ (exists d, (2 <= d <= 9)%Z /\ s = ("1/" ++ py_str_Z d)%string).

Lemma canon_recip (d : Z) : (2 <= d <= 9)%Z -> saaty_canon (fl (1 / inject_Z d)) = fl (1 / inject_Z d).
Proof.
  intros Hd. destruct (Z_1_9 d ltac:(lia)) as [->|[->|[->|[->|[->|[->|[->|[->| ->]]]]]]]];
    [lia|vm_compute; reflexivity ..].
Qed.

(** A canonical text parses to a value [saaty_canon] does not move. *)
Lemma canonical_text_fixed (s : string) (v : pyfloat) :
  canonical_text s -> parse_saaty_value (strip s) false = Ok v -> saaty_canon v = v.
Proof.
  intros [(k & Hk & ->)|(d & Hd & ->)] Hp.
  - destruct (render_int k Hk) as (_ & Hc & Hp'). rewrite Hp' in Hp.
    injection Hp as <-. exact Hc.
  - rewrite parse_rendered_recip in Hp by exact Hd. injection Hp as <-. apply canon_recip, Hd.
Qed.

(** ** [f"{x:.kf}"] reads back as [round(x, k)] *)

Lemma chars_zeros (j : nat) : chars (zeros j) = map digit_char (repeat 0%Z j).
Proof. unfold chars. induction j as [|j IH]; [reflexivity|]. cbn. f_equal. exact IH. Qed.

Lemma length_chars (s : string) : String.length s = List.length (chars s).
Proof. unfold chars. induction s as [|c s IH]; [reflexivity|]. cbn. f_equal. exact IH. Qed.

Lemma horner_zeros (j : nat) (ds : list Z) : horner 0 (repeat 0%Z j ++ ds) = horner 0 ds.
Proof.
  unfold horner. rewrite fold_left_app. f_equal. induction j as [|j IH]; [reflexivity|exact IH].
Qed.

(** The text [f"{x:.kf}"] writes, read by [float], is the float
    [round(x, k)]: both round the exact value to [k] decimals, ties to
    even, and the sign does not change the rounding. *)
Theorem format_fixed_py_round (k : nat) (q : Q) : (1 <= k)%nat ->
  py_float (format_fixed k q) = Some (py_round k (Fin q)).
Proof.
  intros Hk. unfold format_fixed, py_round. cbv zeta.
  set (p := (10 ^ Z.of_nat k)%Z).
  assert (Hp : (0 < p)%Z) by (apply Z.pow_pos_nonneg; lia).
  set (n := round_half_even_Z (Z.abs (Qnum q) * p) (Zpos (Qden q))).
  assert (Hn : (0 <= n)%Z) by (apply round_half_even_Z_nonneg; lia).
  destruct (py_str_Z_nonneg (n / p)) as (ds1 & E1 & N1 & F1 & V1 & _); [apply Z.div_pos; lia|].
  pose proof (Z.mod_pos_bound n p Hp) as Hm.
  destruct (py_str_Z_nonneg (n mod p)) as (ds2 & E2 & N2 & F2 & V2 & L2); [lia|].
  specialize (L2 k Hk (proj2 Hm)).
  set (ds2' := repeat 0%Z (k - List.length ds2) ++ ds2).
  assert (Hl2 : List.length ds2' = k) by (unfold ds2'; rewrite length_app, repeat_length; lia).
  assert (Hv : horner (horner 0 ds1) ds2' = n).
  { rewrite (horner_acc (horner 0 ds1) ds2'), Hl2. unfold ds2'. rewrite horner_zeros, V1, V2.
    fold p. rewrite Z.mul_comm, <- Z.div_mod by lia. reflexivity. }
  assert (Hs : chars ((if (Qnum q <? 0)%Z then "-" else "") ++ py_str_Z (n / p) ++ "."
                      ++ pad_zeros k (py_str_Z (n mod p)))%string
               = (if (Qnum q <? 0)%Z then ["-"%char] else [])
                 ++ map digit_char ds1 ++ "."%char :: map digit_char ds2').
  { unfold pad_zeros. rewrite !chars_app, length_chars, E1, E2, chars_zeros, length_map.
    unfold ds2'. rewrite map_app. destruct (Qnum q <? 0)%Z; reflexivity. }
  rewrite (py_float_fixed _ _ ds1 ds2' N1) by
    (exact Hs || exact F1
     || (unfold ds2'; intros E; apply app_eq_nil in E; tauto)
     || (apply Forall_app; split; [apply Forall_forall; intros x Hx; apply repeat_spec in Hx; lia|exact F2])).
  rewrite Hv, Hl2. fold p. cbv zeta. do 2 f_equal.
  destruct (Z.ltb_spec (Qnum q) 0) as [Hq|Hq].
  - unfold Qopp. cbn [Qnum Qden]. f_equal. unfold n.
    rewrite Z.abs_neq, Z.mul_opp_l, round_half_even_Z_opp by lia. lia.
  - unfold n. rewrite Z.abs_eq by lia. reflexivity.
Qed.

(** [C11] Round trip of the form: a matrix built by the form loop is
    printed by [convert_numpy_matrix_to_form_data] without error, and the
    printed form builds again, into the matrix of the canonical values of
    its judgements. *)
Theorem convert_roundtrip get n m :
  build_matrix get n = Ok m ->
  exists f, convert_numpy_matrix_to_form_data m "matrix" None = Ok f
  /\ build_criteria_matrix f n = Ok (ref_matrix (fun i j => saaty_canon (cell_value get i j)) n).
Proof. apply convert_roundtrip_ref. Qed.

(** [C12] When every upper judgement is typed as ["k"] or ["1/d"], the
    printed form builds again into the very same matrix. *)
Theorem convert_roundtrip_exact get n m :
  build_matrix get n = Ok m ->
  (forall i j, (i < j < n)%nat -> exists s, get i j = Some s /\ canonical_text s) ->
  exists f, convert_numpy_matrix_to_form_data m "matrix" None = Ok f
  /\ build_criteria_matrix f n = Ok m.
Proof.
  intros H Hs. destruct (convert_roundtrip_ref get n m H) as (f & Hf & Hb).
  exists f. split; [exact Hf|]. rewrite Hb. f_equal.
  apply build_matrix_Ok in H as [-> Hc]. apply ref_matrix_ext_upper. intros k l Hk Hl Hkl.
  destruct (Nat.eq_dec k l) as [<-|Hne].
  - rewrite (cell_result_diag get k _ (Hc k k Hk Hk)). reflexivity.
  - destruct (Hs k l ltac:(lia)) as (s & Hg & Hcan).
    pose proof (Hc k l Hk Hl) as E. unfold cell_result, cell_text in E. rewrite Hg in E.
    cbn [rbind] in E.
    replace (k =? l)%nat with false in E by (symmetry; apply Nat.eqb_neq; exact Hne).
    replace (k <? l)%nat with true in E by (symmetry; apply Nat.ltb_lt; lia).
    unfold lift_parse in E. destruct (parse_saaty_value (strip s) false) eqn:Ep; [|discriminate].
    injection E as E. rewrite <- E in *. apply (canonical_text_fixed s); assumption.
Qed.

(** A form typed with canonical texts. *)
Definition canonical_form : form :=
  [("matrix[0][1]", "3"); ("matrix[0][2]", "1/5"); ("matrix[1][2]", "2")]%string.

(** Witness of [C11]: the example form of the builder. *)
Lemma convert_roundtrip_witness :
  exists f, convert_numpy_matrix_to_form_data example_built "matrix" None = Ok f
  /\ build_criteria_matrix f 3
     = Ok (ref_matrix (fun i j => saaty_canon (cell_value (fun i j => form_get example_form (matrix_key i j)) i j)) 3).
Proof. apply convert_roundtrip. exact example_form_builds. Defined.

(** Witness of [C12]: the canonical form. *)
Lemma convert_roundtrip_exact_witness :
  exists f, convert_numpy_matrix_to_form_data (ok_or [] (build_criteria_matrix canonical_form 3)) "matrix" None = Ok f
  /\ build_criteria_matrix f 3 = Ok (ok_or [] (build_criteria_matrix canonical_form 3)).
Proof.
  apply (convert_roundtrip_exact (fun i j => form_get canonical_form (matrix_key i j)) 3).
  - vm_compute. reflexivity.
  - intros i j H. destruct i as [|[|[|i]]], j as [|[|[|j]]]; try lia; eexists; (split; [reflexivity|]).
    + left. exists 3%Z. split; [lia|reflexivity].
    + right. exists 5%Z. split; [lia|reflexivity].
    + left. exists 2%Z. split; [lia|reflexivity].
Defined.

(** The decimal judgement ["0.3333333333"], accepted for [1/3]. *)
Definition decimal_form : form := [("matrix[0][1]", "0.3333333333")]%string.

(** Rendering is not the identity on decimal judgements: the matrix
    built from ["0.3333333333"] is printed with ["1/3"], and the printed
    form builds a different matrix (the float [1.0 / 3] instead of
    [0.3333333333]). *)
Example convert_decimal_canonicalised :
  let m := ok_or [] (build_criteria_matrix decimal_form 2) in
  convert_numpy_matrix_to_form_data m "matrix" None
  = Ok [("matrix[0][0]", "1"); ("matrix[0][1]", "1/3"); ("matrix[1][1]", "1")]%string
  /\ build_criteria_matrix [("matrix[0][0]", "1"); ("matrix[0][1]", "1/3"); ("matrix[1][1]", "1")]%string 2
     <> Ok m.
Proof. split; vm_compute; [reflexivity|congruence]. Qed.
