(* ===== verification/Ranking.v ===== *)
(** * Ranking: [sorted(..., key=..., reverse=True)]

    Two places rank by weight: [get_sorted_criteria_with_weights]
    (ahp.py:239-254) sorts the pairs [(weight, criterion)] and
    [calculate_final_route] (app.py:780) sorts the pairs
    [(alternative, score)], both with Python's [sorted(..., reverse=True)].
    Python's sort is stable, also with [reverse=True]: the result is the
    descending order in which items of equal key keep their input order.

    [sort_desc] is a stable insertion sort by descending key.  The
    theorems show that it is a permutation of its input, sorted in
    descending order and stable, and that it is the only list with these
    properties: any stable descending sort, Python's included, returns
    exactly [sort_desc]. *)

From Stdlib Require Import PeanoNat QArith Qabs List Lia Lqa Sorted Permutation.
From S2P Require Import Prelude.
Import ListNotations.
Open Scope Q_scope.

Section SortDesc.
Context {A : Type} (key : A -> Q).

(** Insert [x] after every item whose key is at least [key x]. *)
Fixpoint insert_desc (x : A) (l : list A) : list A :=
  match l with
  | [] => [x]
  | y :: l' => if Qltb (key y) (key x) then x :: y :: l' else y :: insert_desc x l'
  end.

(** The items in input order, each inserted into the sorted prefix. *)
Definition sort_desc (l : list A) : list A := fold_left (fun acc x => insert_desc x acc) l [].

(** Descending order of the keys. *)
Definition desc (x y : A) : Prop := key y <= key x.

(** The items whose key equals [c], in order. *)
Definition with_key (c : Q) (l : list A) : list A := filter (fun x => Qeq_bool (key x) c) l.

(** What [sorted(l, key=key, reverse=True)] returns: a list sorted in
    descending order in which the items of each key are those of [l], in
    their order in [l]. *)
Definition stable_sort_desc (l s : list A) : Prop :=
  Sorted desc s /\ forall c, with_key c s = with_key c l.

#[local] Instance desc_trans : Transitive desc.
Proof. intros x y z Hxy Hyz. unfold desc in *. lra. Qed.

Lemma insert_desc_perm x l : Permutation (insert_desc x l) (x :: l).
Proof.
  induction l as [|y l IH]; simpl; [reflexivity|].
  destruct (Qltb (key y) (key x)); [reflexivity|].
  rewrite IH. apply perm_swap.
Qed.

Lemma sort_desc_perm_acc l acc :
  Permutation (fold_left (fun acc x => insert_desc x acc) l acc) (l ++ acc).
Proof.
  revert acc. induction l as [|x l IH]; intros acc; simpl; [reflexivity|].
  rewrite IH, insert_desc_perm. symmetry. apply Permutation_middle.
Qed.

Lemma Forall_insert_desc (P : A -> Prop) x l :
  Forall P (insert_desc x l) <-> P x /\ Forall P l.
Proof.
  split.
  - intros H. apply (Permutation_Forall (insert_desc_perm x l)) in H.
    inversion H; subst. split; assumption.
  - intros [Hx Hl]. apply (Permutation_Forall (Permutation_sym (insert_desc_perm x l))).
    constructor; assumption.
Qed.

Lemma insert_desc_sorted x l : StronglySorted desc l -> StronglySorted desc (insert_desc x l).
Proof.
  induction l as [|y l IH]; intros Hs; simpl; [repeat constructor|].
  inversion Hs as [|? ? Hl Hy]; subst.
  destruct (Qltb (key y) (key x)) eqn:E.
  - apply Qltb_iff in E. constructor; [exact Hs|]. constructor; [unfold desc; lra|].
    eapply Forall_impl; [|exact Hy]. unfold desc. intros z Hz. lra.
  - apply Qltb_false in E. constructor; [apply IH, Hl|].
    apply Forall_insert_desc. split; [exact E|exact Hy].
Qed.

Lemma sort_desc_sorted_acc l acc :
  StronglySorted desc acc -> StronglySorted desc (fold_left (fun acc x => insert_desc x acc) l acc).
Proof.
  revert acc. induction l as [|x l IH]; intros acc H; [exact H|]. apply IH, insert_desc_sorted, H.
Qed.

Lemma with_key_below c l : Forall (fun z => key z < c) l -> with_key c l = [].
Proof.
  induction 1 as [|z l Hz _ IH]; [reflexivity|]. simpl.
  replace (Qeq_bool (key z) c) with false; [exact IH|].
  symmetry. apply not_true_iff_false. rewrite Qeq_bool_iff. lra.
Qed.

Lemma with_key_cons c z l :
  with_key c (z :: l) = if Qeq_bool (key z) c then z :: with_key c l else with_key c l.
Proof. reflexivity. Qed.

Lemma with_key_insert c x l :
  StronglySorted desc l ->
  with_key c (insert_desc x l) = with_key c l ++ (if Qeq_bool (key x) c then [x] else []).
Proof.
  induction l as [|y l IH]; intros Hs; cbn [insert_desc];
    [rewrite with_key_cons; destruct (Qeq_bool (key x) c); reflexivity|].
  inversion Hs as [|? ? Hl Hy]; subst.
  destruct (Qltb (key y) (key x)) eqn:E.
  - apply Qltb_iff in E. rewrite with_key_cons.
    destruct (Qeq_bool (key x) c) eqn:Ex; [|rewrite app_nil_r; reflexivity].
    apply Qeq_bool_iff in Ex. rewrite with_key_below; [reflexivity|]. constructor; [lra|].
    eapply Forall_impl; [|exact Hy]. unfold desc. intros z Hz. lra.
  - rewrite !with_key_cons, IH by exact Hl.
    destruct (Qeq_bool (key y) c); reflexivity.
Qed.

Lemma sort_desc_stable_acc c l acc :
  StronglySorted desc acc ->
  with_key c (fold_left (fun acc x => insert_desc x acc) l acc) = with_key c acc ++ with_key c l.
Proof.
  revert acc. induction l as [|x l IH]; intros acc H; simpl; [rewrite app_nil_r; reflexivity|].
  rewrite IH by (apply insert_desc_sorted, H). rewrite with_key_insert by exact H.
  rewrite <- app_assoc. destruct (Qeq_bool (key x) c); reflexivity.
Qed.

Lemma with_key_In c x l : In x (with_key c l) <-> In x l /\ key x == c.
Proof. unfold with_key. rewrite filter_In, Qeq_bool_iff. reflexivity. Qed.

(** A sorted list in which some item has key [c] starts with a key at
    least [c]. *)
Lemma head_key_max y s c :
  StronglySorted desc (y :: s) -> with_key c (y :: s) <> [] -> c <= key y.
Proof.
  intros Hs Hne. destruct (with_key c (y :: s)) as [|z zs] eqn:E; [contradiction|].
  assert (Hz : In z (with_key c (y :: s))) by (rewrite E; left; reflexivity).
  apply with_key_In in Hz as [[<-|Hz] Hk]; [lra|].
  inversion Hs as [|? ? _ Hy]; subst.
  pose proof (proj1 (Forall_forall _ _) Hy z Hz) as Hd. unfold desc in Hd. lra.
Qed.

(** Two sorted lists with the same items of every key, in the same
    order, are equal. *)
Lemma stable_sorted_unique s1 s2 :
  StronglySorted desc s1 -> StronglySorted desc s2 ->
  (forall c, with_key c s1 = with_key c s2) -> s1 = s2.
Proof.
  revert s2. induction s1 as [|x s1 IH]; intros [|y s2] H1 H2 Hk; [reflexivity| | |].
  - specialize (Hk (key y)). simpl in Hk. rewrite Qeq_bool_refl in Hk. discriminate.
  - specialize (Hk (key x)). simpl in Hk. rewrite Qeq_bool_refl in Hk. discriminate.
  - assert (Hxy : key x == key y).
    { apply Qle_antisym.
      - apply (head_key_max y s2); [exact H2|]. rewrite <- Hk. simpl.
        rewrite Qeq_bool_refl. discriminate.
      - apply (head_key_max x s1); [exact H1|]. rewrite Hk. simpl.
        rewrite Qeq_bool_refl. discriminate. }
    pose proof (Hk (key x)) as Hx. simpl in Hx. rewrite Qeq_bool_refl in Hx.
    rewrite (proj2 (Qeq_bool_iff _ _) (Qeq_sym _ _ Hxy)) in Hx. injection Hx as <- _.
    f_equal. inversion H1; inversion H2; subst. apply IH; [assumption|assumption|].
    intros c. specialize (Hk c). simpl in Hk.
    destruct (Qeq_bool (key x) c); [injection Hk as Hk|]; exact Hk.
Qed.
End SortDesc.

(** ** The sorts of the program *)

(** [get_sorted_criteria_with_weights(criteria_results, db_criteria_tuples)]
    (ahp.py:239-254): [weights] is [criteria_results.get("weights")]
    ([None] when the results or the key are missing); an empty list of
    weights or of criteria, or lists of different lengths, give [[]].  The
    [except TypeError] of line 251 cannot fire on numeric weights. *)
Definition get_sorted_criteria_with_weights {T} (weights : option (list Q)) (crits : list T)
  : list (Q * T) :=
  match weights, crits with
  | Some ((_ :: _) as w), _ :: _ =>
      if Nat.eqb (length w) (length crits) then sort_desc fst (combine w crits) else []
  | _, _ => []
  end.

(** [sorted(list(zip(names, scores)), key=lambda x: x[1], reverse=True)]
    (app.py:780). *)
Definition ranked_alternatives {T} (names : list T) (scores : list Q) : list (T * Q) :=
  sort_desc snd (combine names scores).

Lemma sort_desc_perm {A} (key : A -> Q) l : Permutation (sort_desc key l) l.
Proof. unfold sort_desc. rewrite sort_desc_perm_acc, app_nil_r. reflexivity. Qed.

(** Every name of the ranking is one of the names. *)
Lemma ranked_alternatives_names {T} (names : list T) scores x :
  In x (map fst (ranked_alternatives names scores)) -> In x names.
Proof.
  unfold ranked_alternatives. intros H. apply in_map_iff in H as ([y q] & <- & H).
  apply (Permutation_in _ (sort_desc_perm _ _)) in H. exact (in_combine_l _ _ _ _ H).
Qed.

Lemma sort_desc_strongly_sorted {A} (key : A -> Q) l : StronglySorted (desc key) (sort_desc key l).
Proof. apply sort_desc_sorted_acc. constructor. Qed.

Lemma sort_desc_stable {A} (key : A -> Q) l : stable_sort_desc key l (sort_desc key l).
Proof.
  split; [apply StronglySorted_Sorted, sort_desc_strongly_sorted|].
  intros c. unfold sort_desc. rewrite sort_desc_stable_acc by constructor. reflexivity.
Qed.

Lemma stable_sort_desc_unique {A} (key : A -> Q) l s :
  stable_sort_desc key l s -> s = sort_desc key l.
Proof.
  intros [Hss Hsk]. apply (stable_sorted_unique key).
  - apply Sorted_StronglySorted; [apply desc_trans|exact Hss].
  - apply sort_desc_strongly_sorted.
  - intros c. rewrite Hsk. symmetry. apply sort_desc_stable.
Qed.

(** [sort_desc] is Python's [sorted(..., reverse=True)]: it returns a
    permutation of its input, sorted by descending key, in which the items
    of equal key keep their input order; and it is the only list with the
    last two properties. *)
Theorem sort_desc_correct {A} (key : A -> Q) (l : list A) :
  Permutation (sort_desc key l) l
  /\ stable_sort_desc key l (sort_desc key l)
  /\ (forall s, stable_sort_desc key l s -> s = sort_desc key l).
Proof.
  split; [apply sort_desc_perm|]. split; [apply sort_desc_stable|].
  intros s. apply stable_sort_desc_unique.
Qed.

(** [get_sorted_criteria_with_weights] lists the pairs
    [(weight, criterion)] by descending weight, criteria of equal weight in
    their input order, when there are as many weights as criteria; it
    returns the empty list when the counts differ. *)
Theorem get_sorted_criteria_spec {T} (w : list Q) (crits : list T) :
  (w <> [] -> length w = length crits ->
     Permutation (get_sorted_criteria_with_weights (Some w) crits) (combine w crits)
     /\ stable_sort_desc fst (combine w crits) (get_sorted_criteria_with_weights (Some w) crits))
  /\ (length w <> length crits -> get_sorted_criteria_with_weights (Some w) crits = []).
Proof.
  split.
  - intros Hw Hl. destruct w as [|x w]; [contradiction|].
    destruct crits as [|c crits]; [discriminate|]. cbn [get_sorted_criteria_with_weights].
    rewrite (proj2 (Nat.eqb_eq _ _) Hl).
    split; [apply sort_desc_perm|apply sort_desc_stable].
  - intros Hl. destruct w as [|x w]; [reflexivity|]. destruct crits as [|c crits]; [reflexivity|].
    cbn [get_sorted_criteria_with_weights]. rewrite (proj2 (Nat.eqb_neq _ _) Hl). reflexivity.
Qed.

Lemma get_sorted_criteria_spec_witness :
  Permutation (get_sorted_criteria_with_weights (Some [1 # 4; 1 # 2; 1 # 4]) [1%nat; 2%nat; 3%nat])
              (combine [1 # 4; 1 # 2; 1 # 4] [1%nat; 2%nat; 3%nat])
  /\ get_sorted_criteria_with_weights (Some [1 # 4; 1 # 2; 1 # 4]) [1%nat; 2%nat; 3%nat]
     = [(1 # 2, 2%nat); (1 # 4, 1%nat); (1 # 4, 3%nat)].
Proof.
  split; [|vm_compute; reflexivity].
  apply (proj1 (get_sorted_criteria_spec [1 # 4; 1 # 2; 1 # 4] [1%nat; 2%nat; 3%nat]));
    [discriminate|reflexivity].
Defined.
