(* ===== verification/Aggregate.v ===== *)
(** * Aggregate: the final step, [calculate_final_route]

    [calculate_final_route] (app.py:655-808) combines the criteria result
    kept in the session with one alternative matrix per criterion:

    - it refuses unless the criteria result is consistent and has weights
      (673-680);
    - for each criterion it builds the alternative matrix from the form
      ([Builder.build_alt_matrix], 715-730) or takes the imported one
      (694-706), runs [calculate_ahp], raises [any_critical_processing_error]
      on an error and [any_alt_matrix_inconsistent] on an inconsistent
      result, and stores the weights as a column of the local score matrix,
      zeros when there are none (732-736);
    - with a critical error it flashes every inconsistent result with its
      [lambdaMax], [ci], [RI] and [CR] formatted by [:.4f] (740-752);
    - with an inconsistent alternative matrix it returns to the form
      (754-769);
    - otherwise it computes the final scores [local . criteria_weights],
      divides them by their total unless it is close to 1 (770-773), and
      ranks the alternatives by descending score (780).

    [calculate_final] is that control flow on the results of a submitted
    form ([calculate_final_form]), [calculate_final_import] the same on
    the imported matrices (the loop [import_step] with Python's negative
    list indexing [py_index]); both share the checks [final_gate] and the
    tail [final_after_loop], with the outcome of each [return] as a
    constructor of [final_outcome].  The session writes and the saves are
    added by [Workflow.calculate_final_route].  The theorems show which
    outcome each situation gives, and that the final scores sum to 1 and
    the ranking is the descending one. *)

From Stdlib Require Import String QArith Qabs ZArith List Lia Lqa Permutation Sorted.
From S2P Require Import Prelude Binary64 PyStr Engine Builder Render Ranking.
Import ListNotations.
Open Scope Q_scope.

(** ** Results held by the route *)

(** The criteria result of the session: the dictionary of [calculate_ahp],
    or the one [calculate_criteria_route] stores after an input error
    (app.py:617-621), whose [is_consistent] is [False]. *)
Inductive crit_result : Type :=
| CritEngine (r : ahp_result)
| CritInputError (n : nat).

(** The result of one alternative matrix: [{"error": ...}] after an
    input error (app.py:729), or the dictionary of [calculate_ahp]. *)
Inductive alt_result : Type :=
| AltInputError
| AltEngine (r : ahp_result).

(** [alt_ahp_res.get("error")]: set on an input error and on every error
    result of [calculate_ahp]. *)
Definition alt_error (a : alt_result) : bool :=
  match a with AltEngine (AhpOk _) => false | _ => true end.

(** [alt_ahp_res.get("is_consistent", False)]. *)
Definition alt_consistent (a : alt_result) : bool :=
  match a with AltEngine (AhpOk r) => res_is_consistent r | _ => false end.

(** [alt_ahp_res.get("weights")]: [None] on the error results. *)
Definition alt_weights (a : alt_result) : option (list Q) :=
  match a with AltEngine (AhpOk r) => Some (res_weights r) | _ => None end.

(** Lines 733-736: the two flags one result raises. *)
Definition raises_critical (a : alt_result) : bool :=
  alt_error a || match alt_weights a with Some (_ :: _) => false | _ => true end.

Definition raises_inconsistent (a : alt_result) : bool :=
  negb (alt_error a) && negb (alt_consistent a).

(** The flash of line 748 formats [lambdaMax], [ci], [RI] and [CR] with
    [:.4f]; on an error result these are [None] or ["N/A"], and the
    formatting raises. *)
Definition flash_raises (a : alt_result) : bool := negb (alt_consistent a) && alt_error a.

(** ** The outcomes of the route *)

Inductive final_outcome (T : Type) : Type :=
| MissingSession                               (* redirect, 663-665 *)
| RefusedCriteria                              (* 673-680 *)
| ServerError                                  (* except Exception, 799-807 *)
| InconsistentAlternatives                     (* 754-769 *)
| Ranked (scores : list Q) (ranking : list (T * Q)).   (* 770-797 *)
Arguments MissingSession {T}.
Arguments RefusedCriteria {T}.
Arguments ServerError {T}.
Arguments InconsistentAlternatives {T}.
Arguments Ranked {T} scores ranking.

(** The column a result writes into the local score matrix
    (lines 735-736): its weights, or zeros; a single weight is broadcast
    down the column, and weights of another length make the numpy
    assignment raise. *)
Definition local_column (n_alt : nat) (a : alt_result) : option (list Q) :=
  match alt_weights a with
  | Some ((x :: _) as w) =>
      if Nat.eqb (length w) n_alt then Some w
      else if Nat.eqb (length w) 1 then Some (repeat x n_alt) else None
  | _ => Some (repeat 0 n_alt)
  end.

Fixpoint local_columns (n_alt : nat) (alts : list alt_result) : option (list (list Q)) :=
  match alts with
  | [] => Some []
  | a :: alts =>
      match local_column n_alt a, local_columns n_alt alts with
      | Some c, Some cs => Some (c :: cs)
      | _, _ => None
      end
  end.

(** [np.dot(alternative_local_scores_matrix_np, criteria_weights_vector)]
    with the matrix given by its columns. *)
Definition final_scores (cols : list (list Q)) (cw : list Q) (n_alt : nat) : list Q :=
  vec_of n_alt (fun i => qsumn (length cw) (fun c => vat (nth c cols []) i * vat cw c)).

(** Lines 771-773: divide by the total unless it is negligible or close
    to 1 ([math.isclose(total, 1.0, abs_tol=1e-6)]). *)
Definition renormalize (s : list Q) : list Q :=
  let total := qsum s in
  if Qltb (lit (1 # 1000000000)) (Qabs total)
     && negb (isclose (lit (1 # 1000000)) total 1)
  then map (fun x => x / total) s else s.

(** [criteria_ahp_results.get("is_consistent", False)] and
    [criteria_ahp_results.get("weights")] (app.py:673); the weights of the
    input-error dictionary are never read, as it is not consistent. *)
Definition crit_consistent (c : crit_result) : bool :=
  match c with CritEngine (AhpOk r) => res_is_consistent r | _ => false end.

Definition crit_weights (c : crit_result) : list Q :=
  match c with CritEngine (AhpOk r) => res_weights r | _ => [] end.

(** The checks before the [try] (app.py:663-680): a missing session
    entry redirects, a criteria result that is not consistent or has no
    weights is refused; [k] is the rest of the route, on the weights. *)
Definition final_gate {T} (crit : option crit_result) (names : list T) (n_crit : nat)
  (k : list Q -> final_outcome T) : final_outcome T :=
  match crit with
  | None => MissingSession
  | Some c =>
      if Nat.eqb n_crit 0 || Nat.eqb (length names) 0 then MissingSession
      else if negb (crit_consistent c) then RefusedCriteria else
      match crit_weights c with
      | [] => RefusedCriteria
      | cw => k cw
      end
  end.

(** After the loop over the criteria (app.py:738-773): [cols] is [None]
    when a column assignment raised in the loop; the flash of line 748
    raises on an error result, an inconsistent result returns to the
    form, and [np.dot] raises on weights of another length. *)
Definition final_after_loop {T} (cw : list Q) (names : list T) (n_crit : nat)
  (critical flash inconsistent : bool) (cols : option (list (list Q))) : final_outcome T :=
  match cols with
  | None => ServerError
  | Some cols =>
      if critical && flash then ServerError
      else if inconsistent then InconsistentAlternatives
      else if negb (Nat.eqb (length cw) n_crit) then ServerError
      else
        let scores := renormalize (final_scores cols cw (length names)) in
        Ranked scores (ranked_alternatives names scores)
  end.

(** The route after the alternative results of the form branch are
    known, one per criterion in order; [names] are the alternatives,
    [n_crit] the number of criteria. *)
Definition calculate_final {T} (crit : option crit_result) (names : list T) (n_crit : nat)
  (alts : list alt_result) : final_outcome T :=
  final_gate crit names n_crit (fun cw =>
    final_after_loop cw names n_crit (existsb raises_critical alts) (existsb flash_raises alts)
      (existsb raises_inconsistent alts) (local_columns (length names) alts)).

(** [seq[i]] on a sequence of length [n]: the position it reads, with
    Python's negative indices, or the [IndexError]. *)
Definition py_index (n : nat) (i : Z) : option nat :=
  if ((0 <=? i) && (i <? Z.of_nat n))%Z then Some (Z.to_nat i)
  else if ((- Z.of_nat n <=? i) && (i <? 0))%Z then Some (Z.to_nat (Z.of_nat n + i))
  else None.

(** What the loop of the import branch has gathered: the dictionary
    [alternative_ahp_results_by_crit_idx], the two flags and the columns
    of [alternative_local_scores_matrix_np]. *)
Record import_state := ImportState
  { imp_results : list (string * alt_result);
    imp_critical : bool;
    imp_inconsistent : bool;
    imp_cols : list (list Q) }.

(** One imported matrix (app.py:697-706); [None] is an exception of the
    body: [int(crit_idx_str)], the rendering, [criteria_names_ordered[crit_idx]]
    or the column assignment. *)
Definition import_step (n_crit n_alt : nat) (st : option import_state)
  (item : string * list (list pyfloat)) : option import_state :=
  match st, py_int (fst item) with
  | Some st, Some k =>
      match convert_numpy_matrix_to_form_data (snd item) "alt_matrix" (Some k),
            py_index n_crit k with
      | Ok _, Some c =>
          let a := AltEngine (calculate_ahp (snd item)) in
          match local_column n_alt a with
          | Some col =>
              Some (ImportState (dict_set (imp_results st) (py_str_Z k) a)
                      (imp_critical st || raises_critical a)
                      (imp_inconsistent st || raises_inconsistent a)
                      (set_nth (imp_cols st) c col))
          | None => None
          end
      | _, _ => None
      end
  | _, _ => None
  end.

(** The route on the imported alternative matrices (app.py:694-709),
    from [np.zeros((n_alternatives, n_criteria))]. *)
Definition calculate_final_import {T} (crit : option crit_result) (names : list T) (n_crit : nat)
  (items : list (string * list (list pyfloat))) : final_outcome T :=
  final_gate crit names n_crit (fun cw =>
    match fold_left (import_step n_crit (length names)) items
            (Some (ImportState [] false false (repeat (repeat 0 (length names)) n_crit))) with
    | None => ServerError
    | Some st =>
        final_after_loop cw names n_crit (imp_critical st)
          (existsb flash_raises (map snd (imp_results st))) (imp_inconsistent st)
          (Some (imp_cols st))
    end).

(** The alternative results of the form branch (app.py:715-730): the
    builder's input error, or [calculate_ahp] of the built matrix. *)
Definition alt_results_of_form (f : form) (n_crit n_alt : nat) : list alt_result :=
  vec_of n_crit (fun c => match build_alt_matrix f c n_alt with
                          | Err _ => AltInputError
                          | Ok m => AltEngine (calculate_ahp m)
                          end).

(** The route on a submitted alternative form. *)
Definition calculate_final_form {T} (crit : option crit_result) (names : list T) (n_crit : nat)
  (f : form) : final_outcome T :=
  calculate_final crit names n_crit (alt_results_of_form f n_crit (length names)).

(** ** Arithmetic of the final scores *)

(** When every column used sums to one, the final scores sum to the sum of
    the criteria weights. *)
Lemma final_scores_sum (cols : list (list Q)) (cw : list Q) (n_alt : nat) :
  (forall c, (c < length cw)%nat -> qsum (nth c cols []) == 1 /\ length (nth c cols []) = n_alt) ->
  qsum (final_scores cols cw n_alt) == qsum cw.
Proof.
  intros H. unfold final_scores. rewrite qsum_vec_of, qsumn_swap, (qsum_as_qsumn cw).
  apply qsumn_ext. intros c Hc. destruct (H c Hc) as [Hs Hl].
  rewrite (qsumn_ext _ _ (fun i => vat cw c * vat (nth c cols []) i)) by (intros; ring).
  rewrite qsumn_scale, <- Hl, <- qsum_as_qsumn, Hs. ring.
Qed.

Lemma renormalize_one (s : list Q) : qsum s == 1 -> renormalize s = s.
Proof.
  intros H. unfold renormalize. cbv zeta.
  replace (isclose _ (qsum s) 1) with true; [destruct Qltb; reflexivity|].
  symmetry. unfold isclose. replace (Qeq_bool (qsum s) 1) with true; [reflexivity|].
  symmetry. apply Qeq_bool_iff, H.
Qed.

Lemma length_final_scores cols cw n_alt : length (final_scores cols cw n_alt) = n_alt.
Proof. apply length_vec_of. Qed.

(** The columns of results that all have [n_alt > 0] weights are those
    weights. *)
Lemma local_columns_weights (n_alt : nat) (alts : list alt_result) :
  (0 < n_alt)%nat ->
  (forall c, (c < length alts)%nat ->
     exists w, alt_weights (nth c alts AltInputError) = Some w /\ length w = n_alt) ->
  exists cols, local_columns n_alt alts = Some cols
    /\ forall c, (c < length alts)%nat -> alt_weights (nth c alts AltInputError) = Some (nth c cols []).
Proof.
  intros Hn. induction alts as [|a alts IH]; intros H; [exists []; split; [reflexivity|simpl; lia]|].
  destruct IH as (cols & Hcols & Hnth).
  { intros c Hc. apply (H (S c)). simpl. lia. }
  destruct (H 0%nat ltac:(simpl; lia)) as (w & Hw & Hl). cbn [nth] in Hw.
  exists (w :: cols). cbn [local_columns]. unfold local_column. rewrite Hw, Hcols.
  destruct w as [|x w']; [simpl in Hl; lia|]. rewrite Hl, Nat.eqb_refl. split; [reflexivity|].
  intros [|c] Hc; [exact Hw|]. apply Hnth. simpl in Hc. lia.
Qed.

Lemma local_columns_nth (n_alt : nat) (alts : list alt_result) (cols : list (list Q)) c w :
  local_columns n_alt alts = Some cols -> (c < length alts)%nat ->
  alt_weights (nth c alts AltInputError) = Some w -> w <> [] -> length w = n_alt ->
  nth c cols [] = w.
Proof.
  revert cols c. induction alts as [|a alts IH]; intros cols c Hcols Hc Hw Hne Hl; [simpl in Hc; lia|].
  cbn [local_columns] in Hcols.
  destruct (local_column n_alt a) as [col|] eqn:Ea; [|discriminate].
  destruct (local_columns n_alt alts) as [cs|] eqn:Ecs; [|discriminate].
  injection Hcols as <-. destruct c as [|c].
  - cbn [nth] in *. unfold local_column in Ea. rewrite Hw in Ea.
    destruct w as [|x w]; [contradiction|]. rewrite Hl, Nat.eqb_refl in Ea.
    injection Ea as <-. reflexivity.
  - apply (IH cs c); [reflexivity|simpl in Hc; lia|exact Hw|exact Hne|exact Hl].
Qed.

(** ** Facts on the results *)

Lemma alt_error_false (a : alt_result) : alt_error a = false -> exists r, a = AltEngine (AhpOk r).
Proof. destruct a as [|[r|n e]]; try discriminate. intros _. exists r. reflexivity. Qed.

(** An error result raises both flags of the crash at line 748. *)
Lemma alt_error_raises (a : alt_result) :
  alt_error a = true -> raises_critical a = true /\ flash_raises a = true.
Proof. destruct a as [|[r|n e]]; try discriminate; intros _; split; reflexivity. Qed.

Lemma gate_no_error (alts : list alt_result) :
  existsb raises_critical alts && existsb flash_raises alts = false ->
  forall a, In a alts -> alt_error a = false.
Proof.
  intros H a Ha. destruct (alt_error a) eqn:E; [|reflexivity].
  destruct (alt_error_raises a E) as [H1 H2].
  assert (existsb raises_critical alts = true) by (apply existsb_exists; eauto).
  assert (existsb flash_raises alts = true) by (apply existsb_exists; eauto).
  rewrite H0, H3 in H. discriminate.
Qed.

Lemma length_alt_results_of_form f n_crit n_alt :
  length (alt_results_of_form f n_crit n_alt) = n_crit.
Proof. apply length_vec_of. Qed.

(** A successful result of the form branch has one weight per alternative,
    summing to one. *)
Lemma alt_results_of_form_ok f n_crit n_alt c r :
  (c < n_crit)%nat -> nth c (alt_results_of_form f n_crit n_alt) AltInputError = AltEngine (AhpOk r) ->
  length (res_weights r) = n_alt /\ qsum (res_weights r) == 1.
Proof.
  intros Hc. unfold alt_results_of_form. rewrite nth_vec_of by exact Hc.
  destruct (build_alt_matrix f c n_alt) as [m|] eqn:Em; [|discriminate].
  intros H. injection H as Hr. apply calculate_ahp_weights in Hr as [Hl Hs].
  split; [|exact Hs]. rewrite Hl.
  apply build_matrix_Ok in Em as [-> _]. apply length_vec_of.
Qed.

(** What a ranking tells of the loop that led to it: the columns were
    assigned, no error result was flashed, there is one criteria weight
    per criterion and one score per alternative. *)
Lemma final_after_loop_ranked {T} cw (names : list T) n critical flash inc cols scores ranking :
  final_after_loop cw names n critical flash inc cols = Ranked scores ranking ->
  (exists cs, cols = Some cs) /\ critical && flash = false /\ length cw = n
  /\ length scores = length names /\ ranking = ranked_alternatives names scores.
Proof.
  unfold final_after_loop. destruct cols as [cs|]; [|discriminate].
  destruct (critical && flash); [discriminate|]. destruct inc; [discriminate|].
  destruct (Nat.eqb_spec (length cw) n); [|discriminate]. cbn. intros [= <- <-].
  split; [eauto|]. split; [reflexivity|]. split; [assumption|]. split; [|reflexivity].
  unfold renormalize. destruct (_ && _); [rewrite length_map|]; apply length_final_scores.
Qed.

Lemma final_gate_ranked {T} crit (names : list T) n k scores ranking :
  final_gate crit names n k = Ranked scores ranking ->
  exists c, crit = Some c /\ k (crit_weights c) = Ranked scores ranking.
Proof.
  unfold final_gate. destruct crit as [c|]; [|discriminate].
  destruct (_ || _); [discriminate|]. destruct (negb _); [discriminate|].
  destruct (crit_weights c) eqn:E; [discriminate|]. intros H. exists c. rewrite E. auto.
Qed.

Lemma local_column_length n_alt a c : local_column n_alt a = Some c -> length c = n_alt.
Proof.
  unfold local_column. destruct (alt_weights a) as [[|x w]|];
    try (intros [= <-]; apply repeat_length).
  destruct (Nat.eqb_spec (length (x :: w)) n_alt) as [E|_]; [intros [= <-]; exact E|].
  destruct (length (x :: w) =? 1)%nat; [intros [= <-]; apply repeat_length|discriminate].
Qed.

Lemma local_columns_length n_alt alts cols : local_columns n_alt alts = Some cols -> length cols = length alts.
Proof.
  revert cols. induction alts as [|a alts IH]; intros cols; cbn; [intros [= <-]; reflexivity|].
  destruct (local_column n_alt a); [|discriminate].
  destruct (local_columns n_alt alts) as [cs|]; [|discriminate]. intros [= <-]. cbn. f_equal. apply IH. reflexivity.
Qed.

(** ** Outcomes of the route *)

Lemma session_ok {T} (names : list T) (n_crit : nat) :
  (0 < n_crit)%nat -> names <> [] -> Nat.eqb n_crit 0 || Nat.eqb (length names) 0 = false.
Proof.
  intros Hn Hnames. destruct names; [contradiction|].
  apply orb_false_iff. split; apply Nat.eqb_neq; simpl; lia.
Qed.

(** [C7] The aggregation refuses (spec, section 8): when the criteria
    result is not consistent, whether it is an inconsistent matrix, an
    engine error or an input error, the route returns the refusal of
    lines 673-680 and computes nothing. *)
Theorem calculate_final_refuses {T} (c : crit_result) (names : list T) (n_crit : nat)
  (alts : list alt_result) :
  (0 < n_crit)%nat -> names <> [] -> crit_consistent c = false ->
  calculate_final (Some c) names n_crit alts = RefusedCriteria.
Proof.
  intros Hn Hnames Hc. unfold calculate_final, final_gate.
  rewrite session_ok by assumption.
  rewrite Hc. reflexivity.
Qed.

Lemma calculate_final_refuses_witness :
  @calculate_final nat (Some (CritInputError 3)) [1%nat; 2%nat] 3 [] = RefusedCriteria.
Proof. apply calculate_final_refuses; [lia|discriminate|reflexivity]. Defined.

Lemma calculate_final_gate {T} (c : crit_result) (names : list T) (n_crit : nat)
  (alts : list alt_result) :
  (0 < n_crit)%nat -> names <> [] -> crit_consistent c = true -> crit_weights c <> [] ->
  calculate_final (Some c) names n_crit alts =
  match local_columns (length names) alts with
  | None => ServerError
  | Some cols =>
      if existsb raises_critical alts && existsb flash_raises alts then ServerError
      else if existsb raises_inconsistent alts then InconsistentAlternatives
      else if negb (Nat.eqb (length (crit_weights c)) n_crit) then ServerError
      else
        let scores := renormalize (final_scores cols (crit_weights c) (length names)) in
        Ranked scores (ranked_alternatives names scores)
  end.
Proof.
  intros Hn Hnames Hc Hw. unfold calculate_final, final_gate, final_after_loop.
  rewrite session_ok by assumption.
  rewrite Hc. cbn [negb]. destruct (crit_weights c); [contradiction|reflexivity].
Qed.

(** [C8] An error in one alternative matrix crashes the route: the flash
    of line 748 formats the [None] fields of the error result with [:.4f],
    which raises, and the route ends in its generic error page.  The
    zero-filled partial ranking of lines 735-736 and 770-773 is never
    reached. *)
Theorem calculate_final_alt_error_crashes {T} (c : crit_result) (names : list T) (n_crit : nat)
  (alts : list alt_result) :
  (0 < n_crit)%nat -> names <> [] -> crit_consistent c = true -> crit_weights c <> [] ->
  existsb alt_error alts = true ->
  calculate_final (Some c) names n_crit alts = ServerError.
Proof.
  intros Hn Hnames Hc Hw He. rewrite calculate_final_gate by assumption.
  destruct (local_columns _ alts); [|reflexivity].
  apply existsb_exists in He as (a & Ha & Hea). destruct (alt_error_raises a Hea) as [H1 H2].
  replace (existsb raises_critical alts) with true by (symmetry; apply existsb_exists; eauto).
  replace (existsb flash_raises alts) with true by (symmetry; apply existsb_exists; eauto).
  reflexivity.
Qed.

(** [C9] An inconsistent alternative matrix stops the route: when every
    alternative result has its weights but one is not consistent, the route
    returns to the form (lines 754-769) and computes no ranking, where the
    spec (section 7) proceeds with a warning. *)
Theorem calculate_final_inconsistent_alt {T} (c : crit_result) (names : list T) (n_crit : nat)
  (alts : list alt_result) :
  (0 < n_crit)%nat -> names <> [] -> crit_consistent c = true -> crit_weights c <> [] ->
  (forall a, In a alts -> exists w, alt_weights a = Some w /\ length w = length names) ->
  existsb (fun a => negb (alt_consistent a)) alts = true ->
  calculate_final (Some c) names n_crit alts = InconsistentAlternatives.
Proof.
  intros Hn Hnames Hc Hw Hall Hinc. rewrite calculate_final_gate by assumption.
  assert (Hlen : (0 < length names)%nat) by (destruct names; [contradiction|simpl; lia]).
  destruct (local_columns_weights (length names) alts Hlen) as (cols & -> & _).
  { intros k Hk. apply Hall, nth_In, Hk. }
  assert (Hok : forall a, In a alts -> alt_error a = false).
  { intros a Ha. destruct (Hall a Ha) as (w & Hwa & _). destruct a as [|[r|m e]]; easy. }
  replace (existsb raises_critical alts) with false.
  - replace (existsb raises_inconsistent alts) with true; [reflexivity|].
    symmetry. apply existsb_exists in Hinc as (a & Ha & Hna). apply existsb_exists.
    exists a. split; [exact Ha|]. unfold raises_inconsistent. rewrite (Hok a Ha). exact Hna.
  - symmetry. apply not_true_iff_false. intros Hcr. apply existsb_exists in Hcr as (a & Ha & Hcr).
    destruct (Hall a Ha) as (w & Hwa & Hwl). unfold raises_critical in Hcr.
    rewrite (Hok a Ha), Hwa in Hcr. destruct w; [simpl in Hwl; lia|discriminate].
Qed.

(** A result that carries only weights, as the spec's scenarios give them. *)
Definition weights_only (w : list Q) : ahp_ok :=
  {| res_n := length w; res_weights := w; res_wsv := w; res_cv := w;
     res_lambdaMax := Q_of_nat (length w); res_ci := 0; res_RI := 0; res_CR := Fin 0;
     res_is_consistent := true; res_colSums := []; res_normMatrix := [] |}.

Lemma calculate_final_alt_error_crashes_witness :
  @calculate_final nat (Some (CritEngine (AhpOk (weights_only [7 # 10; 3 # 10])))) [1%nat; 2%nat] 2
    [AltEngine (AhpOk (weights_only [6 # 10; 4 # 10])); AltInputError] = ServerError.
Proof. apply calculate_final_alt_error_crashes; [lia|discriminate|reflexivity|discriminate|reflexivity]. Defined.

Lemma calculate_final_inconsistent_alt_witness :
  @calculate_final nat (Some (CritEngine (AhpOk (weights_only [7 # 10; 3 # 10])))) [1%nat; 2%nat] 2
    [AltEngine (AhpOk (weights_only [6 # 10; 4 # 10]));
     AltEngine (AhpOk {| res_n := 2; res_weights := [1 # 2; 1 # 2]; res_wsv := []; res_cv := [];
                         res_lambdaMax := 0; res_ci := 0; res_RI := 0; res_CR := PInf;
                         res_is_consistent := false; res_colSums := []; res_normMatrix := [] |})]
  = InconsistentAlternatives.
Proof.
  apply calculate_final_inconsistent_alt; [lia|discriminate|reflexivity|discriminate| |reflexivity].
  intros a [<-|[<-|[]]]; eexists; split; reflexivity.
Defined.

(** The aggregation scenario of the spec (section 8): criteria
    weights [0.7, 0.3], local weights [0.6, 0.4] and [0.2, 0.8]; the final
    scores are [0.48, 0.52] and the second alternative ranks first. *)
Example calculate_final_spec_scenario :
  exists scores ranking,
    @calculate_final string (Some (CritEngine (AhpOk (weights_only [7 # 10; 3 # 10]))))
      ["A1"; "A2"]%string 2
      [AltEngine (AhpOk (weights_only [6 # 10; 4 # 10]));
       AltEngine (AhpOk (weights_only [2 # 10; 8 # 10]))] = Ranked scores ranking
    /\ vat scores 0 == 48 # 100 /\ vat scores 1 == 52 # 100
    /\ map fst ranking = ["A2"; "A1"]%string.
Proof.
  do 2 eexists. split; [vm_compute; reflexivity|].
  split; [reflexivity|]. split; reflexivity.
Qed.

(** [C4] When the route ranks the alternatives of a submitted form
    against a criteria result of [calculate_ahp], the final scores sum to
    one (so the renormalisation of lines 771-773 leaves them unchanged),
    there is one score per alternative, and the ranking is the stable
    descending order of the pairs [(alternative, score)]. *)
Theorem calculate_final_route_ranks {T} (mc : list (list pyfloat)) (names : list T)
  (n_crit : nat) (f : form) (scores : list Q) (ranking : list (T * Q)) :
  calculate_final_form (Some (CritEngine (calculate_ahp mc))) names n_crit f = Ranked scores ranking ->
  qsum scores == 1 /\ length scores = length names
  /\ Permutation ranking (combine names scores)
  /\ stable_sort_desc snd (combine names scores) ranking.
Proof.
  unfold calculate_final_form, calculate_final, final_gate, final_after_loop.
  set (alts := alt_results_of_form f n_crit (length names)).
  destruct (Nat.eqb n_crit 0 || Nat.eqb (length names) 0); [discriminate|].
  destruct (calculate_ahp mc) as [r|] eqn:Ec; [|discriminate]. cbn [crit_consistent crit_weights].
  destruct (res_is_consistent r); cbn [negb]; [|discriminate].
  pose proof (calculate_ahp_weights mc r Ec) as [_ Hcw].
  destruct (res_weights r) as [|w0 ws] eqn:Ew; [discriminate|].
  destruct (local_columns _ alts) as [cols|] eqn:Ecols; [|discriminate].
  destruct (existsb raises_critical alts && existsb flash_raises alts) eqn:Ecr; [discriminate|].
  destruct (existsb raises_inconsistent alts); [discriminate|].
  destruct (Nat.eqb (length (w0 :: ws)) n_crit) eqn:Elen; cbn [negb]; [|discriminate].
  apply Nat.eqb_eq in Elen. intros H. injection H as <- <-.
  assert (Hsum : qsum (final_scores cols (w0 :: ws) (length names)) == 1).
  { rewrite final_scores_sum; [exact Hcw|]. intros c Hc. rewrite Elen in Hc.
    assert (Hca : (c < length alts)%nat) by (unfold alts; rewrite length_alt_results_of_form; exact Hc).
    destruct (alt_error_false (nth c alts AltInputError)) as [rc Hrc].
    { apply (gate_no_error alts Ecr), nth_In, Hca. }
    destruct (alt_results_of_form_ok f n_crit (length names) c rc Hc Hrc) as [Hl Hs].
    rewrite (local_columns_nth _ alts cols c (res_weights rc) Ecols Hca);
      [|rewrite Hrc; reflexivity|intros E; rewrite E in Hs; discriminate|exact Hl].
    split; assumption. }
  rewrite renormalize_one by exact Hsum.
  split; [exact Hsum|]. split; [apply length_final_scores|].
  split; [apply sort_desc_perm|apply sort_desc_stable].
Qed.

Definition is_ranked {T} (o : final_outcome T) : bool :=
  match o with Ranked _ _ => true | _ => false end.

(** A two-criteria session: the criteria matrix [[1, 3], [1/3, 1]] and an
    alternative form for two alternatives. *)
Definition example_crit_matrix : list (list pyfloat) := [[Fin 1; Fin 3]; [fl (1 # 3); Fin 1]].

Definition example_alt_form : form :=
  [("alt_matrix[0][0][1]", "2"); ("alt_matrix[1][0][1]", "1/3")]%string.

Lemma calculate_final_route_ranks_witness :
  exists scores ranking,
    calculate_final_form (Some (CritEngine (calculate_ahp example_crit_matrix)))
      ["A1"; "A2"]%string 2 example_alt_form = Ranked scores ranking
    /\ qsum scores == 1.
Proof.
  assert (H : is_ranked (calculate_final_form (Some (CritEngine (calculate_ahp example_crit_matrix)))
                           ["A1"; "A2"]%string 2 example_alt_form) = true)
    by (vm_compute; reflexivity).
  destruct (calculate_final_form (Some (CritEngine (calculate_ahp example_crit_matrix)))
              ["A1"; "A2"]%string 2 example_alt_form) as [| | | |scores ranking] eqn:E;
    try discriminate H.
  exists scores, ranking. split; [reflexivity|].
  exact (proj1 (calculate_final_route_ranks _ _ _ _ _ _ E)).
Defined.
