(* ===== verification/Store.v ===== *)
(** * Store: the database layer of [model/model.py]

    [model.py] reads and writes a SQL Server database through [pyodbc]:
    the tables [Criteria] and [Alternatives] (an identity [id], a unique
    [name], a [description]), [Session] (an identity [id] per Flask session
    id), [CriteriaWeights], [AlternativeScores], [CriteriaComparison] (rows
    keyed by the session) and [AHPAnalyses] (one row per saved result, with
    its JSON columns).  Every function opens a connection, runs its
    statements in one transaction, commits, and on [pyodbc.Error] rolls
    back and returns a fallback value ([[]], [False] or [None]).

    The database is a record of tables, each a list of rows in insertion
    order, with the next identity value of each identity column and the
    server's current time [clock], which the column default
    [created_at = GETDATE()] stamps on a new analysis; the code never sets
    [created_at], and only the server moves its clock ([ClockMoves]), so
    two analyses may carry the same time.  [db_up] says whether [pyodbc.connect]
    succeeds; when it does not, every function takes its [except] branch.
    A rolled back transaction leaves the tables as they were; a failed
    [INSERT] still consumes an identity value, as in SQL Server.  The
    schema is not in the repository: the comparison of [WHERE name = ?]
    and of the [UNIQUE] constraints (the server's collation) is the
    parameter [coll_eq].  A JSON column reads back what was written
    ([json.loads] of [json.dumps]), so the analysis is stored as a record;
    the criteria CR is the plain column [criteria_cr], and the dictionary
    [get_ahp_analysis_by_id] returns keeps it under that name, with no key
    [cr_criteria].

    The theorems show that every operation keeps the tables well formed
    (identities below their counters and distinct, names and Flask ids
    unique under the collation), that a session id is created once and
    then found, that a saved analysis reads back for its own session only
    (without its criteria CR under the key the reports read), that a
    failed save changes nothing, and what [get_criteria_by_ids] returns. *)

From Stdlib Require Import String QArith ZArith List Lia Lqa Bool Sorted Permutation.
From S2P Require Import Prelude Binary64 PyStr Engine Builder Ranking Aggregate.
Import ListNotations.
Open Scope Z_scope.

(** ** Rows and tables *)

Record named_row := NamedRow { row_id : Z; row_name : string; row_desc : option string }.
Record session_row := SessionRow { ses_id : Z; ses_flask : string }.
Record weight_row := WeightRow { cw_criteria_id : Z; cw_weight : Q; cw_session : Z }.
Record score_row := ScoreRow
  { sc_alternative_id : Z; sc_criteria_id : Z; sc_score : Q; sc_session : Z }.
Record comparison_row := ComparisonRow
  { cc_criteria_id_1 : Z; cc_criteria_id_2 : Z; cc_value : pyfloat; cc_session : Z }.

(** The dictionary [result_data] of [calculate_final_route] as
    [save_ahp_analysis] reads it (app.py:775-782); [analysis_name] and
    [notes] are columns the route never fills. *)
Record analysis_data := AnalysisData
  { ad_criteria_names : list string;
    ad_criteria_weights : list Q;
    ad_alternatives : list string;
    ad_alternative_scores : list Q;
    ad_ranked_alternatives : list (string * Q);
    ad_cr_criteria : option pyfloat;
    ad_is_consistent_criteria : bool;
    ad_alternative_crs : list (string * alt_result);
    ad_local_matrix : list (list Q) }.

Record analysis_row := AnalysisRow
  { an_id : Z; an_session : Z; an_name : option string; an_data : analysis_data;
    an_consistent : Z; an_notes : option string; an_created : Z }.

Record db := DB
  { db_up : bool;
    criteria : list named_row; next_criteria_id : Z;
    alternatives : list named_row; next_alternative_id : Z;
    sessions : list session_row; next_session_id : Z;
    criteria_weights : list weight_row;
    alternative_scores : list score_row;
    criteria_comparison : list comparison_row;
    analyses : list analysis_row; next_analysis_id : Z; clock : Z }.

(** An empty database whose identities start at 1. *)
Definition empty_db : db := DB true [] 1 [] 1 [] 1 [] [] [] [] 1 0.

(** Updates of one table. *)
Definition set_criteria (d : db) (l : list named_row) (n : Z) : db :=
  DB (db_up d) l n (alternatives d) (next_alternative_id d) (sessions d) (next_session_id d)
     (criteria_weights d) (alternative_scores d) (criteria_comparison d) (analyses d)
     (next_analysis_id d) (clock d).
Definition set_alternatives (d : db) (l : list named_row) (n : Z) : db :=
  DB (db_up d) (criteria d) (next_criteria_id d) l n (sessions d) (next_session_id d)
     (criteria_weights d) (alternative_scores d) (criteria_comparison d) (analyses d)
     (next_analysis_id d) (clock d).
Definition set_sessions (d : db) (l : list session_row) (n : Z) : db :=
  DB (db_up d) (criteria d) (next_criteria_id d) (alternatives d) (next_alternative_id d) l n
     (criteria_weights d) (alternative_scores d) (criteria_comparison d) (analyses d)
     (next_analysis_id d) (clock d).
Definition set_criteria_weights (d : db) (l : list weight_row) : db :=
  DB (db_up d) (criteria d) (next_criteria_id d) (alternatives d) (next_alternative_id d)
     (sessions d) (next_session_id d) l (alternative_scores d) (criteria_comparison d)
     (analyses d) (next_analysis_id d) (clock d).
Definition set_alternative_scores (d : db) (l : list score_row) : db :=
  DB (db_up d) (criteria d) (next_criteria_id d) (alternatives d) (next_alternative_id d)
     (sessions d) (next_session_id d) (criteria_weights d) l (criteria_comparison d)
     (analyses d) (next_analysis_id d) (clock d).
Definition set_criteria_comparison (d : db) (l : list comparison_row) : db :=
  DB (db_up d) (criteria d) (next_criteria_id d) (alternatives d) (next_alternative_id d)
     (sessions d) (next_session_id d) (criteria_weights d) (alternative_scores d) l
     (analyses d) (next_analysis_id d) (clock d).
Definition set_analyses (d : db) (l : list analysis_row) (n : Z) : db :=
  DB (db_up d) (criteria d) (next_criteria_id d) (alternatives d) (next_alternative_id d)
     (sessions d) (next_session_id d) (criteria_weights d) (alternative_scores d)
     (criteria_comparison d) l n (clock d).

(** [ORDER BY key] and [ORDER BY key DESC]: the stable descending sort
    of [Ranking] on the negated or plain key (the keys the queries order
    by are distinct, so stability plays no part). *)
Definition order_by {A} (key : A -> Z) (l : list A) : list A :=
  sort_desc (fun x => - inject_Z (key x))%Q l.

Definition order_by_desc {A} (key : A -> Z) (l : list A) : list A :=
  sort_desc (fun x => inject_Z (key x)) l.

(** A Python truth test on an id: [None] and [0] are false. *)
Definition truthy_id (o : option Z) : bool :=
  match o with Some k => negb (k =? 0) | None => false end.

Definition pair_of (r : named_row) : Z * string := (row_id r, row_name r).

(** [np.array(m).shape] of a matrix given by its rows. *)
Definition np_shape {A} (m : list (list A)) : nat * nat := (length m, length (nth 0 m [])).

Definition is_nil {A} (l : list A) : bool := match l with [] => true | _ => false end.

(** What [get_ahp_analysis_by_id] returns: the plain columns (the
    criteria CR under the column's name [criteria_cr]) and the decoded
    JSON columns under the keys the code gives them, [is_consistent_criteria]
    read back as [bool(criteria_is_consistent)]. *)
Record analysis_view := AnalysisView
  { av_id : Z; av_session : Z; av_name : option string; av_notes : option string;
    av_created : Z; av_criteria_cr : option pyfloat; av_data : analysis_data }.

Section Operations.
(** The collation of the server: when two names are equal for
    [WHERE ... = ?] and for a [UNIQUE] constraint. *)
Variable coll_eq : string -> string -> bool.

(** [get_criteria_from_db()] (model.py:26-38): [ORDER BY id]. *)
Definition get_criteria_from_db (d : db) : list (Z * string) :=
  if db_up d then map pair_of (order_by row_id (criteria d)) else [].

(** [get_all_alternatives()] (model.py:82-94). *)
Definition get_all_alternatives (d : db) : list (Z * string) :=
  if db_up d then map pair_of (order_by row_id (alternatives d)) else [].

(** [SELECT id, name ... WHERE id IN (ids) ORDER BY id]. *)
Definition select_by_ids (rows : list named_row) (ids : list Z) : list (Z * string) :=
  map pair_of (order_by row_id (filter (fun r => existsb (Z.eqb (row_id r)) ids) rows)).

(** [get_criteria_by_ids(ids)] (model.py:40-61); the ids the route passes
    are integers, so [int(cid)] does not raise. *)
Definition get_criteria_by_ids (ids : list Z) (d : db) : list (Z * string) :=
  if is_nil ids then [] else if db_up d then select_by_ids (criteria d) ids else [].

(** [get_alternatives_by_ids(ids)] (model.py:96-117). *)
Definition get_alternatives_by_ids (ids : list Z) (d : db) : list (Z * string) :=
  if is_nil ids then [] else if db_up d then select_by_ids (alternatives d) ids else [].

(** [description if description and description.strip() else None]. *)
Definition db_description (desc : string) : option string :=
  if negb (String.eqb desc "") && negb (String.eqb (strip desc) "") then Some desc else None.

(** [INSERT INTO T (name, description)] on a table with an identity and a
    unique name: the [IntegrityError] gives [False] and consumes the
    identity value. *)
Definition insert_named (rows : list named_row) (next : Z) (name desc : string)
  : bool * list named_row * Z :=
  if existsb (fun r => coll_eq (row_name r) name) rows then (false, rows, next + 1)
  else (true, rows ++ [NamedRow next name (db_description desc)], next + 1).

(** [add_criteria(name, description)] (model.py:63-80). *)
Definition add_criteria (name desc : string) (d : db) : bool * db :=
  if db_up d then
    let '(ok, rows, n) := insert_named (criteria d) (next_criteria_id d) name desc in
    (ok, set_criteria d rows n)
  else (false, d).

(** [add_alternative(name, description)] (model.py:119-136). *)
Definition add_alternative (name desc : string) (d : db) : bool * db :=
  if db_up d then
    let '(ok, rows, n) := insert_named (alternatives d) (next_alternative_id d) name desc in
    (ok, set_alternatives d rows n)
  else (false, d).

(** [get_or_create_session_db_id(flask_session_id_value)]
    (model.py:138-197): the id of the row of this Flask session id, or
    the identity of a new row. *)
Definition get_or_create_session_db_id (v : option string) (d : db) : option Z * db :=
  match v with
  | None => (None, d)
  | Some s =>
      if String.eqb s "" then (None, d)
      else if negb (db_up d) then (None, d)
      else match find (fun r => coll_eq (ses_flask r) s) (sessions d) with
           | Some r => (Some (ses_id r), d)
           | None =>
               let k := next_session_id d in
               (Some k, set_sessions d (sessions d ++ [SessionRow k s]) (k + 1))
           end
  end.

(** [save_criteria_weights(session_db_id, criteria, weights)]
    (model.py:199-226): the rows of the session replaced by one row per
    criterion; a length mismatch raises [ValueError] after the [DELETE],
    which the rollback undoes. *)
Definition save_criteria_weights (sid : option Z) (crits : list (Z * string))
  (weights : option (list Q)) (d : db) : bool * db :=
  match sid, weights with
  | Some k, Some w =>
      if negb (truthy_id sid) || is_nil crits then (false, d)
      else if negb (db_up d) then (false, d)
      else if negb (Nat.eqb (length crits) (length w)) then (false, d)
      else (true, set_criteria_weights d
                    (filter (fun r => negb (cw_session r =? k)) (criteria_weights d)
                     ++ map (fun cx => WeightRow (fst (fst cx)) (snd cx) k) (combine crits w)))
  | _, _ => (false, d)
  end.

(** [save_alternative_scores(session_db_id, alternatives, criteria, m)]
    (model.py:228-269): [m] is the numpy matrix of the route. *)
Definition save_alternative_scores (sid : option Z) (alts crits : list (Z * string))
  (m : list (list Q)) (d : db) : bool * db :=
  match sid with
  | Some k =>
      if negb (truthy_id sid) || is_nil alts || is_nil crits then (false, d)
      else if negb (db_up d) then (false, d)
      else if negb (Nat.eqb (fst (np_shape m)) (length alts)
                    && Nat.eqb (snd (np_shape m)) (length crits)) then (false, d)
      else (true, set_alternative_scores d
                    (filter (fun r => negb (sc_session r =? k)) (alternative_scores d)
                     ++ flat_map (fun a => map (fun c => ScoreRow (fst (nth a alts (0, EmptyString)))
                                                               (fst (nth c crits (0, EmptyString)))
                                                               (mget m a c) k)
                                              (seq 0 (length crits)))
                                 (seq 0 (length alts))))
  | None => (false, d)
  end.

(** [save_criteria_comparison_matrix(session_db_id, criteria, m)]
    (model.py:271-316). *)
Definition save_criteria_comparison_matrix (sid : option Z) (crits : list (Z * string))
  (m : list (list pyfloat)) (d : db) : bool * db :=
  match sid with
  | Some k =>
      if negb (truthy_id sid) || is_nil crits then (false, d)
      else if negb (db_up d) then (false, d)
      else if negb (Nat.eqb (fst (np_shape m)) (length crits)
                    && Nat.eqb (snd (np_shape m)) (length crits)) then (false, d)
      else (true, set_criteria_comparison d
                    (filter (fun r => negb (cc_session r =? k)) (criteria_comparison d)
                     ++ flat_map (fun i => map (fun j => ComparisonRow (fst (nth i crits (0, EmptyString)))
                                                                    (fst (nth j crits (0, EmptyString)))
                                                                    (pat m i j) k)
                                              (seq 0 (length crits)))
                                 (seq 0 (length crits))))
  | None => (false, d)
  end.

(** [save_ahp_analysis(session_db_id, analysis_data)] (model.py:318-390):
    the identity of the new row, whose [created_at] is the server's time. *)
Definition save_ahp_analysis (sid : option Z) (a : analysis_data) (d : db) : option Z * db :=
  match sid with
  | Some s =>
      if negb (truthy_id sid) then (None, d)
      else if negb (db_up d) then (None, d)
      else let k := next_analysis_id d in
           (Some k, set_analyses d
                      (analyses d ++ [AnalysisRow k s None a
                                        (if ad_is_consistent_criteria a then 1 else 0) None (clock d)])
                      (k + 1))
  | None => (None, d)
  end.

(** The columns [analysis_id, session_db_id, analysis_name, created_at]
    of a row. *)
Definition history_row (r : analysis_row) : Z * Z * option string * Z :=
  (an_id r, an_session r, an_name r, an_created r).

(** [get_ahp_analyses_by_session_db_id(session_db_id)]
    (model.py:392-413): the session's analyses, newest first.  The order
    of analyses with the same [created_at] is the server's choice; the
    model keeps them in insertion order, one of the orders it may
    choose. *)
Definition get_ahp_analyses_by_session_db_id (sid : option Z) (d : db)
  : list (Z * Z * option string * Z) :=
  match sid with
  | Some s =>
      if truthy_id sid && db_up d then
        map history_row (order_by_desc an_created (filter (fun r => an_session r =? s) (analyses d)))
      else []
  | None => []
  end.

(** The row read back (model.py:445-469): the dictionary of the columns
    with the JSON columns decoded under the keys of [analysis_data].  The
    criteria CR stays under the column's name [criteria_cr]: no key
    [cr_criteria] is set, so [analysis_data.get('cr_criteria')] is
    [None]. *)
Definition view_of (r : analysis_row) : analysis_view :=
  let a := an_data r in
  AnalysisView (an_id r) (an_session r) (an_name r) (an_notes r) (an_created r) (ad_cr_criteria a)
    (AnalysisData (ad_criteria_names a) (ad_criteria_weights a) (ad_alternatives a)
                  (ad_alternative_scores a) (ad_ranked_alternatives a) None
                  (negb (an_consistent r =? 0)) (ad_alternative_crs a) (ad_local_matrix a)).

(** The data of a saved analysis under the keys the reports read: the
    same, except [cr_criteria], which [.get] finds missing. *)
Definition read_back (a : analysis_data) : analysis_data :=
  AnalysisData (ad_criteria_names a) (ad_criteria_weights a) (ad_alternatives a)
    (ad_alternative_scores a) (ad_ranked_alternatives a) None (ad_is_consistent_criteria a)
    (ad_alternative_crs a) (ad_local_matrix a).

(** [get_ahp_analysis_by_id(analysis_id, session_db_id_check)]
    (model.py:415-475). *)
Definition get_ahp_analysis_by_id (aid : option Z) (check : option Z) (d : db)
  : option analysis_view :=
  match aid with
  | Some k =>
      if negb (truthy_id aid) || negb (db_up d) then None
      else option_map view_of
             (find (fun r => (an_id r =? k)
                             && match check with Some c => an_session r =? c | None => true end)
                   (analyses d))
  | None => None
  end.
End Operations.

(** ** The operations that change the database *)

Inductive db_op : Type :=
| AddCriteria (name desc : string)
| AddAlternative (name desc : string)
| GetOrCreateSession (v : option string)
| SaveCriteriaWeights (sid : option Z) (crits : list (Z * string)) (w : option (list Q))
| SaveAlternativeScores (sid : option Z) (alts crits : list (Z * string)) (m : list (list Q))
| SaveCriteriaComparison (sid : option Z) (crits : list (Z * string)) (m : list (list pyfloat))
| SaveAnalysis (sid : option Z) (a : analysis_data)
| Connection (up : bool)     (* the server becomes reachable or not *)
| ClockMoves (t : Z).        (* the server's clock shows [t] *)

Definition set_up (d : db) (b : bool) : db :=
  DB b (criteria d) (next_criteria_id d) (alternatives d) (next_alternative_id d)
     (sessions d) (next_session_id d) (criteria_weights d) (alternative_scores d)
     (criteria_comparison d) (analyses d) (next_analysis_id d) (clock d).

Definition set_clock (d : db) (t : Z) : db :=
  DB (db_up d) (criteria d) (next_criteria_id d) (alternatives d) (next_alternative_id d)
     (sessions d) (next_session_id d) (criteria_weights d) (alternative_scores d)
     (criteria_comparison d) (analyses d) (next_analysis_id d) t.

Definition run_op (coll_eq : string -> string -> bool) (op : db_op) (d : db) : db :=
  match op with
  | AddCriteria n s => snd (add_criteria coll_eq n s d)
  | AddAlternative n s => snd (add_alternative coll_eq n s d)
  | GetOrCreateSession v => snd (get_or_create_session_db_id coll_eq v d)
  | SaveCriteriaWeights sid c w => snd (save_criteria_weights sid c w d)
  | SaveAlternativeScores sid a c m => snd (save_alternative_scores sid a c m d)
  | SaveCriteriaComparison sid c m => snd (save_criteria_comparison_matrix sid c m d)
  | SaveAnalysis sid a => snd (save_ahp_analysis sid a d)
  | Connection b => set_up d b
  | ClockMoves t => set_clock d t
  end.

(** ** Well-formed tables *)

(** Identities from 1, below the next identity value, distinct. *)
Definition ids_ok (ids : list Z) (next : Z) : Prop :=
  1 <= next /\ Forall (fun k => 1 <= k < next) ids /\ NoDup ids.

Section Invariant.
Variable coll_eq : string -> string -> bool.

(** No two rows have values equal under the collation. *)
Definition unique_by {A} (f : A -> string) (l : list A) : Prop :=
  ForallOrdPairs (fun x y => coll_eq (f x) (f y) = false) l.

Record wf (d : db) : Prop := {
  wf_criteria : ids_ok (map row_id (criteria d)) (next_criteria_id d);
  wf_criteria_names : unique_by row_name (criteria d);
  wf_alternatives : ids_ok (map row_id (alternatives d)) (next_alternative_id d);
  wf_alternative_names : unique_by row_name (alternatives d);
  wf_sessions : ids_ok (map ses_id (sessions d)) (next_session_id d);
  wf_flask_ids : unique_by ses_flask (sessions d);
  wf_analyses : ids_ok (map an_id (analyses d)) (next_analysis_id d) }.

Lemma ids_ok_bump ids next : ids_ok ids next -> ids_ok ids (next + 1).
Proof.
  intros (H1 & H2 & H3). split; [lia|]. split; [|exact H3].
  eapply Forall_impl; [|exact H2]. intros k Hk. cbv beta in *. lia.
Qed.

Lemma ids_ok_snoc ids next : ids_ok ids next -> ids_ok (ids ++ [next]) (next + 1).
Proof.
  intros (H1 & H2 & H3). split; [lia|]. split.
  - apply Forall_app. split; [eapply Forall_impl; [|exact H2]; intros k Hk; cbv beta in *; lia|].
    constructor; [lia|constructor].
  - apply NoDup_app; [exact H3|constructor; [intros []|constructor]|].
    intros x Hx [<-|[]]. rewrite Forall_forall in H2. apply H2 in Hx. lia.
Qed.

Lemma unique_snoc {A} (f : A -> string) l x :
  unique_by f l -> (forall y, In y l -> coll_eq (f y) (f x) = false) -> unique_by f (l ++ [x]).
Proof.
  unfold unique_by. induction 1 as [|a l Ha Hl IH]; intros Hx; cbn.
  - repeat constructor.
  - constructor.
    + apply Forall_app. split; [exact Ha|]. constructor; [apply Hx; left; reflexivity|constructor].
    + apply IH. intros y Hy. apply Hx. right. exact Hy.
Qed.

Lemma existsb_false_In {A} (f : A -> bool) l x : existsb f l = false -> In x l -> f x = false.
Proof.
  intros H Hx. destruct (f x) eqn:E; [|reflexivity].
  rewrite <- H. symmetry. apply existsb_exists. eauto.
Qed.

Lemma insert_named_wf rows next name desc :
  ids_ok (map row_id rows) next -> unique_by row_name rows ->
  let '(_, rows', next') := insert_named coll_eq rows next name desc in
  ids_ok (map row_id rows') next' /\ unique_by row_name rows'.
Proof.
  intros Hi Hu. unfold insert_named.
  destruct (existsb _ rows) eqn:E; [split; [apply ids_ok_bump|]; assumption|].
  split; [rewrite map_app; apply ids_ok_snoc, Hi|].
  apply unique_snoc; [exact Hu|]. intros y Hy. exact (existsb_false_In _ _ _ E Hy).
Qed.

Lemma wf_run_op op d : wf d -> wf (run_op coll_eq op d).
Proof.
  intros [Hc Hcn Ha Han Hs Hf Han'].
  destruct op as [n s|n s|v|sid c w|sid a c m|sid c m|sid a|b|t]; cbn [run_op].
  - unfold add_criteria. destruct (db_up d); [|constructor; assumption].
    pose proof (insert_named_wf _ _ n s Hc Hcn) as H.
    destruct (insert_named _ _ _ _ _) as [[ok rows] k]. destruct H. constructor; assumption.
  - unfold add_alternative. destruct (db_up d); [|constructor; assumption].
    pose proof (insert_named_wf _ _ n s Ha Han) as H.
    destruct (insert_named _ _ _ _ _) as [[ok rows] k]. destruct H. constructor; assumption.
  - unfold get_or_create_session_db_id.
    destruct v as [s|]; [|constructor; assumption].
    destruct (String.eqb s ""), (db_up d); cbn [negb]; try (constructor; assumption).
    destruct (find _ (sessions d)) eqn:E; [constructor; assumption|].
    constructor; try assumption; cbn [snd set_sessions sessions next_session_id].
    + rewrite map_app. apply ids_ok_snoc, Hs.
    + apply unique_snoc; [exact Hf|]. intros y Hy. exact (find_none _ _ E y Hy).
  - unfold save_criteria_weights.
    destruct sid, w; repeat (destruct (_ || _); try (constructor; assumption));
      repeat (destruct (negb _); try (constructor; assumption)); constructor; assumption.
  - unfold save_alternative_scores.
    destruct sid; repeat (destruct (_ || _); try (constructor; assumption));
      repeat (destruct (negb _); try (constructor; assumption)); constructor; assumption.
  - unfold save_criteria_comparison_matrix.
    destruct sid; repeat (destruct (_ || _); try (constructor; assumption));
      repeat (destruct (negb _); try (constructor; assumption)); constructor; assumption.
  - unfold save_ahp_analysis. destruct sid; [|constructor; assumption].
    destruct (negb (truthy_id _)); [constructor; assumption|].
    destruct (negb (db_up d)); [constructor; assumption|].
    constructor; try assumption; cbn [snd set_analyses analyses next_analysis_id].
    rewrite map_app. apply ids_ok_snoc, Han'.
  - constructor; assumption.
  - constructor; assumption.
Qed.
End Invariant.

(** ** Reachable databases *)

(** The databases the program can produce: an empty one, then any
    sequence of operations and changes of the connection. *)
Inductive db_reachable (coll_eq : string -> string -> bool) : db -> Prop :=
| db_init (b : bool) : db_reachable coll_eq (set_up empty_db b)
| db_step (op : db_op) (d : db) : db_reachable coll_eq d -> db_reachable coll_eq (run_op coll_eq op d).

(** ** Reading back what was written *)

Section Lookups.
Variable coll_eq : string -> string -> bool.

(** The id of a new analysis is above every id in the table. *)
Lemma analysis_ids_below d c :
  wf coll_eq d -> find (fun r => (an_id r =? next_analysis_id d) && c r) (analyses d) = None.
Proof.
  intros Hwf. apply find_none_intro. intros r Hr.
  destruct (wf_analyses _ _ Hwf) as (_ & Hb & _). rewrite Forall_forall in Hb.
  specialize (Hb (an_id r) (in_map _ _ _ Hr)). cbv beta in Hb.
  replace (an_id r =? next_analysis_id d) with false by (symmetry; apply Z.eqb_neq; lia).
  reflexivity.
Qed.

Lemma view_of_new k s a c :
  view_of (AnalysisRow k s None a (if ad_is_consistent_criteria a then 1 else 0) None c)
  = AnalysisView k s None None c (ad_cr_criteria a) (read_back a).
Proof. destruct a as [? ? ? ? ? ? [|] ? ?]; reflexivity. Qed.

Lemma save_ahp_analysis_ok s a d k d' :
  wf coll_eq d -> save_ahp_analysis (Some s) a d = (Some k, d') ->
  k = next_analysis_id d /\ 1 <= k /\ db_up d = true
  /\ d' = set_analyses d (analyses d ++ [AnalysisRow k s None a
                                         (if ad_is_consistent_criteria a then 1 else 0) None (clock d)])
                       (k + 1).
Proof.
  intros Hwf H. unfold save_ahp_analysis in H.
  destruct (negb (truthy_id (Some s))); [discriminate|].
  destruct (db_up d) eqn:Hup; cbn [negb] in H; [|discriminate]. injection H as <- <-.
  destruct (wf_analyses _ _ Hwf) as (H1 & _). auto.
Qed.
End Lookups.

(** ** [ORDER BY] and [WHERE id IN] *)

Lemma StronglySorted_weaken {A} (R S : A -> A -> Prop) l :
  (forall x y, R x y -> S x y) -> StronglySorted R l -> StronglySorted S l.
Proof.
  intros H. induction 1 as [|a l _ IH Hf]; constructor; [exact IH|].
  eapply Forall_impl; [|exact Hf]. intros y. apply H.
Qed.

Lemma StronglySorted_map {A B} (f : A -> B) (R : B -> B -> Prop) l :
  StronglySorted (fun x y => R (f x) (f y)) l -> StronglySorted R (map f l).
Proof.
  induction 1 as [|a l _ IH Hf]; cbn; constructor; [exact IH|]. apply Forall_map, Hf.
Qed.

Lemma NoDup_map_filter {A B} (f : A -> B) (p : A -> bool) l :
  NoDup (map f l) -> NoDup (map f (filter p l)).
Proof.
  induction l as [|x l IH]; cbn; [auto|]. intros H. apply NoDup_cons_iff in H as [Hx Hl].
  destruct (p x); cbn; [|apply IH, Hl]. constructor; [|apply IH, Hl].
  intros Hin. apply Hx. apply in_map_iff in Hin as (y & Hy & Hin).
  apply filter_In in Hin as [Hin _]. rewrite <- Hy. apply in_map, Hin.
Qed.

Lemma order_by_sorted {A} (key : A -> Z) l : StronglySorted (fun x y => key x <= key y) (order_by key l).
Proof.
  eapply StronglySorted_weaken; [|apply sort_desc_strongly_sorted].
  intros x y H. unfold desc in H. rewrite Zle_Qle. lra.
Qed.

Lemma order_by_desc_sorted {A} (key : A -> Z) l :
  StronglySorted (fun x y => key y <= key x) (order_by_desc key l).
Proof.
  eapply StronglySorted_weaken; [|apply sort_desc_strongly_sorted].
  intros x y H. unfold desc in H. rewrite Zle_Qle. exact H.
Qed.

(** Sorted keys without duplicates are increasing. *)
Lemma StronglySorted_strict {A} (key : A -> Z) l :
  StronglySorted (fun x y => key x <= key y) l -> NoDup (map key l) ->
  StronglySorted (fun x y => key x < key y) l.
Proof.
  induction 1 as [|a l _ IH Hf]; intros Hn; constructor; cbn in Hn;
    apply NoDup_cons_iff in Hn as [Ha Hn]; [apply IH, Hn|].
  rewrite Forall_forall in *. intros y Hy. specialize (Hf y Hy). cbv beta in *.
  destruct (Z.eq_dec (key a) (key y)) as [E|]; [|lia].
  exfalso. apply Ha. rewrite E. apply in_map, Hy.
Qed.

(** [SELECT id, name ... WHERE id IN (ids) ORDER BY id] on a table with
    distinct ids: increasing ids, exactly the selected rows, and as many
    rows as ids only when the ids are distinct and all in the table. *)
Lemma select_by_ids_spec (rows : list named_row) (ids : list Z) :
  NoDup (map row_id rows) ->
  StronglySorted (fun p q => fst p < fst q) (select_by_ids rows ids)
  /\ (forall p, In p (select_by_ids rows ids) <->
        exists r, In r rows /\ In (row_id r) ids /\ p = pair_of r)
  /\ (length (select_by_ids rows ids) = length ids ->
        NoDup ids /\ forall i, In i ids -> exists r, In r rows /\ row_id r = i).
Proof.
  intros Hn. unfold select_by_ids.
  set (F := filter _ rows). set (S := order_by row_id F).
  assert (HP : Permutation S F) by apply sort_desc_perm.
  assert (HF : forall r, In r F <-> In r rows /\ In (row_id r) ids).
  { intros r. unfold F. rewrite filter_In, existsb_exists. split.
    - intros [Hr (i & Hi & E)]. apply Z.eqb_eq in E. rewrite E. auto.
    - intros [Hr Hi]. split; [exact Hr|]. exists (row_id r). split; [exact Hi|apply Z.eqb_refl]. }
  assert (HS : forall r, In r S <-> In r rows /\ In (row_id r) ids).
  { intros r. rewrite <- HF. split; apply Permutation_in; [exact HP|symmetry; exact HP]. }
  assert (HN : NoDup (map row_id S)).
  { apply (Permutation_NoDup (Permutation_map row_id (Permutation_sym HP))).
    apply NoDup_map_filter, Hn. }
  split; [|split].
  - apply StronglySorted_map. apply StronglySorted_strict; [apply order_by_sorted|exact HN].
  - intros p. rewrite in_map_iff. split.
    + intros (r & <- & Hr). apply HS in Hr. exists r. tauto.
    + intros (r & Hr & Hi & ->). exists r. split; [reflexivity|apply HS; auto].
  - rewrite length_map. intros Hl.
    assert (Hi : incl (map row_id S) ids).
    { intros i Hin. apply in_map_iff in Hin as (r & <- & Hr). apply HS, Hr. }
    assert (Hlen : (length ids <= length (map row_id S))%nat) by (rewrite length_map; lia).
    split; [exact (NoDup_incl_NoDup HN Hlen Hi)|].
    intros i Hin. apply (NoDup_length_incl HN Hlen Hi) in Hin.
    apply in_map_iff in Hin as (r & <- & Hr). apply HS in Hr. exists r. tauto.
Qed.

(** Every reachable database is well formed: the identities of each
    table are distinct, at least 1 and below the next identity value, and
    no two criteria, alternatives or Flask session ids are equal under the
    collation. *)
Lemma reachable_wf coll_eq d : db_reachable coll_eq d -> wf coll_eq d.
Proof.
  induction 1 as [b|op d _ IH]; [|apply wf_run_op, IH].
  constructor; cbn; repeat split; repeat constructor; lia.
Qed.

Lemma save_ahp_analysis_readback coll_eq s a d k d' :
  wf coll_eq d -> save_ahp_analysis (Some s) a d = (Some k, d') ->
  get_ahp_analysis_by_id (Some k) (Some s) d'
  = Some (AnalysisView k s None None (clock d) (ad_cr_criteria a) (read_back a))
  /\ get_ahp_analysis_by_id (Some k) None d'
     = Some (AnalysisView k s None None (clock d) (ad_cr_criteria a) (read_back a))
  /\ (forall c, c <> s -> get_ahp_analysis_by_id (Some k) (Some c) d' = None).
Proof.
  intros Hwf H. destruct (save_ahp_analysis_ok coll_eq s a d k d' Hwf H) as (-> & Hk & Hup & ->).
  unfold get_ahp_analysis_by_id. cbn [set_analyses db_up analyses truthy_id]. rewrite Hup.
  replace (next_analysis_id d =? 0) with false by (symmetry; apply Z.eqb_neq; lia). cbn [negb orb].
  rewrite !find_app, !(analysis_ids_below coll_eq) by exact Hwf. cbn [find an_id an_session].
  rewrite Z.eqb_refl. split; [|split].
  - rewrite Z.eqb_refl. cbn [andb option_map]. rewrite view_of_new. reflexivity.
  - cbn [andb option_map]. rewrite view_of_new. reflexivity.
  - intros c Hc. rewrite find_app, (analysis_ids_below coll_eq) by exact Hwf.
    cbn [find an_id an_session]. rewrite Z.eqb_refl.
    replace (s =? c) with false by (symmetry; apply Z.eqb_neq; congruence). reflexivity.
Qed.

(** [C13] What a saved analysis reads back as: [get_ahp_analysis_by_id]
    on the id [save_ahp_analysis] returns gives, with or without the check
    of the session, the row stamped with the server's time, its criteria
    CR under the column's name [criteria_cr], and the saved data under the
    keys the reports read, [is_consistent_criteria] restored from its
    [1]/[0] column but [cr_criteria] missing ([None]) although it was
    saved; another session gets nothing. *)
Theorem save_ahp_analysis_roundtrip coll_eq s a d k d' :
  wf coll_eq d -> save_ahp_analysis (Some s) a d = (Some k, d') ->
  get_ahp_analysis_by_id (Some k) (Some s) d'
  = Some (AnalysisView k s None None (clock d) (ad_cr_criteria a) (read_back a))
  /\ get_ahp_analysis_by_id (Some k) None d'
     = Some (AnalysisView k s None None (clock d) (ad_cr_criteria a) (read_back a))
  /\ ad_cr_criteria (read_back a) = None
  /\ (forall c, c <> s -> get_ahp_analysis_by_id (Some k) (Some c) d' = None).
Proof.
  intros Hwf H. destruct (save_ahp_analysis_readback coll_eq s a d k d' Hwf H) as (H1 & H2 & H3).
  split; [exact H1|]. split; [exact H2|]. split; [reflexivity|exact H3].
Qed.

(** [C14] [get_or_create_session_db_id] creates the row of a Flask
    session once: called again on the database it returned, it returns
    the same id and changes nothing. *)
Theorem get_or_create_session_idempotent coll_eq v d k d' :
  (forall s, coll_eq s s = true) ->
  get_or_create_session_db_id coll_eq v d = (Some k, d') ->
  get_or_create_session_db_id coll_eq v d' = (Some k, d').
Proof.
  intros Hrefl. unfold get_or_create_session_db_id.
  destruct v as [s|]; [|discriminate]. destruct (String.eqb s ""); [discriminate|].
  destruct (db_up d) eqn:Hup; cbn [negb]; [|discriminate].
  destruct (find _ (sessions d)) as [r|] eqn:E; intros H; injection H as <- <-.
  - rewrite Hup, E. reflexivity.
  - cbn [set_sessions db_up sessions]. rewrite Hup, find_app, E. cbn [find ses_flask].
    rewrite Hrefl. reflexivity.
Qed.

(** [C15] [get_criteria_by_ids(ids)] on a well-formed database that
    answers returns the selected criteria in increasing order of id, and
    returns as many rows as ids only when the ids are distinct and every
    one is the id of a criterion: the check of [start_ahp_route]
    (app.py:383-386) rejects repeated and unknown ids. *)
Theorem get_criteria_by_ids_spec coll_eq ids d :
  wf coll_eq d -> db_up d = true -> ids <> [] ->
  StronglySorted (fun p q => fst p < fst q) (get_criteria_by_ids ids d)
  /\ (forall p, In p (get_criteria_by_ids ids d) <->
        exists r, In r (criteria d) /\ In (row_id r) ids /\ p = pair_of r)
  /\ (length (get_criteria_by_ids ids d) = length ids ->
        NoDup ids /\ forall i, In i ids -> exists r, In r (criteria d) /\ row_id r = i).
Proof.
  intros Hwf Hup Hids. unfold get_criteria_by_ids. rewrite Hup.
  destruct ids as [|i ids]; [congruence|]. cbn [is_nil].
  apply select_by_ids_spec. apply (wf_criteria _ _ Hwf).
Qed.

Lemma filter_filter_session {R} (sess : R -> Z) (k k' : Z) (l : list R) :
  filter (fun r => sess r =? k') (filter (fun r => negb (sess r =? k)) l)
  = if k' =? k then [] else filter (fun r => sess r =? k') l.
Proof.
  induction l as [|r l IH]; [destruct (k' =? k); reflexivity|]. cbn [filter].
  destruct (Z.eqb_spec (sess r) k) as [E|E]; cbn [negb filter]; rewrite IH;
    destruct (Z.eqb_spec k' k), (Z.eqb_spec (sess r) k'); cbn [filter]; congruence.
Qed.

Lemma filter_new_rows {R X} (sess : R -> Z) (mk : X -> R) (k k' : Z) (l : list X) :
  (forall x, sess (mk x) = k) ->
  filter (fun r => sess r =? k') (map mk l) = if k' =? k then map mk l else [].
Proof.
  intros H. induction l as [|x l IH]; [destruct (k' =? k); reflexivity|]. cbn [map filter].
  rewrite IH, H. destruct (Z.eqb_spec k k'), (Z.eqb_spec k' k); congruence.
Qed.

(** [C16] [save_criteria_weights] is atomic: when it returns [False] the
    database is unchanged (the [DELETE] is rolled back); when it returns
    [True] the weight rows of the session are exactly one row per
    criterion with its weight, and the rows of every other session and
    the other tables are unchanged. *)
Theorem save_criteria_weights_spec sid crits w d ok d' :
  save_criteria_weights sid crits w d = (ok, d') ->
  (ok = false -> d' = d)
  /\ (ok = true ->
      exists k ws, sid = Some k /\ w = Some ws /\ length ws = length crits
      /\ (exists l, d' = set_criteria_weights d l)
      /\ filter (fun r => cw_session r =? k) (criteria_weights d')
         = map (fun cx => WeightRow (fst (fst cx)) (snd cx) k) (combine crits ws)
      /\ forall k', k' <> k ->
           filter (fun r => cw_session r =? k') (criteria_weights d')
           = filter (fun r => cw_session r =? k') (criteria_weights d)).
Proof.
  unfold save_criteria_weights. destruct sid as [k|], w as [ws|];
    try (intros H; injection H as <- <-; split; [reflexivity|discriminate]).
  destruct (negb (truthy_id (Some k)) || is_nil crits);
    [intros H; injection H as <- <-; split; [reflexivity|discriminate]|].
  destruct (negb (db_up d)); [intros H; injection H as <- <-; split; [reflexivity|discriminate]|].
  destruct (Nat.eqb_spec (length crits) (length ws)) as [Hl|]; cbn [negb];
    [|intros H; injection H as <- <-; split; [reflexivity|discriminate]].
  intros H. injection H as <- <-. split; [discriminate|]. intros _.
  exists k, ws. split; [reflexivity|]. split; [reflexivity|]. split; [congruence|].
  split; [eexists; reflexivity|]. cbn [set_criteria_weights criteria_weights].
  split.
  - rewrite filter_app, filter_filter_session, Z.eqb_refl, (filter_new_rows _ _ k) by reflexivity.
    rewrite Z.eqb_refl. reflexivity.
  - intros k' Hk. rewrite filter_app, filter_filter_session, (filter_new_rows _ _ k) by reflexivity.
    replace (k' =? k) with false by (symmetry; apply Z.eqb_neq; exact Hk). apply app_nil_r.
Qed.

Local Open Scope string_scope.

Definition example_analysis : analysis_data :=
  AnalysisData ["Gia"; "Vi tri"] [1 # 2; 1 # 2] ["A"; "B"] [3 # 5; 2 # 5]
    [("A", 3 # 5); ("B", 2 # 5)] (Some (Fin 0)) true [] [[1 # 2; 7 # 10]; [1 # 2; 3 # 10]].

(** Witness of [C13]: an analysis saved for session 1 of the empty
    database. *)
Lemma save_ahp_analysis_roundtrip_witness :
  get_ahp_analysis_by_id (Some 1) (Some 1)
    (snd (save_ahp_analysis (Some 1) example_analysis (set_up empty_db true)))
  = Some (AnalysisView 1 1 None None 0 (Some (Fin 0)) (read_back example_analysis))
  /\ get_ahp_analysis_by_id (Some 1) None
       (snd (save_ahp_analysis (Some 1) example_analysis (set_up empty_db true)))
     = Some (AnalysisView 1 1 None None 0 (Some (Fin 0)) (read_back example_analysis))
  /\ ad_cr_criteria (read_back example_analysis) = None
  /\ (forall c, c <> 1 ->
        get_ahp_analysis_by_id (Some 1) (Some c)
          (snd (save_ahp_analysis (Some 1) example_analysis (set_up empty_db true))) = None).
Proof.
  apply (save_ahp_analysis_roundtrip String.eqb 1 example_analysis (set_up empty_db true) 1
           (snd (save_ahp_analysis (Some 1) example_analysis (set_up empty_db true)))).
  - apply reachable_wf, db_init.
  - reflexivity.
Defined.

(** Witness of [C14]: a new Flask session id. *)
Lemma get_or_create_session_idempotent_witness :
  get_or_create_session_db_id String.eqb (Some "f3a1")
    (snd (get_or_create_session_db_id String.eqb (Some "f3a1") (set_up empty_db true)))
  = (Some 1, snd (get_or_create_session_db_id String.eqb (Some "f3a1") (set_up empty_db true))).
Proof.
  apply (get_or_create_session_idempotent String.eqb (Some "f3a1") (set_up empty_db true));
    [apply String.eqb_refl|reflexivity].
Defined.

Definition example_db : db :=
  snd (add_criteria String.eqb "Vi tri" ""
         (snd (add_criteria String.eqb "Gia" "" (set_up empty_db true)))).

(** Witness of [C15]: criteria 2 and 1 selected from a database of two. *)
Lemma get_criteria_by_ids_spec_witness :
  StronglySorted (fun p q => fst p < fst q) (get_criteria_by_ids [2; 1] example_db)
  /\ (forall p, In p (get_criteria_by_ids [2; 1] example_db) <->
        exists r, In r (criteria example_db) /\ In (row_id r) [2; 1] /\ p = pair_of r)
  /\ (length (get_criteria_by_ids [2; 1] example_db) = length [2; 1] ->
        NoDup [2; 1] /\ forall i, In i [2; 1] -> exists r, In r (criteria example_db) /\ row_id r = i).
Proof.
  apply (get_criteria_by_ids_spec String.eqb).
  - apply reachable_wf. unfold example_db.
    apply (db_step _ (AddCriteria "Vi tri" "")), (db_step _ (AddCriteria "Gia" "")), db_init.
  - reflexivity.
  - discriminate.
Defined.

(** Witness of [C16]: the weights of two criteria saved for session 1. *)
Lemma save_criteria_weights_spec_witness :
  (true = false -> snd (save_criteria_weights (Some 1) [(1, "Gia"); (2, "Vi tri")] (Some [1 # 2; 1 # 2]) example_db) = example_db)
  /\ (true = true ->
      exists k ws, Some 1 = Some k /\ Some [1 # 2; 1 # 2] = Some ws
      /\ length ws = length [(1, "Gia"); (2, "Vi tri")]
      /\ (exists l, snd (save_criteria_weights (Some 1) [(1, "Gia"); (2, "Vi tri")] (Some [1 # 2; 1 # 2]) example_db)
                    = set_criteria_weights example_db l)
      /\ filter (fun r => (cw_session r =? k)%Z)
           (criteria_weights (snd (save_criteria_weights (Some 1) [(1, "Gia"); (2, "Vi tri")] (Some [1 # 2; 1 # 2]) example_db)))
         = map (fun cx => WeightRow (fst (fst cx)) (snd cx) k) (combine [(1, "Gia"); (2, "Vi tri")] ws)
      /\ forall k', k' <> k ->
           filter (fun r => (cw_session r =? k')%Z)
             (criteria_weights (snd (save_criteria_weights (Some 1) [(1, "Gia"); (2, "Vi tri")] (Some [1 # 2; 1 # 2]) example_db)))
           = filter (fun r => (cw_session r =? k')%Z) (criteria_weights example_db)).
Proof.
  apply (save_criteria_weights_spec (Some 1) [(1, "Gia"); (2, "Vi tri")] (Some [1 # 2; 1 # 2]) example_db).
  reflexivity.
Defined.
