(* ===== verification/Excel.v ===== *)
(** * Excel: the spreadsheet readers of [import_excel_route]

    An imported workbook has three sheets: ["DanhSach"] lists the names of
    the criteria (column A) and of the alternatives (column B) from row 2;
    ["MaTranTieuChi"] holds the criteria matrix, names in row 1 and in
    column A; ["TatCaMaTranPA"] holds one block per criterion, a marker
    row ["Tiêu chí: <name>"] followed by the alternative matrix with its
    names.  This file models the readers of app.py on a sheet given by its
    cell values: [allowed_file] (135-137), [parse_matrix_from_sheet]
    (139-207), [parse_single_matrix_block] (209-264), the name lists of
    the first sheet (422-423) and the [while] loop over the blocks of the
    third (450-467) as [scan_blocks], with the fuel that makes it total.
    The route itself, which writes the session, is in [Workflow].

    A cell value is a string, an integer or a finite float, the values
    [openpyxl] returns for text and numbers (booleans, dates and formulas
    are not modelled).  [sheet.cell(row, column)] creates the cell it
    reads, which can raise [max_row] only when a block runs past the last
    row, and such a block is refused: the reads are modelled as pure.
    Python compares and hashes cells by value, [1 == 1.0], and [sorted]
    raises [TypeError] on a list mixing strings and numbers; strings are
    the UTF-8 bytes of their text, whose byte order is the code point
    order Python sorts by. *)

From Stdlib Require Import String Ascii QArith ZArith List Lia Bool.
From S2P Require Import Prelude Binary64 PyStr Saaty Engine Builder Render.
Import ListNotations.
Local Open Scope nat_scope.
Local Open Scope string_scope.

(** ** Cells and sheets *)

Inductive cvalue : Type :=
| CStr (s : string)
| CInt (z : Z)
| CFloat (q : Q).

(** [bool(v)]. *)
Definition cv_truthy (v : cvalue) : bool :=
  match v with
  | CStr s => negb (String.eqb s "")
  | CInt z => negb (Z.eqb z 0%Z)
  | CFloat q => negb (Qeq_bool q 0%Q)
  end.

(** [str(v)]. *)
Definition cv_str (v : cvalue) : string :=
  match v with
  | CStr s => s
  | CInt z => py_str_Z z
  | CFloat q => py_repr (Fin q)
  end.

Definition cv_is_str (v : cvalue) : bool := match v with CStr _ => true | _ => false end.

Definition cv_num (v : cvalue) : Q :=
  match v with CInt z => inject_Z z | CFloat q => q | CStr _ => 0%Q end.

(** [a == b] (and equality of dictionary keys). *)
Definition cv_eqb (a b : cvalue) : bool :=
  match a, b with
  | CStr s, CStr t => String.eqb s t
  | CStr _, _ | _, CStr _ => false
  | _, _ => Qeq_bool (cv_num a) (cv_num b)
  end.

(** [a < b] on two strings or two numbers. *)
Definition cv_lt (a b : cvalue) : bool :=
  match a, b with
  | CStr s, CStr t => String.ltb s t
  | _, _ => Qltb (cv_num a) (cv_num b)
  end.

(** A sheet: its title and its rows from row 1, each a list of cells from
    column A ([None] for an empty cell). *)
Record sheet := Sheet { sh_title : string; sh_rows : list (list (option cvalue)) }.

(** [sheet.max_row]: at least 1. *)
Definition max_row (sh : sheet) : nat := Nat.max 1 (length (sh_rows sh)).

(** [sheet.cell(row=r, column=c).value], 1-based. *)
Definition cell (sh : sheet) (r c : nat) : option cvalue :=
  nth (c - 1) (nth (r - 1) (sh_rows sh) []) None.

(** [[x for x in xs if x is not None]]. *)
Definition somes {A} (xs : list (option A)) : list A :=
  flat_map (fun o => match o with Some x => [x] | None => [] end) xs.

Definition workbook : Type := list (string * sheet).

(** [name in workbook.sheetnames] and [workbook[name]]. *)
Definition sheet_of (wb : workbook) (name : string) : option sheet :=
  option_map snd (find (fun p => String.eqb (fst p) name) wb).

(** ** Python helpers *)

Inductive import_exc : Type :=
| SortTypeError     (** [sorted] of a list mixing strings and numbers *)
| JoinTypeError.    (** [', '.join] of a list holding a number *)

(** A stable insertion of [x] after the elements not greater than it. *)
Fixpoint insert_sorted (x : cvalue) (l : list cvalue) : list cvalue :=
  match l with
  | [] => [x]
  | y :: l' => if cv_lt x y then x :: l else y :: insert_sorted x l'
  end.

(** [sorted(xs)]. *)
Definition py_sorted (xs : list cvalue) : result import_exc (list cvalue) :=
  if existsb cv_is_str xs && existsb (fun v => negb (cv_is_str v)) xs then Err SortTypeError
  else Ok (fold_left (fun acc x => insert_sorted x acc) xs []).

Fixpoint cv_list_eqb (a b : list cvalue) : bool :=
  match a, b with
  | [], [] => true
  | x :: a', y :: b' => cv_eqb x y && cv_list_eqb a' b'
  | _, _ => false
  end.

(** [sorted(a) != sorted(b)]. *)
Definition sorted_differ (a b : list cvalue) : result import_exc bool :=
  sa <- py_sorted a ;; sb <- py_sorted b ;; Ok (negb (cv_list_eqb sa sb)).

(** [{name: i for i, name in enumerate(xs)}.get(x)]: the last index. *)
Definition dict_index (xs : list cvalue) (x : cvalue) : option nat :=
  fold_left (fun acc iy => if cv_eqb (snd iy) x then Some (fst iy) else acc)
    (combine (seq 0 (length xs)) xs) None.

(** [xs.index(x)] when [x in xs]: the first index. *)
Fixpoint py_list_index (x : cvalue) (xs : list cvalue) : option nat :=
  match xs with
  | [] => None
  | y :: xs' => if cv_eqb y x then Some 0%nat else option_map S (py_list_index x xs')
  end.

Fixpoint map_opt {A B} (f : A -> option B) (xs : list A) : option (list B) :=
  match xs with
  | [] => Some []
  | x :: xs' => match f x, map_opt f xs' with Some y, Some ys => Some (y :: ys) | _, _ => None end
  end.

(** [allowed_file(filename)] (app.py:135-137): a dot, and [xlsx] after
    the last one, in any case. *)
Definition allowed_file (filename : string) : bool :=
  contains_char "."%char filename
  && String.eqb (string_of_list_ascii (lower_string (chars (last (split_char "."%char filename) ""))))
       "xlsx".

(** ** The matrix readers *)

(** The text matrix of app.py:177-191 and 238-248, read at the rows and
    columns the names were found at, then the parsing loop of the
    builders; a look-up that fails or a [ValueError] of the loop returns
    [None].  Every failing look-up returns the same [None], so their order
    does not matter. *)
Definition read_cells (sh : sheet) (r0 c0 : nat) (ris cis : list nat) (i j : nat) : option string :=
  option_map cv_str (cell sh (r0 + nth i ris 0) (c0 + nth j cis 0)).

Definition parse_block_cells (sh : sheet) (r0 c0 n : nat) (labels headers expected : list cvalue)
  : option (list (list pyfloat)) :=
  match map_opt (dict_index labels) expected, map_opt (dict_index headers) expected with
  | Some ris, Some cis =>
      match build_sheet_matrix (read_cells sh r0 c0 ris cis) n with
      | Ok m => Some m
      | Err _ => None
      end
  | _, _ => None
  end.

(** The header row ([sheet[1][1:]]) and the labels of column A from row 2
    of the criteria sheet, empty cells left out. *)
Definition headers_of (sh : sheet) : list cvalue := somes (skipn 1 (nth 0 (sh_rows sh) [])).
Definition row_labels_of (sh : sheet) : list cvalue :=
  somes (map (fun i => cell sh i 1) (seq 2 (max_row sh - 1))).

(** [parse_matrix_from_sheet(sheet, expected_headers, expected_row_labels)]
    (app.py:139-207): [Ok None] is its [return None] after a flash. *)
Definition parse_matrix_from_sheet (sh : sheet) (expected_headers expected_row_labels : list cvalue)
  : result import_exc (option (list (list pyfloat))) :=
  let hs := headers_of sh in
  let ls := row_labels_of sh in
  if Nat.eqb (length hs) 0 || Nat.eqb (length ls) 0 then Ok None
  else
    d1 <- sorted_differ hs expected_headers ;;
    if d1 then Ok None
    else
      d2 <- sorted_differ ls expected_row_labels ;;
      if d2 then Ok None
      else Ok (parse_block_cells sh 2 2 (length expected_headers) ls hs expected_headers).

(** The header row and the labels of a block whose header row is
    [start]: the first [num] cells of each, empty ones left out. *)
Definition block_headers (sh : sheet) (start num : nat) : list cvalue :=
  somes (map (fun j => cell sh start (j + 2)) (seq 0 num)).
Definition block_labels (sh : sheet) (start num : nat) : list cvalue :=
  somes (map (fun i => cell sh (start + 1 + i) 1) (seq 0 num)).

(** [parse_single_matrix_block(sheet, start_row_header, num_alternatives,
    alternative_names_ordered)] (app.py:209-264). *)
Definition parse_single_matrix_block (sh : sheet) (start num : nat) (names : list cvalue)
  : result import_exc (option (list (list pyfloat))) :=
  let hs := block_headers sh start num in
  let ls := block_labels sh start num in
  if negb (Nat.eqb (length hs) num) then Ok None
  else if negb (Nat.eqb (length ls) num) then Ok None
  else
    d1 <- sorted_differ hs names ;;
    if d1 then Ok None
    else
      d2 <- sorted_differ ls names ;;
      if d2 then Ok None
      else Ok (parse_block_cells sh (start + 1) 2 num ls hs names).

(** ** The lists sheet *)

(** [[row[0].value for row in sheet.iter_rows(min_row=2, min_col=c,
    max_col=c) if row[0].value]] (app.py:422-423). *)
Definition column_names (sh : sheet) (c : nat) : list cvalue :=
  filter cv_truthy (somes (map (fun r => cell sh r c) (seq 2 (max_row sh - 1)))).

(** [{name: id for id, name in rows}] read at a cell value: only a string
    can equal a name of the database. *)
Definition name_to_id (rows : list (Z * string)) (v : cvalue) : option Z :=
  match v with
  | CStr s => fold_left (fun acc r => if String.eqb (snd r) s then Some (fst r) else acc) rows None
  | _ => None
  end.

(** [[(name_to_id[name], name) for name in names if name in name_to_id]]
    (app.py:436-437). *)
Definition tuples_of (rows : list (Z * string)) (names : list cvalue) : list (Z * string) :=
  flat_map (fun v => match v, name_to_id rows v with
                     | CStr s, Some k => [(k, s)]
                     | _, _ => []
                     end) names.

(** ** The blocks of the alternatives sheet *)

(** [CRITERION_BLOCK_MARKER] (app.py:126). *)
Definition marker : string := "Tiêu chí: ".

(** The criterion named by a marker cell
    [cell_value[len(CRITERION_BLOCK_MARKER):].strip()], when the cell is a
    non-empty string starting with the marker (app.py:455-456); the slice
    after [startswith] drops the marker, in code points as in bytes. *)
Definition marker_name (v : option cvalue) : option string :=
  match v with
  | Some (CStr s) =>
      if negb (String.eqb s "") && String.prefix marker s
      then Some (strip (substring (String.length marker) (String.length s) s))
      else None
  | _ => None
  end.

(** [found_criteria_in_pa_sheet.add(name)]. *)
Definition set_add (x : string) (xs : list string) : list string :=
  if existsb (String.eqb x) xs then xs else xs ++ [x].

(** The dictionary of imported matrices, by [str(crit_idx)], and the set of
    criteria found. *)
Record scan_state := ScanState
  { sc_imported : list (string * list (list pyfloat));
    sc_found : list string }.

(** How the loop ends: past the last row, or by one of its [return]s
    ([redirect] after a flash, or an exception raised by a block). *)
Inductive scan_outcome : Type :=
| ScanDone (st : scan_state)
| ScanRefused
| ScanRaised (e : import_exc).

Inductive scan_step_result : Type :=
| Continue (row : nat) (st : scan_state)
| Stop (o : scan_outcome).

Section Scan.
Variables (sh : sheet) (criteria_names alternative_names : list cvalue) (num : nat).

(** One iteration of [while current_row <= sheet_all_pa.max_row]
    (app.py:453-467). *)
Definition scan_step (row : nat) (st : scan_state) : scan_step_result :=
  match marker_name (cell sh row 1) with
  | None => Continue (S row) st
  | Some nm =>
      match py_list_index (CStr nm) criteria_names with
      | None => Stop ScanRefused
      | Some idx =>
          let found := set_add nm (sc_found st) in
          match parse_single_matrix_block sh (S row) num alternative_names with
          | Err e => Stop (ScanRaised e)
          | Ok None => Stop ScanRefused
          | Ok (Some m) =>
              Continue (row + (1 + num) + 1)
                (ScanState (dict_set (sc_imported st) (py_str_Z (Z.of_nat idx)) m) found)
          end
      end
  end.

(** The loop with [fuel] iterations at most; [None] when the fuel runs
    out.  [scan_blocks_total] shows that [S (max_row sh)] is enough from
    row 1. *)
Fixpoint scan_blocks (fuel : nat) (row : nat) (st : scan_state) : option scan_outcome :=
  match fuel with
  | O => None
  | S fuel' =>
      if Nat.ltb (max_row sh) row then Some (ScanDone st)
      else match scan_step row st with
           | Continue row' st' => scan_blocks fuel' row' st'
           | Stop o => Some o
           end
  end.

(** Every iteration moves past the current row. *)
Lemma scan_step_advances row st row' st' :
  scan_step row st = Continue row' st' -> row < row'.
Proof.
  unfold scan_step. intros H.
  destruct (marker_name (cell sh row 1)) as [nm|]; [|injection H; lia].
  destruct (py_list_index (CStr nm) criteria_names); [|discriminate].
  destruct (parse_single_matrix_block sh (S row) num alternative_names) as [[m|]|]; try discriminate.
  injection H; lia.
Qed.

(** Fuel that covers the rows left is enough. *)
Lemma scan_blocks_enough fuel row st :
  S (S (max_row sh) - row) <= fuel -> exists o, scan_blocks fuel row st = Some o.
Proof.
  revert row st. induction fuel as [|fuel IH]; intros row st Hf; [lia|].
  cbn [scan_blocks]. destruct (Nat.ltb_spec (max_row sh) row); [eauto|].
  destruct (scan_step row st) as [row' st'|o] eqn:E; [|eauto].
  apply scan_step_advances in E. apply IH. lia.
Qed.

(** More fuel gives the same outcome. *)
Lemma scan_blocks_more fuel fuel' row st o :
  fuel <= fuel' -> scan_blocks fuel row st = Some o -> scan_blocks fuel' row st = Some o.
Proof.
  revert fuel' row st. induction fuel as [|fuel IH]; intros fuel' row st Hf H; [discriminate|].
  destruct fuel' as [|fuel']; [lia|]. revert H. cbn [scan_blocks].
  destruct (Nat.ltb (max_row sh) row); [easy|].
  destruct (scan_step row st); [apply IH; lia|easy].
Qed.
End Scan.

(** [set(criteria_names) - found_criteria_in_pa_sheet], whose
    [', '.join] raises unless every element is a string (app.py:469-471). *)
Definition missing_names (names : list cvalue) (found : list string) : list cvalue :=
  filter (fun v => match v with CStr s => negb (existsb (String.eqb s) found) | _ => true end) names.

(** ** What the readers return *)

Lemma parse_block_cells_ready sh r0 c0 n labels headers expected m :
  (0 < n)%nat -> parse_block_cells sh r0 c0 n labels headers expected = Some m -> engine_ready n m.
Proof.
  unfold parse_block_cells, build_sheet_matrix. intros Hn.
  destruct (map_opt (dict_index labels) expected) as [ris|],
    (map_opt (dict_index headers) expected) as [cis|]; try discriminate.
  destruct (build_matrix _ n) as [m'|] eqn:E; [|discriminate].
  intros [= <-]. exact (build_matrix_ready _ n m' Hn E).
Qed.

Lemma insert_sorted_length x l : length (insert_sorted x l) = S (length l).
Proof. induction l as [|y l IH]; cbn; [reflexivity|]. destruct (cv_lt x y); cbn; rewrite ?IH; reflexivity. Qed.

Lemma insert_all_length xs acc :
  length (fold_left (fun acc x => insert_sorted x acc) xs acc) = (length xs + length acc)%nat.
Proof.
  revert acc. induction xs as [|x xs IH]; intros acc; cbn; [reflexivity|].
  rewrite IH, insert_sorted_length. lia.
Qed.

Lemma py_sorted_length xs ys : py_sorted xs = Ok ys -> length ys = length xs.
Proof.
  unfold py_sorted. destruct (_ && _); [discriminate|]. intros [= <-].
  rewrite insert_all_length. cbn. lia.
Qed.

Lemma cv_list_eqb_length a b : cv_list_eqb a b = true -> length a = length b.
Proof.
  revert b; induction a as [|x a IH]; intros [|y b]; cbn; try easy.
  intros [_ H]%andb_prop. f_equal. exact (IH b H).
Qed.

(** When the sorted lists agree, the lists have the same length. *)
Lemma sorted_same_length a b : sorted_differ a b = Ok false -> length a = length b.
Proof.
  unfold sorted_differ. destruct (py_sorted a) as [sa|] eqn:Ea; [|discriminate].
  destruct (py_sorted b) as [sb|] eqn:Eb; [|discriminate]. cbn.
  destruct (cv_list_eqb sa sb) eqn:E; [|discriminate]. intros _.
  apply py_sorted_length in Ea, Eb. apply cv_list_eqb_length in E. congruence.
Qed.

Ltac sorted_checks :=
  repeat match goal with
         | |- context [sorted_differ ?a ?b] =>
             let E := fresh "E" in
             destruct (sorted_differ a b) as [[]|] eqn:E; cbn [rbind]; try discriminate
         end.

Lemma parse_matrix_from_sheet_ready sh eh er m :
  parse_matrix_from_sheet sh eh er = Ok (Some m) -> engine_ready (length eh) m.
Proof.
  unfold parse_matrix_from_sheet.
  destruct (Nat.eqb_spec (length (headers_of sh)) 0) as [|Hh]; [discriminate|].
  destruct (Nat.eqb (length (row_labels_of sh)) 0); [discriminate|]. cbn [orb].
  sorted_checks. intros [= H]. apply parse_block_cells_ready in H; [exact H|].
  apply sorted_same_length in E. lia.
Qed.

Lemma parse_single_matrix_block_ready sh start num names m :
  (0 < num)%nat -> parse_single_matrix_block sh start num names = Ok (Some m) -> engine_ready num m.
Proof.
  intros Hn. unfold parse_single_matrix_block.
  destruct (Nat.eqb _ num), (Nat.eqb _ num); cbn [negb]; try discriminate.
  sorted_checks. intros [= H]. exact (parse_block_cells_ready _ _ _ _ _ _ _ m Hn H).
Qed.

(** The values of a dictionary after [d[k] = v]. *)
Lemma Forall_dict_set {A} (P : A -> Prop) (d : list (string * A)) k v :
  Forall (fun kv => P (snd kv)) d -> P v -> Forall (fun kv => P (snd kv)) (dict_set d k v).
Proof.
  induction 1 as [|[k' v'] d Hkv Hd IH]; intros Hv; cbn; [auto|].
  destruct (String.eqb k' k); constructor; auto.
Qed.

Section ScanReady.
Variables (sh : sheet) (cn an : list cvalue) (num : nat).
Hypothesis Hnum : (0 < num)%nat.

Definition scan_ready (st : scan_state) : Prop :=
  Forall (fun kv => engine_ready num (snd kv)) (sc_imported st).

Lemma scan_step_ready row st row' st' :
  scan_ready st -> scan_step sh cn an num row st = Continue row' st' -> scan_ready st'.
Proof.
  unfold scan_step. intros Hst.
  destruct (marker_name _) as [nm|]; [|intros [= _ <-]; exact Hst].
  destruct (py_list_index _ _); [|discriminate].
  destruct (parse_single_matrix_block sh (S row) num an) as [[m|]|] eqn:E; try discriminate.
  intros [= _ <-]. apply Forall_dict_set; [exact Hst|].
  exact (parse_single_matrix_block_ready _ _ _ _ _ Hnum E).
Qed.

(** An iteration never ends the loop as if past the last row. *)
Lemma scan_step_not_done row st st' : scan_step sh cn an num row st <> Stop (ScanDone st').
Proof.
  unfold scan_step. destruct (marker_name _) as [nm|]; [|discriminate].
  destruct (py_list_index _ _); [|discriminate].
  destruct (parse_single_matrix_block sh (S row) num an) as [[m|]|]; discriminate.
Qed.

(** Every matrix the loop keeps is accepted by the engine. *)
Lemma scan_blocks_ready fuel row st st' :
  scan_ready st -> scan_blocks sh cn an num fuel row st = Some (ScanDone st') -> scan_ready st'.
Proof.
  revert row st. induction fuel as [|fuel IH]; intros row st Hst; cbn [scan_blocks]; [discriminate|].
  destruct (Nat.ltb (max_row sh) row); [intros [= <-]; exact Hst|].
  destruct (scan_step sh cn an num row st) as [row' st''|o] eqn:E;
    [|intros [= ->]; exfalso; exact (scan_step_not_done _ _ _ E)].
  apply IH. exact (scan_step_ready _ _ _ _ Hst E).
Qed.
End ScanReady.

(** From the empty dictionary of the route. *)
Lemma scan_blocks_ready_init sh cn an fuel st :
  scan_blocks sh cn an (length an) fuel 1 (ScanState [] []) = Some (ScanDone st) ->
  (0 < length an)%nat ->
  Forall (fun km => engine_ready (length an) (snd km)) (sc_imported st).
Proof. intros H Hn. revert H. exact (scan_blocks_ready sh cn an (length an) Hn fuel 1 (ScanState [] []) st (Forall_nil _)). Qed.

(** [C20] The [while] loop over the alternatives sheet (app.py:450-467)
    terminates: every iteration moves past its row, so the fuel
    [S (max_row sh)] that [import_excel_route] gives it from row 1 always
    reaches one of its exits, whatever the sheet holds. *)
Theorem scan_blocks_total sh cn an num st :
  exists o, scan_blocks sh cn an num (S (max_row sh)) 1 st = Some o.
Proof. apply scan_blocks_enough. lia. Qed.

(** ** A criteria sheet with an empty column *)

Definition example_names : list cvalue := [CStr "A"; CStr "B"; CStr "C"; CStr "D"].

(** The criteria sheet of a consistent matrix [(A,B,C,D)] = [2,4,8 / 2,4 /
    2], upper triangle only (the reader never parses the lower one); with
    [gap] an empty column separates B and C. *)
Definition example_criteria_sheet (gap : bool) : sheet :=
  let g := if gap then [None] else [] in
  let row (l : string) (a b c d : option cvalue) := app (Some (CStr l) :: a :: b :: g) [c; d] in
  Sheet "MaTranTieuChi"
    [app (None :: Some (CStr "A") :: Some (CStr "B") :: g) [Some (CStr "C"); Some (CStr "D")];
     row "A" (Some (CInt 1)) (Some (CInt 2)) (Some (CInt 4)) (Some (CInt 8));
     row "B" None (Some (CInt 1)) (Some (CInt 2)) (Some (CInt 4));
     row "C" None None (Some (CInt 1)) (Some (CInt 2));
     row "D" None None None (Some (CInt 1))].

(** The matrix read from a criteria sheet, [[]] when it is refused. *)
Definition sheet_matrix (sh : sheet) (names : list cvalue) : list (list pyfloat) :=
  match parse_matrix_from_sheet sh names names with Ok (Some m) => m | _ => [] end.

(** A blank cell in the header row of the criteria sheet shifts the
    columns the reader reads: the indices of [header_map_excel] count only
    the non-empty headers (app.py:147, 174) but address the sheet's
    columns (app.py:190).  The same judgements with an empty column
    between B and C are read without any error as a different matrix:
    A against C becomes 1 instead of 4, and A against D becomes 4 (the
    value of C's column) instead of 8. *)
Example parse_matrix_blank_header_shift :
  exists m m',
    parse_matrix_from_sheet (example_criteria_sheet false) example_names example_names = Ok (Some m)
    /\ parse_matrix_from_sheet (example_criteria_sheet true) example_names example_names = Ok (Some m')
    /\ pat m 0 2 = Fin 4 /\ pat m 0 3 = Fin 8
    /\ pat m' 0 2 = Fin 1 /\ pat m' 0 3 = Fin 4.
Proof.
  exists (sheet_matrix (example_criteria_sheet false) example_names),
         (sheet_matrix (example_criteria_sheet true) example_names).
  vm_compute. repeat split.
Qed.

(** ** A workbook *)

(** The lists sheet: criteria A to D, alternatives X to Z. *)
Definition example_lists_sheet : sheet :=
  Sheet "DanhSach"
    [[Some (CStr "Tiêu chí"); Some (CStr "Phương án")];
     [Some (CStr "A"); Some (CStr "X")]; [Some (CStr "B"); Some (CStr "Y")];
     [Some (CStr "C"); Some (CStr "Z")]; [Some (CStr "D"); None]].

(** The block of one criterion: marker, header row, three labelled rows
    with the upper triangle filled. *)
Definition example_block (c : string) (xy xz yz : cvalue) : list (list (option cvalue)) :=
  [[Some (CStr (marker ++ c))];
   [None; Some (CStr "X"); Some (CStr "Y"); Some (CStr "Z")];
   [Some (CStr "X"); Some (CInt 1); Some xy; Some xz];
   [Some (CStr "Y"); None; Some (CInt 1); Some yz];
   [Some (CStr "Z"); None; None; Some (CInt 1)]].

(** The four blocks, an empty row between the second and the third. *)
Definition example_alternatives_sheet : sheet :=
  Sheet "TatCaMaTranPA"
    (app (example_block "A" (CInt 2) (CInt 4) (CInt 2))
      (app (example_block "B" (CStr "1/2") (CInt 1) (CInt 2))
        (app [[]]
          (app (example_block "C" (CInt 3) (CInt 3) (CInt 1))
               (example_block "D" (CStr "1/3") (CStr "1/3") (CInt 1)))))).

Definition example_workbook : workbook :=
  [("DanhSach", example_lists_sheet); ("MaTranTieuChi", example_criteria_sheet false);
   ("TatCaMaTranPA", example_alternatives_sheet)].
