(* ===== verification/Reports.v ===== *)
(** * Reports: the Excel report and the chart data of a saved analysis

    A saved analysis is shown again by [view_result_route] and downloaded
    by [download_excel_report] and [download_pdf_report]; the routes are
    in [Workflow].  This file models what they compute from the analysis:

    - [create_excel_report] (app.py:883-1089) writes four sheets
      ([TrongSoTieuChi], [ChiTietTrongSoPA], [TongHopTrongSoPATheoTC],
      [XepHangCuoiCung]), the second and third only when their data is
      present.  A sheet is the list of its writes [ws.cell(row, column,
      value)] in order; fonts, alignments, merged cells, number formats
      and column widths are presentation and are left out, and so is the
      date of the report, a parameter.  The function returns the sheets or
      the first exception raised on the way: an [IndexError] when a list
      is shorter than the names it is read with, a [TypeError] for
      [len(None)] on the error dictionary of the engine, a [ValueError] of
      [int(k)], and openpyxl's [IllegalCharacterError] when a string
      written to a cell holds a control character ([cell_str]).  The
      constant texts of the sheets hold none, so only the date and the
      names are checked, at the write that stores them.
    - [generate_charts_to_files] (app.py:811-881) draws the bars of the
      criteria weights, sorted by descending weight, and the slices of the
      alternatives whose score exceeds [1e-6]; the model gives the data of
      each chart, and [Pdf] the files they are saved under.

    [report_ready] collects what the reports need of an analysis: lists
    that cover the names they are read with, keys of [alternative_crs]
    that index the criteria, only successful results of the engine, and
    names that are [plain] (no control character, no [<] that reportlab
    would read as markup); a ready analysis gives its Excel report
    ([create_excel_report_ok]). *)

From Stdlib Require Import Ascii String QArith ZArith List Lia Bool.
From S2P Require Import Prelude Binary64 PyStr Engine Render Ranking Aggregate Store.
Import ListNotations.
Local Open Scope ahp_scope.
Local Open Scope nat_scope.

(** ** Cells of a written sheet *)

(** The value written to a cell: a string, an int, a float, or [None]. *)
Inductive rcell : Type :=
| RStr (s : string)
| RInt (z : Z)
| RFloat (f : pyfloat)
| RNone.

(** A written sheet: its title and its writes [(row, column, value)]. *)
Record wsheet := WSheet { ws_title : string; ws_cells : list (nat * nat * rcell) }.

(** [ws.cell(row=r, column=c).value] after the writes: the last one. *)
Definition ws_write (r c : nat) (acc : rcell) (x : nat * nat * rcell) : rcell :=
  let '(r', c', v) := x in if Nat.eqb r' r && Nat.eqb c' c then v else acc.

Definition ws_get (w : wsheet) (r c : nat) : rcell := fold_left (ws_write r c) (ws_cells w) RNone.

(** The exceptions the reports raise: [IndexError], [TypeError], the
    [ValueError] of [int(k)], openpyxl's [IllegalCharacterError] and the
    [ValueError] of reportlab's paragraph parser. *)
Inductive report_exc : Type :=
| ReportIndexError
| ReportTypeError
| ReportValueError
| ReportIllegalCharacter
| ReportMarkupError.

(** ** Strings written to cells *)

(** openpyxl's [ILLEGAL_CHARACTERS_RE], [[\000-\010]|[\013-\014]|[\016-\037]]:
    the control characters but tab, line feed and carriage return.  A
    string is the bytes of its UTF-8 encoding, whose bytes below 32 are
    exactly the code points below 32. *)
Definition illegal_char (c : ascii) : bool :=
  let n := nat_of_ascii c in
  Nat.leb n 8 || (Nat.leb 11 n && Nat.leb n 12) || (Nat.leb 14 n && Nat.leb n 31).

Definition has_illegal (s : string) : bool := existsb illegal_char (chars s).

(** [ws.cell(row, column, value=s)] for a string [s]: openpyxl's
    [check_string] raises [IllegalCharacterError]. *)
Definition cell_str (s : string) : result report_exc rcell :=
  if has_illegal s then Err ReportIllegalCharacter else Ok (RStr s).

(** The writes of a finished sheet whose values cannot raise otherwise,
    checked in the order they are made. *)
Definition check_cell (x : nat * nat * rcell) : result report_exc unit :=
  match x with
  | (_, _, RStr s) => if has_illegal s then Err ReportIllegalCharacter else Ok tt
  | _ => Ok tt
  end.

Definition checked_sheet (w : wsheet) : result report_exc wsheet :=
  _ <- map_result check_cell (ws_cells w) ;; Ok w.

(** A text neither report chokes on: no control character openpyxl
    refuses, and no [<], which reportlab reads as the start of a tag. *)
Definition plain_char (c : ascii) : bool := negb (illegal_char c) && negb (Ascii.eqb c "<").

Definition plain (s : string) : bool := forallb plain_char (chars s).

(** [round(x, k)] of a float of the analysis. *)
Definition round_cell (k : nat) (x : Q) : rcell := RFloat (py_round k (Fin x)).

(** [round(x, k) if isinstance(x, (int, float)) else x] on the CR, which
    is [None] when missing. *)
Definition round_opt (k : nat) (x : option pyfloat) : rcell :=
  match x with Some f => RFloat (py_round k f) | None => RNone end.

(** [xs[i] if i < len(xs) else 'N/A'], rounded. *)
Definition value_or_na (k : nat) (xs : list Q) (i : nat) : rcell :=
  match nth_error xs i with Some x => round_cell k x | None => RStr "N/A" end.

(** ["(Nhất quán)" if c else "(Không nhất quán)" if c is False else ""]. *)
Definition consistency_text (c : option bool) : rcell :=
  match c with
  | Some true => RStr "(Nhất quán)"
  | Some false => RStr "(Không nhất quán)"
  | None => RStr ""
  end.

Definition header_cells (r : nat) (hs : list string) : list (nat * nat * rcell) :=
  map (fun ih => (r, S (fst ih), RStr (snd ih))) (combine (seq 0 (length hs)) hs).

(** ** Sheet 1: the criteria weights (app.py:897-925) *)

(** One row per criterion from row [r0]: [weights[i]] raises past the end
    of the weights. *)
Fixpoint weight_rows (r0 i : nat) (names : list string) (ws : list Q)
  : result report_exc (list (nat * nat * rcell)) :=
  match names with
  | [] => Ok []
  | nm :: names' =>
      match nth_error ws i with
      | None => Err ReportIndexError
      | Some w =>
          c <- cell_str nm ;;
          rest <- weight_rows r0 (S i) names' ws ;;
          Ok ((r0 + i, 1, RInt (Z.of_nat (S i))) :: (r0 + i, 2, c)
              :: (r0 + i, 3, round_cell 5 w) :: rest)
      end
  end.

Definition criteria_weights_sheet (today : string) (a : analysis_data) : result report_exc wsheet :=
  t <- cell_str today ;;
  let head := [(2, 1, t); (1, 1, RStr "TRỌNG SỐ VÀ TỶ SỐ NHẤT QUÁN CỦA TIÊU CHÍ")]
              ++ header_cells 3 ["STT"; "Tiêu chí"; "Trọng số"]%string in
  let names := ad_criteria_names a in
  rows <- (if negb (is_nil names) && negb (is_nil (ad_criteria_weights a))
           then weight_rows 4 0 names (ad_criteria_weights a) else Ok []) ;;
  let row := (if negb (is_nil names) && negb (is_nil (ad_criteria_weights a))
              then 4 + length names else 4) + 1 in
  Ok (WSheet "TrongSoTieuChi"
        (head ++ rows
         ++ [(row, 1, RStr "CR Ma trận Tiêu chí:"); (row, 2, round_opt 4 (ad_cr_criteria a));
             (row, 3, consistency_text (Some (ad_is_consistent_criteria a)))])).

(** ** Sheet 2: the results per criterion (app.py:943-992) *)

(** [weights], [wsv], [cv], [CR] and [is_consistent] of a stored result
    read with [.get]: [None] inside [Some] is a key whose value is [None]
    (the error dictionary of the engine), [None] a missing key. *)
Definition detail_lists (r : alt_result) : option (option (list Q * list Q * list Q)) :=
  match r with
  | AltEngine (AhpOk o) => Some (Some (res_weights o, res_wsv o, res_cv o))
  | AltEngine (AhpErr _ _) => Some None
  | AltInputError => None
  end.

Definition detail_cr (r : alt_result) : option pyfloat :=
  match r with AltEngine (AhpOk o) => Some (res_CR o) | _ => None end.

Definition detail_consistent (r : alt_result) : option bool :=
  match r with
  | AltEngine (AhpOk o) => Some (res_is_consistent o)
  | AltEngine (AhpErr _ _) => Some false
  | AltInputError => None
  end.

(** The row of alternative [i] under one criterion whose rows start at
    [r0]: its name is written first, then [i < len(weights)] raises
    [TypeError] when the lists are [None] ([l = None]). *)
Definition detail_row (r0 : nat) (l : option (list Q * list Q * list Q)) (ia : nat * string)
  : result report_exc (list (nat * nat * rcell)) :=
  let i := fst ia in
  c <- cell_str (snd ia) ;;
  match l with
  | None => Err ReportTypeError
  | Some (w, wsv, cv) =>
      Ok [(r0 + i, 1, c); (r0 + i, 2, value_or_na 4 w i);
          (r0 + i, 3, value_or_na 4 wsv i); (r0 + i, 4, value_or_na 4 cv i)]
  end.

(** [crit_name] of a block: [criteria_list[crit_idx]] (negative indexes
    count from the end) or ["Tiêu chí Index k"] past the end. *)
Definition detail_name (crits : list string) (k : Z) : result report_exc string :=
  if (k <? Z.of_nat (length crits))%Z then
    match py_index (length crits) k with
    | Some j => Ok (nth j crits ""%string)
    | None => Err ReportIndexError
    end
  else Ok ("Tiêu chí Index " ++ py_str_Z k)%string.

(** One block, from row [cur]; returns its writes and the next row. *)
Definition detail_block (crits alts : list string) (cur : nat) (item : string * alt_result)
  : result report_exc (list (nat * nat * rcell) * nat) :=
  match py_int (fst item) with
  | None => Err ReportValueError
  | Some k =>
      name <- detail_name crits k ;;
      title <- cell_str ("Tiêu chí: " ++ name)%string ;;
      let lists := match detail_lists (snd item) with
                   | Some (Some l) => Some l
                   | Some None => None
                   | None => Some ([], [], [])
                   end in
      let r := cur + 2 in
      rows <- map_result (detail_row r lists) (enumerate alts) ;;
      let last := r + length alts in
      Ok ([(cur, 1, title)]
          ++ header_cells (S cur) ["Phương án"; "Trọng số cục bộ"; "WSV"; "CV"]%string
          ++ concat rows
          ++ [(last, 1, RStr "CR:"); (last, 2, round_opt 4 (detail_cr (snd item)));
              (last, 3, consistency_text (detail_consistent (snd item)))],
          last + 2)
  end.

Fixpoint detail_blocks (crits alts : list string) (cur : nat) (items : list (string * alt_result))
  : result report_exc (list (nat * nat * rcell)) :=
  match items with
  | [] => Ok []
  | it :: items' =>
      b <- detail_block crits alts cur it ;;
      rest <- detail_blocks crits alts (snd b) items' ;;
      Ok (fst b ++ rest)
  end.

Definition details_sheet (a : analysis_data) : result report_exc (option wsheet) :=
  if negb (is_nil (ad_alternative_crs a)) && negb (is_nil (ad_criteria_names a))
     && negb (is_nil (ad_alternatives a)) then
    cells <- detail_blocks (ad_criteria_names a) (ad_alternatives a) 3 (ad_alternative_crs a) ;;
    Ok (Some (WSheet "ChiTietTrongSoPA"
                ((1, 1, RStr "PHÂN TÍCH CHI TIẾT PHƯƠNG ÁN THEO TỪNG TIÊU CHÍ") :: cells)))
  else Ok None.

(** ** Sheet 3: the local scores (app.py:1010-1028) *)

(** The row of alternative [i]: [matrix[i][j]] for every criterion. *)
Definition local_row (r : nat) (m : list (list Q)) (i : nat) (n_crit : nat)
  : result report_exc (list (nat * nat * rcell)) :=
  match nth_error m i with
  | None => Err ReportIndexError
  | Some row =>
      if Nat.ltb (length row) n_crit then Err ReportIndexError
      else Ok (map (fun j => (r, j + 2, round_cell 5 (nth j row 0%Q))) (seq 0 n_crit))
  end.

Fixpoint local_rows (r0 i : nat) (alts : list string) (m : list (list Q)) (n_crit : nat)
  : result report_exc (list (nat * nat * rcell)) :=
  match alts with
  | [] => Ok []
  | al :: alts' =>
      c <- cell_str al ;;
      cells <- local_row (r0 + i) m i n_crit ;;
      rest <- local_rows r0 (S i) alts' m n_crit ;;
      Ok ((r0 + i, 1, c) :: cells ++ rest)
  end.

Definition local_sheet (a : analysis_data) : result report_exc (option wsheet) :=
  if negb (is_nil (ad_local_matrix a)) && negb (is_nil (ad_alternatives a))
     && negb (is_nil (ad_criteria_names a)) then
    heads <- map_result (fun jc => c <- cell_str (snd jc) ;; Ok (3, fst jc + 2, c))
               (enumerate (ad_criteria_names a)) ;;
    rows <- local_rows 4 0 (ad_alternatives a) (ad_local_matrix a) (length (ad_criteria_names a)) ;;
    Ok (Some (WSheet "TongHopTrongSoPATheoTC"
                ((1, 1, RStr "BẢNG TỔNG HỢP TRỌNG SỐ CỤC BỘ CỦA PHƯƠNG ÁN THEO TIÊU CHÍ")
                 :: (3, 1, RStr "Phương án \ Tiêu chí") :: heads ++ rows)))
  else Ok None.

(** ** Sheet 4: the ranking (app.py:1046-1068) *)

Fixpoint ranking_rows (r0 i : nat) (ranked : list (string * Q)) : list (nat * nat * rcell) :=
  match ranked with
  | [] => []
  | (nm, sc) :: ranked' =>
      [(r0 + i, 1, RInt (Z.of_nat (S i))); (r0 + i, 2, RStr nm); (r0 + i, 3, round_cell 4 sc);
       (r0 + i, 4, RFloat (py_round 2 (fl (sc * 100))))] ++ ranking_rows r0 (S i) ranked'
  end.

Definition ranking_sheet (a : analysis_data) : wsheet :=
  let ranked := ad_ranked_alternatives a in
  let head := (1, 1, RStr "XẾP HẠNG CÁC PHƯƠNG ÁN")
              :: header_cells 3 ["Hạng"; "Phương án"; "Điểm số Tổng hợp"; "Phần trăm (%)"]%string in
  match ranked with
  | [] => WSheet "XepHangCuoiCung" head
  | (best, _) :: _ =>
      let row := 4 + length ranked + 1 in
      WSheet "XepHangCuoiCung"
        (head ++ ranking_rows 4 0 ranked
         ++ [(row, 1, RStr "Phương án tốt nhất:"); (row, 2, RStr best)])
  end.

(** [create_excel_report(analysis_data)] (app.py:883-1089): the sheets in
    the order they are created; the writes of the ranking sheet raise only
    through openpyxl's check of its strings. *)
Definition create_excel_report (today : string) (a : analysis_data) : result report_exc (list wsheet) :=
  s1 <- criteria_weights_sheet today a ;;
  s2 <- details_sheet a ;;
  s3 <- local_sheet a ;;
  s4 <- checked_sheet (ranking_sheet a) ;;
  Ok ([s1] ++ match s2 with Some w => [w] | None => [] end
           ++ match s3 with Some w => [w] | None => [] end ++ [s4]).

(** ** Chart data (app.py:828-879) *)

(** The bars of the criteria weights, when names and weights are present
    and as many: [sorted(zip(criteria_weights, criteria_names),
    key=lambda x: x[0], reverse=True)]. *)
Definition criteria_bars (names : list string) (weights : list Q) : option (list (Q * string)) :=
  if negb (is_nil names) && negb (is_nil weights) && Nat.eqb (length names) (length weights)
  then Some (sort_desc fst (combine weights names)) else None.

(** The pie of the final scores, when there is a ranking: the names and
    the scores above [1e-6], filtered separately as the code does; [None]
    inside when no score is left (no file). *)
Definition pie_slices (ranked : list (string * Q)) : option (option (list string * list Q)) :=
  match ranked with
  | [] => None
  | _ =>
      let names := map fst ranked in
      let scores := map snd ranked in
      let valid_names := map snd (filter (fun ia => Qltb (lit (1 # 1000000)) (nth (fst ia) scores 0%Q))
                                         (combine (seq 0 (length names)) names)) in
      let valid_scores := filter (fun s => Qltb (lit (1 # 1000000)) s) scores in
      Some (match valid_scores with [] => None | _ => Some (valid_names, valid_scores) end)
  end.

(** ** Analyses the reports can be built from *)

(** Every key of [alternative_crs] is an integer that indexes the
    criteria, from the end when it is negative. *)
Definition keys_ready (n_crit : nat) (items : list (string * alt_result)) : Prop :=
  Forall (fun it => exists k, py_int (fst it) = Some k /\ py_index n_crit k <> None) items.

(** The lists of an analysis cover the names they are read with, its keys
    index the criteria, every result is a success of the engine (the
    error dictionaries have [None] lists, and the PDF report cannot show
    them), and every name is plain. *)
Record report_ready (a : analysis_data) : Prop := {
  ready_weights : length (ad_criteria_names a) <= length (ad_criteria_weights a);
  ready_scores : length (ad_alternatives a) <= length (ad_alternative_scores a);
  ready_local_rows : length (ad_alternatives a) <= length (ad_local_matrix a);
  ready_local_cols : Forall (fun row => length (ad_criteria_names a) <= length row) (ad_local_matrix a);
  ready_keys : keys_ready (length (ad_criteria_names a)) (ad_alternative_crs a);
  ready_engine : Forall (fun it => match snd it with AltEngine (AhpOk _) => True | _ => False end)
                   (ad_alternative_crs a);
  ready_plain : Forall (fun s => plain s = true)
                  (ad_criteria_names a ++ ad_alternatives a ++ map fst (ad_ranked_alternatives a)) }.

(** ** Reading the written sheets back *)

Lemma nth_error_lt {A} (l : list A) i x : nth_error l i = Some x -> i < length l.
Proof. intros H. apply nth_error_Some. congruence. Qed.

(** Writes to other rows leave a cell as it is. *)
Lemma ws_fold_skip r c l acc :
  (forall x, In x l -> fst (fst x) <> r) -> fold_left (ws_write r c) l acc = acc.
Proof.
  revert acc. induction l as [|[[r' c'] v] l IH]; intros acc H; [reflexivity|].
  cbn [fold_left]. unfold ws_write at 2.
  destruct (Nat.eqb_spec r' r) as [E|]; [exfalso; apply (H (r', c', v)); [left|]; auto|].
  apply IH. intros x Hx. apply H. right. exact Hx.
Qed.

Lemma ranking_rows_rows r0 i l x :
  In x (ranking_rows r0 i l) -> r0 + i <= fst (fst x) < r0 + i + length l.
Proof.
  revert i. induction l as [|[nm sc] l IH]; intros i Hx; [contradiction|].
  cbn [ranking_rows] in Hx. apply in_app_or in Hx as [Hx|Hx].
  - cbn in Hx |- *. intuition (subst; cbn; lia).
  - apply IH in Hx. cbn [length]. lia.
Qed.

(** The row of the [k]-th alternative of the ranking. *)
Lemma ranking_rows_read r0 i l k nm sc c acc :
  nth_error l k = Some (nm, sc) -> 1 <= c <= 4 ->
  fold_left (ws_write (r0 + i + k) c) (ranking_rows r0 i l) acc
  = nth (c - 1) [RInt (Z.of_nat (S (i + k))); RStr nm; round_cell 4 sc;
                 RFloat (py_round 2 (fl (sc * 100)))] RNone.
Proof.
  revert i k acc. induction l as [|[nm' sc'] l IH]; intros i k acc Hk Hc;
    [destruct k; discriminate|].
  cbn [ranking_rows]. rewrite fold_left_app. destruct k as [|k].
  - injection Hk as -> ->. rewrite ws_fold_skip.
    + rewrite !Nat.add_0_r. cbn. rewrite Nat.eqb_refl.
      destruct c as [|[|[|[|[|c]]]]]; cbn; try lia; reflexivity.
    + intros x Hx. apply ranking_rows_rows in Hx. lia.
  - replace (r0 + i + S k) with (r0 + S i + k) by lia.
    replace (S (i + S k)) with (S (S i + k)) by lia.
    apply IH; [exact Hk|exact Hc].
Qed.

(** ** Plain texts *)

Lemma plain_app s1 s2 : plain (String.append s1 s2) = plain s1 && plain s2.
Proof. unfold plain. rewrite chars_app, forallb_app. reflexivity. Qed.

Lemma plain_cons c s : plain (String c s) = plain_char c && plain s.
Proof. reflexivity. Qed.

Lemma plain_has_illegal s : plain s = true -> has_illegal s = false.
Proof.
  unfold plain, has_illegal. intros H. apply not_true_iff_false. intros E.
  apply existsb_exists in E as (c & Hc & Ec). rewrite forallb_forall in H.
  specialize (H c Hc). unfold plain_char in H. rewrite Ec in H. discriminate.
Qed.

(** A plain string is written as it is. *)
Lemma cell_str_plain s : plain s = true -> cell_str s = Ok (RStr s).
Proof. intros H. unfold cell_str. rewrite (plain_has_illegal s H). reflexivity. Qed.

(** A printable character other than [<] is plain. *)
Lemma plain_char_printable c : 32 <= nat_of_ascii c -> nat_of_ascii c <> 60 -> plain_char c = true.
Proof.
  intros H1 H2. unfold plain_char, illegal_char.
  destruct (Nat.leb_spec (nat_of_ascii c) 8); [lia|].
  destruct (Nat.leb_spec (nat_of_ascii c) 12), (Nat.leb_spec (nat_of_ascii c) 31); try lia;
    rewrite ?andb_false_r; cbn [orb negb andb];
    destruct (Ascii.eqb_spec c "<") as [->|]; try reflexivity; exfalso; apply H2; reflexivity.
Qed.

Lemma plain_numeral s : all_chars numeral_char s -> plain s = true.
Proof.
  unfold all_chars, plain. intros H. apply forallb_forall. intros c Hc.
  rewrite Forall_forall in H. destruct (H c Hc) as [->|(d & Hd & ->)]; [reflexivity|].
  unfold digit_char. apply plain_char_printable; rewrite nat_ascii_embedding; lia.
Qed.

Lemma plain_py_str_Z k : plain (py_str_Z k) = true.
Proof. apply plain_numeral, py_str_Z_chars. Qed.

Lemma plain_zeros k : plain (zeros k) = true.
Proof. induction k as [|k IH]; [reflexivity|exact IH]. Qed.

(** The text of [f"{x:.kf}"]: a sign, digits and a point. *)
Lemma plain_format_fixed k q : plain (format_fixed k q) = true.
Proof.
  unfold format_fixed, pad_zeros. rewrite !plain_app, !plain_py_str_Z, plain_zeros.
  destruct (Qnum q <? 0)%Z; reflexivity.
Qed.

#[export] Hint Rewrite plain_app plain_py_str_Z plain_format_fixed : ahp_rw.

(** ** The report and the charts *)

(** [weights[i]] raises once the weights run out before the names. *)
Lemma weight_rows_cons r0 i nm names ws :
  weight_rows r0 i (nm :: names) ws
  = match nth_error ws i with
    | None => Err ReportIndexError
    | Some w =>
        c <- cell_str nm ;;
        rest <- weight_rows r0 (S i) names ws ;;
        Ok ((r0 + i, 1, RInt (Z.of_nat (S i))) :: (r0 + i, 2, c)
            :: (r0 + i, 3, round_cell 5 w) :: rest)
    end.
Proof. reflexivity. Qed.

Lemma weight_rows_short r0 i nm names ws :
  length ws < i + S (length names) -> exists e, weight_rows r0 i (nm :: names) ws = Err e.
Proof.
  revert i nm. induction names as [|nm' names IH]; intros i nm H; rewrite weight_rows_cons;
    destruct (nth_error ws i) as [w|] eqn:E; try (eexists; reflexivity); apply nth_error_lt in E;
    destruct (cell_str nm); cbn [rbind]; try (eexists; reflexivity).
  - cbn in H. lia.
  - destruct (IH (S i) nm' ltac:(cbn [length] in H; lia)) as [e ->]. eexists. reflexivity.
Qed.

(** [score > 1e-6] on the scores, read by position or by value. *)
Lemma filter_by_index {A} (P : Q -> bool) (l : list (A * Q)) (pre : list Q) :
  map snd (filter (fun ia => P (nth (fst ia) (pre ++ map snd l) 0%Q))
                  (combine (seq (length pre) (length l)) (map fst l)))
  = map fst (filter (fun x => P (snd x)) l).
Proof.
  revert pre. induction l as [|[x q] l IH]; intros pre; [reflexivity|].
  cbn [map length seq combine filter fst snd].
  rewrite app_nth2, Nat.sub_diag by lia. cbn [nth].
  replace (S (length pre)) with (length (pre ++ [q])) by (rewrite length_app; cbn; lia).
  replace (pre ++ q :: map snd l) with ((pre ++ [q]) ++ map snd l) by (rewrite <- app_assoc; reflexivity).
  destruct (P q); cbn [map]; rewrite IH; reflexivity.
Qed.

Lemma filter_map_snd {A} (P : Q -> bool) (l : list (A * Q)) :
  filter P (map snd l) = map snd (filter (fun x => P (snd x)) l).
Proof. induction l as [|[x q] l IH]; cbn; [reflexivity|]. destruct (P q); cbn; congruence. Qed.

Lemma ranking_sheet_cell a i nm sc c :
  nth_error (ad_ranked_alternatives a) i = Some (nm, sc) -> 1 <= c <= 4 ->
  ws_get (ranking_sheet a) (4 + i) c
  = nth (c - 1) [RInt (Z.of_nat (S i)); RStr nm; round_cell 4 sc;
                 RFloat (py_round 2 (fl (sc * 100)))] RNone.
Proof.
  intros Hi Hc. unfold ranking_sheet, ws_get.
  destruct (ad_ranked_alternatives a) as [|[best b] rest] eqn:E; [destruct i; discriminate|].
  rewrite <- E in *. cbn [ws_cells]. rewrite !fold_left_app.
  rewrite ws_fold_skip.
  - change (4 + i) with (4 + 0 + i). apply ranking_rows_read; assumption.
  - apply nth_error_lt in Hi. intros x [<-|[<-|[]]]; cbn; lia.
Qed.

(** ** The Excel report of a ready analysis *)

Lemma weight_rows_ok r0 i names ws :
  i + length names <= length ws -> Forall (fun s => plain s = true) names ->
  exists cells, weight_rows r0 i names ws = Ok cells.
Proof.
  revert i. induction names as [|nm names IH]; intros i H Hp; [eexists; reflexivity|].
  inversion Hp as [|? ? Hn Hp']; subst.
  rewrite weight_rows_cons, cell_str_plain by exact Hn. cbn [length] in H.
  destruct (nth_error ws i) eqn:E; [|apply nth_error_None in E; lia]. cbn [rbind].
  destruct (IH (S i) ltac:(lia) Hp') as [c ->]. eexists. reflexivity.
Qed.

Lemma detail_name_ok crits k : py_index (length crits) k <> None -> exists nm, detail_name crits k = Ok nm.
Proof.
  intros H. unfold detail_name. destruct (_ <? _)%Z; [|eexists; reflexivity].
  destruct (py_index _ _); [eexists; reflexivity|congruence].
Qed.

(** [nth j crits ""] of plain names. *)
Lemma plain_nth (l : list string) j : Forall (fun s => plain s = true) l -> plain (nth j l ""%string) = true.
Proof.
  intros H. destruct (Nat.lt_ge_cases j (length l)) as [Hj|Hj].
  - rewrite Forall_forall in H. apply H, nth_In, Hj.
  - rewrite nth_overflow by exact Hj. reflexivity.
Qed.

Lemma detail_name_plain crits k nm :
  Forall (fun s => plain s = true) crits -> detail_name crits k = Ok nm -> plain nm = true.
Proof.
  intros Hc. unfold detail_name. destruct (_ <? _)%Z.
  - destruct (py_index _ _); [intros [= <-]; apply plain_nth, Hc|discriminate].
  - intros H. injection H as <-. rewrite !plain_cons, plain_py_str_Z. reflexivity.
Qed.

Lemma detail_blocks_ok crits alts cur items :
  keys_ready (length crits) items
  -> Forall (fun it => match snd it with AltEngine (AhpOk _) => True | _ => False end) items
  -> Forall (fun s => plain s = true) crits -> Forall (fun s => plain s = true) alts
  -> exists cells, detail_blocks crits alts cur items = Ok cells.
Proof.
  intros Hk He Hc Ha. revert cur.
  induction Hk as [|[key r] items (k & Hi & Hp) _ IH]; intros cur; [eexists; reflexivity|].
  inversion He as [|? ? Hr He']; subst.
  cbn [detail_blocks]. unfold detail_block. cbn [fst snd] in *. rewrite Hi.
  destruct (detail_name_ok crits k Hp) as [nm Hn]. rewrite Hn. cbn [rbind].
  rewrite cell_str_plain by (rewrite plain_app, (detail_name_plain crits k nm Hc Hn); reflexivity).
  destruct r as [|[o|n e]]; try contradiction. cbn [detail_lists rbind].
  destruct (map_result_enumerate (detail_row (cur + 2) (Some (res_weights o, res_wsv o, res_cv o))) alts)
    as [rows ->].
  - intros i x _ Hx. unfold detail_row. cbn [fst snd].
    rewrite Forall_forall in Ha. rewrite cell_str_plain by exact (Ha x Hx). eexists. reflexivity.
  - cbn [rbind]. match goal with |- context [detail_blocks crits alts ?c items] =>
      destruct (IH He' c) as [cells ->] end. eexists. reflexivity.
Qed.

Lemma local_rows_ok r0 i alts m n :
  i + length alts <= length m -> Forall (fun row => n <= length row) m ->
  Forall (fun s => plain s = true) alts -> exists cells, local_rows r0 i alts m n = Ok cells.
Proof.
  revert i. induction alts as [|al alts IH]; intros i H Hm Hp; [eexists; reflexivity|].
  inversion Hp as [|? ? Hn Hp']; subst.
  cbn [local_rows length] in *. rewrite cell_str_plain by exact Hn. cbn [rbind]. unfold local_row.
  destruct (nth_error m i) as [row|] eqn:E; [|apply nth_error_None in E; lia].
  assert (Hr : n <= length row) by (rewrite Forall_forall in Hm; apply Hm; eapply nth_error_In, E).
  destruct (Nat.ltb_spec (length row) n); [lia|]. cbn [rbind].
  destruct (IH (S i) ltac:(lia) Hm Hp') as [c ->]. eexists. reflexivity.
Qed.

(** A cell openpyxl accepts: a number, [None], or a plain string. *)
Definition cell_plain (x : nat * nat * rcell) : Prop :=
  match snd x with RStr s => plain s = true | _ => True end.

Lemma checked_sheet_ok w : Forall cell_plain (ws_cells w) -> checked_sheet w = Ok w.
Proof.
  intros H. unfold checked_sheet.
  destruct (map_result_ok check_cell (ws_cells w)) as (us & -> & _); [|reflexivity].
  apply first_error_None. intros [[r c] v] Hx. rewrite Forall_forall in H. specialize (H _ Hx).
  unfold cell_plain in H. cbn [snd] in H. destruct v; try (eexists; reflexivity).
  cbn [check_cell]. rewrite (plain_has_illegal _ H). eexists. reflexivity.
Qed.

Lemma ranking_rows_plain r0 i l :
  Forall (fun s => plain s = true) (map fst l) -> Forall cell_plain (ranking_rows r0 i l).
Proof.
  revert i. induction l as [|[nm sc] l IH]; intros i H; [constructor|].
  inversion H as [|? ? Hn H']; subst. cbn [ranking_rows].
  apply Forall_app. split; [|apply IH, H']. repeat constructor; exact Hn.
Qed.

(** The ranking sheet of plain names passes openpyxl's check. *)
Lemma ranking_sheet_checked a :
  Forall (fun s => plain s = true) (map fst (ad_ranked_alternatives a)) ->
  checked_sheet (ranking_sheet a) = Ok (ranking_sheet a).
Proof.
  intros H. apply checked_sheet_ok. unfold ranking_sheet.
  destruct (ad_ranked_alternatives a) as [|[best b] rest] eqn:E; cbn [ws_cells];
    [repeat constructor|].
  inversion H as [|? ? Hb _]; subst.
  apply Forall_app; split; [repeat constructor|].
  apply Forall_app; split; [apply ranking_rows_plain, H|].
  constructor; [reflexivity|]. constructor; [exact Hb|constructor].
Qed.

(** A ready analysis gives its Excel report, on a plain date. *)
Lemma create_excel_report_ok today a :
  plain today = true -> report_ready a -> exists sheets, create_excel_report today a = Ok sheets.
Proof.
  intros Ht [Hw Hs Hlr Hlc Hk He Hp].
  apply Forall_app in Hp as [Hpc Hp]. apply Forall_app in Hp as [Hpa Hpr].
  unfold create_excel_report, criteria_weights_sheet, details_sheet, local_sheet.
  rewrite cell_str_plain by exact Ht. cbn [rbind].
  destruct (_ && _)%bool;
    [destruct (weight_rows_ok 4 0 (ad_criteria_names a) (ad_criteria_weights a) ltac:(lia) Hpc) as [c1 ->]|];
    cbn [rbind];
    (destruct (_ && _ && _)%bool;
     [destruct (detail_blocks_ok (ad_criteria_names a) (ad_alternatives a) 3 _ Hk He Hpc Hpa) as [c2 ->]|]);
    cbn [rbind];
    (destruct (_ && _ && _)%bool;
     [destruct (map_result_enumerate (fun jc => c <- cell_str (snd jc) ;; Ok (3, fst jc + 2, c))
                  (ad_criteria_names a)) as [hs ->];
      [intros i x _ Hx; rewrite Forall_forall in Hpc; cbn [snd]; rewrite (cell_str_plain x (Hpc x Hx));
       eexists; reflexivity|];
      destruct (local_rows_ok 4 0 (ad_alternatives a) (ad_local_matrix a) (length (ad_criteria_names a))
                  ltac:(lia) Hlc Hpa) as [c3 ->]|]);
    cbn [rbind]; rewrite (ranking_sheet_checked a Hpr); eexists; reflexivity.
Qed.

(** [C23] The ranking sheet of the report reads back the ranking: row
    [4 + i] holds the rank [i + 1], the name, the score rounded to four
    decimals and the percentage of the [i]-th ranked alternative, and the
    cell after the table names the first one as the best. *)
Theorem ranking_sheet_reads_back a best b rest :
  ad_ranked_alternatives a = (best, b) :: rest ->
  (forall i nm sc, nth_error (ad_ranked_alternatives a) i = Some (nm, sc) ->
     ws_get (ranking_sheet a) (4 + i) 1 = RInt (Z.of_nat (S i))
     /\ ws_get (ranking_sheet a) (4 + i) 2 = RStr nm
     /\ ws_get (ranking_sheet a) (4 + i) 3 = round_cell 4 sc
     /\ ws_get (ranking_sheet a) (4 + i) 4 = RFloat (py_round 2 (fl (sc * 100))))
  /\ ws_get (ranking_sheet a) (5 + length (ad_ranked_alternatives a)) 2 = RStr best.
Proof.
  intros E. split.
  - intros i nm sc Hi. repeat split; rewrite (ranking_sheet_cell a i nm sc) by (auto || lia); reflexivity.
  - unfold ranking_sheet, ws_get. rewrite E. cbn [ws_cells]. rewrite !fold_left_app.
    cbn [fold_left length]. unfold ws_write at 1 2.
    replace (4 + S (length rest) + 1) with (5 + S (length rest)) by lia.
    rewrite Nat.eqb_refl. reflexivity.
Qed.

(** A report whose criteria weights are fewer than its criteria names
    cannot be written: [analysis_data['criteria_weights'][i]] raises
    [IndexError] (app.py:914), unless a string written before raises
    first. *)
Lemma create_excel_report_short_weights today a :
  ad_criteria_names a <> [] -> ad_criteria_weights a <> [] ->
  length (ad_criteria_weights a) < length (ad_criteria_names a) ->
  exists e, create_excel_report today a = Err e.
Proof.
  intros Hn Hw Hl. unfold create_excel_report, criteria_weights_sheet.
  destruct (cell_str today); cbn [rbind]; [|eexists; reflexivity].
  destruct (ad_criteria_names a) as [|nm names]; [contradiction|].
  destruct (ad_criteria_weights a) as [|w ws]; [contradiction|]. cbn [is_nil negb andb].
  destruct (weight_rows_short 4 0 nm names (w :: ws)) as [e ->]; [cbn [length] in *; lia|].
  eexists. reflexivity.
Qed.

(** [C24] The pie chart of a ranking shows the alternatives whose score
    exceeds [1e-6], each with its own score: the names, filtered by the
    position of their score (app.py:857), and the scores, filtered by
    value (app.py:858), are the two halves of the pairs of the ranking
    whose score exceeds [1e-6]; no file is drawn when none does. *)
Theorem pie_slices_aligned (ranked : list (string * Q)) :
  ranked <> [] ->
  pie_slices ranked
  = Some (match filter (fun x => Qltb (lit (1 # 1000000)) (snd x)) ranked with
          | [] => None
          | kept => Some (map fst kept, map snd kept)
          end).
Proof.
  intros H. pose proof (filter_by_index (fun s => Qltb (lit (1 # 1000000)) s) ranked []) as Hi.
  cbn [app length] in Hi. unfold pie_slices. cbv zeta.
  destruct ranked as [|x r] eqn:E; [contradiction|]. rewrite <- E in *.
  rewrite length_map, Hi, filter_map_snd. destruct (filter _ ranked); reflexivity.
Qed.

(** ** Witnesses *)

Local Open Scope string_scope.

(** Witness of [C23]: the ranking of [Store.example_analysis]. *)
Lemma ranking_sheet_reads_back_witness :
  ad_ranked_alternatives example_analysis = ("A", 3 # 5) :: [("B", 2 # 5)]
  /\ ((forall i nm sc, nth_error (ad_ranked_alternatives example_analysis) i = Some (nm, sc) ->
        ws_get (ranking_sheet example_analysis) (4 + i) 1 = RInt (Z.of_nat (S i))
        /\ ws_get (ranking_sheet example_analysis) (4 + i) 2 = RStr nm
        /\ ws_get (ranking_sheet example_analysis) (4 + i) 3 = round_cell 4 sc
        /\ ws_get (ranking_sheet example_analysis) (4 + i) 4 = RFloat (py_round 2 (fl (sc * 100))))
      /\ ws_get (ranking_sheet example_analysis)
           (5 + length (ad_ranked_alternatives example_analysis)) 2 = RStr "A").
Proof.
  split; [reflexivity|].
  apply (ranking_sheet_reads_back example_analysis "A" (3 # 5) [("B", 2 # 5)]). reflexivity.
Defined.

(** An analysis that kept one weight for two criteria. *)
Definition short_analysis : analysis_data :=
  AnalysisData ["Gia"; "Vi tri"] [1 # 1] ["A"; "B"] [3 # 5; 2 # 5]
    [("A", 3 # 5); ("B", 2 # 5)] (Some (Fin 0)) true [] [].

(** Witness of [C24]: a ranking whose last score is below [1e-6]. *)
Lemma pie_slices_aligned_witness :
  [("A", 1 # 1); ("B", 0 # 1)] <> []
  /\ pie_slices [("A", 1 # 1); ("B", 0 # 1)]
     = Some (match filter (fun x => Qltb (lit (1 # 1000000)) (snd x)) [("A", 1 # 1); ("B", 0 # 1)] with
             | [] => None
             | kept => Some (map fst kept, map snd kept)
             end).
Proof. split; [discriminate|]. apply pie_slices_aligned. discriminate. Defined.
