(* ===== verification/Pdf.v ===== *)
(** * Pdf: the PDF report of a saved analysis

    [download_pdf_report] (app.py:1109-1295) draws the two charts of the
    analysis with [generate_charts_to_files] (811-881), builds a reportlab
    story (1127-1275), renders it with [doc.build] and sends the bytes.
    This file models the chart files the drawing produces and the story,
    flowable by flowable, with the text of every paragraph and of every
    table cell; the route itself is in [Workflow].

    Only the content of the document is modelled: paragraph styles are
    kept by name, while fonts, colours of styles, sizes, paddings, column
    widths and the page template are presentation and are left out.  What
    the outside world decides is a parameter, [pdf_env]: the date of the
    report, the eight characters of [uuid4], whether matplotlib drew and
    saved each chart, whether each image file exists and loads, and whether
    [doc.build] succeeds.

    Every [Paragraph(text, style)] parses [text] as markup while the story
    is built, and raises [ValueError] when the markup is invalid.  The
    parse is modelled at the level of tags ([para_run]): the characters
    go through the states of [html.parser] ([lexer]: text, [<], a start
    tag's name, its attributes, an end tag), a start tag must be one
    reportlab knows ([para_tags]), an end tag must close the innermost
    open tag, and no tag may be left open; entities and attribute values
    are not checked.  The names of criteria and alternatives are written
    into [Paragraph] without escaping, so a name such as ["<x>"] makes the
    story raise; a [plain] text never changes the parser's state
    ([para_run_plain]).  The styles built without a [name] in the error
    branches of the detail block raise [TypeError].  The story is built
    outside any [try]: these exceptions, the [IndexError] of a list
    shorter than the names it is read with and the [ValueError] of
    [int(crit_idx_str)] escape the route. *)

From Stdlib Require Import Ascii String QArith ZArith List Lia Bool.
From S2P Require Import Prelude Binary64 PyStr Engine Render Aggregate Store Reports.
Import ListNotations.
Local Open Scope ahp_scope.
Local Open Scope nat_scope.
Local Open Scope string_scope.
Local Set Warnings "-register-all".

(** ** The world outside the code *)

(** [os.path.exists(path)] and [Image(path)]: the image loads, the file
    is missing, or [Image] raises with a message. *)
Inductive image_status : Type :=
| ImageOk
| ImageMissing
| ImageFails (msg : string).

Record pdf_env := PdfEnv
  { pe_today : string;                    (* datetime.now().strftime(...) *)
    pe_uuid : string;                     (* str(uuid.uuid4())[:8] *)
    pe_draw_criteria : bool;              (* the bar chart is drawn and saved *)
    pe_draw_pie : bool;                   (* the pie chart is drawn and saved *)
    pe_image : string -> image_status;    (* the chart file, in CHARTS_FOLDER *)
    pe_build : bool }.                    (* doc.build(story) returns *)

(** ** [generate_charts_to_files] (app.py:811-881) *)

(** The dictionary [chart_filenames], in insertion order: a key is set to
    the file name, or to [None] when the drawing raised or no score is
    left for the pie. *)
Definition chart_files : Type := list (string * option string).

Definition generate_charts_to_files (ranked : list (string * Q)) (names : list string) (weights : list Q)
  (prefix uuid : string) (drawn_criteria drawn_pie : bool) : chart_files :=
  let base := prefix ++ "_" ++ uuid in
  let criteria_chart :=
    match criteria_bars names weights with
    | Some _ => [("criteria_weights_chart_file",
                  if drawn_criteria then Some (base ++ "_criteria_weights.png") else None)]
    | None => []
    end in
  let pie_chart :=
    match pie_slices ranked with
    | Some None => [("final_scores_chart_file", None)]
    | Some (Some _) => [("final_scores_chart_file",
                         if drawn_pie then Some (base ++ "_alternatives_pie.png") else None)]
    | None => []
    end in
  (criteria_chart ++ pie_chart)%list.

(** [chart_files_info.get(key)] when it is truthy. *)
Definition chart_file (files : chart_files) (key : string) : option string :=
  match find (fun kv => String.eqb (fst kv) key) files with
  | Some (_, Some f) => Some f
  | _ => None
  end.

(** ** reportlab's paragraph parser *)

(** The tags reportlab's [ParaParser] has a [start_] handler for. *)
Definition para_tags : list string :=
  ["a"; "b"; "br"; "bullet"; "em"; "font"; "greek"; "i"; "img"; "index"; "link"; "nobr";
   "ondraw"; "para"; "s"; "seq"; "seqchain"; "seqdefault"; "seqformat"; "seqreset"; "span";
   "strike"; "strong"; "sub"; "sup"; "super"; "u"; "unichar"; "unicode"].

(** Where the tokenizer of [html.parser] stands: in text, after a [<], in
    the name of a start tag, in its attributes (after a [/] or not), in
    the name of an end tag. *)
Inductive lexer : Type :=
| LText
| LLt
| LStart (name : string)
| LAttrs (name : string) (slash : bool)
| LEnd (name : string).

(** [<] opens a tag only before an ASCII letter. *)
Definition tag_letter (c : ascii) : bool :=
  let n := nat_of_ascii c in (Nat.leb 65 n && Nat.leb n 90) || (Nat.leb 97 n && Nat.leb n 122).

Definition html_space (c : ascii) : bool :=
  let n := nat_of_ascii c in Nat.eqb n 32 || Nat.eqb n 9 || Nat.eqb n 10 || Nat.eqb n 12 || Nat.eqb n 13.

Definition lower_tag (name : string) : string := string_of_list_ascii (lower_string (chars name)).

(** A start tag: a known tag is opened, or opened and closed at once when
    it ends in [/>]; an unknown one is a syntax error. *)
Definition open_tag (open : list string) (name : string) (self : bool) : option (list string * lexer) :=
  let t := lower_tag name in
  if existsb (String.eqb t) para_tags then Some (if self then open else t :: open, LText) else None.

(** An end tag must close the innermost open tag. *)
Definition close_tag (open : list string) (name : string) : option (list string * lexer) :=
  match open with
  | t :: open' => if String.eqb t (lower_tag name) then Some (open', LText) else None
  | [] => None
  end.

(** One character; the state holds the open tags, innermost first, or
    [None] once the parser has failed. *)
Definition para_step (st : option (list string * lexer)) (c : ascii) : option (list string * lexer) :=
  match st with
  | None => None
  | Some (open, lx) =>
      match lx with
      | LText => Some (open, if Ascii.eqb c "<" then LLt else LText)
      | LLt =>
          if Ascii.eqb c "/" then Some (open, LEnd EmptyString)
          else if tag_letter c then Some (open, LStart (String c EmptyString))
          else Some (open, if Ascii.eqb c "<" then LLt else LText)
      | LStart name =>
          if Ascii.eqb c ">" then open_tag open name false
          else if Ascii.eqb c "/" then Some (open, LAttrs name true)
          else if html_space c then Some (open, LAttrs name false)
          else Some (open, LStart (name ++ String c EmptyString))
      | LAttrs name sl =>
          if Ascii.eqb c ">" then open_tag open name sl else Some (open, LAttrs name (Ascii.eqb c "/"))
      | LEnd name =>
          if Ascii.eqb c ">" then close_tag open name else Some (open, LEnd (name ++ String c EmptyString))
      end
  end.

Definition para_run (text : string) (st : option (list string * lexer)) : option (list string * lexer) :=
  fold_left para_step (chars text) st.

(** [Paragraph(text, style)] parses its text when it is built: every tag
    must be one reportlab knows, every end tag must close the innermost
    open tag and no tag may stay open; an unfinished tag at the end is
    text, as [html.parser] leaves it.  Entities and attribute values are
    not checked (the program writes only colours and a font name). *)
Definition para_parses (text : string) : bool :=
  match para_run text (Some ([], LText)) with
  | Some ([], _) => true
  | _ => false
  end.

(** ** Flowables *)

(** The [ParagraphStyle]s of the story, by name. *)
Inductive pstyle : Type :=
| StTitle | StDate | StH2 | StH3 | StNormal | StTableText | StTableHeader | StAltName
| StHighlightHeader | StHighlightScore | StFormula | StParams | StStatus | StBest.

(** A flowable: a paragraph and its text, a horizontal rule of a width, a
    spacer, the image of a chart file, a table of paragraphs given row by
    row, a [KeepInFrame] group, a page break. *)
Inductive flowable : Type :=
| Para (st : pstyle) (text : string)
| Rule (width : string)
| Space
| Img (file : string)
| Tbl (rows : list (list (pstyle * string)))
| Keep (items : list flowable)
| Break.

(** [Paragraph(text, style)]: reportlab raises [ValueError] on a text it
    cannot parse. *)
Definition paragraph (st : pstyle) (text : string) : result report_exc flowable :=
  if para_parses text then Ok (Para st text) else Err ReportMarkupError.

(** A [Paragraph] in a table cell. *)
Definition pcell (st : pstyle) (text : string) : result report_exc (pstyle * string) :=
  if para_parses text then Ok (st, text) else Err ReportMarkupError.

(** The paragraphs of a table given by its texts, built row by row. *)
Definition table_cells (rows : list (list (pstyle * string))) : result report_exc (list (list (pstyle * string))) :=
  map_result (map_result (fun c => pcell (fst c) (snd c))) rows.

(** The colours of the [<font color=...>] tags, by [Color.hexval()]. *)
Inductive color : Type := Black | Green | Red | HexColor (rgb : string).

Definition hexval (c : color) : string :=
  match c with
  | Black => "0x000000"
  | Green => "0x008000"
  | Red => "0xff0000"
  | HexColor rgb => "0x" ++ rgb
  end.

Definition bold (s : string) : string := "<b>" ++ s ++ "</b>".

(** [[Paragraph(f"<b>{h}</b>", st) for h in hs]]: the texts, then the
    paragraphs. *)
Definition header_texts (st : pstyle) (hs : list string) : list (pstyle * string) :=
  map (fun h => (st, bold h)) hs.

Definition header_row (st : pstyle) (hs : list string) : result report_exc (list (pstyle * string)) :=
  map_result (fun c => pcell (fst c) (snd c)) (header_texts st hs).

(** [f"{x:.kf}"] of a float. *)
Definition fmt_float (k : nat) (x : pyfloat) : string :=
  match x with
  | Fin q => format_fixed k q
  | PInf => "inf"
  | NInf => "-inf"
  | NaN => "nan"
  end.

(** [f"{(s*100):.2f}%"]: the product is a float. *)
Definition percent_text (s : Q) : string := fmt_float 2 (fl (s * 100)) ++ "%".

Definition consistency_label (c : bool) : string * color :=
  if c then ("(Nhất quán)", Green) else ("(Không nhất quán)", Red).

(** ** The charts (app.py:1154-1172) *)

(** The title of a chart and its image, or the paragraph of a missing or
    failing image. *)
Definition chart_block (title tag : string) (img : string -> image_status) (file : string)
  : result report_exc (list flowable) :=
  t <- paragraph StH3 title ;;
  match img file with
  | ImageOk => Ok [t; Img file; Space]
  | ImageMissing => m <- paragraph StNormal ("[Không tìm thấy ảnh " ++ tag ++ "]") ;; Ok [t; m]
  | ImageFails msg => m <- paragraph StNormal ("[Lỗi ảnh " ++ tag ++ ": " ++ msg ++ "]") ;; Ok [t; m]
  end.

Definition charts_section (files : chart_files) (img : string -> image_status)
  : result report_exc (list flowable) :=
  let c := chart_file files "criteria_weights_chart_file" in
  let p := chart_file files "final_scores_chart_file" in
  match c, p with
  | None, None => Ok []
  | _, _ =>
      h <- paragraph StH2 (bold "Trực quan hóa kết quả") ;;
      cb <- match c with
            | Some f => chart_block (bold "Biểu đồ trọng số các tiêu chí") "TC" img f
            | None => Ok []
            end ;;
      pb <- match p with
            | Some f => chart_block (bold "Biểu đồ tỷ lệ các phương án") "PA" img f
            | None => Ok []
            end ;;
      Ok ([h; Rule "100%"] ++ cb ++ pb ++ [Space])%list
  end.

(** ** The details per criterion (app.py:1174-1214) *)

(** [xs[i] if i < len(xs) else "N/A"], printed with four decimals. *)
Definition alt_cell (xs : list Q) (i : nat) : string :=
  match nth_error xs i with Some x => format_fixed 4 x | None => "N/A" end.

(** The row of alternative [i]: its name, weight, [WSV] and [CV]. *)
Definition detail_texts (o : ahp_ok) (ia : nat * string) : list (pstyle * string) :=
  [(StAltName, snd ia); (StTableText, alt_cell (res_weights o) (fst ia));
   (StTableText, alt_cell (res_wsv o) (fst ia)); (StTableText, alt_cell (res_cv o) (fst ia))].

Definition detail_table (alts : list string) (o : ahp_ok) : result report_exc flowable :=
  rows <- table_cells (header_texts StTableHeader ["Phương án"; "Trọng số"; "WSV"; "CV"]
                       :: map (detail_texts o) (enumerate alts)) ;;
  Ok (Tbl rows).

(** [params_html] of a successful result: every value is a number. *)
Definition params_text (o : ahp_ok) : string :=
  let '(st, clr) := consistency_label (res_is_consistent o) in
  "<b>Lambda_max:</b> " ++ format_fixed 4 (res_lambdaMax o)
  ++ " | <b>CI:</b> " ++ format_fixed 4 (res_ci o)
  ++ " | <b>RI:</b> " ++ format_fixed 2 (res_RI o)
  ++ " (n=" ++ py_str_Z (Z.of_nat (res_n o)) ++ ")"
  ++ "<br/><b>CR: " ++ fmt_float 4 (res_CR o) ++ "</b> <font color='" ++ hexval clr ++ "'>"
  ++ st ++ "</font>".

(** The body of a block: the table and the parameters of a result.  The
    two other branches, the error dictionaries of the engine and of an
    input error, call [ParagraphStyle(parent=..., textColor=...)] without
    the [name] it requires, which raises [TypeError]. *)
Definition detail_body (alts : list string) (r : alt_result) : result report_exc (list flowable) :=
  match r with
  | AltEngine (AhpOk o) =>
      t <- detail_table alts o ;;
      p <- paragraph StParams (params_text o) ;;
      Ok [t; Space; p]
  | _ => Err ReportTypeError
  end.

(** [crits[crit_idx] if crit_idx < len(crits) else f"Tiêu chí {crit_idx+1}"]:
    a negative index counts from the end, and raises below [-len]. *)
Definition pdf_crit_name (crits : list string) (k : Z) : result report_exc string :=
  if (k <? Z.of_nat (length crits))%Z then
    match py_index (length crits) k with
    | Some j => Ok (nth j crits "")
    | None => Err ReportIndexError
    end
  else Ok ("Tiêu chí " ++ py_str_Z (k + 1)).

(** One block in its [KeepInFrame]; [last] is [curr_crit_detail_idx_pdf
    == num_crits_detail_pdf]. *)
Definition pdf_detail_block (crits alts : list string) (last : bool) (item : string * alt_result)
  : result report_exc flowable :=
  match py_int (fst item) with
  | None => Err ReportValueError
  | Some k =>
      name <- pdf_crit_name crits k ;;
      t <- paragraph StH3 (bold ("Chi tiết cho Tiêu chí: " ++ name)) ;;
      body <- detail_body alts (snd item) ;;
      Ok (Keep (t :: app body (if last then [Space] else [Space; Rule "80%"; Space])))
  end.

Fixpoint pdf_detail_blocks (crits alts : list string) (items : list (string * alt_result))
  : result report_exc (list flowable) :=
  match items with
  | [] => Ok []
  | it :: items' =>
      b <- pdf_detail_block crits alts (is_nil items') it ;;
      rest <- pdf_detail_blocks crits alts items' ;;
      Ok (b :: rest)
  end.

Definition pdf_details (a : analysis_data) : result report_exc (list flowable) :=
  if negb (is_nil (ad_alternative_crs a)) && negb (is_nil (ad_criteria_names a))
     && negb (is_nil (ad_alternatives a)) then
    h <- paragraph StH2 (bold "Phân tích chi tiết phương án theo từng tiêu chí") ;;
    blocks <- pdf_detail_blocks (ad_criteria_names a) (ad_alternatives a) (ad_alternative_crs a) ;;
    Ok (h :: Rule "100%" :: blocks)
  else Ok [].

(** ** The summary tables (app.py:1216-1259) *)

(** A row of table 1: the name's paragraph, then [lw_b1[i][j]] and its
    paragraph for every criterion [j]. *)
Definition table1_row (lw : list (list Q)) (n_crit : nat) (ia : nat * string)
  : result report_exc (list (pstyle * string)) :=
  c <- pcell StAltName (snd ia) ;;
  cells <- map_result (fun j => match nth_error lw (fst ia) with
                                | None => Err ReportIndexError
                                | Some row =>
                                    match nth_error row j with
                                    | None => Err ReportIndexError
                                    | Some v => pcell StTableText (format_fixed 5 v)
                                    end
                                end) (seq 0 n_crit) ;;
  Ok (c :: cells).

Definition table1_section (a : analysis_data) : result report_exc (list flowable) :=
  let names := ad_criteria_names a in
  if negb (is_nil (ad_local_matrix a)) && negb (is_nil (ad_alternatives a)) && negb (is_nil names) then
    t <- paragraph StH3 (bold "Bảng 1: Trọng số phương án theo tiêu chí") ;;
    h0 <- pcell StHighlightHeader (bold "Phương án\TC") ;;
    hs <- header_row StHighlightHeader names ;;
    rows <- map_result (table1_row (ad_local_matrix a) (length names)) (enumerate (ad_alternatives a)) ;;
    Ok [t; Tbl ((h0 :: hs) :: rows); Space]
  else Ok [].

(** A row of table 2: [criteria_weights[i]], then the paragraphs. *)
Definition table2_row (ws : list Q) (ia : nat * string) : result report_exc (list (pstyle * string)) :=
  match nth_error ws (fst ia) with
  | None => Err ReportIndexError
  | Some w => map_result (fun c => pcell (fst c) (snd c)) [(StAltName, snd ia); (StTableText, format_fixed 5 w)]
  end.

(** The line of the criteria CR under table 2. *)
Definition cr_criteria_text (cr : option pyfloat) (c : bool) : string :=
  match cr with
  | Some x =>
      let '(st, clr) := consistency_label c in
      "CR Ma trận Tiêu chí: <b>" ++ fmt_float 4 x ++ "</b> <font color='" ++ hexval clr ++ "'>"
      ++ st ++ "</font>"
  | None => "CR Ma trận Tiêu chí: <b>N/A</b> <font color='" ++ hexval Black ++ "'></font>"
  end.

Definition table2_section (a : analysis_data) : result report_exc (list flowable) :=
  if negb (is_nil (ad_criteria_weights a)) && negb (is_nil (ad_criteria_names a)) then
    t <- paragraph StH3 (bold "Bảng 2: Trọng số các Tiêu chí") ;;
    hs <- header_row StHighlightHeader ["Tiêu chí"; "Trọng số"] ;;
    rows <- map_result (table2_row (ad_criteria_weights a)) (enumerate (ad_criteria_names a)) ;;
    p <- paragraph StStatus (cr_criteria_text (ad_cr_criteria a) (ad_is_consistent_criteria a)) ;;
    Ok [t; Tbl (hs :: rows); p; Space]
  else Ok [].

(** A row of table 3: [alternative_scores[i]], then the paragraphs. *)
Definition table3_row (scores : list Q) (ia : nat * string) : result report_exc (list (pstyle * string)) :=
  match nth_error scores (fst ia) with
  | None => Err ReportIndexError
  | Some sc => map_result (fun c => pcell (fst c) (snd c))
                 [(StAltName, snd ia); (StHighlightScore, format_fixed 4 sc);
                  (StHighlightScore, percent_text sc)]
  end.

Definition table3_section (a : analysis_data) : result report_exc (list flowable) :=
  if negb (is_nil (ad_alternative_scores a)) && negb (is_nil (ad_alternatives a)) then
    t <- paragraph StH3 (bold "Bảng 3: Điểm số Tổng hợp và Tỷ lệ Phương án") ;;
    hs <- header_row StHighlightHeader ["Phương án"; "Điểm Tổng hợp"; "Tỷ lệ (%)"] ;;
    rows <- map_result (table3_row (ad_alternative_scores a)) (enumerate (ad_alternatives a)) ;;
    Ok [t; Tbl (hs :: rows); Space]
  else Ok [].

(** ** The ranking (app.py:1261-1275) *)

(** The texts of the ranking table, row by row. *)
Definition ranking_row (ia : nat * (string * Q)) : list (pstyle * string) :=
  let '(i, (nm, sc)) := ia in
  [(StTableText, py_str_Z (Z.of_nat (S i))); (StAltName, nm);
   (StHighlightScore, format_fixed 4 sc); (StHighlightScore, percent_text sc)].

Definition ranking_table (ranked : list (string * Q)) : list (list (pstyle * string)) :=
  header_texts StHighlightHeader ["Hạng"; "Phương án"; "Điểm số"; "Tỷ lệ (%)"]
  :: map ranking_row (enumerate ranked).

Definition best_text (nm : string) (sc : Q) : string :=
  "<b>Phương án đề xuất:</b> <font name='MyDejaVuSansBold' color='" ++ hexval (HexColor "28a745")
  ++ "'>" ++ nm ++ "</font> (Điểm: <b>" ++ format_fixed 4 sc ++ "</b>)".

Definition ranking_section (ranked : list (string * Q)) : result report_exc (list flowable) :=
  match ranked with
  | [] => Ok []
  | (nm, sc) :: _ =>
      h <- paragraph StH2 (bold "Xếp hạng các Phương án") ;;
      rows <- table_cells (ranking_table ranked) ;;
      b <- paragraph StBest (best_text nm sc) ;;
      Ok [h; Rule "100%"; Tbl rows; Space; b]
  end.

(** ** The story and the route's outcome *)

Definition formula_text : string :=
  "<b>Công thức:</b> Điểm Phương án = Sum ( [Trọng số Phương án theo tiêu chí] * [Trọng số tiêu chí] )".

(** [story] as it stands before [doc.build] (app.py:1127-1275): the
    paragraphs in the order the code builds them, each raising when
    reportlab cannot parse its text. *)
Definition pdf_story (today : string) (files : chart_files) (img : string -> image_status)
  (a : analysis_data) : result report_exc (list flowable) :=
  p1 <- paragraph StTitle (bold "Tổng hợp kết quả phân tích AHP") ;;
  p2 <- paragraph StDate today ;;
  charts <- charts_section files img ;;
  details <- pdf_details a ;;
  h <- paragraph StH2 (bold "Tóm tắt và tổng hợp kết quả") ;;
  f <- paragraph StFormula formula_text ;;
  t1 <- table1_section a ;;
  t2 <- table2_section a ;;
  t3 <- table3_section a ;;
  r <- ranking_section (ad_ranked_alternatives a) ;;
  Ok ([p1; p2] ++ charts ++ details ++ [Break; h; Rule "100%"; f] ++ t1 ++ t2 ++ t3 ++ r)%list.

(** What the route does once it holds the analysis: the document is sent,
    [doc.build] failed (flash and redirect to the result page), or an
    exception escaped while the story was built (HTTP 500). *)
Inductive pdf_outcome : Type :=
| PdfSent (story : list flowable)
| PdfBuildFailed
| PdfRaised (e : report_exc).

Definition create_pdf_report (aid : Z) (env : pdf_env) (a : analysis_data) : pdf_outcome :=
  let files := generate_charts_to_files (ad_ranked_alternatives a) (ad_criteria_names a)
                 (ad_criteria_weights a) ("pdf_report_" ++ py_str_Z aid) (pe_uuid env)
                 (pe_draw_criteria env) (pe_draw_pie env) in
  match pdf_story (pe_today env) files (pe_image env) a with
  | Err e => PdfRaised e
  | Ok story => if pe_build env then PdfSent story else PdfBuildFailed
  end.

(** The float a text of the PDF reads back as is the float of an Excel
    cell. *)
Definition reads_as (t : string) (c : rcell) : Prop := exists x, c = RFloat x /\ py_float t = Some x.

(** ** The parser on plain texts *)

Lemma nth_error_covered (xs : list Q) i : i < length xs -> exists x, nth_error xs i = Some x.
Proof. intros H. destruct (nth_error xs i) eqn:E; [eauto|apply nth_error_None in E; lia]. Qed.

Lemma para_run_app s1 s2 st : para_run (String.append s1 s2) st = para_run s2 (para_run s1 st).
Proof. unfold para_run. rewrite chars_app, fold_left_app. reflexivity. Qed.

(** A plain text leaves the parser in text, with the same tags open. *)
Lemma para_run_plain s o : plain s = true -> para_run s (Some (o, LText)) = Some (o, LText).
Proof.
  unfold plain, para_run. induction (chars s) as [|c l IH]; [reflexivity|].
  cbn [forallb fold_left]. intros H. apply andb_prop in H as [Hc Hl].
  unfold plain_char in Hc. apply andb_prop in Hc as [_ Hc]. apply negb_true_iff in Hc.
  cbn [para_step]. rewrite Hc. exact (IH Hl).
Qed.

(** Runs the parser over a text made of constants and plain pieces: the
    constants are evaluated, the plain pieces skipped. *)
Ltac para_solve :=
  unfold para_parses; try unfold bold;
  repeat match goal with
         | |- context [para_run (String.append ?a ?b) ?st] => rewrite (para_run_app a b st)
         end;
  repeat match goal with
         | |- context [para_run (String ?c ?r) (Some (?o, ?l))] =>
             let v := eval vm_compute in (para_run (String c r) (Some (o, l))) in
             change (para_run (String c r) (Some (o, l))) with v
         | |- context [para_run ?s (Some (?o, LText))] =>
             rewrite (para_run_plain s o) by (autorewrite with ahp_rw; cbn [andb]; auto)
         end;
  reflexivity.

Lemma para_parses_plain t : plain t = true -> para_parses t = true.
Proof. intros H. para_solve. Qed.

Lemma bold_parses s : plain s = true -> para_parses (bold s) = true.
Proof. intros H. para_solve. Qed.

Lemma plain_fmt_float k x : plain (fmt_float k x) = true.
Proof. destruct x; [apply plain_format_fixed|reflexivity..]. Qed.

Lemma plain_percent_text s : plain (percent_text s) = true.
Proof. unfold percent_text. rewrite plain_app, plain_fmt_float. reflexivity. Qed.

Lemma plain_alt_cell xs i : plain (alt_cell xs i) = true.
Proof. unfold alt_cell. destruct (nth_error xs i); [apply plain_format_fixed|reflexivity]. Qed.

#[export] Hint Rewrite plain_fmt_float plain_percent_text plain_alt_cell : ahp_rw.

Lemma params_text_parses o : para_parses (params_text o) = true.
Proof. unfold params_text. destruct (res_is_consistent o); cbn [consistency_label hexval]; para_solve. Qed.

Lemma cr_criteria_text_parses cr c : para_parses (cr_criteria_text cr c) = true.
Proof. unfold cr_criteria_text. destruct cr; [destruct c|]; cbn [consistency_label hexval]; para_solve. Qed.

Lemma best_text_parses nm sc : plain nm = true -> para_parses (best_text nm sc) = true.
Proof. intros H. unfold best_text. cbn [hexval]. para_solve. Qed.

(** ** Building paragraphs that parse *)

Lemma paragraph_ok st t : para_parses t = true -> paragraph st t = Ok (Para st t).
Proof. intros H. unfold paragraph. rewrite H. reflexivity. Qed.

Lemma pcell_ok st t : para_parses t = true -> pcell st t = Ok (st, t).
Proof. intros H. unfold pcell. rewrite H. reflexivity. Qed.

Lemma cells_ok (row : list (pstyle * string)) :
  Forall (fun c => para_parses (snd c) = true) row ->
  map_result (fun c => pcell (fst c) (snd c)) row = Ok row.
Proof.
  induction 1 as [|[st t] row Hc _ IH]; [reflexivity|]. cbn [map_result fst snd] in *.
  rewrite (pcell_ok st t Hc), IH. reflexivity.
Qed.

Lemma table_cells_ok rows :
  Forall (Forall (fun c => para_parses (snd c) = true)) rows -> table_cells rows = Ok rows.
Proof.
  unfold table_cells. induction 1 as [|row rows Hr _ IH]; [reflexivity|].
  cbn [map_result]. rewrite (cells_ok row Hr), IH. reflexivity.
Qed.

Lemma header_texts_parse st hs :
  Forall (fun h => plain h = true) hs -> Forall (fun c => para_parses (snd c) = true) (header_texts st hs).
Proof. intros H. apply Forall_map. eapply Forall_impl; [|exact H]. intros h. apply bold_parses. Qed.

Lemma header_row_ok st hs : Forall (fun h => plain h = true) hs -> header_row st hs = Ok (header_texts st hs).
Proof. intros H. apply cells_ok, header_texts_parse, H. Qed.

Lemma plain_consts (l : list string) : forallb plain l = true -> Forall (fun h => plain h = true) l.
Proof. intros H. apply Forall_forall. intros x Hx. rewrite forallb_forall in H. apply H, Hx. Qed.

(** Rewrites a paragraph whose text parses, or a header of constants. *)
Ltac build_paragraphs :=
  repeat first
    [ rewrite paragraph_ok by (reflexivity || para_solve || (apply bold_parses; autorewrite with ahp_rw; cbn [andb]; auto))
    | rewrite header_row_ok by (apply plain_consts; reflexivity) ];
  cbn [rbind].

(** ** The story of a ready analysis *)

Lemma pdf_crit_name_ok crits k : py_index (length crits) k <> None -> exists nm, pdf_crit_name crits k = Ok nm.
Proof.
  intros H. unfold pdf_crit_name. destruct (_ <? _)%Z; [|eexists; reflexivity].
  destruct (py_index _ _); [eexists; reflexivity|congruence].
Qed.

Lemma pdf_crit_name_plain crits k nm :
  Forall (fun s => plain s = true) crits -> pdf_crit_name crits k = Ok nm -> plain nm = true.
Proof.
  intros Hc. unfold pdf_crit_name. destruct (_ <? _)%Z.
  - destruct (py_index _ _); [intros [= <-]; apply plain_nth, Hc|discriminate].
  - intros H. injection H as <-. rewrite !plain_cons, plain_py_str_Z. reflexivity.
Qed.

Lemma detail_table_ok alts o :
  Forall (fun s => plain s = true) alts -> detail_table alts o = Ok (Tbl (header_texts StTableHeader
    ["Phương án"; "Trọng số"; "WSV"; "CV"] :: map (detail_texts o) (enumerate alts))).
Proof.
  intros Ha. unfold detail_table. rewrite table_cells_ok; [reflexivity|].
  constructor; [apply header_texts_parse, plain_consts; reflexivity|].
  apply Forall_map, Forall_forall. intros [i x] Hx. apply In_enumerate_snd in Hx.
  rewrite Forall_forall in Ha. unfold detail_texts. cbn [fst snd].
  repeat constructor; cbn [snd]; apply para_parses_plain; autorewrite with ahp_rw; auto.
Qed.

Lemma pdf_details_ok a :
  keys_ready (length (ad_criteria_names a)) (ad_alternative_crs a) ->
  Forall (fun it => match snd it with AltEngine (AhpOk _) => True | _ => False end) (ad_alternative_crs a) ->
  Forall (fun s => plain s = true) (ad_criteria_names a) -> Forall (fun s => plain s = true) (ad_alternatives a) ->
  exists ds, pdf_details a = Ok ds.
Proof.
  intros Hk He Hc Ha. unfold pdf_details. destruct (_ && _ && _)%bool; [|eexists; reflexivity].
  build_paragraphs.
  assert (H : exists bs, pdf_detail_blocks (ad_criteria_names a) (ad_alternatives a) (ad_alternative_crs a) = Ok bs).
  { induction Hk as [|[key r] items (k & Hi & Hp) _ IH]; [eexists; reflexivity|].
    inversion He as [|? ? Hr He']; subst. cbn [pdf_detail_blocks]. unfold pdf_detail_block.
    cbn [fst snd] in *. rewrite Hi.
    destruct (pdf_crit_name_ok _ k Hp) as [nm Hn]. rewrite Hn. cbn [rbind].
    rewrite paragraph_ok by (apply bold_parses; rewrite plain_app, (pdf_crit_name_plain _ _ _ Hc Hn); reflexivity).
    destruct r as [|[o|n e]]; try contradiction. cbn [detail_body rbind].
    rewrite detail_table_ok by exact Ha. cbn [rbind]. rewrite paragraph_ok by apply params_text_parses.
    destruct (IH He') as [bs ->]. eexists. reflexivity. }
  destruct H as [bs ->]. eexists. reflexivity.
Qed.

Lemma table1_section_ok a :
  length (ad_alternatives a) <= length (ad_local_matrix a) ->
  Forall (fun row => length (ad_criteria_names a) <= length row) (ad_local_matrix a) ->
  Forall (fun s => plain s = true) (ad_criteria_names a) -> Forall (fun s => plain s = true) (ad_alternatives a) ->
  exists t, table1_section a = Ok t.
Proof.
  intros Hl Hr Hc Ha. unfold table1_section. destruct (_ && _ && _)%bool; [|eexists; reflexivity].
  build_paragraphs. rewrite pcell_ok by (apply bold_parses; reflexivity). cbn [rbind].
  rewrite header_row_ok by exact Hc. cbn [rbind].
  destruct (map_result_enumerate (table1_row (ad_local_matrix a) (length (ad_criteria_names a)))
              (ad_alternatives a)) as [rows ->]; [|eexists; reflexivity].
  intros i x Hi Hx. unfold table1_row. cbn [fst snd]. rewrite Forall_forall in Ha.
  rewrite pcell_ok by apply para_parses_plain, Ha, Hx. cbn [rbind].
  destruct (nth_error (ad_local_matrix a) i) as [row|] eqn:E; [|apply nth_error_None in E; lia].
  rewrite Forall_forall in Hr. pose proof (Hr row (nth_error_In _ _ E)) as Hrow.
  destruct (map_result_ok (fun j => match nth_error row j with
                                    | Some v => pcell StTableText (format_fixed 5 v)
                                    | None => Err ReportIndexError end)
              (seq 0 (length (ad_criteria_names a)))) as (cs & Ecs & _).
  - apply first_error_None. intros j Hj. apply in_seq in Hj.
    destruct (nth_error_covered row j ltac:(lia)) as [v ->].
    rewrite pcell_ok by apply para_parses_plain, plain_format_fixed. eexists. reflexivity.
  - rewrite Ecs. eexists. reflexivity.
Qed.

Lemma table2_section_ok a :
  length (ad_criteria_names a) <= length (ad_criteria_weights a) ->
  Forall (fun s => plain s = true) (ad_criteria_names a) -> exists t, table2_section a = Ok t.
Proof.
  intros Hl Hc. unfold table2_section. destruct (_ && _)%bool; [|eexists; reflexivity].
  build_paragraphs.
  destruct (map_result_enumerate (table2_row (ad_criteria_weights a)) (ad_criteria_names a))
    as [rows ->]; [|cbn [rbind]; rewrite paragraph_ok by apply cr_criteria_text_parses; eexists; reflexivity].
  intros i x Hi Hx. unfold table2_row. cbn [fst snd].
  destruct (nth_error_covered (ad_criteria_weights a) i ltac:(lia)) as [w ->].
  rewrite cells_ok; [eexists; reflexivity|]. rewrite Forall_forall in Hc.
  repeat constructor; cbn [snd]; apply para_parses_plain; autorewrite with ahp_rw; auto.
Qed.

Lemma table3_section_ok a :
  length (ad_alternatives a) <= length (ad_alternative_scores a) ->
  Forall (fun s => plain s = true) (ad_alternatives a) -> exists t, table3_section a = Ok t.
Proof.
  intros Hl Ha. unfold table3_section. destruct (_ && _)%bool; [|eexists; reflexivity].
  build_paragraphs.
  destruct (map_result_enumerate (table3_row (ad_alternative_scores a)) (ad_alternatives a))
    as [rows ->]; [|eexists; reflexivity].
  intros i x Hi Hx. unfold table3_row. cbn [fst snd].
  destruct (nth_error_covered (ad_alternative_scores a) i ltac:(lia)) as [w ->].
  rewrite cells_ok; [eexists; reflexivity|]. rewrite Forall_forall in Ha.
  repeat constructor; cbn [snd]; apply para_parses_plain; autorewrite with ahp_rw; auto.
Qed.

Lemma ranking_section_ok ranked :
  Forall (fun s => plain s = true) (map fst ranked) -> exists r, ranking_section ranked = Ok r.
Proof.
  intros Hp. unfold ranking_section. destruct ranked as [|[nm sc] rest] eqn:E; [eexists; reflexivity|].
  rewrite <- E in *. build_paragraphs. rewrite table_cells_ok.
  - cbn [rbind]. rewrite paragraph_ok; [eexists; reflexivity|].
    apply best_text_parses. subst ranked. inversion Hp. assumption.
  - constructor; [apply header_texts_parse, plain_consts; reflexivity|].
    apply Forall_map, Forall_forall. intros [i [x s]] Hx. apply In_enumerate_snd in Hx.
    rewrite Forall_forall in Hp. pose proof (Hp x (in_map fst _ _ Hx)) as Hn. cbn [ranking_row].
    repeat constructor; cbn [snd]; apply para_parses_plain; autorewrite with ahp_rw; auto.
Qed.

(** The outside texts of the story: the date and the messages of the
    images that fail to load. *)
Definition env_plain (today : string) (img : string -> image_status) : Prop :=
  plain today = true /\ forall f m, img f = ImageFails m -> plain m = true.

Lemma chart_block_ok title tag img f :
  para_parses title = true -> plain tag = true -> env_plain EmptyString img ->
  exists l, chart_block title tag img f = Ok l.
Proof.
  intros Ht Hg [_ Hi]. unfold chart_block. rewrite paragraph_ok by exact Ht. cbn [rbind].
  destruct (img f) eqn:E; [eexists; reflexivity| |].
  - rewrite paragraph_ok by (apply para_parses_plain; rewrite !plain_app, Hg; reflexivity). eexists. reflexivity.
  - rewrite paragraph_ok by (apply para_parses_plain; rewrite !plain_app, Hg, (Hi f msg E); reflexivity).
    eexists. reflexivity.
Qed.

Lemma charts_section_ok files img :
  env_plain EmptyString img -> exists l, charts_section files img = Ok l.
Proof.
  intros He. unfold charts_section. cbv zeta.
  destruct (chart_file files "criteria_weights_chart_file") as [fc|],
           (chart_file files "final_scores_chart_file") as [fp|];
    try (eexists; reflexivity); build_paragraphs;
    repeat match goal with
           | |- context [chart_block ?t ?g img ?f] =>
               destruct (chart_block_ok t g img f ltac:(reflexivity) ltac:(reflexivity) He) as [? ->]; cbn [rbind]
           end; eexists; reflexivity.
Qed.

(** A ready analysis gives its story, whatever the charts, when the date
    and the messages of failing images are plain. *)
Lemma pdf_story_ok today files img a :
  env_plain today img -> report_ready a -> exists story, pdf_story today files img a = Ok story.
Proof.
  intros [Ht Hi] [Hw Hs Hlr Hlc Hk He Hp].
  apply Forall_app in Hp as [Hpc Hp]. apply Forall_app in Hp as [Hpa Hpr].
  unfold pdf_story. build_paragraphs.
  destruct (charts_section_ok files img (conj eq_refl Hi)) as [c ->]. cbn [rbind].
  destruct (pdf_details_ok a Hk He Hpc Hpa) as [d ->]. build_paragraphs.
  destruct (table1_section_ok a Hlr Hlc Hpc Hpa) as [t1 ->]. destruct (table2_section_ok a Hw Hpc) as [t2 ->].
  destruct (table3_section_ok a Hs Hpa) as [t3 ->]. destruct (ranking_section_ok _ Hpr) as [r ->].
  eexists. reflexivity.
Qed.

(** [table2_section] raises once the weights run out before the names
    (unless a name that cannot be parsed raises first). *)
Lemma table2_section_short a :
  ad_criteria_weights a <> [] -> length (ad_criteria_weights a) < length (ad_criteria_names a) ->
  exists e, table2_section a = Err e.
Proof.
  intros Hw Hl. unfold table2_section.
  destruct (ad_criteria_weights a) as [|w ws] eqn:Ew; [contradiction|].
  destruct (ad_criteria_names a) as [|nm names] eqn:En; [cbn in Hl; lia|]. cbn [is_nil negb andb].
  build_paragraphs. rewrite <- En in *. rewrite <- Ew in *.
  destruct (first_error (table2_row (ad_criteria_weights a)) (enumerate (ad_criteria_names a))) as [e|] eqn:Ef.
  - rewrite (map_result_first_error _ _ e Ef). eexists. reflexivity.
  - exfalso. rewrite first_error_None in Ef.
    destruct (nth_error (ad_criteria_names a) (length (ad_criteria_weights a))) as [x|] eqn:Ex;
      [|apply nth_error_None in Ex; lia].
    destruct (Ef _ (nth_error_In _ _ (nth_error_enumerate _ _ _ Ex))) as [v Hv].
    unfold table2_row in Hv. cbn [fst] in Hv. rewrite (proj2 (nth_error_None _ _)) in Hv by lia.
    discriminate.
Qed.

(** The story raises when table 2 or the ranking does. *)
Lemma pdf_story_err today files img a e :
  table2_section a = Err e \/ ranking_section (ad_ranked_alternatives a) = Err e ->
  exists e', pdf_story today files img a = Err e'.
Proof.
  intros H. unfold pdf_story.
  repeat match goal with
         | |- context [rbind ?c _] => destruct c eqn:?; cbn [rbind]; [|eexists; reflexivity]
         end.
  destruct H as [H|H]; congruence.
Qed.

(** A first-ranked name reportlab cannot parse makes the ranking raise. *)
Lemma ranking_section_markup nm sc rest :
  para_parses nm = false -> exists e, ranking_section ((nm, sc) :: rest) = Err e.
Proof.
  intros H. unfold ranking_section. rewrite paragraph_ok by reflexivity. cbn [rbind].
  unfold table_cells, ranking_table. cbn [map_result].
  rewrite cells_ok by (apply header_texts_parse, plain_consts; reflexivity). cbn [rbind].
  cbn [enumerate length seq combine map ranking_row map_result].
  cbn [fst snd]. rewrite pcell_ok by reflexivity. cbn [rbind]. unfold pcell at 1. rewrite H.
  eexists. reflexivity.
Qed.

(** [f"{x:.kf}"] of any float reads back as [round(x, k)]. *)
Lemma fmt_float_py_round k x : 1 <= k -> py_float (fmt_float k x) = Some (py_round k x).
Proof. intros Hk. destruct x; [apply format_fixed_py_round, Hk|reflexivity..]. Qed.

(** [C28] The PDF and the Excel report show the same ranking: row
    [i + 1] of the ranking table of the PDF holds the rank, the name, the
    score and the percentage of the [i]-th ranked alternative, and the
    texts of the score and of the percentage, read by [float], are the
    very floats the Excel ranking sheet writes in row [4 + i] next to the
    same rank and name. *)
Theorem pdf_excel_ranking_agree a i nm sc :
  nth_error (ad_ranked_alternatives a) i = Some (nm, sc) ->
  exists t_score t_pct,
    nth_error (ranking_table (ad_ranked_alternatives a)) (S i)
      = Some [(StTableText, py_str_Z (Z.of_nat (S i))); (StAltName, nm);
              (StHighlightScore, t_score); (StHighlightScore, t_pct ++ "%")]
    /\ ws_get (ranking_sheet a) (4 + i) 1 = RInt (Z.of_nat (S i))
    /\ ws_get (ranking_sheet a) (4 + i) 2 = RStr nm
    /\ reads_as t_score (ws_get (ranking_sheet a) (4 + i) 3)
    /\ reads_as t_pct (ws_get (ranking_sheet a) (4 + i) 4).
Proof.
  intros Hi. exists (format_fixed 4 sc), (fmt_float 2 (fl (sc * 100))).
  unfold ranking_table. cbn [nth_error]. rewrite nth_error_map, (nth_error_enumerate _ _ _ Hi).
  rewrite !(ranking_sheet_cell a i nm sc) by (exact Hi || lia).
  split; [reflexivity|]. split; [reflexivity|]. split; [reflexivity|].
  split; eexists; (split; [reflexivity|]); apply fmt_float_py_round with (x := Fin sc) || apply fmt_float_py_round; lia.
Qed.

(** ** Witnesses *)

(** Witness of [C28]: the first alternative of [Store.example_analysis]. *)
Lemma pdf_excel_ranking_agree_witness :
  nth_error (ad_ranked_alternatives example_analysis) 0 = Some ("A", (3 # 5)%Q)
  /\ exists t_score t_pct,
    nth_error (ranking_table (ad_ranked_alternatives example_analysis)) (S 0)
      = Some [(StTableText, py_str_Z (Z.of_nat (S 0))); (StAltName, "A");
              (StHighlightScore, t_score); (StHighlightScore, t_pct ++ "%")]
    /\ ws_get (ranking_sheet example_analysis) (4 + 0) 1 = RInt (Z.of_nat (S 0))
    /\ ws_get (ranking_sheet example_analysis) (4 + 0) 2 = RStr "A"
    /\ reads_as t_score (ws_get (ranking_sheet example_analysis) (4 + 0) 3)
    /\ reads_as t_pct (ws_get (ranking_sheet example_analysis) (4 + 0) 4).
Proof. split; [reflexivity|]. apply (pdf_excel_ranking_agree example_analysis 0 "A" (3 # 5)%Q). reflexivity. Defined.
