(* ===== verification/Workflow.v ===== *)
(** * Workflow: the routes of [app.py] on the Flask session and the database

    A user goes through four requests: [home] (app.py:306-324) opens a
    Flask session and clears the entries of an earlier analysis;
    [start_ahp_route] (352-402) stores the selected criteria and
    alternatives; [calculate_criteria_route] (497-654) builds the criteria
    matrix, runs the engine, keeps the result in the session and saves the
    weights of a consistent matrix; [calculate_final_route] (655-808)
    aggregates, saves the analysis and clears the session.  In place of
    [start_ahp_route] the user may upload a workbook: [import_excel_route]
    (404-494) reads it with the readers of [Excel] and keeps its names
    and matrices in the session, which the later steps then use.  A saved
    analysis is listed by [history_list_route], shown by
    [view_result_route] and downloaded by [download_excel_report] and
    [download_pdf_report] (1091-1323), each for its own session only.

    The Flask session is the record [session], one optional field per key
    the routes use ([None] when the key is absent); [pop_keys] is the loop
    [for key in keys_to_pop: session.pop(key, None)].  Each route is a
    function from the request data, the session and the database ([Store])
    to the response, the new session and the new database, with the
    branches of the code: its redirects, the [ValueError] and generic
    [except] of the [try] blocks, and the exceptions raised outside them
    ([InternalServerError], the HTTP 500 of Flask).  [handle] dispatches a
    request; [reachable] is the closure of [handle] from an empty session. *)

From Stdlib Require Import String QArith ZArith List Lia Bool Permutation Sorted.
From S2P Require Import Prelude Binary64 PyStr Saaty Engine Builder Render Ranking Aggregate Store Excel Reports Pdf.
Import ListNotations.
Open Scope Z_scope.

(** ** The Flask session *)

Record session := Session
  { flask_session_id : option string;
    current_criteria_tuples : option (list (Z * string));
    current_alternatives_tuples : option (list (Z * string));
    criteria_ahp_results : option crit_result;
    form_data_criteria_temp : option form;
    form_data_alternatives_temp : option form;
    alternative_crs_temp : option (list (string * alt_result));
    data_imported_from_excel : option bool;
    imported_criteria_matrix : option (list (list pyfloat));
    imported_alternative_matrices : option (list (string * list (list pyfloat)));
    specific_criteria_matrix_imported : option bool }.

Definition empty_session : session :=
  Session None None None None None None None None None None None.

(** The keys the routes pop. *)
Inductive key : Type :=
| KCriteriaResults | KCriteriaTuples | KAlternativesTuples | KFormCriteria | KFormAlternatives
| KAlternativeCrs | KImported | KImportedCriteria | KImportedAlternatives | KSpecific.

(** [session.pop(key, None)]. *)
Definition pop (k : key) (s : session) : session :=
  let 'Session f ct al cr fc fa ac di ic ia sp := s in
  match k with
  | KCriteriaResults => Session f ct al None fc fa ac di ic ia sp
  | KCriteriaTuples => Session f None al cr fc fa ac di ic ia sp
  | KAlternativesTuples => Session f ct None cr fc fa ac di ic ia sp
  | KFormCriteria => Session f ct al cr None fa ac di ic ia sp
  | KFormAlternatives => Session f ct al cr fc None ac di ic ia sp
  | KAlternativeCrs => Session f ct al cr fc fa None di ic ia sp
  | KImported => Session f ct al cr fc fa ac None ic ia sp
  | KImportedCriteria => Session f ct al cr fc fa ac di None ia sp
  | KImportedAlternatives => Session f ct al cr fc fa ac di ic None sp
  | KSpecific => Session f ct al cr fc fa ac di ic ia None
  end.

Definition pop_keys (ks : list key) (s : session) : session := fold_left (fun s k => pop k s) ks s.

(** The assignments [session[key] = value] of the routes. *)
Definition set_flask_session_id (s : session) (v : string) : session :=
  let 'Session _ ct al cr fc fa ac di ic ia sp := s in Session (Some v) ct al cr fc fa ac di ic ia sp.
Definition set_tuples (s : session) (ct al : list (Z * string)) : session :=
  let 'Session f _ _ cr fc fa ac di ic ia sp := s in Session f (Some ct) (Some al) cr fc fa ac di ic ia sp.
Definition set_criteria_results (s : session) (r : crit_result) : session :=
  let 'Session f ct al _ fc fa ac di ic ia sp := s in Session f ct al (Some r) fc fa ac di ic ia sp.
Definition set_form_criteria (s : session) (fd : form) : session :=
  let 'Session f ct al cr _ fa ac di ic ia sp := s in Session f ct al cr (Some fd) fa ac di ic ia sp.
Definition set_form_alternatives (s : session) (fd : form) : session :=
  let 'Session f ct al cr fc _ ac di ic ia sp := s in Session f ct al cr fc (Some fd) ac di ic ia sp.
Definition set_alternative_crs (s : session) (d : list (string * alt_result)) : session :=
  let 'Session f ct al cr fc fa _ di ic ia sp := s in Session f ct al cr fc fa (Some d) di ic ia sp.
Definition set_imported_criteria (s : session) (m : list (list pyfloat)) : session :=
  let 'Session f ct al cr fc fa ac di _ ia sp := s in Session f ct al cr fc fa ac di (Some m) ia sp.
(** [session['imported_alternative_matrices'] = ...] and
    [session['data_imported_from_excel'] = True]. *)
Definition set_imported_alternatives (s : session) (ms : list (string * list (list pyfloat))) : session :=
  let 'Session f ct al cr fc fa ac _ ic _ sp := s in Session f ct al cr fc fa ac (Some true) ic (Some ms) sp.

(** The keys popped by [home] (app.py:310-316), [start_ahp_route]
    (389-391) and a successful [calculate_final_route] (793-795). *)
Definition home_keys : list key :=
  [KCriteriaResults; KCriteriaTuples; KAlternativesTuples; KFormCriteria; KFormAlternatives;
   KAlternativeCrs; KImported; KImportedCriteria; KImportedAlternatives].
Definition start_keys : list key :=
  [KCriteriaResults; KFormCriteria; KFormAlternatives; KAlternativeCrs; KImported;
   KImportedCriteria; KImportedAlternatives].
Definition final_keys : list key := start_keys.
(** The keys popped by the [except] of [import_excel_route] (app.py:488-490). *)
Definition import_keys : list key :=
  [KImported; KImportedCriteria; KImportedAlternatives; KCriteriaTuples; KAlternativesTuples].

(** Python truth tests on session values. *)
Definition flag_set (o : option bool) : bool := match o with Some b => b | None => false end.
Definition nonempty {A} (o : option (list A)) : bool :=
  match o with Some (_ :: _) => true | _ => false end.
Definition is_some {A} (o : option A) : bool := match o with Some _ => true | None => false end.

(** [[int(x) for x in xs]]: [None] is the [ValueError]. *)
Fixpoint map_py_int (xs : list string) : option (list Z) :=
  match xs with
  | [] => Some []
  | x :: xs => match py_int x, map_py_int xs with Some k, Some ks => Some (k :: ks) | _, _ => None end
  end.

(** ** Responses *)

Inductive response : Type :=
| RedirectHome
| RenderSelection (criteria alternatives : list (Z * string))
| RenderCriteriaStep (criteria alternatives : list (Z * string))
| RenderCriteriaResult (r : ahp_result) (show_alternatives_form : bool)
| RenderCriteriaInputError (e : build_error)
| RenderCriteriaError
| RenderFinal (o : final_outcome string) (analysis_id : option Z)
| RenderImported (criteria alternatives : list (Z * string)) (form_data_criteria : form)
| RenderHistory (analyses : list (Z * Z * option string * Z))
| RenderResult (v : analysis_view) (bars : option (list (Q * string)))
    (pie : option (option (list string * list Q)))
| SendExcel (sheets : list wsheet)
| SendPdf (story : list flowable)
| RedirectHistory
| RedirectResult (analysis_id : Z)
| InternalServerError.

(** ** The routes *)

Section Routes.
(** The collation of the database server. *)
Variable coll_eq : string -> string -> bool.

(** [home()] (app.py:306-324); [uuid] is [str(uuid.uuid4())]. *)
Definition home (uuid : string) (s : session) (d : db) : response * session * db :=
  let s1 := match flask_session_id s with None => set_flask_session_id s uuid | Some _ => s end in
  (RenderSelection (get_criteria_from_db d) (get_all_alternatives d), pop_keys home_keys s1, d).

(** [start_ahp_route()] (app.py:352-402) on the two lists of the form. *)
Definition start_ahp_route (crit_ids alt_ids : list string) (s : session) (d : db)
  : response * session * db :=
  match flask_session_id s with
  | None => (RedirectHome, s, d)
  | Some _ =>
      match map_py_int crit_ids, map_py_int alt_ids with
      | Some cids, Some aids =>
          if (length cids <? 3)%nat then (RedirectHome, s, d)
          else if (length aids <? 2)%nat then (RedirectHome, s, d)
          else
            let ct := get_criteria_by_ids cids d in
            let al := get_alternatives_by_ids aids d in
            if negb (Nat.eqb (length ct) (length cids)) || negb (Nat.eqb (length al) (length aids))
            then (RedirectHome, s, d)
            else (RenderCriteriaStep ct al, pop_keys start_keys (set_tuples s ct al), d)
      | _, _ => (RedirectHome, s, d)
      end
  end.

(** [form_data_alt_to_render] (app.py:517-525), before the [try]: the
    conversion of imported matrices may raise. *)
Definition alt_render_ok (s : session) : bool :=
  if flag_set (data_imported_from_excel s) && nonempty (imported_alternative_matrices s) then
    match imported_alternative_matrices s with
    | Some ms => is_ok (convert_all_alt_matrices_to_form_data ms)
    | None => true
    end
  else true.

(** The end of the [try] of [calculate_criteria_route] once the matrix is
    built (app.py:573-612): the result is kept in the session; the weights
    of a consistent result are saved, and the matrix too unless it was
    imported. *)
Definition criteria_result (sid : option Z) (ct : list (Z * string)) (m : list (list pyfloat))
  (s : session) (d : db) : response * session * db :=
  let r := calculate_ahp m in
  let s1 := set_criteria_results s (CritEngine r) in
  match r with
  | AhpErr _ _ => (RenderCriteriaResult r false, s1, d)
  | AhpOk o =>
      if res_is_consistent o then
        let d1 := if is_nil (res_weights o) then d
                  else snd (save_criteria_weights sid ct (Some (res_weights o)) d) in
        let d2 := if flag_set (data_imported_from_excel s) then d1
                  else snd (save_criteria_comparison_matrix sid ct m d1) in
        (RenderCriteriaResult r true, s1, d2)
      else (RenderCriteriaResult r false, s1, d)
  end.

(** The [except ValueError] of [calculate_criteria_route]
    (app.py:614-637): an error dictionary with uniform weights. *)
Definition criteria_input_error (n : nat) (e : build_error) (s : session) (d : db)
  : response * session * db :=
  (RenderCriteriaInputError e, set_criteria_results s (CritInputError n), d).

(** The first source of the criteria matrix (app.py:529-545): the form
    kept by a specific import of the criteria sheet. *)
Definition criteria_from_specific (sid : option Z) (ct : list (Z * string)) (fd : form)
  (s : session) (d : db) : response * session * db :=
  let s1 := pop KSpecific (pop KFormCriteria s) in
  match build_criteria_matrix fd (length ct) with
  | Err e => criteria_input_error (length ct) e s1 d
  | Ok m => criteria_result sid ct m (set_imported_criteria s1 m) d
  end.

(** The second source (app.py:548-553): the imported matrix, printed back
    into the form data; a failed conversion is a generic exception. *)
Definition criteria_from_import (sid : option Z) (ct : list (Z * string))
  (s : session) (d : db) : response * session * db :=
  match imported_criteria_matrix s with
  | Some m =>
      match convert_numpy_matrix_to_form_data m "matrix" None with
      | Err _ => (RenderCriteriaError, s, d)
      | Ok fd => criteria_result sid ct m (set_form_criteria s fd) d
      end
  | None => (RenderCriteriaError, s, d)
  end.

(** The third source (app.py:556-571): the submitted form, kept in the
    session before it is read. *)
Definition criteria_from_form (sid : option Z) (ct : list (Z * string)) (f : form)
  (s : session) (d : db) : response * session * db :=
  let s1 := set_form_criteria s f in
  match build_criteria_matrix f (length ct) with
  | Err e => criteria_input_error (length ct) e s1 d
  | Ok m => criteria_result sid ct m s1 d
  end.

(** [calculate_criteria_route()] (app.py:497-654); [f] is the submitted
    form. *)
Definition calculate_criteria_route (f : form) (s : session) (d : db) : response * session * db :=
  let gc := get_or_create_session_db_id coll_eq (flask_session_id s) d in
  let sid := fst gc in
  let d1 := snd gc in
  match current_criteria_tuples s, current_alternatives_tuples s with
  | Some ((_ :: _) as ct), Some (_ :: _) =>
      if negb (truthy_id sid) then (RedirectHome, s, d1)
      else if negb (alt_render_ok s) then (InternalServerError, s, d1)
      else match (if flag_set (specific_criteria_matrix_imported s)
                  then form_data_criteria_temp s else None) with
           | Some ((_ :: _) as fd) => criteria_from_specific sid ct fd s d1
           | _ =>
               if flag_set (data_imported_from_excel s) && is_some (imported_criteria_matrix s)
               then criteria_from_import sid ct s d1
               else criteria_from_form sid ct f s d1
           end
  | _, _ => (RedirectHome, s, d1)
  end.
(** [form_data_criteria_render] (app.py:667-669), before the [try]: the
    imported matrix is printed when no form is kept, which may raise. *)
Definition criteria_render_ok (s : session) : bool :=
  let kept := match form_data_criteria_temp s with Some fd => fd | None => [] end in
  if flag_set (data_imported_from_excel s) && is_some (imported_criteria_matrix s) && is_nil kept then
    match imported_criteria_matrix s with
    | Some m => is_ok (convert_numpy_matrix_to_form_data m "matrix" None)
    | None => true
    end
  else true.

(** [[name for _, name in tuples]]. *)
Definition names_of (t : list (Z * string)) : list string := map snd t.

(** [alternative_local_scores_matrix_np.tolist()]: the rows of the
    alternatives, from the columns of the criteria. *)
Definition local_matrix (cols : list (list Q)) (n_alt : nat) : list (list Q) :=
  vec_of n_alt (fun a => map (fun col => vat col a) cols).

(** [alternative_ahp_results_by_crit_idx] of the form branch. *)
Definition form_results (alts : list alt_result) : list (string * alt_result) :=
  map (fun ia => (py_str_Z (Z.of_nat (fst ia)), snd ia)) (combine (seq 0 (length alts)) alts).

(** [criteria_ahp_results.get("CR")]. *)
Definition crit_cr (c : crit_result) : option pyfloat :=
  match c with CritEngine (AhpOk r) => Some (res_CR r) | _ => None end.

(** The end of the [try] of [calculate_final_route] (app.py:770-797): on
    a ranking, the local scores and the analysis are saved and the
    session is cleared; otherwise the outcome is rendered. *)
Definition final_effects (sid : option Z) (ct al : list (Z * string)) (cr : crit_result)
  (o : final_outcome string) (cols : list (list Q)) (results : list (string * alt_result))
  (s : session) (d : db) : response * session * db :=
  match o with
  | Ranked scores ranking =>
      let lm := local_matrix cols (length al) in
      let d1 := snd (save_alternative_scores sid al ct lm d) in
      let data := AnalysisData (names_of ct) (crit_weights cr) (names_of al) scores ranking
                    (crit_cr cr) (crit_consistent cr) results lm in
      let sv := save_ahp_analysis sid data d1 in
      (RenderFinal o (fst sv), pop_keys final_keys s, snd sv)
  | _ => (RenderFinal o None, s, d)
  end.

(** [calculate_final_route()] (app.py:655-808); [f] is the submitted
    form of the alternative matrices. *)
Definition calculate_final_route (f : form) (s : session) (d : db) : response * session * db :=
  let gc := get_or_create_session_db_id coll_eq (flask_session_id s) d in
  let sid := fst gc in
  let d1 := snd gc in
  match current_criteria_tuples s, current_alternatives_tuples s, criteria_ahp_results s with
  | Some ((_ :: _) as ct), Some ((_ :: _) as al), Some cr =>
      if negb (truthy_id sid) then (RedirectHome, s, d1)
      else if negb (criteria_render_ok s) then (InternalServerError, s, d1)
      else if negb (crit_consistent cr) || is_nil (crit_weights cr)
      then (RenderFinal RefusedCriteria None, s, d1)
      else
        let names := names_of al in
        let n := length ct in
        match (if flag_set (data_imported_from_excel s)
               then imported_alternative_matrices s else None) with
        | Some items =>
            match fold_left (import_step n (length names)) items
                    (Some (ImportState [] false false (repeat (repeat 0%Q (length names)) n))) with
            | None => (RenderFinal ServerError None, s, d1)
            | Some st =>
                final_effects sid ct al cr (calculate_final_import (Some cr) names n items)
                  (imp_cols st) (imp_results st) (set_alternative_crs s (imp_results st)) d1
            end
        | None =>
            let s1 := set_form_alternatives s f in
            let alts := alt_results_of_form f n (length names) in
            match local_columns (length names) alts with
            | None => (RenderFinal ServerError None, s1, d1)
            | Some cols =>
                final_effects sid ct al cr (calculate_final (Some cr) names n alts) cols
                  (form_results alts) (set_alternative_crs s1 (form_results alts)) d1
            end
        end
  | _, _, _ => (RedirectHome, s, d1)
  end.

(** The session's row of the database, as the history and report routes
    get it: [get_or_create_session_db_id(v) if v else None]; the model's
    [get_or_create_session_db_id] already returns [None] for a missing or
    empty id. *)
Definition session_db_id (s : session) (d : db) : option Z * db :=
  get_or_create_session_db_id coll_eq (flask_session_id s) d.

(** [history_list_route()] (app.py:1298-1305). *)
Definition history_list_route (s : session) (d : db) : response * session * db :=
  let gc := session_db_id s d in
  let sid := fst gc in
  let d1 := snd gc in
  let fid_set := match flask_session_id s with Some v => negb (String.eqb v "") | None => false end in
  if negb (truthy_id sid) && negb fid_set then (RedirectHome, s, d1)
  else (RenderHistory (if truthy_id sid then get_ahp_analyses_by_session_db_id sid d1 else []), s, d1).

(** [view_result_route(analysis_id)] (app.py:1308-1323): the charts are
    given by their data. *)
Definition view_result_route (aid : Z) (s : session) (d : db) : response * session * db :=
  let gc := session_db_id s d in
  let sid := fst gc in
  let d1 := snd gc in
  if negb (truthy_id sid) then (RedirectHistory, s, d1)
  else match get_ahp_analysis_by_id (Some aid) sid d1 with
       | Some v =>
           let a := av_data v in
           (RenderResult v (criteria_bars (ad_criteria_names a) (ad_criteria_weights a))
              (pie_slices (ad_ranked_alternatives a)), s, d1)
       | None => (RedirectHistory, s, d1)
       end.

(** [download_excel_report(analysis_id)] (app.py:1091-1107); [today] is
    the date written in the report. *)
Definition download_excel_report (aid : Z) (today : string) (s : session) (d : db)
  : response * session * db :=
  let gc := session_db_id s d in
  let sid := fst gc in
  let d1 := snd gc in
  if negb (truthy_id sid) then (RedirectHistory, s, d1)
  else match get_ahp_analysis_by_id (Some aid) sid d1 with
       | Some v =>
           match create_excel_report today (av_data v) with
           | Ok sheets => (SendExcel sheets, s, d1)
           | Err _ => (RedirectResult aid, s, d1)
           end
       | None => (RedirectHistory, s, d1)
       end.

(** [download_pdf_report(analysis_id)] (app.py:1109-1295): [env] is what
    the drawing, the file system and reportlab do ([Pdf.pdf_env]).  A
    failing [doc.build] flashes and redirects to the result page; an
    exception raised while the story is built is not caught. *)
Definition download_pdf_report (aid : Z) (env : pdf_env) (s : session) (d : db)
  : response * session * db :=
  let gc := session_db_id s d in
  let sid := fst gc in
  let d1 := snd gc in
  if negb (truthy_id sid) then (RedirectHistory, s, d1)
  else match get_ahp_analysis_by_id (Some aid) sid d1 with
       | Some v =>
           match create_pdf_report aid env (av_data v) with
           | PdfSent story => (SendPdf story, s, d1)
           | PdfBuildFailed => (RedirectResult aid, s, d1)
           | PdfRaised _ => (InternalServerError, s, d1)
           end
       | None => (RedirectHistory, s, d1)
       end.

(** [add_criteria_route()] (app.py:327-337). *)
Definition add_criteria_route (name : string) (s : session) (d : db) : response * session * db :=
  let n := strip name in
  if String.eqb n "" then (RedirectHome, s, d)
  else (RedirectHome, s, snd (add_criteria coll_eq n "" d)).

(** [add_alternative_route()] (app.py:340-350). *)
Definition add_alternative_route (name : string) (s : session) (d : db) : response * session * db :=
  let n := strip name in
  if String.eqb n "" then (RedirectHome, s, d)
  else (RedirectHome, s, snd (add_alternative coll_eq n "" d)).

End Routes.

(** [request.files['excel_file']]: its file name and the workbook
    [load_workbook] reads from it, [None] when that raises. *)
Record upload := Upload { up_filename : string; up_workbook : option workbook }.

(** [import_excel_route()] (app.py:404-494).  The session is written as
    the code goes: the tuples (436-437) before the criteria sheet is
    checked, the criteria matrix (445) before the alternatives sheet, and
    only the [except] branch clears them.  The fuel [S (max_row sa)] of
    the block loop is enough ([Excel.scan_blocks_enough]), so its [None]
    branch is never taken. *)
Definition import_excel_route (file : option upload) (s : session) (d : db)
  : response * session * db :=
  match file with
  | None => (RedirectHome, s, d)
  | Some u =>
      if String.eqb (up_filename u) "" then (RedirectHome, s, d)
      else if negb (allowed_file (up_filename u)) then (RedirectHome, s, d)
      else
        let fail := fun s' => (RedirectHome, pop_keys import_keys s', d) in
        match up_workbook u with
        | None => fail s
        | Some wb =>
            match sheet_of wb "DanhSach" with
            | None => (RedirectHome, s, d)
            | Some sl =>
                let cn := column_names sl 1 in
                let an := column_names sl 2 in
                if (length cn <? 4)%nat then (RedirectHome, s, d)
                else if (length an <? 3)%nat then (RedirectHome, s, d)
                else
                  let ct := tuples_of (get_criteria_from_db d) cn in
                  let al := tuples_of (get_all_alternatives d) an in
                  let s1 := set_tuples s ct al in
                  match sheet_of wb "MaTranTieuChi" with
                  | None => (RedirectHome, s1, d)
                  | Some sc =>
                      match parse_matrix_from_sheet sc cn cn with
                      | Err _ => fail s1
                      | Ok None => (RedirectHome, s1, d)
                      | Ok (Some cm) =>
                          let s2 := set_imported_criteria s1 cm in
                          match sheet_of wb "TatCaMaTranPA" with
                          | None => (RedirectHome, s2, d)
                          | Some sa =>
                              match scan_blocks sa cn an (length an) (S (max_row sa)) 1
                                      (ScanState [] []) with
                              | None | Some (ScanRaised _) => fail s2
                              | Some ScanRefused => (RedirectHome, s2, d)
                              | Some (ScanDone st) =>
                                  if negb (Nat.eqb (length (sc_found st)) (length cn)) then
                                    if forallb cv_is_str (missing_names cn (sc_found st))
                                    then (RedirectHome, s2, d) else fail s2
                                  else
                                    let s3 := set_imported_alternatives s2 (sc_imported st) in
                                    match convert_numpy_matrix_to_form_data cm "matrix" None with
                                    | Err _ => fail s3
                                    | Ok fd => (RenderImported ct al fd, s3, d)
                                    end
                              end
                          end
                      end
                  end
            end
        end
  end.

(** ** Requests and the reachable states *)

Inductive request : Type :=
| Home (uuid : string)
| AddCriteriaRoute (name : string)
| AddAlternativeRoute (name : string)
| StartAhp (crit_ids alt_ids : list string)
| CalculateCriteria (f : form)
| CalculateFinal (f : form)
| ImportExcel (file : option upload)
| History
| ViewResult (analysis_id : Z)
| DownloadExcel (analysis_id : Z) (today : string)
| DownloadPdf (analysis_id : Z) (env : pdf_env).

Definition handle (coll_eq : string -> string -> bool) (r : request) (s : session) (d : db)
  : response * session * db :=
  match r with
  | Home u => home u s d
  | AddCriteriaRoute n => add_criteria_route coll_eq n s d
  | AddAlternativeRoute n => add_alternative_route coll_eq n s d
  | StartAhp c a => start_ahp_route c a s d
  | CalculateCriteria f => calculate_criteria_route coll_eq f s d
  | CalculateFinal f => calculate_final_route coll_eq f s d
  | ImportExcel u => import_excel_route u s d
  | History => history_list_route coll_eq s d
  | ViewResult k => view_result_route coll_eq k s d
  | DownloadExcel k t => download_excel_report coll_eq k t s d
  | DownloadPdf k e => download_pdf_report coll_eq k e s d
  end.

Definition next_session (rsd : response * session * db) : session := snd (fst rsd).
Definition next_db (rsd : response * session * db) : db := snd rsd.
Definition resp (rsd : response * session * db) : response := fst (fst rsd).

(** The states of one browser session: its Flask session and the
    database, from an empty session; other sessions and other users change
    the database in between. *)
Inductive reachable (coll_eq : string -> string -> bool) : session -> db -> Prop :=
| reach_init (d : db) : db_reachable coll_eq d -> reachable coll_eq empty_session d
| reach_request (r : request) (s : session) (d : db) :
    reachable coll_eq s d ->
    reachable coll_eq (next_session (handle coll_eq r s d)) (next_db (handle coll_eq r s d))
| reach_other (op : db_op) (s : session) (d : db) :
    reachable coll_eq s d -> reachable coll_eq s (run_op coll_eq op d).

(** ** Invariants of the session *)

(** Case analysis on every [match] and [if] of the goal. *)
Ltac split_matches :=
  repeat match goal with
         | |- context [match ?x with _ => _ end] => destruct x
         end.

(** The same, keeping the equation of each case. *)
Ltac split_matches_eqn :=
  repeat match goal with
         | |- context [match ?x with _ => _ end] => let E := fresh "E" in destruct x eqn:E
         end.

(** No route sets [specific_criteria_matrix_imported]. *)
Lemma handle_specific coll_eq r s d :
  specific_criteria_matrix_imported s = None ->
  specific_criteria_matrix_imported (next_session (handle coll_eq r s d)) = None.
Proof.
  destruct s as [f ct al cr fc fa ac di ic ia sp]; cbn [specific_criteria_matrix_imported].
  intros ->. destruct r; cbn [handle];
    unfold home, add_criteria_route, add_alternative_route, start_ahp_route,
      calculate_criteria_route, calculate_final_route, criteria_from_specific,
      criteria_from_import, criteria_from_form, criteria_result, criteria_input_error,
      final_effects, import_excel_route, history_list_route, view_result_route,
      download_excel_report, download_pdf_report, session_db_id, next_session;
    split_matches; reflexivity.
Qed.

(** ** The database along the routes *)

Section Store_steps.
Variable coll_eq : string -> string -> bool.

Lemma reach_get_or_create v d :
  db_reachable coll_eq d -> db_reachable coll_eq (snd (get_or_create_session_db_id coll_eq v d)).
Proof. exact (db_step _ (GetOrCreateSession v) d). Qed.
Lemma reach_add_criteria n s d :
  db_reachable coll_eq d -> db_reachable coll_eq (snd (add_criteria coll_eq n s d)).
Proof. exact (db_step _ (Store.AddCriteria n s) d). Qed.
Lemma reach_add_alternative n s d :
  db_reachable coll_eq d -> db_reachable coll_eq (snd (add_alternative coll_eq n s d)).
Proof. exact (db_step _ (Store.AddAlternative n s) d). Qed.
Lemma reach_save_weights sid c w d :
  db_reachable coll_eq d -> db_reachable coll_eq (snd (save_criteria_weights sid c w d)).
Proof. exact (db_step _ (SaveCriteriaWeights sid c w) d). Qed.
Lemma reach_save_scores sid a c m d :
  db_reachable coll_eq d -> db_reachable coll_eq (snd (save_alternative_scores sid a c m d)).
Proof. exact (db_step _ (SaveAlternativeScores sid a c m) d). Qed.
Lemma reach_save_comparison sid c m d :
  db_reachable coll_eq d -> db_reachable coll_eq (snd (save_criteria_comparison_matrix sid c m d)).
Proof. exact (db_step _ (SaveCriteriaComparison sid c m) d). Qed.
Lemma reach_save_analysis sid a d :
  db_reachable coll_eq d -> db_reachable coll_eq (snd (save_ahp_analysis sid a d)).
Proof. exact (db_step _ (SaveAnalysis sid a) d). Qed.
End Store_steps.

Create HintDb store.
#[export] Hint Resolve reach_get_or_create reach_add_criteria reach_add_alternative
  reach_save_weights reach_save_scores reach_save_comparison reach_save_analysis : store.

(** Every route changes the database by operations of [model.py]. *)
Lemma handle_db coll_eq r s d :
  db_reachable coll_eq d -> db_reachable coll_eq (next_db (handle coll_eq r s d)).
Proof.
  intros Hd. destruct r; cbn [handle];
    unfold home, add_criteria_route, add_alternative_route, start_ahp_route,
      calculate_criteria_route, calculate_final_route, criteria_from_specific,
      criteria_from_import, criteria_from_form, criteria_result, criteria_input_error,
      final_effects, import_excel_route, history_list_route, view_result_route,
      download_excel_report, download_pdf_report, session_db_id, next_db;
    split_matches; cbn [snd]; eauto 7 with store.
Qed.

Lemma reachable_db_specific coll_eq s d :
  reachable coll_eq s d -> db_reachable coll_eq d /\ specific_criteria_matrix_imported s = None.
Proof.
  induction 1 as [d Hd|r s d _ [Hd Hs]|op s d _ [Hd Hs]].
  - split; [exact Hd|reflexivity].
  - split; [apply handle_db, Hd|apply handle_specific, Hs].
  - split; [apply db_step, Hd|exact Hs].
Qed.

(** ** What a ranking leaves behind *)

Lemma final_effects_ranked coll_eq sid ct al cr o cols results s d sc rk aid s' d' :
  wf coll_eq d ->
  final_effects sid ct al cr o cols results s d = (RenderFinal (Ranked sc rk) (Some aid), s', d') ->
  s' = pop_keys final_keys s
  /\ exists k v, sid = Some k /\ get_ahp_analysis_by_id (Some aid) (Some k) d' = Some v
     /\ ad_ranked_alternatives (av_data v) = rk /\ ad_alternative_scores (av_data v) = sc.
Proof.
  intros Hwf. unfold final_effects. destruct o as [| | | |scores ranking]; try discriminate.
  set (d1 := snd (save_alternative_scores sid al ct (local_matrix cols (length al)) d)).
  assert (Hw1 : wf coll_eq d1) by exact (wf_run_op coll_eq (SaveAlternativeScores _ _ _ _) d Hwf).
  set (data := AnalysisData _ _ _ _ _ _ _ _ _).
  destruct (save_ahp_analysis sid data d1) as [a d2] eqn:Es. intros H. injection H.
  intros <- <- -> <- <-. split; [reflexivity|].
  destruct sid as [k|]; [|cbn in Es; congruence].
  destruct (save_ahp_analysis_readback coll_eq k data d1 aid d2 Hw1 Es) as [Hg _].
  exists k. eexists. split; [reflexivity|]. split; [exact Hg|]. split; reflexivity.
Qed.

Lemma pop_final_results s : criteria_ahp_results (pop_keys final_keys s) = None.
Proof. destruct s; reflexivity. Qed.

(** Without a criteria result the final route redirects. *)
Lemma final_route_no_results coll_eq f s d :
  criteria_ahp_results s = None -> resp (calculate_final_route coll_eq f s d) = RedirectHome.
Proof.
  intros H. unfold calculate_final_route. rewrite H. cbv zeta. split_matches; reflexivity.
Qed.

(** [C17] After a ranking the final route has saved the analysis, which
    [get_ahp_analysis_by_id] reads back for the session with the ranking
    and the scores shown, and has cleared the criteria result from the
    session: submitting the final step again redirects to the start. *)
Theorem calculate_final_route_ranked coll_eq f s d sc rk aid s' d' :
  wf coll_eq d ->
  calculate_final_route coll_eq f s d = (RenderFinal (Ranked sc rk) (Some aid), s', d') ->
  criteria_ahp_results s' = None
  /\ (exists k v, get_ahp_analysis_by_id (Some aid) (Some k) d' = Some v
        /\ ad_ranked_alternatives (av_data v) = rk /\ ad_alternative_scores (av_data v) = sc)
  /\ forall f' d'', resp (calculate_final_route coll_eq f' s' d'') = RedirectHome.
Proof.
  intros Hwf H. pose proof (wf_run_op coll_eq (GetOrCreateSession (flask_session_id s)) d Hwf) as Hw1.
  cbn [run_op] in Hw1. unfold calculate_final_route in H.
  set (d1 := snd (get_or_create_session_db_id coll_eq (flask_session_id s) d)) in *.
  cbv zeta in H. revert H. split_matches; intros H; try discriminate H;
    apply (final_effects_ranked coll_eq) in H as [-> (k & v & _ & Hv)]; try exact Hw1;
    (split; [apply pop_final_results|split; [exists k, v; exact Hv|]]);
    intros f' d''; apply final_route_no_results, pop_final_results.
Qed.

(** ** The matrices kept in the session *)

(** Every matrix the session keeps, the imported criteria matrix and each
    imported alternative matrix, is one the engine accepts. *)
Definition session_matrices_ok (s : session) : Prop :=
  (forall m, imported_criteria_matrix s = Some m -> exists n, engine_ready n m)
  /\ (forall ms, imported_alternative_matrices s = Some ms ->
        exists n, Forall (fun km => engine_ready n (snd km)) ms).

Section Session_steps.
Variable s : session.
Hypothesis Hs : session_matrices_ok s.

Lemma ok_pop k : session_matrices_ok (pop k s).
Proof. destruct s, k; cbn; destruct Hs; split; cbn in *; intros; try discriminate; eauto. Qed.

Lemma ok_keep_imported s' :
  imported_criteria_matrix s' = imported_criteria_matrix s ->
  imported_alternative_matrices s' = imported_alternative_matrices s -> session_matrices_ok s'.
Proof. intros E1 E2. destruct Hs. split; [rewrite E1|rewrite E2]; assumption. Qed.

Lemma ok_set_imported_criteria n m : engine_ready n m -> session_matrices_ok (set_imported_criteria s m).
Proof. intros Hm. destruct s; destruct Hs; split; cbn in *; [intros ? [= <-]; eauto|assumption]. Qed.

Lemma ok_set_imported_alternatives n ms :
  Forall (fun km => engine_ready n (snd km)) ms -> session_matrices_ok (set_imported_alternatives s ms).
Proof. intros Hm. destruct s; destruct Hs; split; cbn in *; [assumption|intros ? [= <-]; eauto]. Qed.
End Session_steps.

Lemma ok_pop_keys ks s : session_matrices_ok s -> session_matrices_ok (pop_keys ks s).
Proof. unfold pop_keys. revert s; induction ks; intros s Hs; cbn; [exact Hs|apply IHks, ok_pop, Hs]. Qed.

(** The assignments that leave the imported matrices alone. *)
Ltac keep_imported :=
  match goal with H : session_matrices_ok ?s |- _ => apply (ok_keep_imported s H); destruct s; reflexivity end.

Lemma ok_set_tuples s ct al : session_matrices_ok s -> session_matrices_ok (set_tuples s ct al).
Proof. intros; keep_imported. Qed.
Lemma ok_set_criteria_results s r : session_matrices_ok s -> session_matrices_ok (set_criteria_results s r).
Proof. intros; keep_imported. Qed.
Lemma ok_set_form_criteria s f : session_matrices_ok s -> session_matrices_ok (set_form_criteria s f).
Proof. intros; keep_imported. Qed.
Lemma ok_set_form_alternatives s f : session_matrices_ok s -> session_matrices_ok (set_form_alternatives s f).
Proof. intros; keep_imported. Qed.
Lemma ok_set_alternative_crs s a : session_matrices_ok s -> session_matrices_ok (set_alternative_crs s a).
Proof. intros; keep_imported. Qed.
Lemma ok_set_flask_session_id s v : session_matrices_ok s -> session_matrices_ok (set_flask_session_id s v).
Proof. intros; keep_imported. Qed.

Create HintDb sess.
#[export] Hint Resolve ok_pop ok_pop_keys ok_set_tuples ok_set_criteria_results ok_set_form_criteria
  ok_set_form_alternatives ok_set_alternative_crs ok_set_flask_session_id
  ok_set_imported_criteria ok_set_imported_alternatives
  parse_matrix_from_sheet_ready scan_blocks_ready_init : sess.
#[export] Hint Extern 1 (_ < _)%nat => cbn [length]; lia : sess.

(** What [import_excel_route] keeps: the matrices its readers returned. *)
Lemma import_matrices_ok u s d :
  session_matrices_ok s -> session_matrices_ok (next_session (import_excel_route u s d)).
Proof.
  intros Hs. unfold import_excel_route, next_session. cbv zeta.
  split_matches_eqn; cbn [fst snd];
    repeat match goal with E : (_ <? _)%nat = false |- _ => apply Nat.ltb_ge in E end;
    eauto 7 with sess.
Qed.

(** A criteria form read in the dead first branch. *)
Lemma build_criteria_ready f n m : build_criteria_matrix f n = Ok m -> (0 < n)%nat -> engine_ready n m.
Proof. intros H Hn. exact (build_matrix_ready _ n m Hn H). Qed.
#[export] Hint Resolve build_criteria_ready : sess.

(** Every request keeps the matrices of the session ready for the engine. *)
Lemma handle_matrices_ok coll_eq r s d :
  session_matrices_ok s -> session_matrices_ok (next_session (handle coll_eq r s d)).
Proof.
  intros Hs. destruct r; cbn [handle]; [| | | | | |apply import_matrices_ok, Hs| | | |];
    unfold home, add_criteria_route, add_alternative_route, start_ahp_route,
      calculate_criteria_route, calculate_final_route, criteria_from_specific,
      criteria_from_import, criteria_from_form, criteria_result, criteria_input_error,
      final_effects, history_list_route, view_result_route, download_excel_report,
      download_pdf_report, session_db_id, next_session;
    cbv zeta; split_matches_eqn; cbn [fst snd]; eauto 8 with sess.
Qed.

(** [C21] A type invariant of the session: in every reachable state each
    matrix the session keeps (the imported criteria matrix, and every
    alternative matrix of [imported_alternative_matrices]) is the float
    image of a rational matrix on which [calculate_ahp] runs its whole
    pipeline with positive weights, so the later steps never meet a
    matrix the engine rejects. *)
Theorem reachable_session_matrices coll_eq s d :
  reachable coll_eq s d ->
  (forall m, imported_criteria_matrix s = Some m -> exists n, engine_ready n m)
  /\ (forall ms, imported_alternative_matrices s = Some ms ->
        exists n, Forall (fun km => engine_ready n (snd km)) ms).
Proof.
  induction 1 as [d _|r s d _ IH|op s d _ IH].
  - split; intros; discriminate.
  - exact (handle_matrices_ok coll_eq r s d IH).
  - exact IH.
Qed.

(** ** Starting an analysis *)

Lemma by_ids_up (ids : list Z) (d : db) :
  (1 <= length ids)%nat ->
  (length (get_criteria_by_ids ids d) = length ids -> db_up d = true
     /\ get_criteria_by_ids ids d = select_by_ids (criteria d) ids)
  /\ (length (get_alternatives_by_ids ids d) = length ids -> db_up d = true
     /\ get_alternatives_by_ids ids d = select_by_ids (alternatives d) ids).
Proof.
  intros Hl. unfold get_criteria_by_ids, get_alternatives_by_ids.
  destruct ids as [|i ids]; [cbn in Hl; lia|]. cbn [is_nil].
  destruct (db_up d); [auto|]. split; intros H; cbn in H; discriminate.
Qed.

Lemma start_session s ct al :
  current_criteria_tuples (pop_keys start_keys (set_tuples s ct al)) = Some ct
  /\ current_alternatives_tuples (pop_keys start_keys (set_tuples s ct al)) = Some al
  /\ criteria_ahp_results (pop_keys start_keys (set_tuples s ct al)) = None.
Proof. destruct s; repeat split. Qed.

(** [C18] [start_ahp_route] accepts a selection only when every id is an
    integer, there are at least 3 criteria and 2 alternatives, the ids are
    distinct and each is the id of a row of the database; it then keeps
    the rows of the database, ordered by id, as the criteria and
    alternatives of the session and forgets the earlier result. *)
Theorem start_ahp_route_accepts coll_eq cids aids s d ct al s' d' :
  wf coll_eq d ->
  start_ahp_route cids aids s d = (RenderCriteriaStep ct al, s', d') ->
  exists ks ka, map_py_int cids = Some ks /\ map_py_int aids = Some ka
  /\ (3 <= length ks)%nat /\ (2 <= length ka)%nat /\ NoDup ks /\ NoDup ka
  /\ (forall i, In i ks -> exists r, In r (criteria d) /\ row_id r = i)
  /\ (forall i, In i ka -> exists r, In r (alternatives d) /\ row_id r = i)
  /\ ct = get_criteria_by_ids ks d /\ al = get_alternatives_by_ids ka d
  /\ current_criteria_tuples s' = Some ct /\ current_alternatives_tuples s' = Some al
  /\ criteria_ahp_results s' = None /\ d' = d.
Proof.
  intros Hwf. unfold start_ahp_route.
  destruct (flask_session_id s); [|discriminate].
  destruct (map_py_int cids) as [ks|]; [|discriminate].
  destruct (map_py_int aids) as [ka|]; [|discriminate].
  destruct (Nat.ltb_spec (length ks) 3); [discriminate|].
  destruct (Nat.ltb_spec (length ka) 2); [discriminate|].
  destruct (Nat.eqb_spec (length (get_criteria_by_ids ks d)) (length ks)) as [Hc|]; [|discriminate].
  destruct (Nat.eqb_spec (length (get_alternatives_by_ids ka d)) (length ka)) as [Ha|]; [|discriminate].
  cbn [negb orb]. intros Hr. injection Hr as <- <- <- <-.
  destruct (proj1 (by_ids_up ks d ltac:(lia)) Hc) as [_ Ec].
  destruct (proj2 (by_ids_up ka d ltac:(lia)) Ha) as [_ Ea].
  rewrite Ec in Hc. rewrite Ea in Ha.
  destruct (select_by_ids_spec (criteria d) ks (proj2 (proj2 (wf_criteria _ _ Hwf))))
    as (_ & _ & Hks).
  destruct (select_by_ids_spec (alternatives d) ka (proj2 (proj2 (wf_alternatives _ _ Hwf))))
    as (_ & _ & Hka).
  destruct (Hks Hc) as [Hnk Hek]. destruct (Hka Ha) as [Hna Hea].
  destruct (start_session s (get_criteria_by_ids ks d) (get_alternatives_by_ids ka d)) as (E1 & E2 & E3).
  exists ks, ka. repeat split; assumption || lia || reflexivity.
Qed.

(** ** An input error blocks the final step *)

Lemma get_or_create_truthy coll_eq v d :
  truthy_id (fst (get_or_create_session_db_id coll_eq v d)) = true ->
  exists x, v = Some x /\ x <> EmptyString.
Proof.
  unfold get_or_create_session_db_id. destruct v as [x|]; [|discriminate].
  destruct (String.eqb_spec x ""); [discriminate|]. eauto.
Qed.

(** A session of a known Flask id gets an id of the database. *)
Lemma get_or_create_some coll_eq x d :
  wf coll_eq d -> db_up d = true -> x <> EmptyString ->
  truthy_id (fst (get_or_create_session_db_id coll_eq (Some x) d)) = true.
Proof.
  intros Hwf Hup Hx. destruct (wf_sessions _ _ Hwf) as (H1 & Hb & _). rewrite Forall_forall in Hb.
  unfold get_or_create_session_db_id. destruct (String.eqb_spec x ""); [contradiction|].
  rewrite Hup. cbn [negb]. destruct (find _ (sessions d)) as [r|] eqn:E; cbn [fst truthy_id].
  - apply find_some in E as [Hr _]. specialize (Hb (ses_id r) (in_map _ _ _ Hr)). cbv beta in Hb.
    apply negb_true_iff, Z.eqb_neq. lia.
  - apply negb_true_iff, Z.eqb_neq. lia.
Qed.

Lemma input_error_session coll_eq f s d e s1 d1 :
  calculate_criteria_route coll_eq f s d = (RenderCriteriaInputError e, s1, d1) ->
  exists x n ct al, flask_session_id s1 = Some x /\ x <> EmptyString
  /\ current_criteria_tuples s1 = Some ct /\ ct <> []
  /\ current_alternatives_tuples s1 = Some al /\ al <> []
  /\ criteria_ahp_results s1 = Some (CritInputError n)
  /\ data_imported_from_excel s1 = data_imported_from_excel s.
Proof.
  destruct s as [fl ct al cr fc fa ac di ic ia sp].
  unfold calculate_criteria_route, criteria_from_specific, criteria_from_import,
    criteria_from_form, criteria_input_error, criteria_result.
  cbv zeta. split_matches_eqn; intros H; try discriminate H; injection H; intros; subst;
    match goal with
    | E : negb (truthy_id _) = false |- _ =>
        apply negb_false_iff, get_or_create_truthy in E as (x & Ex & Hx)
    end;
    cbn [flask_session_id current_criteria_tuples current_alternatives_tuples] in *; subst;
    do 4 eexists; repeat split; try eassumption; try discriminate.
Qed.

(** [C19] A criteria form with an input error blocks the aggregation:
    [calculate_criteria_route] keeps the error dictionary of lines 617-621
    (uniform weights, [is_consistent] false) as the criteria result, and
    the next [calculate_final_route] of the session refuses it, whatever
    alternative form is submitted. *)
Theorem criteria_input_error_refused coll_eq f s d e s1 d1 f' d2 :
  wf coll_eq d2 -> db_up d2 = true -> flag_set (data_imported_from_excel s) = false ->
  calculate_criteria_route coll_eq f s d = (RenderCriteriaInputError e, s1, d1) ->
  (exists n, criteria_ahp_results s1 = Some (CritInputError n))
  /\ resp (calculate_final_route coll_eq f' s1 d2) = RenderFinal RefusedCriteria None.
Proof.
  intros Hwf Hup Himp H.
  destruct (input_error_session coll_eq f s d e s1 d1 H)
    as (x & n & ct & al & Hx & Hne & Hct & Hct' & Hal & Hal' & Hcr & Hdi).
  split; [exists n; exact Hcr|].
  unfold calculate_final_route, criteria_render_ok. cbv zeta.
  rewrite Hx, Hct, Hal, Hcr, (get_or_create_some coll_eq x d2 Hwf Hup Hne), Hdi, Himp.
  destruct ct as [|c ct]; [contradiction|]. destruct al as [|a al]; [contradiction|].
  reflexivity.
Qed.

(** ** A session from start to ranking *)

(** The requests of one session, in order; the last response. *)
Definition run_requests (coll_eq : string -> string -> bool) (rs : list request) (s : session) (d : db)
  : response * session * db :=
  fold_left (fun t r => handle coll_eq r (next_session t) (next_db t)) rs (RedirectHome, s, d).

Lemma run_requests_reachable coll_eq rs s d :
  reachable coll_eq s d ->
  reachable coll_eq (next_session (run_requests coll_eq rs s d)) (next_db (run_requests coll_eq rs s d)).
Proof.
  unfold run_requests. change s with (next_session (RedirectHome, s, d)) at 1.
  change d with (next_db (RedirectHome, s, d)) at 2.
  generalize (RedirectHome, s, d). clear s d. intros t Ht. revert t Ht.
  induction rs as [|r rs IH]; intros t Ht; [exact Ht|]. cbn [fold_left].
  apply IH. apply reach_request, Ht.
Qed.

Local Open Scope string_scope.

(** Three criteria and two alternatives in the database. *)
Definition workflow_db : db :=
  fold_left (fun d op => run_op String.eqb op d)
    [Store.AddCriteria "Gia" ""; Store.AddCriteria "Vi tri" ""; Store.AddCriteria "Dien tich" "";
     Store.AddAlternative "Lo A" ""; Store.AddAlternative "Lo B" ""] (set_up empty_db true).

Lemma workflow_db_reachable : db_reachable String.eqb workflow_db.
Proof.
  unfold workflow_db. cbn [fold_left].
  repeat apply db_step. apply db_init.
Qed.

Definition criteria_form : form :=
  [("matrix[0][1]", "2"); ("matrix[0][2]", "4"); ("matrix[1][2]", "2")].

Definition alternatives_form : form :=
  [("alt_matrix[0][0][1]", "2"); ("alt_matrix[1][0][1]", "1"); ("alt_matrix[2][0][1]", "1/2")].

Definition workflow_requests : list request :=
  [Home "5f0c"; StartAhp ["3"; "1"; "2"] ["1"; "2"]; CalculateCriteria criteria_form;
   CalculateFinal alternatives_form].

(** The state before the final step. *)
Definition before_final : response * session * db :=
  run_requests String.eqb (removelast workflow_requests) empty_session workflow_db.

Definition final_step : response * session * db :=
  calculate_final_route String.eqb alternatives_form (next_session before_final) (next_db before_final).

Definition ranked_scores (r : response) : list Q :=
  match r with RenderFinal (Ranked sc _) _ => sc | _ => [] end.
Definition ranked_list (r : response) : list (string * Q) :=
  match r with RenderFinal (Ranked _ rk) _ => rk | _ => [] end.
Definition ranked_id (r : response) : Z :=
  match r with RenderFinal _ (Some k) => k | _ => 0 end.

(** The database before the final step is well formed. *)
Lemma before_final_wf : wf String.eqb (next_db before_final).
Proof.
  apply reachable_wf.
  change (db_reachable String.eqb (next_db (run_requests String.eqb
            (removelast workflow_requests) empty_session workflow_db))).
  apply (proj1 (reachable_db_specific _ _ _ (run_requests_reachable _ _ _ _
            (reach_init _ _ workflow_db_reachable)))).
Qed.

(** The final step ranks the two alternatives and saves the analysis. *)
Lemma final_step_ranked :
  calculate_final_route String.eqb alternatives_form (next_session before_final) (next_db before_final)
  = (RenderFinal (Ranked (ranked_scores (resp final_step)) (ranked_list (resp final_step)))
       (Some (ranked_id (resp final_step))), next_session final_step, next_db final_step).
Proof. vm_compute. reflexivity. Qed.

(** Witness of [C17]: the final step of the session. *)
Lemma calculate_final_route_ranked_witness :
  criteria_ahp_results (next_session final_step) = None
  /\ (exists k v, get_ahp_analysis_by_id (Some (ranked_id (resp final_step))) (Some k) (next_db final_step) = Some v
        /\ ad_ranked_alternatives (av_data v) = ranked_list (resp final_step)
        /\ ad_alternative_scores (av_data v) = ranked_scores (resp final_step))
  /\ forall f' d'', resp (calculate_final_route String.eqb f' (next_session final_step) d'') = RedirectHome.
Proof.
  apply (calculate_final_route_ranked String.eqb alternatives_form (next_session before_final)
           (next_db before_final)); [exact before_final_wf|exact final_step_ranked].
Defined.

(** The session after [home]. *)
Definition after_home : response * session * db :=
  run_requests String.eqb [Home "5f0c"] empty_session workflow_db.

(** Witness of [C18]: criteria 3, 1, 2 and alternatives 1, 2. *)
Lemma start_ahp_route_accepts_witness :
  exists ks ka, map_py_int ["3"; "1"; "2"] = Some ks /\ map_py_int ["1"; "2"] = Some ka
  /\ (3 <= length ks)%nat /\ (2 <= length ka)%nat /\ NoDup ks /\ NoDup ka
  /\ (forall i, In i ks -> exists r, In r (criteria workflow_db) /\ row_id r = i)
  /\ (forall i, In i ka -> exists r, In r (alternatives workflow_db) /\ row_id r = i)
  /\ get_criteria_by_ids [3; 1; 2] workflow_db = get_criteria_by_ids ks workflow_db
  /\ get_alternatives_by_ids [1; 2] workflow_db = get_alternatives_by_ids ka workflow_db
  /\ current_criteria_tuples (next_session (start_ahp_route ["3"; "1"; "2"] ["1"; "2"]
                                               (next_session after_home) workflow_db))
     = Some (get_criteria_by_ids [3; 1; 2] workflow_db)
  /\ current_alternatives_tuples (next_session (start_ahp_route ["3"; "1"; "2"] ["1"; "2"]
                                                   (next_session after_home) workflow_db))
     = Some (get_alternatives_by_ids [1; 2] workflow_db)
  /\ criteria_ahp_results (next_session (start_ahp_route ["3"; "1"; "2"] ["1"; "2"]
                                            (next_session after_home) workflow_db)) = None
  /\ workflow_db = workflow_db.
Proof.
  apply (start_ahp_route_accepts String.eqb ["3"; "1"; "2"] ["1"; "2"] (next_session after_home)
           workflow_db).
  - apply reachable_wf, workflow_db_reachable.
  - vm_compute. reflexivity.
Defined.

(** The session after a criteria form with no cell filled. *)
Definition after_empty_form : response * session * db :=
  run_requests String.eqb [Home "5f0c"; StartAhp ["3"; "1"; "2"] ["1"; "2"]] empty_session workflow_db.

(** Witness of [C19]: the empty criteria form. *)
Lemma criteria_input_error_refused_witness :
  (exists n, criteria_ahp_results (next_session (calculate_criteria_route String.eqb []
               (next_session after_empty_form) workflow_db)) = Some (CritInputError n))
  /\ resp (calculate_final_route String.eqb alternatives_form
             (next_session (calculate_criteria_route String.eqb [] (next_session after_empty_form) workflow_db))
             (next_db (calculate_criteria_route String.eqb [] (next_session after_empty_form) workflow_db)))
     = RenderFinal RefusedCriteria None.
Proof.
  apply (criteria_input_error_refused String.eqb [] (next_session after_empty_form) workflow_db
           (MissingCell 0 1)
           (next_session (calculate_criteria_route String.eqb [] (next_session after_empty_form) workflow_db))
           (next_db (calculate_criteria_route String.eqb [] (next_session after_empty_form) workflow_db))).
  - apply reachable_wf.
    apply (handle_db String.eqb (CalculateCriteria []) (next_session after_empty_form) workflow_db),
      workflow_db_reachable.
  - reflexivity.
  - reflexivity.
  - vm_compute. reflexivity.
Defined.

(** ** Saved analyses *)

(** An analysis read back for a session is one of its rows. *)
Lemma get_analysis_owned aid k d v :
  get_ahp_analysis_by_id (Some aid) (Some k) d = Some v ->
  av_id v = aid /\ av_session v = k /\ exists r, In r (analyses d) /\ view_of r = v.
Proof.
  unfold get_ahp_analysis_by_id. destruct (_ || _); [discriminate|].
  destruct (find _ (analyses d)) as [r|] eqn:E; [|discriminate]. intros [= <-].
  apply find_some in E as [Hin Hr]. apply andb_prop in Hr as [Ha Hs].
  apply Z.eqb_eq in Ha, Hs. split; [exact Ha|]. split; [exact Hs|]. eauto.
Qed.

(** The analysis [v] of number [aid] belongs to the requesting session:
    its row is in the database and carries the session's id. *)
Definition owned_view (coll_eq : string -> string -> bool) (s : session) (d : db) (aid : Z)
  (v : analysis_view) : Prop :=
  exists k, fst (session_db_id coll_eq s d) = Some k /\ av_id v = aid /\ av_session v = k
    /\ exists r, In r (analyses (snd (session_db_id coll_eq s d))) /\ view_of r = v.

Lemma owned_of_lookup coll_eq s d aid v :
  truthy_id (fst (session_db_id coll_eq s d)) = true ->
  get_ahp_analysis_by_id (Some aid) (fst (session_db_id coll_eq s d)) (snd (session_db_id coll_eq s d))
  = Some v -> owned_view coll_eq s d aid v.
Proof.
  destruct (fst (session_db_id coll_eq s d)) as [k|] eqn:E; [|discriminate]. intros _ H.
  exists k. split; [exact E|]. exact (get_analysis_owned aid k _ v H).
Qed.

(** [C25] A session only ever sees its own analyses: the result page,
    the Excel report and the PDF report of analysis [aid] are produced
    only from the row of number [aid] saved by the requesting session
    (app.py:1097, 1115, 1313), and the Excel report is the report of that
    analysis. *)
Theorem saved_analysis_access coll_eq aid t env s d :
  (forall v b p s' d', view_result_route coll_eq aid s d = (RenderResult v b p, s', d') ->
     owned_view coll_eq s d aid v)
  /\ (forall sh s' d', download_excel_report coll_eq aid t s d = (SendExcel sh, s', d') ->
        exists v, owned_view coll_eq s d aid v /\ create_excel_report t (av_data v) = Ok sh)
  /\ (forall st s' d', download_pdf_report coll_eq aid env s d = (SendPdf st, s', d') ->
        exists v, owned_view coll_eq s d aid v /\ create_pdf_report aid env (av_data v) = PdfSent st).
Proof.
  unfold view_result_route, download_excel_report, download_pdf_report. cbv zeta.
  destruct (truthy_id (fst (session_db_id coll_eq s d))) eqn:Ht; cbn [negb];
    [|repeat split; intros; discriminate].
  destruct (get_ahp_analysis_by_id _ _ _) as [v|] eqn:Eg; [|repeat split; intros; discriminate].
  pose proof (owned_of_lookup coll_eq s d aid v Ht Eg) as Ho.
  split; [intros v' b p s' d' [= <- _ _ _ _]; exact Ho|]. split.
  - intros sh s' d'. destruct (create_excel_report t (av_data v)) eqn:Ec; [|discriminate].
    intros [= <- _ _]. eauto.
  - intros st s' d'. destruct (create_pdf_report aid env (av_data v)) eqn:Ec; try discriminate.
    intros [= <- _ _]. eauto.
Qed.

(** What [get_or_create_session_db_id] gives: an id only for a non-empty
    Flask id on a database that answers, and nothing changed otherwise. *)
Lemma get_or_create_cases coll_eq v d :
  match fst (get_or_create_session_db_id coll_eq v d) with
  | Some _ => db_up d = true /\ db_up (snd (get_or_create_session_db_id coll_eq v d)) = true
              /\ exists x, v = Some x /\ x <> EmptyString
  | None => snd (get_or_create_session_db_id coll_eq v d) = d
            /\ (forall x, v = Some x -> x <> EmptyString -> db_up d = false)
  end.
Proof.
  unfold get_or_create_session_db_id. destruct v as [x|]; [|split; [reflexivity|discriminate]].
  destruct (String.eqb_spec x ""); [split; [reflexivity|intros ? [= <-]; contradiction]|].
  destruct (db_up d) eqn:Hup; cbn [negb]; [|split; [reflexivity|reflexivity]].
  destruct (find _ (sessions d)); cbn [fst snd set_sessions db_up]; (split; [reflexivity|split; [exact Hup|eauto]]).
Qed.

(** [C26] The history lists exactly the analyses of the session, newest
    first: when the session has its row [k] in the database, the rows
    shown are a permutation of the [(analysis_id, session_db_id,
    analysis_name, created_at)] of every analysis saved under [k], in
    non-increasing [created_at] (model.py:398-403; the order of analyses
    saved at the same time is the server's); the list is empty only when
    the session has no row because the database does not answer. *)
Theorem history_lists_own_analyses coll_eq s d rows s' d' :
  wf coll_eq d ->
  history_list_route coll_eq s d = (RenderHistory rows, s', d') ->
  s' = s /\ d' = snd (session_db_id coll_eq s d)
  /\ match fst (session_db_id coll_eq s d) with
     | Some k => Permutation rows (map history_row (filter (fun r => Z.eqb (an_session r) k) (analyses d')))
                 /\ StronglySorted (fun x y => snd y <= snd x) rows
     | None => rows = [] /\ db_up d = false
     end.
Proof.
  intros Hwf. unfold history_list_route, session_db_id. cbv zeta.
  pose proof (get_or_create_cases coll_eq (flask_session_id s) d) as Hc.
  destruct (get_or_create_session_db_id coll_eq (flask_session_id s) d) as [[k|] d1] eqn:Eg;
    cbn [fst snd] in Hc |- *.
  - destruct Hc as (Hup & Hup1 & x & Hx & Hne).
    assert (Ht : truthy_id (Some k) = true).
    { pose proof (get_or_create_some coll_eq x d Hwf Hup Hne) as H. rewrite <- Hx, Eg in H. exact H. }
    rewrite Ht. cbn [negb andb]. intros [= <- <- <-]. split; [reflexivity|]. split; [reflexivity|].
    unfold get_ahp_analyses_by_session_db_id. cbn [truthy_id] in Ht. rewrite Ht, Hup1. cbn [andb]. split.
    + apply Permutation_map, sort_desc_perm.
    + apply StronglySorted_map, order_by_desc_sorted.
  - destruct Hc as [-> Hdown]. cbn [truthy_id negb andb].
    destruct (flask_session_id s) as [x|] eqn:Ex; [|discriminate].
    destruct (String.eqb_spec x ""); cbn [negb]; [discriminate|].
    intros [= <- <- <-]. split; [reflexivity|]. split; [reflexivity|]. split; [reflexivity|].
    exact (Hdown x eq_refl n).
Qed.

(** ** The reports of an analysis the workflow saves *)

Lemma py_index_nat n i : (i < n)%nat -> py_index n (Z.of_nat i) = Some i.
Proof.
  intros H. unfold py_index.
  replace (Z.leb 0 (Z.of_nat i) && Z.ltb (Z.of_nat i) (Z.of_nat n)) with true
    by (symmetry; apply andb_true_iff; split; [apply Z.leb_le|apply Z.ltb_lt]; lia).
  rewrite Nat2Z.id. reflexivity.
Qed.

(** [d[k] = v] keeps a property of every pair. *)
Lemma Forall_dict_set_pair {A} (P : string * A -> Prop) (d : list (string * A)) k v :
  Forall P d -> P (k, v) -> Forall P (dict_set d k v).
Proof.
  induction 1 as [|[k' v'] d Hkv Hd IH]; intros Hv; cbn; [auto|].
  destruct (String.eqb k' k); constructor; auto.
Qed.

(** What the loop of the import branch keeps: one column per criterion,
    keys that index the criteria, and a critical flag raised by every
    error result it stored. *)
Definition import_ready (n : nat) (st : import_state) : Prop :=
  length (imp_cols st) = n /\ keys_ready n (imp_results st)
  /\ Forall (fun it => alt_error (snd it) = true -> imp_critical st = true) (imp_results st).

Lemma import_step_ready n n_alt st item st' :
  import_ready n st -> import_step n n_alt (Some st) item = Some st' -> import_ready n st'.
Proof.
  intros (Hl & Hk & Hc). unfold import_step.
  destruct (py_int (fst item)) as [k|] eqn:Ek; [|discriminate].
  destruct (convert_numpy_matrix_to_form_data _ _ _); [|discriminate].
  destruct (py_index n k) as [c|] eqn:Ec; [|discriminate].
  destruct (local_column n_alt _) as [col|]; [|discriminate].
  intros [= <-]. unfold import_ready. cbn [imp_cols imp_results imp_critical]. split; [|split].
  - rewrite length_set_nth. exact Hl.
  - apply Forall_dict_set_pair; [exact Hk|]. exists k. cbn [fst].
    split; [apply py_int_str|rewrite Ec; discriminate].
  - apply Forall_dict_set_pair.
    + eapply Forall_impl; [|exact Hc]. intros it H E. rewrite (H E). reflexivity.
    + cbn [snd]. intros E. apply alt_error_raises in E as [-> _]. apply orb_true_r.
Qed.

(** Once the loop of the import branch has raised it stays raised. *)
Lemma fold_import_none n na items : fold_left (import_step n na) items None = None.
Proof. induction items as [|it items IH]; [reflexivity|exact IH]. Qed.

Lemma fold_import_ready n n_alt items st0 st :
  import_ready n st0 -> fold_left (import_step n n_alt) items (Some st0) = Some st -> import_ready n st.
Proof.
  revert st0. induction items as [|it items IH]; intros st0 H0; cbn [fold_left]; [intros [= <-]; exact H0|].
  destruct (import_step n n_alt (Some st0) it) as [st1|] eqn:E; [|rewrite fold_import_none; discriminate].
  apply IH. exact (import_step_ready n n_alt st0 it st1 H0 E).
Qed.

(** The results of the form branch: keys [str(c)] for every criterion. *)
Lemma form_results_ready (alts : list alt_result) :
  keys_ready (length alts) (form_results alts) /\ Forall (fun it => In (snd it) alts) (form_results alts).
Proof.
  unfold form_results. split; apply Forall_map, Forall_forall; intros [i a] Hin; cbn [fst snd].
  - apply in_combine_l, in_seq in Hin. exists (Z.of_nat i).
    split; [apply py_int_str|rewrite py_index_nat by lia; discriminate].
  - apply in_combine_r in Hin. exact Hin.
Qed.

(** The names of the criteria and alternatives the session holds are
    plain. *)
Definition session_names_plain (s : session) : Prop :=
  forall ct al, current_criteria_tuples s = Some ct -> current_alternatives_tuples s = Some al ->
  Forall (fun x => plain x = true) (names_of ct ++ names_of al).

(** The analysis [final_effects] saves, read back, is ready for the
    reports when the weights, scores, columns, results and ranking are as
    a ranking leaves them and the names are plain. *)
Lemma analysis_ready ct al cr sc rk cols results :
  length (crit_weights cr) = length ct -> length sc = length al -> length cols = length ct ->
  keys_ready (length ct) results -> Forall (fun it => alt_error (snd it) = false) results ->
  rk = ranked_alternatives (names_of al) sc -> Forall (fun x => plain x = true) (names_of ct ++ names_of al) ->
  report_ready (read_back (AnalysisData (names_of ct) (crit_weights cr) (names_of al) sc rk (crit_cr cr)
                             (crit_consistent cr) results (local_matrix cols (length al)))).
Proof.
  intros Hw Hs Hc Hk He Hr Hp.
  constructor; cbn [read_back ad_criteria_names ad_criteria_weights ad_alternatives ad_alternative_scores
                    ad_local_matrix ad_alternative_crs ad_ranked_alternatives]; unfold names_of in *;
    rewrite ?length_map.
  - lia.
  - lia.
  - unfold local_matrix. rewrite length_vec_of. lia.
  - unfold local_matrix, vec_of. apply Forall_map, Forall_forall. intros a _. rewrite length_map. lia.
  - exact Hk.
  - eapply Forall_impl; [|exact He]. intros [key [|[o|n e]]] H; cbn in *; auto; discriminate.
  - apply Forall_app in Hp as [Hc' Ha]. apply Forall_app. split; [exact Hc'|].
    apply Forall_app. split; [exact Ha|]. subst rk. rewrite Forall_forall in Ha |- *.
    intros x Hx. apply Ha, (ranked_alternatives_names _ _ _ Hx).
Qed.

Lemma save_scores_keeps sid al ct m d :
  sessions (snd (save_alternative_scores sid al ct m d)) = sessions d
  /\ db_up (snd (save_alternative_scores sid al ct m d)) = db_up d.
Proof. unfold save_alternative_scores. split_matches; split; reflexivity. Qed.

Lemma save_analysis_keeps sid a d :
  sessions (snd (save_ahp_analysis sid a d)) = sessions d /\ db_up (snd (save_ahp_analysis sid a d)) = db_up d.
Proof. unfold save_ahp_analysis. split_matches; split; reflexivity. Qed.

(** A Flask session whose row exists keeps it while the sessions table
    and the connection do not change. *)
Lemma get_or_create_stable coll_eq v d k d1 d2 :
  (forall x, coll_eq x x = true) ->
  get_or_create_session_db_id coll_eq v d = (Some k, d1) ->
  sessions d2 = sessions d1 -> db_up d2 = db_up d1 ->
  get_or_create_session_db_id coll_eq v d2 = (Some k, d2).
Proof.
  intros Hrefl. unfold get_or_create_session_db_id.
  destruct v as [x|]; [|discriminate]. destruct (String.eqb x ""); [discriminate|].
  destruct (db_up d) eqn:Hup; cbn [negb]; [|discriminate].
  destruct (find _ (sessions d)) as [r|] eqn:E; intros H; injection H as <- <-; intros Hs Hu;
    rewrite Hu, Hs; cbn [set_sessions db_up sessions]; rewrite Hup; cbn [negb].
  - rewrite E. reflexivity.
  - rewrite find_app, E. cbn [find ses_flask]. rewrite Hrefl. reflexivity.
Qed.

(** What [final_effects] leaves after a ranking it saved. *)
Lemma final_effects_saved coll_eq sid ct al cr o cols results s d aid s' d' sc rk :
  wf coll_eq d ->
  final_effects sid ct al cr o cols results s d = (RenderFinal (Ranked sc rk) (Some aid), s', d') ->
  o = Ranked sc rk /\ s' = pop_keys final_keys s /\ sessions d' = sessions d /\ db_up d' = db_up d
  /\ exists k v, sid = Some k /\ get_ahp_analysis_by_id (Some aid) (Some k) d' = Some v
     /\ av_data v = read_back (AnalysisData (names_of ct) (crit_weights cr) (names_of al) sc rk (crit_cr cr)
                                (crit_consistent cr) results (local_matrix cols (length al))).
Proof.
  intros Hwf. unfold final_effects. destruct o as [| | | |scores ranking]; try discriminate.
  set (d1 := snd (save_alternative_scores sid al ct (local_matrix cols (length al)) d)).
  assert (Hw1 : wf coll_eq d1) by exact (wf_run_op coll_eq (SaveAlternativeScores _ _ _ _) d Hwf).
  destruct (save_scores_keeps sid al ct (local_matrix cols (length al)) d) as [Hs1 Hu1].
  set (data := AnalysisData _ _ _ _ _ _ _ _ _).
  destruct (save_analysis_keeps sid data d1) as [Hs2 Hu2].
  destruct (save_ahp_analysis sid data d1) as [a d2] eqn:Es. intros H. injection H.
  intros <- <- -> <- <-. cbn [snd] in Hs2, Hu2. fold d1 in Hs1, Hu1.
  split; [reflexivity|]. split; [reflexivity|]. split; [congruence|]. split; [congruence|].
  destruct sid as [k|]; [|cbn in Es; congruence].
  destruct (save_ahp_analysis_readback coll_eq k data d1 aid d2 Hw1 Es) as [Hg _].
  exists k. eexists. split; [reflexivity|]. split; [exact Hg|reflexivity].
Qed.

Lemma pop_final_flask s : flask_session_id (pop_keys final_keys s) = flask_session_id s.
Proof. destruct s; reflexivity. Qed.

Lemma flask_set_alternative_crs s x : flask_session_id (set_alternative_crs s x) = flask_session_id s.
Proof. destruct s; reflexivity. Qed.

Lemma flask_set_form_alternatives s f : flask_session_id (set_form_alternatives s f) = flask_session_id s.
Proof. destruct s; reflexivity. Qed.

(** The analysis saved on a ranking of the form branch is ready. *)
Lemma form_branch_ready ct al cr f cols sc rk :
  local_columns (length (names_of al)) (alt_results_of_form f (length ct) (length (names_of al))) = Some cols ->
  calculate_final (Some cr) (names_of al) (length ct) (alt_results_of_form f (length ct) (length (names_of al)))
  = Ranked sc rk ->
  Forall (fun x => plain x = true) (names_of ct ++ names_of al) ->
  report_ready (read_back (AnalysisData (names_of ct) (crit_weights cr) (names_of al) sc rk (crit_cr cr)
                  (crit_consistent cr) (form_results (alt_results_of_form f (length ct) (length (names_of al))))
                  (local_matrix cols (length al)))).
Proof.
  set (alts := alt_results_of_form _ _ _). intros Hc H Hp. unfold calculate_final in H.
  apply final_gate_ranked in H as (c & [= <-] & H).
  apply final_after_loop_ranked in H as (_ & Hf & Hw & Hs & Hr).
  pose proof (length_alt_results_of_form f (length ct) (length (names_of al))) as Hl. fold alts in Hl.
  destruct (form_results_ready alts) as [Hk Hin]. rewrite Hl in Hk.
  apply analysis_ready; [exact Hw|unfold names_of in Hs; rewrite length_map in Hs; exact Hs
                        |rewrite (local_columns_length _ _ _ Hc); exact Hl|exact Hk| |exact Hr|exact Hp].
  eapply Forall_impl; [|exact Hin]. intros it. apply gate_no_error, Hf.
Qed.

(** The analysis saved on a ranking of the import branch is ready. *)
Lemma import_branch_ready ct al cr items st sc rk :
  fold_left (import_step (length ct) (length (names_of al))) items
    (Some (ImportState [] false false (repeat (repeat 0%Q (length (names_of al))) (length ct)))) = Some st ->
  calculate_final_import (Some cr) (names_of al) (length ct) items = Ranked sc rk ->
  Forall (fun x => plain x = true) (names_of ct ++ names_of al) ->
  report_ready (read_back (AnalysisData (names_of ct) (crit_weights cr) (names_of al) sc rk (crit_cr cr)
                  (crit_consistent cr) (imp_results st) (local_matrix (imp_cols st) (length al)))).
Proof.
  intros Ef H Hp. unfold calculate_final_import in H.
  apply final_gate_ranked in H as (c & [= <-] & H). rewrite Ef in H.
  apply final_after_loop_ranked in H as (_ & Hf & Hw & Hs & Hr).
  assert (H0 : import_ready (length ct)
                 (ImportState [] false false (repeat (repeat 0%Q (length (names_of al))) (length ct))))
    by (split; [apply repeat_length|split; constructor]).
  destruct (fold_import_ready _ _ items _ st H0 Ef) as (Hl & Hk & Hcrit).
  apply analysis_ready; [exact Hw|unfold names_of in Hs; rewrite length_map in Hs; exact Hs|exact Hl|exact Hk
                        | |exact Hr|exact Hp].
  rewrite Forall_forall in Hcrit. apply Forall_forall. intros it Hin.
  destruct (alt_error (snd it)) eqn:E; [|reflexivity]. exfalso.
  rewrite (Hcrit it Hin E) in Hf. apply alt_error_raises in E as [_ E].
  assert (H : existsb flash_raises (map snd (imp_results st)) = true)
    by (apply existsb_exists; exists (snd it); split; [apply in_map, Hin|exact E]).
  rewrite H in Hf. discriminate.
Qed.

(** After a ranking the final route has saved an analysis ready for the
    reports, under the session's row, which the report routes find again. *)
Lemma final_route_saved_ready coll_eq f s d sc rk aid s' d' :
  (forall x, coll_eq x x = true) -> wf coll_eq d -> session_names_plain s ->
  calculate_final_route coll_eq f s d = (RenderFinal (Ranked sc rk) (Some aid), s', d') ->
  exists k v, truthy_id (Some k) = true /\ session_db_id coll_eq s' d' = (Some k, d')
    /\ get_ahp_analysis_by_id (Some aid) (Some k) d' = Some v /\ report_ready (av_data v).
Proof.
  intros Hrefl Hwf Hnames H. unfold calculate_final_route in H.
  destruct (get_or_create_session_db_id coll_eq (flask_session_id s) d) as [sid d1] eqn:Eg.
  pose proof (wf_run_op coll_eq (GetOrCreateSession (flask_session_id s)) d Hwf) as Hw1.
  cbn [run_op] in Hw1. rewrite Eg in Hw1. cbn [fst snd] in H, Hw1.
  revert H. split_matches_eqn; intros H; try discriminate H;
    apply (final_effects_saved coll_eq) in H as (Ho & -> & Hs & Hu & k & v & -> & Hv & Hd); try exact Hw1;
    exists k, v; (split; [match goal with E : negb (truthy_id _) = false |- _ => apply negb_false_iff, E end|]);
    (split; [unfold session_db_id; rewrite pop_final_flask, flask_set_alternative_crs, ?flask_set_form_alternatives;
             exact (get_or_create_stable coll_eq _ d k d1 d' Hrefl Eg Hs Hu)|]);
    (split; [exact Hv|rewrite Hd]).
  - eapply import_branch_ready; [eassumption|eassumption|apply Hnames; assumption].
  - apply form_branch_ready; [assumption|assumption|apply Hnames; assumption].
Qed.

(** [C27] Every analysis the workflow saves can be exported when its
    texts are plain: if the names of the session's criteria and
    alternatives hold no control character and no [<], and so do the date
    of the reports and the messages of images that fail to load, then
    after the final route ranks the alternatives and saves analysis [aid]
    the session downloads its Excel report, and its PDF report is sent
    whenever reportlab's [doc.build] succeeds, whatever the charts do: no
    exception of the report builders is raised, neither openpyxl's check
    of the cells nor reportlab's parsing of the paragraphs nor an
    [IndexError].  (A name with markup makes the PDF route fail instead:
    [pdf_report_markup_name].) *)
Theorem saved_analysis_reports_build coll_eq f s d sc rk aid s' d' today env :
  (forall x, coll_eq x x = true) -> wf coll_eq d -> session_names_plain s ->
  plain today = true -> env_plain (pe_today env) (pe_image env) ->
  calculate_final_route coll_eq f s d = (RenderFinal (Ranked sc rk) (Some aid), s', d') ->
  (exists sheets, resp (download_excel_report coll_eq aid today s' d') = SendExcel sheets)
  /\ exists story, resp (download_pdf_report coll_eq aid env s' d')
                   = if pe_build env then SendPdf story else RedirectResult aid.
Proof.
  intros Hrefl Hwf Hnames Htoday Henv H.
  destruct (final_route_saved_ready coll_eq f s d sc rk aid s' d' Hrefl Hwf Hnames H)
    as (k & v & Ht & Hs & Hv & Hr).
  unfold download_excel_report, download_pdf_report, resp. cbv zeta. rewrite Hs. cbn [fst snd].
  rewrite Ht. cbn [negb]. rewrite Hv.
  destruct (create_excel_report_ok today _ Htoday Hr) as [sh ->]. split; [eexists; reflexivity|].
  unfold create_pdf_report. cbv zeta.
  match goal with |- context [pdf_story ?t ?fs ?img _] =>
    destruct (pdf_story_ok t fs img _ Henv Hr) as [st ->] end.
  exists st. destruct (pe_build env); reflexivity.
Qed.

(** [C29] The PDF route lets escape what the Excel route catches: for an
    analysis of the session with fewer criteria weights than criteria
    names, whose detail keys and local scores can be read,
    [download_excel_report] flashes the [IndexError] of
    [criteria_weights[i]] and redirects to the result page
    (app.py:1105-1107), while [download_pdf_report], which builds its
    story outside any [try], raises it at table 2 (app.py:1239): the user
    gets an HTTP 500, whatever the charts and reportlab do. *)
Theorem pdf_report_uncaught_index_error coll_eq aid today env s d v :
  truthy_id (fst (session_db_id coll_eq s d)) = true ->
  get_ahp_analysis_by_id (Some aid) (fst (session_db_id coll_eq s d)) (snd (session_db_id coll_eq s d))
  = Some v ->
  keys_ready (length (ad_criteria_names (av_data v))) (ad_alternative_crs (av_data v)) ->
  (length (ad_alternatives (av_data v)) <= length (ad_local_matrix (av_data v)))%nat ->
  Forall (fun row => length (ad_criteria_names (av_data v)) <= length row)%nat (ad_local_matrix (av_data v)) ->
  ad_criteria_weights (av_data v) <> [] ->
  (length (ad_criteria_weights (av_data v)) < length (ad_criteria_names (av_data v)))%nat ->
  resp (download_excel_report coll_eq aid today s d) = RedirectResult aid
  /\ resp (download_pdf_report coll_eq aid env s d) = InternalServerError.
Proof.
  intros Ht Hv Hk Hlr Hlc Hw Hl.
  assert (Hn : ad_criteria_names (av_data v) <> []) by (intros E; rewrite E in Hl; cbn in Hl; lia).
  unfold download_excel_report, download_pdf_report, resp. cbv zeta. rewrite Ht. cbn [negb]. rewrite Hv.
  destruct (create_excel_report_short_weights today _ Hn Hw Hl) as [e1 ->]. split; [reflexivity|].
  destruct (table2_section_short _ Hw Hl) as [e2 He2].
  unfold create_pdf_report. cbv zeta.
  match goal with |- context [pdf_story ?t ?fs ?img _] =>
    destruct (pdf_story_err t fs img _ e2 (or_introl He2)) as [e3 ->] end.
  reflexivity.
Qed.


(** ** An imported workbook *)

(** The responses of a sequence of requests. *)
Fixpoint responses (coll_eq : string -> string -> bool) (rs : list request) (s : session) (d : db)
  : list response :=
  match rs with
  | [] => []
  | r :: rs' =>
      let t := handle coll_eq r s d in resp t :: responses coll_eq rs' (next_session t) (next_db t)
  end.

Lemma fold_ops_reachable coll_eq ops d :
  db_reachable coll_eq d -> db_reachable coll_eq (fold_left (fun d op => run_op coll_eq op d) ops d).
Proof. revert d. induction ops as [|op ops IH]; intros d Hd; cbn; [exact Hd|apply IH, db_step, Hd]. Qed.

(** A database with the criteria [cs] and the alternatives X, Y and Z of
    [Excel.example_workbook]. *)
Definition import_db (cs : list string) : db :=
  fold_left (fun d op => run_op String.eqb op d)
    (app (map (fun c => Store.AddCriteria c "") cs)
       [Store.AddAlternative "X" ""; Store.AddAlternative "Y" ""; Store.AddAlternative "Z" ""])
    (set_up empty_db true).

Lemma import_db_reachable cs : db_reachable String.eqb (import_db cs).
Proof. apply fold_ops_reachable, db_init. Qed.

Definition import_requests : list request :=
  [Home "5f0c"; ImportExcel (Some (Upload "analysis.XLSX" (Some example_workbook)))].

(** [criteria_names_ordered[crit_idx]] raises for an index at or past the
    number of criteria. *)
Lemma py_index_out n k : (0 <= k)%Z -> (n <= Z.to_nat k)%nat -> py_index n k = None.
Proof.
  intros Hk Hn. unfold py_index.
  destruct (Z.leb_spec 0 k), (Z.ltb_spec k (Z.of_nat n)); cbn; try lia.
  destruct (Z.ltb_spec k 0); [lia|]. rewrite andb_false_r. reflexivity.
Qed.

(** A block whose criterion index is out of range makes the loop raise. *)
Lemma fold_import_out_of_range n na items key m k st :
  In (key, m) items -> py_int key = Some k -> (0 <= k)%Z -> (n <= Z.to_nat k)%nat ->
  fold_left (import_step n na) items st = None.
Proof.
  intros Hin Hkey Hk Hn. revert st. induction items as [|it items IH]; [contradiction|].
  intros st. cbn [fold_left]. destruct Hin as [->|Hin]; [|apply IH, Hin].
  replace (import_step n na st (key, m)) with (@None import_state); [apply fold_import_none|].
  unfold import_step. cbn [fst]. rewrite Hkey, (py_index_out n k Hk Hn).
  destruct st; [|reflexivity]. destruct (convert_numpy_matrix_to_form_data _ _ _); reflexivity.
Qed.

(** [C22] An imported block whose criterion index is past the criteria
    of the session makes every final step fail.  [import_excel_route]
    keys the blocks by their index in the names of the workbook
    (app.py:460, 465) but keeps in [current_criteria_tuples] only the names
    found in the database (app.py:436): when a name is missing, the last
    block's index is out of range of the tuples, and
    [calculate_final_route] raises at [criteria_names_ordered[crit_idx]]
    (app.py:703) and never ranks, whatever the form and the database. *)
Theorem import_out_of_range_never_ranks coll_eq f s d ct items key m k :
  flag_set (data_imported_from_excel s) = true ->
  current_criteria_tuples s = Some ct ->
  imported_alternative_matrices s = Some items ->
  In (key, m) items -> py_int key = Some k -> (0 <= k)%Z -> (length ct <= Z.to_nat k)%nat ->
  forall sc rk aid, resp (calculate_final_route coll_eq f s d) <> RenderFinal (Ranked sc rk) aid.
Proof.
  intros Hf Hct Hit Hin Hkey Hk Hn sc rk aid. unfold calculate_final_route. rewrite Hct, Hf, Hit.
  cbv zeta. split_matches_eqn; try discriminate.
  match goal with E : fold_left (import_step _ _) _ _ = Some _ |- _ =>
    erewrite (fold_import_out_of_range _ _ items key m k _ Hin Hkey Hk) in E; [discriminate|] end.
  subst; exact Hn.
Qed.

(** The session after importing the workbook into a database that lacks
    criterion D. *)
Definition import_missing : response * session * db :=
  run_requests String.eqb import_requests empty_session (import_db ["A"; "B"; "C"]).

Definition missing_items : list (string * list (list pyfloat)) :=
  match imported_alternative_matrices (next_session import_missing) with Some it => it | None => [] end.

Definition missing_tuples : list (Z * string) :=
  match current_criteria_tuples (next_session import_missing) with Some ct => ct | None => [] end.

(** Witness of [C22]: the import succeeds, keeps three criteria and the
    block of D under the key ["3"]. *)
Lemma import_out_of_range_never_ranks_witness :
  (exists ct al fd, resp import_missing = RenderImported ct al fd)
  /\ forall f d sc rk aid,
       resp (calculate_final_route String.eqb f (set_criteria_results (next_session import_missing)
               (CritEngine (calculate_ahp (ok_or [] (build_criteria_matrix [] 3))))) d)
       <> RenderFinal (Ranked sc rk) aid.
Proof.
  split; [vm_compute; eauto|].
  intros f d. apply (import_out_of_range_never_ranks String.eqb f _ d missing_tuples missing_items "3"
    (nth 3 (map snd missing_items) []) 3).
  - vm_compute. reflexivity.
  - vm_compute. reflexivity.
  - vm_compute. reflexivity.
  - vm_compute. right; right; right; left. reflexivity.
  - reflexivity.
  - lia.
  - vm_compute. lia.
Defined.

(** The state after [home] and [import_excel]. *)
Definition after_import : response * session * db :=
  run_requests String.eqb import_requests empty_session (import_db ["A"; "B"; "C"; "D"]).

(** Witness of [C21]: the session after the import keeps both kinds of
    matrix. *)
Lemma reachable_session_matrices_witness :
  imported_criteria_matrix (next_session after_import) <> None
  /\ imported_alternative_matrices (next_session after_import) <> None
  /\ (forall m, imported_criteria_matrix (next_session after_import) = Some m ->
        exists n, engine_ready n m)
  /\ (forall ms, imported_alternative_matrices (next_session after_import) = Some ms ->
        exists n, Forall (fun km => engine_ready n (snd km)) ms).
Proof.
  split; [vm_compute; congruence|]. split; [vm_compute; congruence|].
  apply (reachable_session_matrices String.eqb (next_session after_import) (next_db after_import)).
  apply run_requests_reachable, reach_init, import_db_reachable.
Defined.

(** ** A saved analysis *)

(** A Flask session whose row is 1, and its analysis 1. *)
Definition report_session : session := set_flask_session_id empty_session "5f0c".

Definition report_db : db :=
  snd (save_ahp_analysis (Some 1) example_analysis
         (snd (get_or_create_session_db_id String.eqb (Some "5f0c") empty_db))).

(** The date, the [uuid4] prefix, drawings and images that all succeed,
    and a document that builds. *)
Definition example_env : pdf_env :=
  PdfEnv "Ngày tạo báo cáo: 01/01/2026 00:00" "1a2b3c4d" true true (fun _ => ImageOk) true.

(** Witness of [C25]: the session opens its analysis 1. *)
Lemma saved_analysis_access_witness :
  (exists v b p, resp (view_result_route String.eqb 1 report_session report_db) = RenderResult v b p)
  /\ (forall v b p s' d', view_result_route String.eqb 1 report_session report_db = (RenderResult v b p, s', d') ->
        owned_view String.eqb report_session report_db 1 v)
  /\ (forall sh s' d', download_excel_report String.eqb 1 "01/01/2026 00:00" report_session report_db
                       = (SendExcel sh, s', d') ->
        exists v, owned_view String.eqb report_session report_db 1 v
                  /\ create_excel_report "01/01/2026 00:00" (av_data v) = Ok sh)
  /\ (forall st s' d', download_pdf_report String.eqb 1 example_env report_session report_db
                       = (SendPdf st, s', d') ->
        exists v, owned_view String.eqb report_session report_db 1 v
                  /\ create_pdf_report 1 example_env (av_data v) = PdfSent st).
Proof. split; [vm_compute; eauto|]. apply saved_analysis_access. Defined.

Definition report_history : list (Z * Z * option string * Z) :=
  match resp (history_list_route String.eqb report_session report_db) with
  | RenderHistory rows => rows
  | _ => []
  end.

Lemma report_db_wf : wf String.eqb report_db.
Proof.
  apply reachable_wf. unfold report_db.
  apply (db_step _ (SaveAnalysis _ _)), (db_step _ (GetOrCreateSession _)), (db_init _ true).
Qed.

(** Witness of [C26]: the history of the session lists its analysis. *)
Lemma history_lists_own_analyses_witness :
  report_history <> []
  /\ report_session = report_session
  /\ snd (history_list_route String.eqb report_session report_db)
     = snd (session_db_id String.eqb report_session report_db)
  /\ match fst (session_db_id String.eqb report_session report_db) with
     | Some k => Permutation report_history
                   (map history_row (filter (fun r => Z.eqb (an_session r) k)
                      (analyses (snd (history_list_route String.eqb report_session report_db)))))
                 /\ StronglySorted (fun x y => snd y <= snd x) report_history
     | None => report_history = [] /\ db_up report_db = false
     end.
Proof.
  split; [vm_compute; discriminate|].
  apply (history_lists_own_analyses String.eqb report_session report_db report_history report_session
           (snd (history_list_route String.eqb report_session report_db))); [exact report_db_wf|].
  vm_compute. reflexivity.
Defined.

(** The date, the [uuid4] prefix and the outcome of reportlab. *)
Definition report_today : string := "01/01/2026 00:00".

(** Witness of [C27]: the analysis the session of [workflow_requests]
    saves downloads as Excel and as PDF. *)
Lemma saved_analysis_reports_build_witness :
  (exists sheets, resp (download_excel_report String.eqb (ranked_id (resp final_step)) report_today
                          (next_session final_step) (next_db final_step)) = SendExcel sheets)
  /\ exists story, resp (download_pdf_report String.eqb (ranked_id (resp final_step)) example_env
                          (next_session final_step) (next_db final_step))
                   = if pe_build example_env then SendPdf story else RedirectResult (ranked_id (resp final_step)).
Proof.
  apply (saved_analysis_reports_build String.eqb alternatives_form (next_session before_final)
           (next_db before_final) (ranked_scores (resp final_step)) (ranked_list (resp final_step)));
    [exact String.eqb_refl|exact before_final_wf| |reflexivity|split; [reflexivity|discriminate]
    |exact final_step_ranked].
  intros ct al Hc Ha. vm_compute in Hc, Ha. injection Hc as <-. injection Ha as <-. repeat constructor.
Defined.

(** An analysis of session 1 that kept one weight for two criteria, with
    its local scores. *)
Definition short_weights_analysis : analysis_data :=
  AnalysisData ["Gia"; "Vi tri"] [1 # 1]%Q ["A"; "B"] [3 # 5; 2 # 5]%Q
    [("A", 3 # 5); ("B", 2 # 5)]%Q (Some (Fin 0)) true []
    [[1 # 2; 1 # 2]; [1 # 2; 1 # 2]]%Q.

Definition short_weights_db : db :=
  snd (save_ahp_analysis (Some 1) short_weights_analysis
         (snd (get_or_create_session_db_id String.eqb (Some "5f0c") empty_db))).

Definition short_weights_view : analysis_view :=
  AnalysisView 1 1 None None 0 (Some (Fin 0)) (read_back short_weights_analysis).

(** Witness of [C29]: the Excel route redirects, the PDF route fails. *)
Lemma pdf_report_uncaught_index_error_witness :
  truthy_id (fst (session_db_id String.eqb report_session short_weights_db)) = true
  /\ get_ahp_analysis_by_id (Some 1) (fst (session_db_id String.eqb report_session short_weights_db))
       (snd (session_db_id String.eqb report_session short_weights_db)) = Some short_weights_view
  /\ resp (download_excel_report String.eqb 1 report_today report_session short_weights_db) = RedirectResult 1
  /\ resp (download_pdf_report String.eqb 1 example_env report_session short_weights_db) = InternalServerError.
Proof.
  split; [vm_compute; reflexivity|]. split; [vm_compute; reflexivity|].
  apply (pdf_report_uncaught_index_error String.eqb 1 report_today example_env report_session
           short_weights_db short_weights_view);
    [vm_compute; reflexivity|vm_compute; reflexivity|constructor|cbn; lia
    |repeat constructor|discriminate|cbn; lia].
Defined.




